(** * pagestore_smgr.c: the Neon storage-manager adaptor

    A shallow embedding of [pgxn/neon/pagestore_smgr.c]: the request/response
    codec, the prefetch ring with its tag index, the eviction WAL-logger,
    [neon_extend], the redo read-buffer filter, the unlogged build with its
    transaction hook and the other operations of the adaptor surface,
    followed by the properties established about them.

    Conventions of the embedding.
    - C unsigned integers are [Z] with their wrap-around written out
      ([uint64], [uint32], [uint8]); the [int] statistics counters are [Z].
    - [Assert] and [AssertMacro] expand to nothing in a build without
      [USE_ASSERT_CHECKING]; the functions below are those of such a build.
      The asserted conditions reappear as hypotheses of the lemmas where they
      matter.
    - [readahead_buffer_size] is the number of slots allocated in
      [prf_buffer]: [neon_init] and [readahead_buffer_resize] allocate exactly
      that many, and the assign hook runs right before the setting changes.
    - The intrusive [prfh] hash table is a finite map from [BufferTag] to the
      position of the slot in [prf_buffer]; the note at the tag index says
      how far the two agree.
    - Loops that are bounded in the source run on a counter computed from
      their bound; the busy loops on the transport take an explicit [fuel]
      and end in [OutOfFuel] when it is exhausted. *)

From Stdlib Require Import ZArith List Bool Lia.
From stdpp Require Import base numbers option list gmap.

Open Scope Z_scope.

(** ** Machine integers *)

Definition uint64 (x : Z) : Z := x mod 2 ^ 64.
Definition uint32 (x : Z) : Z := x mod 2 ^ 32.
Definition uint8 (x : Z) : Z := x mod 2 ^ 8.

Definition UINT64_MAX : Z := 2 ^ 64 - 1.
Definition InvalidXLogRecPtr : Z := 0.
Definition InvalidOid : Z := 0.

Definition OidIsValid (oid : Z) : bool := negb (oid =? InvalidOid).

(** ** Relation and block identity *)

Record RelFileNode := mkRelFileNode { spcNode : Z; dbNode : Z; relNode : Z }.

Record BufferTag := mkBufferTag { rnode : RelFileNode; forkNum : Z; blockNum : Z }.

#[global] Instance RelFileNode_eq_dec : EqDecision RelFileNode.
Proof. solve_decision. Defined.

#[global] Instance RelFileNode_countable : Countable RelFileNode.
Proof.
  refine (inj_countable' (fun r => (spcNode r, dbNode r, relNode r))
            (fun t => match t with (a, b, c) => mkRelFileNode a b c end) _).
  by intros [].
Defined.

#[global] Instance BufferTag_eq_dec : EqDecision BufferTag.
Proof. solve_decision. Defined.

#[global] Instance BufferTag_countable : Countable BufferTag.
Proof.
  refine (inj_countable' (fun t => (rnode t, forkNum t, blockNum t))
            (fun t => match t with (a, b, c) => mkBufferTag a b c end) _).
  by intros [].
Defined.

(** [(BufferTag) {0}] *)
Definition zero_tag : BufferTag := mkBufferTag (mkRelFileNode 0 0 0) 0 0.

Definition MAIN_FORKNUM : Z := 0.
Definition FSM_FORKNUM : Z := 1.
Definition VISIBILITYMAP_FORKNUM : Z := 2.

Definition RELPERSISTENCE_PERMANENT : Z := 112.
Definition RELPERSISTENCE_TEMP : Z := 116.
Definition RELPERSISTENCE_UNLOGGED : Z := 117.

Record SMgrRelation := mkSMgrRelation {
  smgr_rnode : RelFileNode;
  smgr_relpersistence : Z
}.

(** ** Ways a call can end *)

Inductive ErrLevel := ERROR | PANIC.

Inductive ErrSite :=
| unexpected_message_tag
| no_data_left_in_message
| insufficient_data_left_in_message
| invalid_string_in_message
| invalid_message_format
| evicted_with_zero_lsn
| unknown_persistence_extend
| unknown_persistence_nblocks
| unknown_relpersistence
| cluster_size_limit_exceeded
| could_not_read_relation_size
| could_not_read_block
| unexpected_response
| failed_to_locate_backup_block
| unlogged_build_not_finished.

Inductive Exit (A : Type) :=
| Return (a : A)
| Raise (elevel : ErrLevel) (site : ErrSite)
| OutOfFuel.

Arguments Return {A} a.
Arguments Raise {A} elevel site.
Arguments OutOfFuel {A}.

(** ** Unlogged relation build states and the transaction hook *)

Inductive UnloggedBuildPhase :=
| UNLOGGED_BUILD_NOT_IN_PROGRESS
| UNLOGGED_BUILD_PHASE_1
| UNLOGGED_BUILD_PHASE_2
| UNLOGGED_BUILD_NOT_PERMANENT.

Inductive XactEvent :=
| XACT_EVENT_COMMIT
| XACT_EVENT_PARALLEL_COMMIT
| XACT_EVENT_ABORT
| XACT_EVENT_PARALLEL_ABORT
| XACT_EVENT_PREPARE
| XACT_EVENT_PRE_COMMIT
| XACT_EVENT_PARALLEL_PRE_COMMIT
| XACT_EVENT_PRE_PREPARE.

(** The two file-level statics [unlogged_build_rel] and
    [unlogged_build_phase]. *)
Record UnloggedBuild := mkUnloggedBuild {
  unlogged_build_rel : option SMgrRelation;
  unlogged_build_phase : UnloggedBuildPhase
}.

Definition phase_in_progress (ph : UnloggedBuildPhase) : bool :=
  match ph with
  | UNLOGGED_BUILD_NOT_IN_PROGRESS => false
  | _ => true
  end.

(** [AtEOXact_neon]: the statics as they are when control leaves the hook,
    and whether it left by [ereport(ERROR)]. *)
Definition AtEOXact_neon (event : XactEvent) (g : UnloggedBuild)
  : Exit unit * UnloggedBuild :=
  match event with
  | XACT_EVENT_ABORT
  | XACT_EVENT_PARALLEL_ABORT =>
      (Return tt, mkUnloggedBuild None UNLOGGED_BUILD_NOT_IN_PROGRESS)
  | XACT_EVENT_COMMIT
  | XACT_EVENT_PARALLEL_COMMIT
  | XACT_EVENT_PREPARE
  | XACT_EVENT_PRE_COMMIT
  | XACT_EVENT_PARALLEL_PRE_COMMIT
  | XACT_EVENT_PRE_PREPARE =>
      if phase_in_progress (unlogged_build_phase g)
      then (Raise ERROR unlogged_build_not_finished,
            mkUnloggedBuild None UNLOGGED_BUILD_NOT_IN_PROGRESS)
      else (Return tt, g)
  end.

Definition is_abort_event (event : XactEvent) : bool :=
  match event with
  | XACT_EVENT_ABORT | XACT_EVENT_PARALLEL_ABORT => true
  | _ => false
  end.

(** ** Messages exchanged with the page server *)

Inductive NeonMessageTag :=
| T_NeonExistsRequest
| T_NeonNblocksRequest
| T_NeonGetPageRequest
| T_NeonDbSizeRequest
| T_NeonExistsResponse
| T_NeonNblocksResponse
| T_NeonGetPageResponse
| T_NeonErrorResponse
| T_NeonDbSizeResponse.

#[global] Instance NeonMessageTag_eq_dec : EqDecision NeonMessageTag.
Proof. solve_decision. Defined.

Definition all_message_tags : list NeonMessageTag :=
  [T_NeonExistsRequest; T_NeonNblocksRequest; T_NeonGetPageRequest;
   T_NeonDbSizeRequest; T_NeonExistsResponse; T_NeonNblocksResponse;
   T_NeonGetPageResponse; T_NeonErrorResponse; T_NeonDbSizeResponse].

(** A request: the common header [req.latest], [req.lsn] and the fields of
    its kind. *)
Inductive NeonRequest :=
| NeonExistsRequest (latest : bool) (lsn : Z) (rn : RelFileNode) (forknum : Z)
| NeonNblocksRequest (latest : bool) (lsn : Z) (rn : RelFileNode) (forknum : Z)
| NeonDbSizeRequest (latest : bool) (lsn : Z) (db : Z)
| NeonGetPageRequest (latest : bool) (lsn : Z) (rn : RelFileNode)
    (forknum : Z) (blkno : Z).

Inductive NeonResponse :=
| NeonExistsResponse (exists_ : bool)
| NeonNblocksResponse (n_blocks : Z)
| NeonGetPageResponse (page : list Z)
| NeonDbSizeResponse (db_size : Z)
| NeonErrorResponse (message : list Z).

Inductive NeonMessage :=
| MsgRequest (r : NeonRequest)
| MsgResponse (r : NeonResponse).

Definition request_tag (r : NeonRequest) : NeonMessageTag :=
  match r with
  | NeonExistsRequest _ _ _ _ => T_NeonExistsRequest
  | NeonNblocksRequest _ _ _ _ => T_NeonNblocksRequest
  | NeonDbSizeRequest _ _ _ => T_NeonDbSizeRequest
  | NeonGetPageRequest _ _ _ _ _ => T_NeonGetPageRequest
  end.

Definition response_tag (r : NeonResponse) : NeonMessageTag :=
  match r with
  | NeonExistsResponse _ => T_NeonExistsResponse
  | NeonNblocksResponse _ => T_NeonNblocksResponse
  | NeonGetPageResponse _ => T_NeonGetPageResponse
  | NeonDbSizeResponse _ => T_NeonDbSizeResponse
  | NeonErrorResponse _ => T_NeonErrorResponse
  end.

Definition messageTag (m : NeonMessage) : NeonMessageTag :=
  match m with
  | MsgRequest r => request_tag r
  | MsgResponse r => response_tag r
  end.

Definition is_request_tag (t : NeonMessageTag) : bool :=
  match t with
  | T_NeonExistsRequest | T_NeonNblocksRequest
  | T_NeonGetPageRequest | T_NeonDbSizeRequest => true
  | _ => false
  end.

(** Fields of a request within the ranges of their C types. *)
Definition rnode_in_range (rn : RelFileNode) : Prop :=
  0 <= spcNode rn < 2 ^ 32 /\ 0 <= dbNode rn < 2 ^ 32 /\
  0 <= relNode rn < 2 ^ 32.

Definition request_in_range (r : NeonRequest) : Prop :=
  match r with
  | NeonExistsRequest _ lsn rn f
  | NeonNblocksRequest _ lsn rn f =>
      0 <= lsn < 2 ^ 64 /\ rnode_in_range rn /\ 0 <= f < 2 ^ 8
  | NeonDbSizeRequest _ lsn db => 0 <= lsn < 2 ^ 64 /\ 0 <= db < 2 ^ 32
  | NeonGetPageRequest _ lsn rn f blk =>
      0 <= lsn < 2 ^ 64 /\ rnode_in_range rn /\ 0 <= f < 2 ^ 8 /\
      0 <= blk < 2 ^ 32
  end.

(** ** Wire format (pqformat)

    Modelled from the spec: the [pq_send*] and [pq_getmsg*] routines of the
    host's message library are not part of this file; section 6.1 fixes what
    they do here: one byte per [u8], network byte order for the fixed-width
    integers, a NUL-terminated string, and an error for a read past the end
    or for bytes left over at [pq_getmsgend]. A byte is a [Z] below 256. *)

Definition pq_sendbyte (s : list Z) (b : Z) : list Z := s ++ [uint8 b].

Definition pq_sendint32 (s : list Z) (x : Z) : list Z :=
  s ++ [uint8 (x / 2 ^ 24); uint8 (x / 2 ^ 16); uint8 (x / 2 ^ 8); uint8 x].

Definition pq_sendint64 (s : list Z) (x : Z) : list Z :=
  pq_sendint32 (pq_sendint32 s (x / 2 ^ 32)) x.

Definition bool_byte (b : bool) : Z := if b then 1 else 0.

Definition pq_getmsgbyte (s : list Z) : Exit Z * list Z :=
  match s with
  | [] => (Raise ERROR no_data_left_in_message, s)
  | b :: rest => (Return b, rest)
  end.

Definition pq_getmsgbytes (s : list Z) (datalen : nat)
  : Exit (list Z) * list Z :=
  if (length s <? datalen)%nat
  then (Raise ERROR insufficient_data_left_in_message, s)
  else (Return (take datalen s), drop datalen s).

Definition be_value (bytes : list Z) : Z :=
  fold_left (fun acc b => acc * 256 + b) bytes 0.

(** [pq_getmsgint(s, 4)]: an unsigned 32-bit value. *)
Definition pq_getmsgint4 (s : list Z) : Exit Z * list Z :=
  match pq_getmsgbytes s 4 with
  | (Return bs, rest) => (Return (be_value bs), rest)
  | (Raise l e, rest) => (Raise l e, rest)
  | (OutOfFuel, rest) => (OutOfFuel, rest)
  end.

(** [pq_getmsgint64]: the eight bytes read back as a signed [int64]. *)
Definition pq_getmsgint64 (s : list Z) : Exit Z * list Z :=
  match pq_getmsgbytes s 8 with
  | (Return bs, rest) =>
      let u := be_value bs in
      (Return (if u <? 2 ^ 63 then u else u - 2 ^ 64), rest)
  | (Raise l e, rest) => (Raise l e, rest)
  | (OutOfFuel, rest) => (OutOfFuel, rest)
  end.

Fixpoint split_at_nul (s : list Z) : option (list Z * list Z) :=
  match s with
  | [] => None
  | b :: rest =>
      if b =? 0 then Some ([], rest)
      else match split_at_nul rest with
           | Some (str, rest') => Some (b :: str, rest')
           | None => None
           end
  end.

Definition pq_getmsgrawstring (s : list Z) : Exit (list Z) * list Z :=
  match split_at_nul s with
  | Some (str, rest) => (Return str, rest)
  | None => (Raise ERROR invalid_string_in_message, s)
  end.

Definition pq_getmsgend (s : list Z) : Exit unit :=
  match s with
  | [] => Return tt
  | _ :: _ => Raise ERROR invalid_message_format
  end.

(** Sequencing of steps that thread a state and may raise. *)
Definition bindS {S A B : Type} (m : Exit A * S) (k : A -> S -> Exit B * S)
  : Exit B * S :=
  match m with
  | (Return a, s) => k a s
  | (Raise l e, s) => (Raise l e, s)
  | (OutOfFuel, s) => (OutOfFuel, s)
  end.

Notation "'let*' ( x , s ) := m 'in' k" := (bindS m (fun x s => k))
  (at level 10, x name, s name, m at level 100, k at level 200).

(** ** The environment of a backend

    What the file takes from its host: enum values and constants of headers,
    configuration settings, process flags, the page layout macros, the
    transport behind [page_server], and the read side of the last-written-LSN
    and WAL services. A transport call is answered by position: the [n]-th
    call made by the backend gets the [n]-th answer. *)

Record XLogReaderState := mkXLogReaderState {
  EndRecPtr : Z;
  XLogRecGetBlockTag : Z -> option BufferTag
}.

Record Env := mkEnv {
  tag_value : NeonMessageTag -> Z;
  BLCKSZ : nat;
  flush_every_n_requests : Z;
  max_cluster_size : Z;
  ps_send : nat -> bool;
  ps_flush : nat -> bool;
  ps_receive : nat -> option NeonResponse;
  RecoveryInProgress : bool;
  am_walsender : bool;
  am_startup_process : bool;
  ShutdownRequestPending : bool;
  XLogInsertAllowed : bool;
  IsAutoVacuumWorkerProcess : bool;
  GetZenithCurrentClusterSize : Z;
  GetLastWrittenLSN : RelFileNode -> Z -> Z -> Z;
  GetFlushRecPtr : Z;
  XLOG_BLCKSZ : Z;
  wal_segment_size : Z;
  SizeOfXLogShortPHD : Z;
  SizeOfXLogLongPHD : Z;
  REL_METADATA_PSEUDO_BLOCKNO : Z;
  log_newpage_size : Z;
  PageGetLSN : list Z -> Z;
  PageIsNew : list Z -> bool;
  PageInit : list Z;
  BufTableLookup : BufferTag -> Z;
  lfc_cache_contains : RelFileNode -> Z -> Z -> bool;
  mdnblocks : RelFileNode -> Z -> Z;
  mdprefetch : RelFileNode -> Z -> Z -> bool;
  n_blocks_of_cast : NeonResponse -> Z;
  old_redo_read_buffer_filter : option (XLogReaderState -> Z -> bool)
}.

(** The values of [NeonMessageTag] are pairwise distinct bytes (they label
    the cases of one [switch] and travel in one byte). *)
Definition tag_values_ok (env : Env) : Prop :=
  (forall t, 0 <= tag_value env t < 2 ^ 8) /\
  (forall t1 t2, tag_value env t1 = tag_value env t2 -> t1 = t2).

(** ** Codec *)

Definition pack_rnode (s : list Z) (rn : RelFileNode) : list Z :=
  pq_sendint32 (pq_sendint32 (pq_sendint32 s (spcNode rn)) (dbNode rn))
    (relNode rn).

Definition nm_pack_request (env : Env) (msg : NeonMessage) : Exit (list Z) :=
  let s := pq_sendbyte [] (tag_value env (messageTag msg)) in
  match msg with
  | MsgRequest (NeonExistsRequest latest lsn rn forknum)
  | MsgRequest (NeonNblocksRequest latest lsn rn forknum) =>
      let s := pq_sendbyte s (bool_byte latest) in
      let s := pq_sendint64 s lsn in
      let s := pack_rnode s rn in
      Return (pq_sendbyte s forknum)
  | MsgRequest (NeonDbSizeRequest latest lsn db) =>
      let s := pq_sendbyte s (bool_byte latest) in
      let s := pq_sendint64 s lsn in
      Return (pq_sendint32 s db)
  | MsgRequest (NeonGetPageRequest latest lsn rn forknum blkno) =>
      let s := pq_sendbyte s (bool_byte latest) in
      let s := pq_sendint64 s lsn in
      let s := pack_rnode s rn in
      let s := pq_sendbyte s forknum in
      Return (pq_sendint32 s blkno)
  | MsgResponse _ => Raise ERROR unexpected_message_tag
  end.

(** The [switch (tag)] of the decoder: the case whose label equals the byte
    read, if any. *)
Definition tag_of_byte (env : Env) (b : Z) : option NeonMessageTag :=
  List.find (fun t => tag_value env t =? b) all_message_tags.

(** [pq_getmsgend] after the body of a response has been read. *)
Definition finish_response (resp : NeonResponse) (s : list Z)
  : Exit NeonResponse * list Z :=
  match pq_getmsgend s with
  | Return _ => (Return resp, s)
  | Raise l e => (Raise l e, s)
  | OutOfFuel => (OutOfFuel, s)
  end.

(** [nm_unpack_response]: the response, or the error raised, together with
    the part of the buffer that was not read. *)
Definition nm_unpack_response (env : Env) (s : list Z)
  : Exit NeonResponse * list Z :=
  let* (b, s) := pq_getmsgbyte s in
  match tag_of_byte env b with
  | Some T_NeonExistsResponse =>
      let* (e, s) := pq_getmsgbyte s in
      finish_response (NeonExistsResponse (negb (e =? 0))) s
  | Some T_NeonNblocksResponse =>
      let* (n, s) := pq_getmsgint4 s in
      finish_response (NeonNblocksResponse n) s
  | Some T_NeonGetPageResponse =>
      let* (pg, s) := pq_getmsgbytes s (BLCKSZ env) in
      finish_response (NeonGetPageResponse pg) s
  | Some T_NeonDbSizeResponse =>
      let* (sz, s) := pq_getmsgint64 s in
      finish_response (NeonDbSizeResponse sz) s
  | Some T_NeonErrorResponse =>
      let* (msgtext, s) := pq_getmsgrawstring s in
      finish_response (NeonErrorResponse msgtext) s
  | Some T_NeonExistsRequest
  | Some T_NeonNblocksRequest
  | Some T_NeonGetPageRequest
  | Some T_NeonDbSizeRequest
  | None => (Raise ERROR unexpected_message_tag, s)
  end.

(** *** The wire layout of section 6.1

    Modelled from the spec: the file packs requests and unpacks responses;
    the decoder of requests and the encoder of responses belong to the page
    server. They are written here from the table of section 6.1 (a tag
    byte, then the body of the kind, integers in network order, bytes left
    over being a protocol error), as what [nm_pack_request] and
    [nm_unpack_response] have to agree with. *)

(** An unsigned 64-bit value in network order. *)
Definition wire_getmsgint64 (s : list Z) : Exit Z * list Z :=
  match pq_getmsgbytes s 8 with
  | (Return bs, rest) => (Return (be_value bs), rest)
  | (Raise l e, rest) => (Raise l e, rest)
  | (OutOfFuel, rest) => (OutOfFuel, rest)
  end.

(** [u32 spc, u32 db, u32 rel] *)
Definition wire_getmsgrnode (s : list Z) : Exit RelFileNode * list Z :=
  let* (spc, s) := pq_getmsgint4 s in
  let* (db, s) := pq_getmsgint4 s in
  let* (rel, s) := pq_getmsgint4 s in
  (Return (mkRelFileNode spc db rel), s).

Definition finish_request (req : NeonRequest) (s : list Z)
  : Exit NeonRequest * list Z :=
  match pq_getmsgend s with
  | Return _ => (Return req, s)
  | Raise l e => (Raise l e, s)
  | OutOfFuel => (OutOfFuel, s)
  end.

(** The decoder of the four request layouts: the request, or the error
    raised, together with the part of the buffer that was not read. *)
Definition wire_unpack_request (env : Env) (s : list Z)
  : Exit NeonRequest * list Z :=
  let* (b, s) := pq_getmsgbyte s in
  match tag_of_byte env b with
  | Some T_NeonExistsRequest =>
      let* (latest, s) := pq_getmsgbyte s in
      let* (lsn, s) := wire_getmsgint64 s in
      let* (rn, s) := wire_getmsgrnode s in
      let* (fork, s) := pq_getmsgbyte s in
      finish_request (NeonExistsRequest (negb (latest =? 0)) lsn rn fork) s
  | Some T_NeonNblocksRequest =>
      let* (latest, s) := pq_getmsgbyte s in
      let* (lsn, s) := wire_getmsgint64 s in
      let* (rn, s) := wire_getmsgrnode s in
      let* (fork, s) := pq_getmsgbyte s in
      finish_request (NeonNblocksRequest (negb (latest =? 0)) lsn rn fork) s
  | Some T_NeonDbSizeRequest =>
      let* (latest, s) := pq_getmsgbyte s in
      let* (lsn, s) := wire_getmsgint64 s in
      let* (db, s) := pq_getmsgint4 s in
      finish_request (NeonDbSizeRequest (negb (latest =? 0)) lsn db) s
  | Some T_NeonGetPageRequest =>
      let* (latest, s) := pq_getmsgbyte s in
      let* (lsn, s) := wire_getmsgint64 s in
      let* (rn, s) := wire_getmsgrnode s in
      let* (fork, s) := pq_getmsgbyte s in
      let* (blk, s) := pq_getmsgint4 s in
      finish_request
        (NeonGetPageRequest (negb (latest =? 0)) lsn rn fork blk) s
  | _ => (Raise ERROR unexpected_message_tag, s)
  end.

(** The five response layouts. *)
Definition wire_pack_response (env : Env) (resp : NeonResponse) : list Z :=
  let s := pq_sendbyte [] (tag_value env (response_tag resp)) in
  match resp with
  | NeonExistsResponse exists_ => pq_sendbyte s (bool_byte exists_)
  | NeonNblocksResponse n_blocks => pq_sendint32 s n_blocks
  | NeonGetPageResponse page => s ++ page
  | NeonDbSizeResponse db_size => pq_sendint64 s db_size
  | NeonErrorResponse message => s ++ message ++ [0]
  end.

(** Fields of a response within the ranges of the layout: a page of
    [BLCKSZ] bytes, a message without a NUL. *)
Definition response_in_range (env : Env) (resp : NeonResponse) : Prop :=
  match resp with
  | NeonExistsResponse _ => True
  | NeonNblocksResponse n_blocks => 0 <= n_blocks < 2 ^ 32
  | NeonGetPageResponse page => length page = BLCKSZ env
  | NeonDbSizeResponse db_size => - 2 ^ 63 <= db_size < 2 ^ 63
  | NeonErrorResponse message => Forall (fun b => b <> 0) message
  end.

(** ** The prefetch ring: slots and state *)

Inductive PrefetchStatus :=
| PRFS_UNUSED
| PRFS_REQUESTED
| PRFS_RECEIVED
| PRFS_TAG_REMAINS.

#[global] Instance PrefetchStatus_eq_dec : EqDecision PrefetchStatus.
Proof. solve_decision. Defined.

Record PrefetchRequest := mkPrefetchRequest {
  buftag : BufferTag;
  effective_request_lsn : Z;
  response : option NeonResponse;
  status : PrefetchStatus;
  my_ring_index : Z
}.

(** A slot after [MemSet(slot, 0, sizeof(PrefetchRequest))]. *)
Definition zero_slot : PrefetchRequest :=
  mkPrefetchRequest zero_tag 0 None PRFS_UNUSED 0.

#[global] Instance PrefetchRequest_inhabited : Inhabited PrefetchRequest :=
  populate zero_slot.

Definition set_buftag (v : BufferTag) (r : PrefetchRequest) :=
  mkPrefetchRequest v (effective_request_lsn r) (response r) (status r)
    (my_ring_index r).
Definition set_effective_request_lsn (v : Z) (r : PrefetchRequest) :=
  mkPrefetchRequest (buftag r) v (response r) (status r) (my_ring_index r).
Definition set_response (v : option NeonResponse) (r : PrefetchRequest) :=
  mkPrefetchRequest (buftag r) (effective_request_lsn r) v (status r)
    (my_ring_index r).
Definition set_status (v : PrefetchStatus) (r : PrefetchRequest) :=
  mkPrefetchRequest (buftag r) (effective_request_lsn r) (response r) v
    (my_ring_index r).
Definition set_my_ring_index (v : Z) (r : PrefetchRequest) :=
  mkPrefetchRequest (buftag r) (effective_request_lsn r) (response r)
    (status r) v.

(** [struct PrefetchState] without its memory contexts. *)
Record PrefetchState := mkPrefetchState {
  ring_unused : Z;
  ring_flush : Z;
  ring_receive : Z;
  ring_last : Z;
  n_responses_buffered : Z;
  n_requests_inflight : Z;
  n_unused : Z;
  prf_hash : gmap BufferTag nat;
  prf_buffer : list PrefetchRequest
}.

Definition set_ring_unused (v : Z) (p : PrefetchState) :=
  mkPrefetchState v (ring_flush p) (ring_receive p) (ring_last p)
    (n_responses_buffered p) (n_requests_inflight p) (n_unused p)
    (prf_hash p) (prf_buffer p).
Definition set_ring_flush (v : Z) (p : PrefetchState) :=
  mkPrefetchState (ring_unused p) v (ring_receive p) (ring_last p)
    (n_responses_buffered p) (n_requests_inflight p) (n_unused p)
    (prf_hash p) (prf_buffer p).
Definition set_ring_receive (v : Z) (p : PrefetchState) :=
  mkPrefetchState (ring_unused p) (ring_flush p) v (ring_last p)
    (n_responses_buffered p) (n_requests_inflight p) (n_unused p)
    (prf_hash p) (prf_buffer p).
Definition set_ring_last (v : Z) (p : PrefetchState) :=
  mkPrefetchState (ring_unused p) (ring_flush p) (ring_receive p) v
    (n_responses_buffered p) (n_requests_inflight p) (n_unused p)
    (prf_hash p) (prf_buffer p).
Definition set_n_responses_buffered (v : Z) (p : PrefetchState) :=
  mkPrefetchState (ring_unused p) (ring_flush p) (ring_receive p)
    (ring_last p) v (n_requests_inflight p) (n_unused p)
    (prf_hash p) (prf_buffer p).
Definition set_n_requests_inflight (v : Z) (p : PrefetchState) :=
  mkPrefetchState (ring_unused p) (ring_flush p) (ring_receive p)
    (ring_last p) (n_responses_buffered p) v (n_unused p)
    (prf_hash p) (prf_buffer p).
Definition set_n_unused (v : Z) (p : PrefetchState) :=
  mkPrefetchState (ring_unused p) (ring_flush p) (ring_receive p)
    (ring_last p) (n_responses_buffered p) (n_requests_inflight p) v
    (prf_hash p) (prf_buffer p).
Definition set_prf_hash (v : gmap BufferTag nat) (p : PrefetchState) :=
  mkPrefetchState (ring_unused p) (ring_flush p) (ring_receive p)
    (ring_last p) (n_responses_buffered p) (n_requests_inflight p)
    (n_unused p) v (prf_buffer p).
Definition set_prf_buffer (v : list PrefetchRequest) (p : PrefetchState) :=
  mkPrefetchState (ring_unused p) (ring_flush p) (ring_receive p)
    (ring_last p) (n_responses_buffered p) (n_requests_inflight p)
    (n_unused p) (prf_hash p) v.

(** [ring_index % readahead_buffer_size] in a buffer of that many slots,
    and the read and the write of the slot found there. *)
Definition ring_slot (buf : list PrefetchRequest) (ring_index : Z) : nat :=
  Z.to_nat (ring_index mod Z.of_nat (length buf)).

Definition buf_get (buf : list PrefetchRequest) (ring_index : Z)
  : PrefetchRequest := buf !!! ring_slot buf ring_index.

Definition buf_set (buf : list PrefetchRequest) (ring_index : Z)
  (slot : PrefetchRequest) : list PrefetchRequest :=
  <[ring_slot buf ring_index := slot]> buf.

Definition readahead_buffer_size (p : PrefetchState) : Z :=
  Z.of_nat (length (prf_buffer p)).

(** Position in [prf_buffer] of the slot of a ring index. *)
Definition slot_pos (p : PrefetchState) (ring_index : Z) : nat :=
  ring_slot (prf_buffer p) ring_index.

Definition GetPrfSlot (p : PrefetchState) (ring_index : Z) : PrefetchRequest :=
  buf_get (prf_buffer p) ring_index.

(** A write through the pointer [GetPrfSlot(ring_index)]. *)
Definition SetPrfSlot (p : PrefetchState) (ring_index : Z)
  (slot : PrefetchRequest) : PrefetchState :=
  set_prf_buffer (buf_set (prf_buffer p) ring_index slot) p.

Definition ReceiveBufferNeedsCompaction (p : PrefetchState) : bool :=
  uint64 (Z.quot (n_responses_buffered p) 8)
  <? uint64 (ring_receive p - ring_last p - n_responses_buffered p).

(** *** The tag index

    [prf_hash] is a hash table of pointers to slots whose key is the tag
    read through the pointer. It is kept here as a finite map from tags to
    buffer positions. The two agree as long as every entry points to a slot
    that holds the entry's tag, which [pipeline_wf] below demands; once a
    slot that is still in the index has been overwritten with another tag
    they part (the table of the source then finds the slot under its new
    tag only), so the statements about lookups further down are made on
    states that satisfy [pipeline_wf]. *)

Definition prfh_lookup (h : gmap BufferTag nat) (tag : BufferTag)
  : option nat := h !! tag.

(** [prfh_insert]: an entry with an equal key is kept and reported. *)
Definition prfh_insert (h : gmap BufferTag nat) (tag : BufferTag) (pos : nat)
  : gmap BufferTag nat * bool :=
  match h !! tag with
  | Some _ => (h, true)
  | None => (<[tag := pos]> h, false)
  end.

Definition prfh_delete (h : gmap BufferTag nat) (tag : BufferTag)
  : gmap BufferTag nat := delete tag h.

(** *** [prefetch_cleanup_trailing_unused] *)

Fixpoint cleanup_loop (n : nat) (p : PrefetchState) : PrefetchState :=
  match n with
  | O => p
  | S n' =>
      if ring_last p <? ring_receive p then
        match status (GetPrfSlot p (ring_last p)) with
        | PRFS_UNUSED =>
            cleanup_loop n' (set_ring_last (uint64 (ring_last p + 1)) p)
        | _ => p
        end
      else p
  end.

Definition prefetch_cleanup_trailing_unused (p : PrefetchState)
  : PrefetchState :=
  cleanup_loop (Z.to_nat (ring_receive p - ring_last p)) p.

(** *** [compact_prefetch_buffers] *)

(** First loop: the highest unused slot below [ring_receive]. Yields the
    final [search_ring_index] and [empty_ring_index]. *)
Fixpoint compact_find_empty (n : nat) (p : PrefetchState)
  (search_ring_index empty_ring_index : Z) : Z * Z :=
  match n with
  | O => (search_ring_index, empty_ring_index)
  | S n' =>
      if ring_last p <? search_ring_index then
        let search_ring_index := uint64 (search_ring_index - 1) in
        match status (GetPrfSlot p search_ring_index) with
        | PRFS_UNUSED => (search_ring_index, search_ring_index)
        | _ => compact_find_empty n' p search_ring_index empty_ring_index
        end
      else (search_ring_index, empty_ring_index)
  end.

(** One move of the second loop: the slot at [search_ring_index] goes to
    [empty_ring_index], the tag index follows, the source is emptied. *)
Definition compact_move_slot (p : PrefetchState)
  (search_ring_index empty_ring_index : Z) : PrefetchState :=
  let source_slot := GetPrfSlot p search_ring_index in
  let target_slot :=
    mkPrefetchRequest (buftag source_slot)
      (effective_request_lsn source_slot) (response source_slot)
      (status source_slot) empty_ring_index in
  let p := SetPrfSlot p empty_ring_index target_slot in
  let h := prfh_delete (prf_hash p) (buftag source_slot) in
  let h := fst (prfh_insert h (buftag target_slot)
                  (slot_pos p empty_ring_index)) in
  let p := set_prf_hash h p in
  SetPrfSlot p search_ring_index zero_slot.

Fixpoint compact_move_loop (n : nat) (p : PrefetchState)
  (search_ring_index empty_ring_index n_moved : Z) : PrefetchState * Z :=
  match n with
  | O => (p, n_moved)
  | S n' =>
      if ring_last p <? search_ring_index then
        let search_ring_index := uint64 (search_ring_index - 1) in
        match status (GetPrfSlot p search_ring_index) with
        | PRFS_UNUSED =>
            compact_move_loop n' p search_ring_index empty_ring_index n_moved
        | _ =>
            compact_move_loop n'
              (compact_move_slot p search_ring_index empty_ring_index)
              search_ring_index (uint64 (empty_ring_index - 1)) (n_moved + 1)
        end
      else (p, n_moved)
  end.

Definition compact_prefetch_buffers (p : PrefetchState)
  : bool * PrefetchState :=
  if ring_receive p =? ring_last p then (false, p)
  else
    let '(search_ring_index, empty_ring_index) :=
      compact_find_empty (Z.to_nat (ring_receive p - ring_last p)) p
        (ring_receive p) (ring_last p) in
    let '(p, n_moved) :=
      compact_move_loop (Z.to_nat (search_ring_index - ring_last p)) p
        search_ring_index empty_ring_index 0 in
    if 0 <? n_moved then (true, prefetch_cleanup_trailing_unused p)
    else (false, p).

(** *** [prefetch_set_unused] *)

(** The part of [prefetch_set_unused] that empties the slot: the response is
    released, the tag leaves the index, the slot is zeroed. *)
Definition prefetch_clear_slot (ring_index : Z) (p : PrefetchState)
  : PrefetchState :=
  let slot := GetPrfSlot p ring_index in
  let p :=
    match status slot with
    | PRFS_RECEIVED =>
        let p := SetPrfSlot p ring_index (set_response None slot) in
        let p := set_n_responses_buffered (n_responses_buffered p - 1) p in
        set_n_unused (n_unused p + 1) p
    | _ => p
    end in
  let p := set_prf_hash (prfh_delete (prf_hash p) (buftag slot)) p in
  SetPrfSlot p ring_index zero_slot.

Definition prefetch_set_unused (ring_index : Z) (p : PrefetchState)
  : PrefetchState :=
  if ring_index <? ring_last p then p
  else
    match status (GetPrfSlot p ring_index) with
    | PRFS_UNUSED => p
    | _ =>
        let p := prefetch_clear_slot ring_index p in
        if ring_last p =? ring_index then prefetch_cleanup_trailing_unused p
        else if ReceiveBufferNeedsCompaction p
             then snd (compact_prefetch_buffers p)
             else p
    end.

(** *** [prefetch_on_ps_disconnect] *)

Fixpoint disconnect_loop (n : nat) (p : PrefetchState) : PrefetchState :=
  match n with
  | O => p
  | S n' =>
      if ring_receive p <? ring_unused p then
        let ring_index := ring_receive p in
        let slot := GetPrfSlot p ring_index in
        let p := SetPrfSlot p ring_index (set_status PRFS_TAG_REMAINS slot) in
        let p := set_n_requests_inflight (n_requests_inflight p - 1) p in
        let p := set_ring_receive (uint64 (ring_receive p + 1)) p in
        disconnect_loop n' (prefetch_set_unused ring_index p)
      else p
  end.

Definition prefetch_on_ps_disconnect (p : PrefetchState) : PrefetchState :=
  let p := set_ring_flush (ring_unused p) p in
  disconnect_loop (Z.to_nat (ring_unused p - ring_receive p)) p.

(** *** [neon_init] *)

(** The state allocated by [neon_init] for a setting of
    [readahead_buffer_size]: zeroed, with every slot counted as unused. *)
Definition neon_init (size : Z) : PrefetchState :=
  mkPrefetchState 0 0 0 0 0 0 size ∅ (replicate (Z.to_nat size) zero_slot).

(** ** The backend's world

    The pipeline and the other process-wide variables of the file, the
    collaborators it writes to (relation-size cache, WAL insert position) and
    the sequence of calls made to services outside the file. *)

Inductive Event :=
| EvPageServerSend (req : NeonRequest)
| EvXLogFlush (lsn : Z)
| EvXLogWaitForReplayOf (lsn : Z)
| EvLogNewpage (rn : RelFileNode) (forknum blkno : Z) (page : list Z)
| EvSetLastWrittenLSNForBlock (lsn : Z) (rn : RelFileNode) (forknum blkno : Z)
| EvSetLastWrittenLSNForRelation (lsn : Z) (rn : RelFileNode) (forknum : Z)
| EvLfcWrite (rn : RelFileNode) (forknum blkno : Z) (page : list Z)
| EvLfcEvict (rn : RelFileNode) (forknum blkno : Z)
| EvLWLockAcquire (tag : BufferTag)
| EvLWLockRelease (tag : BufferTag)
| EvMdExtend (rn : RelFileNode) (forknum blkno : Z)
| EvMdNblocks (rn : RelFileNode) (forknum : Z)
| EvMdPrefetch (rn : RelFileNode) (forknum blkno : Z).

Record World := mkWorld {
  MyPState : PrefetchState;
  prefetch_lsn : Z;
  prefetch_hits : Z;
  prefetch_misses : Z;
  prefetch_expired : Z;
  prefetch_duplicates : Z;
  ps_clock : nat;
  relsize_cache : gmap (RelFileNode * Z) Z;
  xlog_insert : Z;
  trace : list Event
}.

Definition set_MyPState (v : PrefetchState) (w : World) :=
  mkWorld v (prefetch_lsn w) (prefetch_hits w) (prefetch_misses w)
    (prefetch_expired w) (prefetch_duplicates w) (ps_clock w)
    (relsize_cache w) (xlog_insert w) (trace w).
Definition set_prefetch_lsn (v : Z) (w : World) :=
  mkWorld (MyPState w) v (prefetch_hits w) (prefetch_misses w)
    (prefetch_expired w) (prefetch_duplicates w) (ps_clock w)
    (relsize_cache w) (xlog_insert w) (trace w).
Definition set_prefetch_hits (v : Z) (w : World) :=
  mkWorld (MyPState w) (prefetch_lsn w) v (prefetch_misses w)
    (prefetch_expired w) (prefetch_duplicates w) (ps_clock w)
    (relsize_cache w) (xlog_insert w) (trace w).
Definition set_prefetch_misses (v : Z) (w : World) :=
  mkWorld (MyPState w) (prefetch_lsn w) (prefetch_hits w) v
    (prefetch_expired w) (prefetch_duplicates w) (ps_clock w)
    (relsize_cache w) (xlog_insert w) (trace w).
Definition set_prefetch_expired (v : Z) (w : World) :=
  mkWorld (MyPState w) (prefetch_lsn w) (prefetch_hits w) (prefetch_misses w)
    v (prefetch_duplicates w) (ps_clock w)
    (relsize_cache w) (xlog_insert w) (trace w).
Definition set_prefetch_duplicates (v : Z) (w : World) :=
  mkWorld (MyPState w) (prefetch_lsn w) (prefetch_hits w) (prefetch_misses w)
    (prefetch_expired w) v (ps_clock w)
    (relsize_cache w) (xlog_insert w) (trace w).
Definition set_ps_clock (v : nat) (w : World) :=
  mkWorld (MyPState w) (prefetch_lsn w) (prefetch_hits w) (prefetch_misses w)
    (prefetch_expired w) (prefetch_duplicates w) v
    (relsize_cache w) (xlog_insert w) (trace w).
Definition set_relsize_cache (v : gmap (RelFileNode * Z) Z) (w : World) :=
  mkWorld (MyPState w) (prefetch_lsn w) (prefetch_hits w) (prefetch_misses w)
    (prefetch_expired w) (prefetch_duplicates w) (ps_clock w)
    v (xlog_insert w) (trace w).
Definition set_xlog_insert (v : Z) (w : World) :=
  mkWorld (MyPState w) (prefetch_lsn w) (prefetch_hits w) (prefetch_misses w)
    (prefetch_expired w) (prefetch_duplicates w) (ps_clock w)
    (relsize_cache w) v (trace w).
Definition set_trace (v : list Event) (w : World) :=
  mkWorld (MyPState w) (prefetch_lsn w) (prefetch_hits w) (prefetch_misses w)
    (prefetch_expired w) (prefetch_duplicates w) (ps_clock w)
    (relsize_cache w) (xlog_insert w) v.

Definition on_MyPState (f : PrefetchState -> PrefetchState) (w : World)
  : World := set_MyPState (f (MyPState w)) w.

(** A call to a service outside the file, appended to the record of calls. *)
Definition emit (e : Event) (w : World) : World :=
  set_trace (trace w ++ [e]) w.

(** *** Collaborators written to

    Modelled from the spec: the relation-size cache and the WAL services are
    named in section 6.3 but live outside this file. The cache is a finite
    map in which [set_cached_relsize] stores and [update_cached_relsize]
    stores unless a larger size is already known; [log_newpage] appends a
    record of [log_newpage_size] bytes and returns the position after it,
    which is what [GetXLogInsertRecPtr] reads. *)

Definition get_cached_relsize (w : World) (rn : RelFileNode) (forknum : Z)
  : option Z := relsize_cache w !! (rn, forknum).

Definition set_cached_relsize (rn : RelFileNode) (forknum size : Z)
  (w : World) : World :=
  set_relsize_cache (<[(rn, forknum) := size]> (relsize_cache w)) w.

Definition update_cached_relsize (rn : RelFileNode) (forknum size : Z)
  (w : World) : World :=
  match relsize_cache w !! (rn, forknum) with
  | Some old => if old <? size then set_cached_relsize rn forknum size w
                else w
  | None => set_cached_relsize rn forknum size w
  end.

Definition GetXLogInsertRecPtr (w : World) : Z := xlog_insert w.

Definition log_newpage (env : Env) (rn : RelFileNode) (forknum blkno : Z)
  (page : list Z) (w : World) : Z * World :=
  let recptr := uint64 (xlog_insert w + log_newpage_size env) in
  (recptr, set_xlog_insert recptr (emit (EvLogNewpage rn forknum blkno page) w)).

(** *** The transport

    Modelled from the spec: [page_server->send], [->flush] and [->receive]
    are implemented outside this file. By sections 6.2 and 7 a call that
    fails has dropped the connection, which runs the disconnect hook of
    section 4.1.5 before the call returns. *)

Definition tick (w : World) : World := set_ps_clock (S (ps_clock w)) w.

Definition page_server_send (env : Env) (req : NeonRequest) (w : World)
  : bool * World :=
  if ps_send env (ps_clock w)
  then (true, emit (EvPageServerSend req) (tick w))
  else (false, on_MyPState prefetch_on_ps_disconnect (tick w)).

Definition page_server_flush (env : Env) (w : World) : bool * World :=
  if ps_flush env (ps_clock w)
  then (true, tick w)
  else (false, on_MyPState prefetch_on_ps_disconnect (tick w)).

Definition page_server_receive (env : Env) (w : World)
  : option NeonResponse * World :=
  match ps_receive env (ps_clock w) with
  | Some resp => (Some resp, tick w)
  | None => (None, on_MyPState prefetch_on_ps_disconnect (tick w))
  end.

(** *** [prefetch_read] and [prefetch_wait_for] *)

(** [prefetch_read] on the slot of [ring_index]. *)
Definition prefetch_read (env : Env) (ring_index : Z) (w : World)
  : bool * World :=
  match page_server_receive env w with
  | (Some resp, w) =>
      let p := MyPState w in
      let p := set_n_responses_buffered (n_responses_buffered p + 1) p in
      let p := set_n_requests_inflight (n_requests_inflight p - 1) p in
      let p := set_ring_receive (uint64 (ring_receive p + 1)) p in
      let slot := GetPrfSlot p ring_index in
      let p := SetPrfSlot p ring_index
                 (set_response (Some resp) (set_status PRFS_RECEIVED slot)) in
      (true, set_MyPState p w)
  | (None, w) => (false, w)
  end.

Fixpoint wait_loop (env : Env) (n : nat) (ring_index : Z) (w : World)
  : bool * World :=
  match n with
  | O => (true, w)
  | S n' =>
      if ring_receive (MyPState w) <=? ring_index then
        match prefetch_read env (ring_receive (MyPState w)) w with
        | (true, w) => wait_loop env n' ring_index w
        | (false, w) => (false, w)
        end
      else (true, w)
  end.

Definition prefetch_wait_for (env : Env) (ring_index : Z) (w : World)
  : bool * World :=
  let p := MyPState w in
  let '(flushed, w) :=
    if (ring_flush p <=? ring_index) && (ring_flush p <? ring_unused p) then
      match page_server_flush env w with
      | (true, w) =>
          (true, on_MyPState (fun p => set_ring_flush (ring_unused p) p) w)
      | (false, w) => (false, w)
      end
    else (true, w) in
  if flushed
  then wait_loop env
         (Z.to_nat (ring_index + 1 - ring_receive (MyPState w))) ring_index w
  else (false, w).

Definition consume_prefetch_responses (env : Env) (w : World) : World :=
  let p := MyPState w in
  if ring_receive p <? ring_unused p
  then snd (prefetch_wait_for env (uint64 (ring_unused p - 1)) w)
  else w.

Fixpoint page_server_request (env : Env) (fuel : nat) (req : NeonRequest)
  (w : World) : Exit NeonResponse * World :=
  match fuel with
  | O => (OutOfFuel, w)
  | S fuel' =>
      match page_server_send env req w with
      | (false, w) => page_server_request env fuel' req w
      | (true, w) =>
          match page_server_flush env w with
          | (false, w) => page_server_request env fuel' req w
          | (true, w) =>
              let w :=
                on_MyPState (fun p => set_ring_flush (ring_unused p) p) w in
              let w := consume_prefetch_responses env w in
              match page_server_receive env w with
              | (Some resp, w) => (Return resp, w)
              | (None, w) => page_server_request env fuel' req w
              end
          end
      end
  end.

(** *** The request-LSN oracle *)

Definition nm_adjust_lsn (env : Env) (lsn : Z) : Z :=
  if Z.land lsn (XLOG_BLCKSZ env - 1) =? SizeOfXLogShortPHD env
  then uint64 (lsn - SizeOfXLogShortPHD env)
  else if Z.land lsn (wal_segment_size env - 1) =? SizeOfXLogLongPHD env
       then uint64 (lsn - SizeOfXLogLongPHD env)
       else lsn.

(** [neon_get_request_lsn]: the pair of [*latest] and the LSN returned. *)
Definition neon_get_request_lsn (env : Env) (rn : RelFileNode)
  (forknum blkno : Z) (w : World) : (bool * Z) * World :=
  if RecoveryInProgress env then
    (false, nm_adjust_lsn env (GetLastWrittenLSN env rn forknum blkno), w)
  else if am_walsender env then
    (true, InvalidXLogRecPtr, w)
  else
    let lsn := nm_adjust_lsn env (GetLastWrittenLSN env rn forknum blkno) in
    let flushlsn := GetFlushRecPtr env in
    if flushlsn <? lsn then (true, lsn, emit (EvXLogFlush lsn) w)
    else (true, lsn, w).

(** *** [prefetch_do_request] *)

(** [while (!page_server->send(&request));] *)
Fixpoint send_until_accepted (env : Env) (fuel : nat) (req : NeonRequest)
  (w : World) : Exit unit * World :=
  match fuel with
  | O => (OutOfFuel, w)
  | S fuel' =>
      match page_server_send env req w with
      | (true, w) => (Return tt, w)
      | (false, w) => send_until_accepted env fuel' req w
      end
  end.

(** [prefetch_do_request] on the slot of [ring_index], whose tag and ring
    index the caller has filled in. *)
Definition prefetch_do_request (env : Env) (fuel : nat) (ring_index : Z)
  (force_latest : option bool) (force_lsn : option Z) (w : World)
  : Exit unit * World :=
  let slot := GetPrfSlot (MyPState w) ring_index in
  let tag := buftag slot in
  let '(latest, lsn, w) :=
    match force_lsn, force_latest with
    | Some lsn, Some latest =>
        (latest, lsn,
         on_MyPState (fun p => SetPrfSlot p ring_index
                                 (set_effective_request_lsn lsn slot)) w)
    | _, _ =>
        let '(latest, lsn, w) :=
          neon_get_request_lsn env (rnode tag) (forkNum tag) (blockNum tag) w in
        let w := set_prefetch_lsn (Z.max (prefetch_lsn w) lsn) w in
        (latest, lsn,
         on_MyPState (fun p => SetPrfSlot p ring_index
                                 (set_effective_request_lsn (prefetch_lsn w)
                                    slot)) w)
    end in
  let request :=
    NeonGetPageRequest latest lsn (rnode tag) (forkNum tag) (blockNum tag) in
  let* (_u, w) := send_until_accepted env fuel request w in
  let p := MyPState w in
  let p := set_n_requests_inflight (n_requests_inflight p + 1) p in
  let p := set_n_unused (n_unused p - 1) p in
  let p := set_ring_unused (uint64 (ring_unused p + 1)) p in
  let p := SetPrfSlot p ring_index
             (set_status PRFS_REQUESTED (GetPrfSlot p ring_index)) in
  let p := set_prf_hash
             (fst (prfh_insert (prf_hash p) (buftag (GetPrfSlot p ring_index))
                     (slot_pos p ring_index))) p in
  (Return tt, set_MyPState p w).

(** *** [prefetch_register_buffer] *)

(** Is the LSN of a buffered request good enough for the one demanded? *)
Definition request_lsn_acceptable (force_latest : option bool)
  (force_lsn : option Z) (slot : PrefetchRequest) : bool :=
  match force_latest, force_lsn with
  | Some true, Some lsn => negb (effective_request_lsn slot <? lsn)
  | Some false, Some lsn => lsn =? effective_request_lsn slot
  | _, _ => true
  end.

(** [prefetch_wait_for(ring_index); prefetch_set_unused(ring_index);] *)
Definition wait_and_retire (env : Env) (ring_index : Z) (w : World) : World :=
  on_MyPState (prefetch_set_unused ring_index)
    (snd (prefetch_wait_for env ring_index w)).

(** The lookup at the head of [prefetch_register_buffer]: the ring index of
    a buffered request that is good enough, if there is one, after the
    retirement of one that is not. *)
Definition register_lookup (env : Env) (tag : BufferTag)
  (force_latest : option bool) (force_lsn : option Z) (w : World)
  : option Z * World :=
  match prfh_lookup (prf_hash (MyPState w)) tag with
  | None => (None, w)
  | Some pos =>
      let slot := prf_buffer (MyPState w) !!! pos in
      let ring_index := my_ring_index slot in
      if request_lsn_acceptable force_latest force_lsn slot then
        match status slot with
        | PRFS_TAG_REMAINS =>
            (None, on_MyPState (prefetch_set_unused ring_index) w)
        | _ =>
            (Some ring_index,
             set_prefetch_duplicates (prefetch_duplicates w + 1) w)
        end
      else (None, wait_and_retire env ring_index w)
  end.

(** The queue is full: make room by clearing the oldest slot. An unused
    oldest slot reaches [pg_unreachable()] in the source; nothing is done
    for it here. *)
Definition register_make_room (env : Env) (w : World) : World :=
  let p := MyPState w in
  if uint64 (ring_last p + readahead_buffer_size p - 1) =? ring_unused p then
    let cleanup_index := ring_last p in
    let '(compacted, w) :=
      if ReceiveBufferNeedsCompaction p
      then let '(moved, p) := compact_prefetch_buffers p in
           (moved, set_MyPState p w)
      else (false, w) in
    if compacted then w
    else
      match status (GetPrfSlot (MyPState w) cleanup_index) with
      | PRFS_REQUESTED => wait_and_retire env cleanup_index w
      | PRFS_RECEIVED
      | PRFS_TAG_REMAINS =>
          on_MyPState (prefetch_set_unused cleanup_index) w
      | PRFS_UNUSED => w
      end
  else w.

(** The registration proper: the slot at [ring_unused] takes the tag, the
    request is sent, and the output is flushed when enough has piled up. *)
Definition register_new_request (env : Env) (fuel : nat) (tag : BufferTag)
  (force_latest : option bool) (force_lsn : option Z) (w : World)
  : Exit Z * World :=
  let ring_index := ring_unused (MyPState w) in
  let w :=
    on_MyPState (fun p => SetPrfSlot p ring_index
                   (set_my_ring_index ring_index
                      (set_buftag tag (GetPrfSlot p ring_index)))) w in
  let* (_u, w) := prefetch_do_request env fuel ring_index force_latest
                    force_lsn w in
  let p := MyPState w in
  let w :=
    if (0 <? flush_every_n_requests env)
       && (flush_every_n_requests env
           <=? uint64 (ring_unused p - ring_flush p))
    then
      let w := snd (page_server_flush env w) in
      on_MyPState (fun p => set_ring_flush (ring_unused p) p) w
    else w in
  (Return ring_index, w).

Definition prefetch_register_buffer (env : Env) (fuel : nat) (tag : BufferTag)
  (force_latest : option bool) (force_lsn : option Z) (w : World)
  : Exit Z * World :=
  match register_lookup env tag force_latest force_lsn w with
  | (Some ring_index, w) => (Return ring_index, w)
  | (None, w) =>
      register_new_request env fuel tag force_latest force_lsn
        (register_make_room env w)
  end.

(** *** [readahead_buffer_resize] *)

Definition resize_account (st : PrefetchStatus) (newP : PrefetchState)
  : PrefetchState :=
  match st with
  | PRFS_UNUSED => newP
  | PRFS_REQUESTED =>
      let newP :=
        set_n_requests_inflight (n_requests_inflight newP + 1) newP in
      let newP := set_ring_receive (uint64 (ring_receive newP - 1)) newP in
      set_ring_last (uint64 (ring_last newP - 1)) newP
  | PRFS_RECEIVED =>
      let newP :=
        set_n_responses_buffered (n_responses_buffered newP + 1) newP in
      set_ring_last (uint64 (ring_last newP - 1)) newP
  | PRFS_TAG_REMAINS =>
      set_ring_last (uint64 (ring_last newP - 1)) newP
  end.

(** The copying loop: from the newest slot of the old ring downwards, into
    the tail of the new buffer. Yields [end], [nfree] and the new state. *)
Fixpoint resize_copy_loop (n : nat) (old : PrefetchState) (end_ nfree : Z)
  (newP : PrefetchState) : Z * Z * PrefetchState :=
  match n with
  | O => (end_, nfree, newP)
  | S n' =>
      if (ring_last old <=? end_) && negb (end_ =? UINT64_MAX)
         && negb (nfree =? 0) then
        let slot := GetPrfSlot old end_ in
        match status slot with
        | PRFS_UNUSED => resize_copy_loop n' old (uint64 (end_ - 1)) nfree newP
        | st =>
            let nfree := uint64 (nfree - 1) in
            let newslot := set_my_ring_index nfree slot in
            let newP :=
              set_prf_buffer (<[Z.to_nat nfree := newslot]> (prf_buffer newP))
                newP in
            let newP :=
              set_prf_hash (fst (prfh_insert (prf_hash newP) (buftag newslot)
                                   (Z.to_nat nfree))) newP in
            let newP := resize_account st newP in
            let newP := set_n_unused (n_unused newP - 1) newP in
            resize_copy_loop n' old (uint64 (end_ - 1)) nfree newP
        end
      else (end_, nfree, newP)
  end.

(** The second loop releases what was not copied, in the old state. *)
Fixpoint resize_release_loop (n : nat) (old : PrefetchState) (end_ : Z)
  : PrefetchState :=
  match n with
  | O => old
  | S n' =>
      if (ring_last old <=? end_) && negb (end_ =? UINT64_MAX)
      then resize_release_loop n' (prefetch_set_unused end_ old)
             (uint64 (end_ - 1))
      else old
  end.

(** [readahead_buffer_resize]: the old state as it is when it is freed, and
    the world with the new state installed. *)
Definition readahead_buffer_resize_states (env : Env) (newsize : Z)
  (w : World) : PrefetchState * World :=
  let w :=
    if newsize <? n_requests_inflight (MyPState w)
    then snd (prefetch_wait_for env
                (uint64 (ring_unused (MyPState w) - newsize)) w)
    else w in
  let old := MyPState w in
  let newP :=
    mkPrefetchState newsize newsize newsize newsize 0 0 newsize ∅
      (replicate (Z.to_nat newsize) zero_slot) in
  let '(end_, nfree, newP) :=
    resize_copy_loop (Z.to_nat (ring_unused old - ring_last old)) old
      (uint64 (ring_unused old - 1)) newsize newP in
  let old :=
    resize_release_loop (Z.to_nat (ring_unused old - ring_last old)) old
      end_ in
  (old, set_MyPState newP w).

Definition readahead_buffer_resize (env : Env) (newsize : Z) (w : World)
  : World := snd (readahead_buffer_resize_states env newsize w).

(** ** The adaptor surface *)

(** *** [neon_prefetch] *)

Definition neon_prefetch (env : Env) (fuel : nat) (reln : SMgrRelation)
  (forknum blocknum : Z) (w : World) : Exit bool * World :=
  let persistence := smgr_relpersistence reln in
  if (persistence =? 0) || (persistence =? RELPERSISTENCE_PERMANENT) then
    if lfc_cache_contains env (smgr_rnode reln) forknum blocknum
    then (Return false, w)
    else
      let tag := mkBufferTag (smgr_rnode reln) forknum blocknum in
      let* (_ring_index, w) :=
        prefetch_register_buffer env fuel tag None None w in
      (Return false, w)
  else if (persistence =? RELPERSISTENCE_TEMP)
          || (persistence =? RELPERSISTENCE_UNLOGGED) then
    (Return (mdprefetch env (smgr_rnode reln) forknum blocknum),
     emit (EvMdPrefetch (smgr_rnode reln) forknum blocknum) w)
  else (Raise ERROR unknown_relpersistence, w).

(** *** [neon_read_at_lsn] *)

(** The lookup among the prefetched pages: the position and ring index of a
    slot to read from, if its LSN is large enough; a slot whose LSN is not
    is dropped. *)
Definition read_lookup (env : Env) (buftag_ : BufferTag) (request_lsn : Z)
  (w : World) : option (nat * Z) * World :=
  match prfh_lookup (prf_hash (MyPState w)) buftag_ with
  | None => (None, w)
  | Some pos =>
      let slot := prf_buffer (MyPState w) !!! pos in
      if request_lsn <=? effective_request_lsn slot then
        (Some (pos, my_ring_index slot),
         set_prefetch_hits (prefetch_hits w + 1) w)
      else
        let w :=
          match status slot with
          | PRFS_REQUESTED =>
              snd (prefetch_wait_for env (my_ring_index slot) w)
          | _ => w
          end in
        let slot := prf_buffer (MyPState w) !!! pos in
        let w := on_MyPState (prefetch_set_unused (my_ring_index slot)) w in
        (None, set_prefetch_expired (prefetch_expired w + 1) w)
  end.

(** The [do ... while (!prefetch_wait_for(ring_index))] loop. *)
Fixpoint read_wait_loop (env : Env) (fuel : nat) (buftag_ : BufferTag)
  (request_latest : bool) (request_lsn : Z) (entry : option (nat * Z))
  (w : World) : Exit (nat * Z) * World :=
  match fuel with
  | O => (OutOfFuel, w)
  | S fuel' =>
      let* (found, w) :=
        match entry with
        | None =>
            let w := set_prefetch_misses (prefetch_misses w + 1) w in
            let* (ring_index, w) :=
              prefetch_register_buffer env fuel buftag_ (Some request_latest)
                (Some request_lsn) w in
            (Return (slot_pos (MyPState w) ring_index, ring_index), w)
        | Some e => (Return e, w)
        end in
      match prefetch_wait_for env (snd found) w with
      | (true, w) => (Return found, w)
      | (false, w) =>
          read_wait_loop env fuel' buftag_ request_latest request_lsn None w
      end
  end.

(** [neon_read_at_lsn]: the page copied into the caller's buffer. A slot
    without a response is dereferenced in the source; the model raises. *)
Definition neon_read_at_lsn (env : Env) (fuel : nat) (rn : RelFileNode)
  (forkNum_ blkno request_lsn : Z) (request_latest : bool) (w : World)
  : Exit (list Z) * World :=
  let buftag_ := mkBufferTag rn forkNum_ blkno in
  let w :=
    if RecoveryInProgress env && negb (am_startup_process env)
    then emit (EvXLogWaitForReplayOf request_lsn) w
    else w in
  let '(entry, w) := read_lookup env buftag_ request_lsn w in
  let* (found, w) :=
    read_wait_loop env fuel buftag_ request_latest request_lsn entry w in
  let slot := prf_buffer (MyPState w) !!! fst found in
  match response slot with
  | Some (NeonGetPageResponse page) =>
      let w := emit (EvLfcWrite rn forkNum_ blkno page) w in
      let w := on_MyPState (prefetch_set_unused (snd found)) w in
      let w := on_MyPState prefetch_cleanup_trailing_unused w in
      (Return page, w)
  | Some (NeonErrorResponse _) => (Raise ERROR could_not_read_block, w)
  | Some _ => (Raise ERROR unexpected_response, w)
  | None => (Raise PANIC unexpected_response, w)
  end.

(** *** The eviction WAL-logger *)

Definition PageIsEmptyHeapPage (env : Env) (buffer : list Z) : bool :=
  bool_decide (buffer = PageInit env).

Definition neon_wallog_page (env : Env) (reln : SMgrRelation)
  (forknum blocknum : Z) (buffer : list Z) (force : bool) (w : World)
  : Exit unit * World :=
  let lsn := PageGetLSN env buffer in
  let rn := smgr_rnode reln in
  if ShutdownRequestPending env then (Return tt, w)
  else if negb (XLogInsertAllowed env) then (Return tt, w)
  else
    let* (lsn, w) :=
      if (force || (forknum =? FSM_FORKNUM)
          || (forknum =? VISIBILITYMAP_FORKNUM))
         && negb (RecoveryInProgress env) then
        let '(recptr, w) := log_newpage env rn forknum blocknum buffer w in
        (Return recptr, emit (EvXLogFlush recptr) w)
      else if lsn =? InvalidXLogRecPtr then
        if PageIsNew env buffer then (Return lsn, w)
        else if PageIsEmptyHeapPage env buffer then (Return lsn, w)
        else (Raise PANIC evicted_with_zero_lsn, w)
      else (Return lsn, w) in
    (Return tt, emit (EvSetLastWrittenLSNForBlock lsn rn forknum blocknum) w).

(** *** [neon_nblocks] *)

Definition neon_nblocks (env : Env) (fuel : nat) (reln : SMgrRelation)
  (forknum : Z) (w : World) : Exit Z * World :=
  let persistence := smgr_relpersistence reln in
  let rn := smgr_rnode reln in
  if persistence =? 0 then (Raise ERROR unknown_persistence_nblocks, w)
  else if persistence =? RELPERSISTENCE_PERMANENT then
    match get_cached_relsize w rn forknum with
    | Some n_blocks => (Return n_blocks, w)
    | None =>
        let '(latest, request_lsn, w) :=
          neon_get_request_lsn env rn forknum
            (REL_METADATA_PSEUDO_BLOCKNO env) w in
        let* (resp, w) :=
          page_server_request env fuel
            (NeonNblocksRequest latest request_lsn rn forknum) w in
        match resp with
        | NeonNblocksResponse n_blocks =>
            (Return n_blocks, update_cached_relsize rn forknum n_blocks w)
        | NeonErrorResponse _ => (Raise ERROR could_not_read_relation_size, w)
        | _ => (Raise ERROR unexpected_response, w)
        end
    end
  else if (persistence =? RELPERSISTENCE_TEMP)
          || (persistence =? RELPERSISTENCE_UNLOGGED) then
    (Return (mdnblocks env rn forknum), emit (EvMdNblocks rn forknum) w)
  else (Raise ERROR unknown_relpersistence, w).

(** *** [neon_extend] *)



(** *** [neon_redo_read_buffer_filter] *)

(** [old_redo_read_buffer_filter && old_redo_read_buffer_filter(record,
    block_id)] *)
Definition old_filter_claims (env : Env) (record : XLogReaderState)
  (block_id : Z) : bool :=
  match old_redo_read_buffer_filter env with
  | Some old_filter => old_filter record block_id
  | None => false
  end.

Definition neon_redo_read_buffer_filter (env : Env) (fuel : nat)
  (record : XLogReaderState) (block_id : Z) (w : World)
  : Exit bool * World :=
  let end_recptr := EndRecPtr record in
  if old_filter_claims env record block_id then (Return true, w)
  else
    match XLogRecGetBlockTag record block_id with
    | None => (Raise PANIC failed_to_locate_backup_block, w)
    | Some tag =>
        let rn := rnode tag in
        let forknum := forkNum tag in
        let blkno := blockNum tag in
        if negb (OidIsValid (dbNode rn)) then (Return false, w)
        else
          let w := emit (EvLWLockAcquire tag) w in
          let no_redo_needed := BufTableLookup env tag <? 0 in
          let w :=
            emit (EvSetLastWrittenLSNForBlock end_recptr rn forknum blkno) w in
          let w :=
            if no_redo_needed then emit (EvLfcEvict rn forknum blkno) w
            else w in
          let w := emit (EvLWLockRelease tag) w in
          match get_cached_relsize w rn forknum with
          | Some relsize =>
              if relsize <? uint32 (blkno + 1) then
                let w :=
                  update_cached_relsize rn forknum (uint32 (blkno + 1)) w in
                (Return no_redo_needed,
                 emit (EvSetLastWrittenLSNForRelation end_recptr rn forknum) w)
              else (Return no_redo_needed, w)
          | None =>
              let* (response, w) :=
                page_server_request env fuel
                  (NeonNblocksRequest false end_recptr rn forknum) w in
              (* the kind of the response is only asserted in the source;
                 of a response of another kind the cast to
                 [NeonNblocksResponse] reads what lies where [n_blocks]
                 would be *)
              let n_blocks :=
                match response with
                | NeonNblocksResponse n_blocks => n_blocks
                | other => n_blocks_of_cast env other
                end in
              let w := set_cached_relsize rn forknum n_blocks w in
              (Return no_redo_needed,
               emit (EvSetLastWrittenLSNForRelation end_recptr rn forknum) w)
          end
    end.

(** ** Sample data

    A concrete environment and concrete states on which the functions above
    are run in the examples further down. *)

(** The values of the tags in [pagestore_client.h]. *)
Definition sample_tag_value (t : NeonMessageTag) : Z :=
  match t with
  | T_NeonExistsRequest => 0
  | T_NeonNblocksRequest => 1
  | T_NeonGetPageRequest => 2
  | T_NeonDbSizeRequest => 3
  | T_NeonExistsResponse => 100
  | T_NeonNblocksResponse => 101
  | T_NeonGetPageResponse => 102
  | T_NeonErrorResponse => 103
  | T_NeonDbSizeResponse => 104
  end.

Definition sample_page : list Z := [7; 1; 0; 0].
Definition zero_page : list Z := [0; 0; 0; 0].
Definition fresh_heap_page : list Z := [0; 4; 4; 0].
Definition unlogged_page : list Z := [0; 3; 9; 9].

(** A backend on a transport that never fails and answers the receives
    with [answers]. Pages have four bytes: the first stands for [pd_lsn],
    the second for [pd_upper]. *)
Definition make_env_on (recovery shutdown insert_allowed : bool)
  (answers : nat -> option NeonResponse) (buf_lookup : BufferTag -> Z)
  (old_filter : option (XLogReaderState -> Z -> bool)) : Env :=
  {| tag_value := sample_tag_value;
     BLCKSZ := 4;
     flush_every_n_requests := 0;
     max_cluster_size := 0;
     ps_send := fun _ => true;
     ps_flush := fun _ => true;
     ps_receive := answers;
     RecoveryInProgress := recovery;
     am_walsender := false;
     am_startup_process := false;
     ShutdownRequestPending := shutdown;
     XLogInsertAllowed := insert_allowed;
     IsAutoVacuumWorkerProcess := false;
     GetZenithCurrentClusterSize := 0;
     GetLastWrittenLSN := fun _ _ _ => 100;
     GetFlushRecPtr := 1000;
     XLOG_BLCKSZ := 8192;
     wal_segment_size := 16777216;
     SizeOfXLogShortPHD := 24;
     SizeOfXLogLongPHD := 40;
     REL_METADATA_PSEUDO_BLOCKNO := 2 ^ 32 - 1;
     log_newpage_size := 64;
     PageGetLSN := fun pg => nth 0 pg 0;
     PageIsNew := fun pg => nth 1 pg 0 =? 0;
     PageInit := fresh_heap_page;
     BufTableLookup := buf_lookup;
     lfc_cache_contains := fun _ _ _ => false;
     mdnblocks := fun _ _ => 0;
     mdprefetch := fun _ _ _ => true;
     n_blocks_of_cast := fun _ => 263;
     old_redo_read_buffer_filter := old_filter |}.

(** The same with WAL insertion allowed and a page for every receive. *)
Definition make_env (recovery shutdown : bool) (buf_lookup : BufferTag -> Z)
  (old_filter : option (XLogReaderState -> Z -> bool)) : Env :=
  make_env_on recovery shutdown true
    (fun _ => Some (NeonGetPageResponse sample_page)) buf_lookup old_filter.

(** Outside recovery, no shutdown pending, nothing in shared buffers, no
    earlier redo filter installed. *)
Definition sample_env : Env := make_env false false (fun _ => -1) None.

Definition sample_rnode : RelFileNode := mkRelFileNode 1663 12345 16384.
Definition sample_reln : SMgrRelation :=
  mkSMgrRelation sample_rnode RELPERSISTENCE_PERMANENT.
Definition sample_tag (blk : Z) : BufferTag := mkBufferTag sample_rnode 0 blk.

Definition sample_world (p : PrefetchState) : World :=
  mkWorld p 0 0 0 0 0 0 ∅ 5000 [].

(** A record touching block 3 of the sample relation, one touching a block
    of a shared catalog, an environment with an earlier redo filter that
    claims every block, one with a shutdown pending, and a world in which
    the sample relation is known to be empty. *)
Definition sample_record : XLogReaderState :=
  mkXLogReaderState 700 (fun _ => Some (sample_tag 3)).

Definition shared_catalog_record : XLogReaderState :=
  mkXLogReaderState 700
    (fun _ => Some (mkBufferTag (mkRelFileNode 1664 InvalidOid 1262) 0 3)).

Definition chained_env : Env :=
  make_env false false (fun _ => -1) (Some (fun _ _ => true)).



Definition nblocks_env : Env :=
  make_env_on false false true (fun _ => Some (NeonNblocksResponse 42))
    (fun _ => -1) None.

Definition dbsize_env : Env :=
  make_env_on false false true (fun _ => Some (NeonDbSizeResponse 4242))
    (fun _ => -1) None.

Definition sized_world : World :=
  set_cached_relsize sample_rnode 0 0 (sample_world (neon_init 16)).

(** Runs of the pipeline on the sample environment. *)
Definition sample_prefetch (blk : Z) (w : World) : World :=
  snd (neon_prefetch sample_env 1 sample_reln 0 blk w).

Definition three_in_flight : World :=
  sample_prefetch 3 (sample_prefetch 2 (sample_prefetch 1
    (sample_world (neon_init 32)))).

Definition sixteen_in_flight : World :=
  fold_left (fun w blk => sample_prefetch blk w) (seqZ 4 13) three_in_flight.

Definition shrunk_to_sixteen : World :=
  readahead_buffer_resize sample_env 16 sixteen_in_flight.

Definition three_received : PrefetchState :=
  MyPState (snd (prefetch_wait_for sample_env 2
    (sample_prefetch 3 (sample_prefetch 2 (sample_prefetch 1
       (sample_world (neon_init 16))))))).

(** A standby: the same environment during recovery, and its pipeline after
    one prefetch of block 7. *)
Definition recovery_env : Env := make_env true false (fun _ => -1) None.

Definition standby_one_in_flight : World :=
  snd (neon_prefetch recovery_env 1 sample_reln 0 7
         (sample_world (neon_init 16))).

(** ** Invariants of the pipeline state *)

(** The ordering of the four ring counters and the bound on their spread. *)
Definition ring_invariant (p : PrefetchState) : Prop :=
  ring_last p <= ring_receive p /\ ring_receive p <= ring_flush p /\
  ring_flush p <= ring_unused p /\
  ring_unused p - ring_last p <= readahead_buffer_size p.

(** A well-formed pipeline: the counters are ordered and span at most the
    buffer, the slots waiting for a response are exactly those from
    [ring_receive] on, the slots below hold a response or nothing, the
    slots outside the window are unused, and the tag index lists exactly
    the slots in use, each under its own tag. *)
Record pipeline_wf (p : PrefetchState) : Prop := mk_pipeline_wf {
  wf_size : 0 < readahead_buffer_size p;
  wf_order : 0 <= ring_last p /\ ring_last p <= ring_receive p /\
             ring_receive p <= ring_unused p /\ ring_unused p < 2 ^ 64;
  wf_bound : ring_unused p - ring_last p <= readahead_buffer_size p;
  wf_requested : forall k, ring_receive p <= k < ring_unused p ->
    status (GetPrfSlot p k) = PRFS_REQUESTED;
  wf_received : forall k, ring_last p <= k < ring_receive p ->
    status (GetPrfSlot p k) = PRFS_RECEIVED \/
    status (GetPrfSlot p k) = PRFS_UNUSED;
  wf_outside : forall k,
    ring_unused p <= k < ring_last p + readahead_buffer_size p ->
    status (GetPrfSlot p k) = PRFS_UNUSED;
  wf_hash_sound : forall t i, prf_hash p !! t = Some i ->
    exists k, ring_last p <= k < ring_unused p /\ i = slot_pos p k /\
              buftag (GetPrfSlot p k) = t /\
              status (GetPrfSlot p k) <> PRFS_UNUSED;
  wf_hash_complete : forall k, ring_last p <= k < ring_unused p ->
    status (GetPrfSlot p k) <> PRFS_UNUSED ->
    prf_hash p !! buftag (GetPrfSlot p k) = Some (slot_pos p k);
  wf_inflight : n_requests_inflight p = ring_unused p - ring_receive p
}.

(** What a retirement ([prefetch_set_unused], and the cleanup and
    compaction it ends with) leaves in place: the counters other than
    [ring_last], the slots of the requests still in flight, and the absence
    of a tag from the index. *)
Definition retire_frame (p p' : PrefetchState) : Prop :=
  ring_unused p' = ring_unused p /\ ring_flush p' = ring_flush p /\
  ring_receive p' = ring_receive p /\
  n_requests_inflight p' = n_requests_inflight p /\
  ring_last p <= ring_last p' /\
  (forall k, ring_receive p <= k < ring_unused p ->
     GetPrfSlot p' k = GetPrfSlot p k) /\
  (forall t, prf_hash p !! t = None -> prf_hash p' !! t = None).

(** [pipeline_wf] with its quantifiers bounded by the window and by the
    index, so that it can be decided on a given state. *)
Definition pipeline_wf_check (p : PrefetchState) : Prop :=
  0 < readahead_buffer_size p /\
  (0 <= ring_last p /\ ring_last p <= ring_receive p /\
   ring_receive p <= ring_unused p /\ ring_unused p < 2 ^ 64) /\
  ring_unused p - ring_last p <= readahead_buffer_size p /\
  Forall (fun k => status (GetPrfSlot p k) = PRFS_REQUESTED)
    (seqZ (ring_receive p) (ring_unused p - ring_receive p)) /\
  Forall (fun k => status (GetPrfSlot p k) = PRFS_RECEIVED \/
                   status (GetPrfSlot p k) = PRFS_UNUSED)
    (seqZ (ring_last p) (ring_receive p - ring_last p)) /\
  Forall (fun k => status (GetPrfSlot p k) = PRFS_UNUSED)
    (seqZ (ring_unused p)
       (ring_last p + readahead_buffer_size p - ring_unused p)) /\
  map_Forall (fun t i =>
      Exists (fun k => i = slot_pos p k /\ buftag (GetPrfSlot p k) = t /\
                       status (GetPrfSlot p k) <> PRFS_UNUSED)
        (seqZ (ring_last p) (ring_unused p - ring_last p)))
    (prf_hash p) /\
  Forall (fun k => status (GetPrfSlot p k) <> PRFS_UNUSED ->
                   prf_hash p !! buftag (GetPrfSlot p k) = Some (slot_pos p k))
    (seqZ (ring_last p) (ring_unused p - ring_last p)) /\
  n_requests_inflight p = ring_unused p - ring_receive p.

#[global] Instance pipeline_wf_check_dec p : Decision (pipeline_wf_check p).
Proof. unfold pipeline_wf_check. apply _. Defined.

(** ** The rest of the adaptor surface

    The operations of [neon_smgr] not covered above. They add three things
    to the backend's world: the calls made into the local-disk storage
    manager [md.c], what is read back from it and from the local file cache,
    and the statics of the unlogged build. *)

(** Calls into [md.c] that change local storage. *)
Inductive MdCall :=
| MdOpen (rn : RelFileNode)
| MdClose (rn : RelFileNode) (forknum : Z)
| MdCreate (rn : RelFileNode) (forknum : Z) (isRedo : bool)
| MdUnlink (rn : RelFileNode) (backend forknum : Z) (isRedo : bool)
| MdRead (rn : RelFileNode) (forknum blkno : Z)
| MdWrite (rn : RelFileNode) (forknum blkno : Z) (page : list Z)
    (skipFsync : bool)
| MdWriteback (rn : RelFileNode) (forknum blkno nblocks : Z)
| MdTruncate (rn : RelFileNode) (forknum nblocks : Z)
| MdImmedsync (rn : RelFileNode) (forknum : Z).

(** What is read from local storage and from the local file cache. *)
Record LocalStore := mkLocalStore {
  mdexists : RelFileNode -> Z -> bool;
  mdread : RelFileNode -> Z -> Z -> list Z;
  lfc_read : RelFileNode -> Z -> Z -> option (list Z)
}.

Record Backend := mkBackend {
  world : World;
  build : UnloggedBuild;
  md_calls : list MdCall
}.

Definition set_world (v : World) (b : Backend) : Backend :=
  mkBackend v (build b) (md_calls b).
Definition set_build (v : UnloggedBuild) (b : Backend) : Backend :=
  mkBackend (world b) v (md_calls b).
Definition on_world (f : World -> World) (b : Backend) : Backend :=
  set_world (f (world b)) b.
Definition md_call (c : MdCall) (b : Backend) : Backend :=
  mkBackend (world b) (build b) (md_calls b ++ [c]).

(** The messages of [elog(ERROR)] and [ereport(ERROR)] in these operations
    that the functions above do not raise. *)
Inductive SmgrFailure :=
| cannot_call_smgrcreate
| cannot_call_smgrread
| cannot_call_smgrtruncate
| cannot_call_smgrimmedsync
| cannot_call_smgr_start_unlogged_build
| could_not_read_relation_existence
| could_not_read_db_size
| unlogged_build_already_in_progress
| index_is_not_empty.

(** How a call of one of these operations ends: normally, with one of the
    errors above, with an error of a function of the first part, or out of
    fuel in one of its busy loops. *)
Inductive Result (A : Type) :=
| Ok (a : A)
| Fail (site : SmgrFailure)
| Inner (elevel : ErrLevel) (site : ErrSite)
| Starved.

Arguments Ok {A} a.
Arguments Fail {A} site.
Arguments Inner {A} elevel site.
Arguments Starved {A}.

Definition of_exit {A : Type} (e : Exit A) : Result A :=
  match e with
  | Return a => Ok a
  | Raise l s => Inner l s
  | OutOfFuel => Starved
  end.

(** A function of the first part run on the world of the backend. *)
Definition in_world {A : Type} (m : World -> Exit A * World) (b : Backend)
  : Result A * Backend :=
  let '(r, w) := m (world b) in (of_exit r, set_world w b).

Definition bindR {S A B : Type} (m : Result A * S)
  (k : A -> S -> Result B * S) : Result B * S :=
  match m with
  | (Ok a, s) => k a s
  | (Fail e, s) => (Fail e, s)
  | (Inner l e, s) => (Inner l e, s)
  | (Starved, s) => (Starved, s)
  end.

Notation "'let+' ( x , s ) := m 'in' k" := (bindR m (fun x s => k))
  (at level 10, x name, s name, m at level 100, k at level 200).

Definition InvalidBackendId : Z := -1.
Definition MAX_FORKNUM : Z := 3.

(** Modelled from the spec: [forget_cached_relsize] belongs to the
    relation-size cache of section 6.3; it drops the entry of a fork. *)
Definition forget_cached_relsize (rn : RelFileNode) (forknum : Z) (w : World)
  : World := set_relsize_cache (delete (rn, forknum) (relsize_cache w)) w.

(** How an operation starts: the [switch (reln->smgr_relpersistence)]. *)
Inductive Persistence :=
| PersistenceUnknown
| PersistencePermanent
| PersistenceLocal
| PersistenceOther.

Definition classify_persistence (reln : SMgrRelation) : Persistence :=
  let persistence := smgr_relpersistence reln in
  if persistence =? 0 then PersistenceUnknown
  else if persistence =? RELPERSISTENCE_PERMANENT then PersistencePermanent
  else if (persistence =? RELPERSISTENCE_TEMP)
          || (persistence =? RELPERSISTENCE_UNLOGGED) then PersistenceLocal
  else PersistenceOther.

(** *** [neon_exists] *)

(** The part of [neon_exists] after the [switch]: the size cache, the
    special case of the 0/0/0 relfilenode, and the request. *)
Definition neon_exists_remote (env : Env) (fuel : nat) (rn : RelFileNode)
  (forkNum_ : Z) (b : Backend) : Result bool * Backend :=
  match get_cached_relsize (world b) rn forkNum_ with
  | Some _ => (Ok true, b)
  | None =>
      if (spcNode rn =? 0) && (dbNode rn =? 0) && (relNode rn =? 0)
      then (Ok false, b)
      else
        let '(latest, request_lsn, w) :=
          neon_get_request_lsn env rn forkNum_
            (REL_METADATA_PSEUDO_BLOCKNO env) (world b) in
        let+ (resp, b) :=
          in_world (page_server_request env fuel
                      (NeonExistsRequest latest request_lsn rn forkNum_))
            (set_world w b) in
        match resp with
        | NeonExistsResponse exists_ => (Ok exists_, b)
        | NeonErrorResponse _ => (Fail could_not_read_relation_existence, b)
        | _ => (Inner ERROR unexpected_response, b)
        end
  end.

Definition neon_exists (env : Env) (loc : LocalStore) (fuel : nat)
  (reln : SMgrRelation) (forkNum_ : Z) (b : Backend) : Result bool * Backend :=
  let rn := smgr_rnode reln in
  match classify_persistence reln with
  | PersistenceUnknown =>
      if mdexists loc rn forkNum_ then (Ok true, b)
      else neon_exists_remote env fuel rn forkNum_ b
  | PersistencePermanent => neon_exists_remote env fuel rn forkNum_ b
  | PersistenceLocal => (Ok (mdexists loc rn forkNum_), b)
  | PersistenceOther => (Inner ERROR unknown_relpersistence, b)
  end.

(** *** [neon_create] *)

(** [neon_create]: the value it stores into
    [reln->smgr_cached_nblocks[forkNum]], if it stores one. *)
Definition neon_create (reln : SMgrRelation) (forkNum_ : Z) (isRedo : bool)
  (b : Backend) : Result (option Z) * Backend :=
  let rn := smgr_rnode reln in
  match classify_persistence reln with
  | PersistenceUnknown => (Fail cannot_call_smgrcreate, b)
  | PersistencePermanent =>
      if isRedo then
        let b := on_world (update_cached_relsize rn forkNum_ 0) b in
        (Ok (get_cached_relsize (world b) rn forkNum_), b)
      else (Ok None, on_world (set_cached_relsize rn forkNum_ 0) b)
  | PersistenceLocal => (Ok None, md_call (MdCreate rn forkNum_ isRedo) b)
  | PersistenceOther => (Inner ERROR unknown_relpersistence, b)
  end.

(** *** [neon_unlink], [neon_open], [neon_close] *)

Definition neon_unlink (rn : RelFileNode) (backend forkNum_ : Z)
  (isRedo : bool) (b : Backend) : Backend :=
  let b := md_call (MdUnlink rn backend forkNum_ isRedo) b in
  if backend =? InvalidBackendId
  then on_world (forget_cached_relsize rn forkNum_) b
  else b.

Definition neon_open (reln : SMgrRelation) (b : Backend) : Backend :=
  md_call (MdOpen (smgr_rnode reln)) b.

Definition neon_close (reln : SMgrRelation) (forknum : Z) (b : Backend)
  : Backend := md_call (MdClose (smgr_rnode reln) forknum) b.

(** *** [neon_writeback] and [neon_immedsync] *)

Definition neon_writeback (reln : SMgrRelation) (forknum blocknum nblocks : Z)
  (b : Backend) : Result unit * Backend :=
  let rn := smgr_rnode reln in
  match classify_persistence reln with
  | PersistenceUnknown
  | PersistenceLocal =>
      (Ok tt, md_call (MdWriteback rn forknum blocknum nblocks) b)
  | PersistencePermanent => (Ok tt, b)
  | PersistenceOther => (Inner ERROR unknown_relpersistence, b)
  end.

Definition neon_immedsync (reln : SMgrRelation) (forknum : Z) (b : Backend)
  : Result unit * Backend :=
  match classify_persistence reln with
  | PersistenceUnknown => (Fail cannot_call_smgrimmedsync, b)
  | PersistencePermanent => (Ok tt, b)
  | PersistenceLocal =>
      (Ok tt, md_call (MdImmedsync (smgr_rnode reln) forknum) b)
  | PersistenceOther => (Inner ERROR unknown_relpersistence, b)
  end.

(** *** [neon_read] *)

Definition neon_read (env : Env) (loc : LocalStore) (fuel : nat)
  (reln : SMgrRelation) (forkNum_ blkno : Z) (b : Backend)
  : Result (list Z) * Backend :=
  let rn := smgr_rnode reln in
  match classify_persistence reln with
  | PersistenceUnknown => (Fail cannot_call_smgrread, b)
  | PersistencePermanent =>
      match lfc_read loc rn forkNum_ blkno with
      | Some page => (Ok page, b)
      | None =>
          let '(latest, request_lsn, w) :=
            neon_get_request_lsn env rn forkNum_ blkno (world b) in
          in_world (neon_read_at_lsn env fuel rn forkNum_ blkno request_lsn
                      latest) (set_world w b)
      end
  | PersistenceLocal =>
      (Ok (mdread loc rn forkNum_ blkno), md_call (MdRead rn forkNum_ blkno) b)
  | PersistenceOther => (Inner ERROR unknown_relpersistence, b)
  end.

(** *** [neon_write] *)

(** The part of [neon_write] after the [switch]. *)
Definition neon_write_remote (env : Env) (reln : SMgrRelation)
  (forknum blocknum : Z) (buffer : list Z) (b : Backend)
  : Result unit * Backend :=
  let+ (_u, b) :=
    in_world (neon_wallog_page env reln forknum blocknum buffer false) b in
  (Ok tt, on_world (emit (EvLfcWrite (smgr_rnode reln) forknum blocknum
                            buffer)) b).

Definition neon_write (env : Env) (loc : LocalStore) (reln : SMgrRelation)
  (forknum blocknum : Z) (buffer : list Z) (skipFsync : bool) (b : Backend)
  : Result unit * Backend :=
  let rn := smgr_rnode reln in
  match classify_persistence reln with
  | PersistenceUnknown =>
      if mdexists loc rn forknum
      then (Ok tt, md_call (MdWrite rn forknum blocknum buffer skipFsync) b)
      else neon_write_remote env reln forknum blocknum buffer b
  | PersistencePermanent =>
      neon_write_remote env reln forknum blocknum buffer b
  | PersistenceLocal =>
      (Ok tt, md_call (MdWrite rn forknum blocknum buffer skipFsync) b)
  | PersistenceOther => (Inner ERROR unknown_relpersistence, b)
  end.

(** *** [neon_dbsize] *)

Definition neon_dbsize (env : Env) (fuel : nat) (dbNode_ : Z) (b : Backend)
  : Result Z * Backend :=
  let dummy_node := mkRelFileNode InvalidOid InvalidOid InvalidOid in
  let '(latest, request_lsn, w) :=
    neon_get_request_lsn env dummy_node MAIN_FORKNUM
      (REL_METADATA_PSEUDO_BLOCKNO env) (world b) in
  let+ (resp, b) :=
    in_world (page_server_request env fuel
                (NeonDbSizeRequest latest request_lsn dbNode_))
      (set_world w b) in
  match resp with
  | NeonDbSizeResponse db_size => (Ok db_size, b)
  | NeonErrorResponse _ => (Fail could_not_read_db_size, b)
  | _ => (Inner ERROR unexpected_response, b)
  end.

(** *** [neon_truncate] *)

Definition neon_truncate (env : Env) (reln : SMgrRelation)
  (forknum nblocks : Z) (b : Backend) : Result unit * Backend :=
  let rn := smgr_rnode reln in
  match classify_persistence reln with
  | PersistenceUnknown => (Fail cannot_call_smgrtruncate, b)
  | PersistencePermanent =>
      let w := set_cached_relsize rn forknum nblocks (world b) in
      let lsn := nm_adjust_lsn env (GetXLogInsertRecPtr w) in
      let w := emit (EvXLogFlush lsn) w in
      let w := emit (EvSetLastWrittenLSNForRelation lsn rn forknum) w in
      (Ok tt, set_world w b)
  | PersistenceLocal => (Ok tt, md_call (MdTruncate rn forknum nblocks) b)
  | PersistenceOther => (Inner ERROR unknown_relpersistence, b)
  end.

(** *** The unlogged build *)

Definition set_smgr_relpersistence (v : Z) (reln : SMgrRelation)
  : SMgrRelation := mkSMgrRelation (smgr_rnode reln) v.

(** [neon_start_unlogged_build]: the relation as the call leaves it.
    [unlogged_build_rel] points to that relation, so it sees the change of
    its persistence. [smgrnblocks] reaches [neon_nblocks] through the
    [neon_smgr] table. *)
Definition neon_start_unlogged_build (env : Env) (fuel : nat)
  (reln : SMgrRelation) (b : Backend) : Result SMgrRelation * Backend :=
  if phase_in_progress (unlogged_build_phase (build b))
  then (Fail unlogged_build_already_in_progress, b)
  else
    match classify_persistence reln with
    | PersistenceUnknown => (Fail cannot_call_smgr_start_unlogged_build, b)
    | PersistencePermanent =>
        let+ (n_blocks, b) :=
          in_world (neon_nblocks env fuel reln MAIN_FORKNUM) b in
        if negb (n_blocks =? 0) then (Fail index_is_not_empty, b)
        else
          let reln := set_smgr_relpersistence RELPERSISTENCE_UNLOGGED reln in
          let b :=
            set_build (mkUnloggedBuild (Some reln) UNLOGGED_BUILD_PHASE_1) b in
          (Ok reln, md_call (MdCreate (smgr_rnode reln) MAIN_FORKNUM false) b)
    | PersistenceLocal =>
        (Ok reln,
         set_build (mkUnloggedBuild (Some reln) UNLOGGED_BUILD_NOT_PERMANENT)
           b)
    | PersistenceOther => (Inner ERROR unknown_relpersistence, b)
    end.

Definition neon_finish_unlogged_build_phase_1 (reln : SMgrRelation)
  (b : Backend) : Backend :=
  match unlogged_build_phase (build b) with
  | UNLOGGED_BUILD_NOT_PERMANENT => b
  | _ =>
      set_build (mkUnloggedBuild (unlogged_build_rel (build b))
                   UNLOGGED_BUILD_PHASE_2) b
  end.

(** The loop of [neon_end_unlogged_build] over the forks, from [forknum]
    up to [MAX_FORKNUM]. *)
Fixpoint end_build_forks (n : nat) (reln : SMgrRelation) (forknum : Z)
  (b : Backend) : Backend :=
  match n with
  | O => b
  | S n' =>
      if forknum <=? MAX_FORKNUM then
        let rn := smgr_rnode reln in
        let b := on_world (forget_cached_relsize rn forknum) b in
        let b := md_call (MdClose rn forknum) b in
        let b := md_call (MdUnlink rn InvalidBackendId forknum true) b in
        end_build_forks n' reln (forknum + 1) b
      else b
  end.

Definition neon_end_unlogged_build (reln : SMgrRelation) (b : Backend)
  : SMgrRelation * Backend :=
  let '(reln, b) :=
    match unlogged_build_phase (build b) with
    | UNLOGGED_BUILD_NOT_PERMANENT => (reln, b)
    | _ =>
        let reln := set_smgr_relpersistence RELPERSISTENCE_PERMANENT reln in
        (reln, end_build_forks (Z.to_nat (MAX_FORKNUM + 1)) reln 0 b)
    end in
  (reln, set_build (mkUnloggedBuild None UNLOGGED_BUILD_NOT_IN_PROGRESS) b).

(** [AtEOXact_neon] on the statics of the backend. *)
Definition at_end_of_xact (event : XactEvent) (b : Backend)
  : Exit unit * Backend :=
  let '(r, g) := AtEOXact_neon event (build b) in (r, set_build g b).

(** ** More invariants of the pipeline state *)

(** What the asserts of the file add to [pipeline_wf]: the output is flushed
    at least as far as responses have been received, a slot in use records
    its own ring index, and a slot with a response received holds that
    response. *)
Record pipeline_ext (p : PrefetchState) : Prop := mk_pipeline_ext {
  ext_flush : ring_receive p <= ring_flush p /\ ring_flush p <= ring_unused p;
  ext_index : forall k, ring_last p <= k < ring_unused p ->
    status (GetPrfSlot p k) <> PRFS_UNUSED ->
    my_ring_index (GetPrfSlot p k) = k;
  ext_response : forall k, ring_last p <= k < ring_receive p ->
    status (GetPrfSlot p k) = PRFS_RECEIVED ->
    response (GetPrfSlot p k) <> None
}.

(** The oldest slot of a non-empty ring is in use: [ring_last] is never held
    back by a slot that has been retired. *)
Definition trimmed (p : PrefetchState) : Prop :=
  ring_last p < ring_unused p ->
  status (GetPrfSlot p (ring_last p)) <> PRFS_UNUSED.

Definition pipeline_ok (p : PrefetchState) : Prop :=
  pipeline_wf p /\ pipeline_ext p /\ trimmed p.

(** The slot the tag index has for a tag. *)
Definition buffered (p : PrefetchState) (tag : BufferTag)
  : option PrefetchRequest :=
  (fun pos => prf_buffer p !!! pos) <$> prf_hash p !! tag.

(** What a prefetch slot holds, apart from where it sits in the ring. *)
Definition slot_content (slot : PrefetchRequest)
  : BufferTag * Z * option NeonResponse * PrefetchStatus :=
  (buftag slot, effective_request_lsn slot, response slot, status slot).

(** What the operations that retire slots, wait for responses or drop
    requests guarantee between the state they find and the state they
    leave: the ring keeps its size and its head, its tail and its receive
    pointer only move forward, no tag enters the index, a tag that stays
    in the index keeps its request LSN, and the slots beyond the head are
    not touched. *)
Record retires (p p' : PrefetchState) : Prop := mk_retires {
  rt_size : readahead_buffer_size p' = readahead_buffer_size p;
  rt_unused : ring_unused p' = ring_unused p;
  rt_last : ring_last p <= ring_last p';
  rt_receive : ring_receive p <= ring_receive p';
  rt_absent : forall t, prf_hash p !! t = None -> prf_hash p' !! t = None;
  rt_kept : forall t slot', buffered p' t = Some slot' ->
    exists slot, buffered p t = Some slot /\
      buftag slot' = buftag slot /\
      effective_request_lsn slot' = effective_request_lsn slot;
  rt_outside : forall k,
    ring_unused p <= k < ring_last p + readahead_buffer_size p ->
    GetPrfSlot p' k = GetPrfSlot p k
}.

(** What the second loop of the compaction has achieved when it stops. *)
Definition move_loop_post (p : PrefetchState) (empty n_moved : Z)
  (r : PrefetchState * Z) : Prop :=
  let '(p', m') := r in
  pipeline_wf p' /\ pipeline_ext p' /\ retires p p' /\
  (forall t, slot_content <$> buffered p' t = slot_content <$> buffered p t) /\
  ring_last p' = ring_last p /\ ring_receive p' = ring_receive p /\
  ring_flush p' = ring_flush p /\
  n_requests_inflight p' = n_requests_inflight p /\
  n_moved <= m' /\ (m' = n_moved -> p' = p) /\
  exists empty', ring_last p <= empty' <= empty /\
    (forall k, ring_last p <= k <= empty' ->
       status (GetPrfSlot p' k) = PRFS_UNUSED) /\
    (forall k, empty' < k < ring_receive p ->
       status (GetPrfSlot p' k) <> PRFS_UNUSED).

(** The parts of the world that only the adaptor surface writes: a pair of
    worlds that agree on them, the second no earlier on the transport than
    the first. *)
Definition quiet (w w' : World) : Prop :=
  prefetch_lsn w' = prefetch_lsn w /\
  prefetch_hits w' = prefetch_hits w /\
  prefetch_misses w' = prefetch_misses w /\
  prefetch_expired w' = prefetch_expired w /\
  prefetch_duplicates w' = prefetch_duplicates w /\
  relsize_cache w' = relsize_cache w /\
  xlog_insert w' = xlog_insert w /\
  (ps_clock w <= ps_clock w')%nat.

(** Waiting for responses and retiring slots call no service but the
    transport. *)
Definition pipeline_only (w w' : World) : Prop :=
  quiet w w' /\ trace w' = trace w.

(** A slot once its response has arrived. *)
Definition received_with (resp : NeonResponse) (slot : PrefetchRequest)
  : PrefetchRequest := set_response (Some resp) (set_status PRFS_RECEIVED slot).

(** What [prefetch_read] does to the pipeline when the response [resp]
    arrives for the slot at [ring_receive]. *)
Definition receive_into (resp : NeonResponse) (p : PrefetchState)
  : PrefetchState :=
  let k := ring_receive p in
  let p := set_n_responses_buffered (n_responses_buffered p + 1) p in
  let p := set_n_requests_inflight (n_requests_inflight p - 1) p in
  let p := set_ring_receive (uint64 (ring_receive p + 1)) p in
  SetPrfSlot p k (received_with resp (GetPrfSlot p k)).

(** The pipeline has nothing in flight and nothing unflushed. *)
Definition drained (p : PrefetchState) : Prop :=
  ring_receive p = ring_unused p /\ ring_flush p = ring_unused p /\
  n_requests_inflight p = 0.

(** What a wait that failed for the ring index [k] has done: the connection
    was lost, the requests in flight have been dropped, that of [k] and
    those after it among them. *)
Definition dropped_from (k : Z) (p p' : PrefetchState) : Prop :=
  ring_receive p <= k /\ drained p' /\
  (forall j, k <= j < ring_unused p ->
     prf_hash p' !! buftag (GetPrfSlot p j) = None) /\
  (ring_last p = k -> k < ring_unused p -> ring_last p < ring_last p').

(** What a wait that succeeded for the ring index [k] has done to the
    pipeline [p] found by a backend whose transport stood at [clock], and
    stands at [clock'] afterwards: the slots from [ring_receive] up to [k]
    hold the last responses received, in the order of the requests, that
    of [k] being the last one; nothing else has changed but the receive
    pointer. *)
Definition waited_for (env : Env) (clock clock' : nat) (k : Z)
  (p p' : PrefetchState) : Prop :=
  prf_hash p' = prf_hash p /\ ring_last p' = ring_last p /\
  ring_unused p' = ring_unused p /\
  ring_receive p' = Z.max (ring_receive p) (k + 1) /\
  readahead_buffer_size p' = readahead_buffer_size p /\
  forall j, ring_last p <= j < ring_last p + readahead_buffer_size p ->
    if decide (ring_receive p <= j <= k) then
      exists resp, (clock + Z.to_nat (k + 1 - j) <= clock')%nat /\
        ps_receive env (clock' - Z.to_nat (k + 1 - j))%nat = Some resp /\
        GetPrfSlot p' j = received_with resp (GetPrfSlot p j)
    else GetPrfSlot p' j = GetPrfSlot p j.

(** What [prefetch_do_request] does to the pipeline once the request of the
    slot at [ring_index] has been accepted by the transport. *)
Definition enqueue_request (ring_index : Z) (p : PrefetchState)
  : PrefetchState :=
  let p := set_n_requests_inflight (n_requests_inflight p + 1) p in
  let p := set_n_unused (n_unused p - 1) p in
  let p := set_ring_unused (uint64 (ring_unused p + 1)) p in
  let p := SetPrfSlot p ring_index
             (set_status PRFS_REQUESTED (GetPrfSlot p ring_index)) in
  set_prf_hash
    (fst (prfh_insert (prf_hash p) (buftag (GetPrfSlot p ring_index))
            (slot_pos p ring_index))) p.

(** The slot at [ring_unused] is ready to take the request of a tag. *)
Definition slot_ready (tag : BufferTag) (p : PrefetchState) : Prop :=
  pipeline_ok p /\
  ring_unused p - ring_last p < readahead_buffer_size p /\
  ring_unused p + 1 < 2 ^ 64 /\
  prf_hash p !! tag = None /\
  status (GetPrfSlot p (ring_unused p)) = PRFS_UNUSED /\
  buftag (GetPrfSlot p (ring_unused p)) = tag /\
  my_ring_index (GetPrfSlot p (ring_unused p)) = ring_unused p.

(** The request of [tag] sits in the slot of the ring index [u], waiting
    for its response. *)
Definition registered_at (tag : BufferTag) (u : Z) (p : PrefetchState)
  : Prop :=
  ring_last p <= u < ring_unused p /\
  prf_hash p !! tag = Some (slot_pos p u) /\
  buftag (GetPrfSlot p u) = tag /\
  my_ring_index (GetPrfSlot p u) = u.

(** The choice of LSN at the head of [prefetch_do_request] for the block
    [tag]: the [latest] flag and the LSN of the request, the LSN recorded in
    the slot, and the world once they are known. *)
Definition choose_request_lsn (env : Env) (tag : BufferTag)
  (force_latest : option bool) (force_lsn : option Z) (w : World)
  : bool * Z * Z * World :=
  match force_lsn, force_latest with
  | Some lsn, Some latest => (latest, lsn, lsn, w)
  | _, _ =>
      let '(latest, lsn, w) :=
        neon_get_request_lsn env (rnode tag) (forkNum tag) (blockNum tag) w in
      let w := set_prefetch_lsn (Z.max (prefetch_lsn w) lsn) w in
      (latest, lsn, prefetch_lsn w, w)
  end.

(** The slot that [prefetch_register_buffer] prepares at [ring_unused]. *)
Definition prepare_slot (tag : BufferTag) (p : PrefetchState)
  : PrefetchState :=
  SetPrfSlot p (ring_unused p)
    (set_my_ring_index (ring_unused p)
       (set_buftag tag (GetPrfSlot p (ring_unused p)))).

(** The outcome of a registration that took the slot of the ring index
    [u], by a backend whose transport stood at [clock]: the request sits in
    the ring, waiting for its response, or the flush that follows the
    request failed and took it down with everything else in flight. *)
Definition registered_or_dropped (env : Env) (clock : nat) (tag : BufferTag)
  (u : Z) (p : PrefetchState) : Prop :=
  (registered_at tag u p /\ status (GetPrfSlot p u) = PRFS_REQUESTED) \/
  (0 < flush_every_n_requests env /\
   (exists c, (clock <= c)%nat /\ ps_flush env c = false) /\
   drained p /\ prf_hash p !! tag = None).

(** The end of [neon_read_at_lsn]: the response found in the slot is
    turned into the page or into an error. *)
Definition read_finish (rn : RelFileNode) (forkNum_ blkno : Z)
  (found : nat * Z) (w : World) : Exit (list Z) * World :=
  let slot := prf_buffer (MyPState w) !!! fst found in
  match response slot with
  | Some (NeonGetPageResponse page) =>
      let w := emit (EvLfcWrite rn forkNum_ blkno page) w in
      let w := on_MyPState (prefetch_set_unused (snd found)) w in
      let w := on_MyPState prefetch_cleanup_trailing_unused w in
      (Return page, w)
  | Some (NeonErrorResponse _) => (Raise ERROR could_not_read_block, w)
  | Some _ => (Raise ERROR unexpected_response, w)
  | None => (Raise PANIC unexpected_response, w)
  end.

(** What a read that had to wait leaves behind, seen from the world [w1]
    in which the wait for the ring index [k] began. *)
Definition read_outcome (env : Env) (rn : RelFileNode) (forkNum_ blkno : Z)
  (k : Z) (w1 : World) (r : Exit (list Z) * World) : Prop :=
  let p' := MyPState (snd r) in
  pipeline_ok p' /\
  prefetch_hits (snd r) = prefetch_hits w1 /\
  prefetch_misses (snd r) = prefetch_misses w1 /\
  ring_unused p' = ring_unused (MyPState w1) /\
  ring_receive p' = k + 1 /\
  (ps_clock w1 + Z.to_nat (k + 1 - ring_receive (MyPState w1))
   <= ps_clock (snd r))%nat /\
  exists resp,
    ps_receive env (Nat.pred (ps_clock (snd r))) = Some resp /\
    match resp with
    | NeonGetPageResponse page =>
        fst r = Return page /\
        trace (snd r) = trace w1 ++ [EvLfcWrite rn forkNum_ blkno page] /\
        prf_hash p' !! mkBufferTag rn forkNum_ blkno = None
    | NeonErrorResponse _ =>
        fst r = Raise ERROR could_not_read_block /\ trace (snd r) = trace w1
    | _ =>
        fst r = Raise ERROR unexpected_response /\ trace (snd r) = trace w1
    end.

(** [pipeline_ext] with its quantifiers bounded by the window, and the
    whole of [pipeline_ok] in a form that can be decided on a given
    state. *)
Definition pipeline_ext_check (p : PrefetchState) : Prop :=
  (ring_receive p <= ring_flush p /\ ring_flush p <= ring_unused p) /\
  Forall (fun k => status (GetPrfSlot p k) <> PRFS_UNUSED ->
                   my_ring_index (GetPrfSlot p k) = k)
    (seqZ (ring_last p) (ring_unused p - ring_last p)) /\
  Forall (fun k => status (GetPrfSlot p k) = PRFS_RECEIVED ->
                   is_Some (response (GetPrfSlot p k)))
    (seqZ (ring_last p) (ring_receive p - ring_last p)).

Definition pipeline_ok_check (p : PrefetchState) : Prop :=
  pipeline_wf_check p /\ pipeline_ext_check p /\ trimmed p.

#[global] Instance pipeline_ext_check_dec p : Decision (pipeline_ext_check p).
Proof. unfold pipeline_ext_check. apply _. Defined.

#[global] Instance pipeline_ok_check_dec p : Decision (pipeline_ok_check p).
Proof. unfold pipeline_ok_check, trimmed. apply _. Defined.

(** More runs of the pipeline on the sample environment: the three
    responses received, in a world of their own; the same with the oldest
    slot retired and [ring_last] not yet advanced; and with the middle slot
    cleared, before any compaction. *)
Definition three_received_world : World := sample_world three_received.

Definition oldest_retired : PrefetchState :=
  set_ring_last 0 (prefetch_set_unused 0 three_received).

Definition middle_retired : PrefetchState :=
  prefetch_clear_slot 1 three_received.

(** ** The parts of [readahead_buffer_resize] *)

(** The wait at its head. *)
Definition resize_wait (env : Env) (newsize : Z) (w : World) : World :=
  if newsize <? n_requests_inflight (MyPState w)
  then snd (prefetch_wait_for env
              (uint64 (ring_unused (MyPState w) - newsize)) w)
  else w.

(** The copy of one slot in use into the position [nfree] of the new
    buffer. *)
Definition resize_copy_one (slot : PrefetchRequest) (nfree : Z)
  (newP : PrefetchState) : PrefetchState :=
  let newslot := set_my_ring_index nfree slot in
  let newP :=
    set_prf_buffer (<[Z.to_nat nfree := newslot]> (prf_buffer newP)) newP in
  let newP :=
    set_prf_hash (fst (prfh_insert (prf_hash newP) (buftag newslot)
                         (Z.to_nat nfree))) newP in
  let newP := resize_account (status slot) newP in
  set_n_unused (n_unused newP - 1) newP.

(** What the first loop of [readahead_buffer_resize] has built in the new
    state of size [N] when it has gone through the slots of the old ring
    from [e] upwards and [nfree] positions are left: the positions from
    [nfree] on hold the slots in use among those, in their order, the
    requests in flight at the top, and the tag index lists them. *)
Record resize_copied (old : PrefetchState) (N e nfree : Z)
  (newP : PrefetchState) : Prop := mk_resize_copied {
  rc_len : readahead_buffer_size newP = N;
  rc_nfree : 0 <= nfree <= N;
  rc_e : ring_last old <= e <= ring_unused old;
  rc_lower : N - (ring_unused old - e) <= nfree;
  rc_dense : ring_receive old <= e -> nfree = N - (ring_unused old - e);
  rc_unused : ring_unused newP = N;
  rc_flush : ring_flush newP = N;
  rc_last : ring_last newP = nfree;
  rc_receive : ring_receive newP
               = N - (ring_unused old - Z.max e (ring_receive old));
  rc_receive_ge : nfree <= ring_receive newP;
  rc_inflight : n_requests_inflight newP
                = ring_unused old - Z.max e (ring_receive old);
  rc_free : forall j, 0 <= j < nfree ->
    prf_buffer newP !!! Z.to_nat j = zero_slot;
  rc_slot : forall j, nfree <= j < N ->
    exists i, e <= i < ring_unused old /\
      status (GetPrfSlot old i) <> PRFS_UNUSED /\
      prf_buffer newP !!! Z.to_nat j = set_my_ring_index j (GetPrfSlot old i) /\
      (ring_receive old <= i <-> ring_receive newP <= j);
  rc_inflight_slot : forall i,
    Z.max e (ring_receive old) <= i < ring_unused old ->
    prf_buffer newP !!! Z.to_nat (N - (ring_unused old - i))
    = set_my_ring_index (N - (ring_unused old - i)) (GetPrfSlot old i);
  rc_all : forall i, e <= i < ring_unused old ->
    status (GetPrfSlot old i) <> PRFS_UNUSED ->
    exists j, nfree <= j < N /\
      prf_buffer newP !!! Z.to_nat j = set_my_ring_index j (GetPrfSlot old i);
  rc_hash_sound : forall t pos, prf_hash newP !! t = Some pos ->
    exists j, nfree <= j < N /\ pos = Z.to_nat j /\
      buftag (prf_buffer newP !!! pos) = t;
  rc_hash_complete : forall j, nfree <= j < N ->
    prf_hash newP !! buftag (prf_buffer newP !!! Z.to_nat j)
    = Some (Z.to_nat j)
}.

(** ** What went to the page server *)

(** The requests that the backend has sent to the page server, oldest
    first, as the record of outside calls has them. *)
Definition requests_sent (tr : list Event) : list NeonRequest :=
  omap (fun e => match e with
                 | EvPageServerSend req => Some req
                 | _ => None
                 end) tr.

(** * Properties *)

(** ** The transaction hook of the unlogged build *)

(** C7. At abort, [AtEOXact_neon] resets the unlogged-build state to
    [UNLOGGED_BUILD_NOT_IN_PROGRESS] and returns without an error, whatever
    the state was. At commit or prepare it raises the internal error exactly
    when a build is in progress, and the state has been reset by the time the
    error is raised; with no build in progress it changes nothing. *)
Theorem AtEOXact_neon_resets (event : XactEvent) (g : UnloggedBuild) :
  (is_abort_event event = true ->
   AtEOXact_neon event g
   = (Return tt, mkUnloggedBuild None UNLOGGED_BUILD_NOT_IN_PROGRESS)) /\
  (is_abort_event event = false ->
   (unlogged_build_phase g <> UNLOGGED_BUILD_NOT_IN_PROGRESS <->
    exists lvl site g', AtEOXact_neon event g = (Raise lvl site, g')) /\
   (forall lvl site g', AtEOXact_neon event g = (Raise lvl site, g') ->
    lvl = ERROR /\ site = unlogged_build_not_finished /\
    g' = mkUnloggedBuild None UNLOGGED_BUILD_NOT_IN_PROGRESS) /\
   (unlogged_build_phase g = UNLOGGED_BUILD_NOT_IN_PROGRESS ->
    AtEOXact_neon event g = (Return tt, g))).
Proof.
  split; intros Hev.
  - destruct event; simpl in Hev; try discriminate; reflexivity.
  - assert (Hcommit : AtEOXact_neon event g =
      if phase_in_progress (unlogged_build_phase g)
      then (Raise ERROR unlogged_build_not_finished,
            mkUnloggedBuild None UNLOGGED_BUILD_NOT_IN_PROGRESS)
      else (Return tt, g)).
    { destruct event; simpl in Hev; try discriminate; reflexivity. }
    rewrite Hcommit. clear Hcommit.
    destruct (unlogged_build_phase g) eqn:Hph; simpl;
      repeat split; try congruence; eauto;
      try (intros (lvl & site & g' & H); discriminate);
      try (intros lvl site g' H; injection H; intros; subst; auto).
Qed.

Lemma AtEOXact_neon_resets_witness :
  AtEOXact_neon XACT_EVENT_ABORT
    (mkUnloggedBuild (Some sample_reln) UNLOGGED_BUILD_PHASE_2)
  = (Return tt, mkUnloggedBuild None UNLOGGED_BUILD_NOT_IN_PROGRESS) /\
  AtEOXact_neon XACT_EVENT_PRE_COMMIT
    (mkUnloggedBuild None UNLOGGED_BUILD_NOT_IN_PROGRESS)
  = (Return tt, mkUnloggedBuild None UNLOGGED_BUILD_NOT_IN_PROGRESS).
Proof.
  split.
  - apply (proj1 (AtEOXact_neon_resets XACT_EVENT_ABORT
        (mkUnloggedBuild (Some sample_reln) UNLOGGED_BUILD_PHASE_2))).
    reflexivity.
  - apply (proj2 (AtEOXact_neon_resets XACT_EVENT_PRE_COMMIT
        (mkUnloggedBuild None UNLOGGED_BUILD_NOT_IN_PROGRESS)));
      reflexivity.
Defined.

(** ** The eviction WAL-logger *)

(** C5. With no force, a fork other than the free-space and visibility
    maps, WAL insertion allowed, no shutdown pending and a page whose LSN is
    zero, [neon_wallog_page] ignores a page that [PageIsNew] or that equals a
    freshly initialised page byte for byte: it returns normally, writes no
    WAL record and only passes the zero LSN on to
    [SetLastWrittenLSNForBlock]. For every other page it panics. *)
Theorem zero_lsn_eviction (env : Env) (reln : SMgrRelation)
  (forknum blocknum : Z) (buffer : list Z) (w : World) :
  ShutdownRequestPending env = false ->
  XLogInsertAllowed env = true ->
  forknum <> FSM_FORKNUM ->
  forknum <> VISIBILITYMAP_FORKNUM ->
  PageGetLSN env buffer = InvalidXLogRecPtr ->
  (PageIsNew env buffer = true \/ buffer = PageInit env ->
   neon_wallog_page env reln forknum blocknum buffer false w
   = (Return tt,
      emit (EvSetLastWrittenLSNForBlock InvalidXLogRecPtr (smgr_rnode reln)
              forknum blocknum) w)) /\
  (PageIsNew env buffer = false -> buffer <> PageInit env ->
   neon_wallog_page env reln forknum blocknum buffer false w
   = (Raise PANIC evicted_with_zero_lsn, w)).
Proof.
  intros Hshut Hins Hfsm Hvm Hlsn.
  unfold neon_wallog_page, PageIsEmptyHeapPage.
  rewrite Hshut, Hins, Hlsn. simpl.
  apply Z.eqb_neq in Hfsm. apply Z.eqb_neq in Hvm.
  rewrite Hfsm, Hvm. simpl.
  split.
  - intros [Hnew | Hinit].
    + rewrite Hnew. reflexivity.
    + destruct (PageIsNew env buffer); [reflexivity |].
      rewrite bool_decide_eq_true_2 by exact Hinit. reflexivity.
  - intros Hnew Hinit. rewrite Hnew.
    rewrite bool_decide_eq_false_2 by exact Hinit. reflexivity.
Qed.

Lemma zero_lsn_eviction_witness :
  neon_wallog_page sample_env sample_reln MAIN_FORKNUM 3 zero_page false
    (sample_world (neon_init 16))
  = (Return tt,
     emit (EvSetLastWrittenLSNForBlock 0 sample_rnode MAIN_FORKNUM 3)
       (sample_world (neon_init 16))) /\
  neon_wallog_page sample_env sample_reln MAIN_FORKNUM 3 unlogged_page false
    (sample_world (neon_init 16))
  = (Raise PANIC evicted_with_zero_lsn, sample_world (neon_init 16)).
Proof.
  assert (Hfsm : MAIN_FORKNUM <> FSM_FORKNUM) by discriminate.
  assert (Hvm : MAIN_FORKNUM <> VISIBILITYMAP_FORKNUM) by discriminate.
  split.
  - apply (proj1 (zero_lsn_eviction sample_env sample_reln MAIN_FORKNUM 3
                    zero_page (sample_world (neon_init 16))
                    eq_refl eq_refl Hfsm Hvm eq_refl)).
    left. reflexivity.
  - apply (proj2 (zero_lsn_eviction sample_env sample_reln MAIN_FORKNUM 3
                    unlogged_page (sample_world (neon_init 16))
                    eq_refl eq_refl Hfsm Hvm eq_refl)).
    + reflexivity.
    + discriminate.
Defined.

(** ** The codec *)

Lemma uint8_small x : 0 <= x < 2 ^ 8 -> uint8 x = x.
Proof. intros H. unfold uint8. apply Z.mod_small. exact H. Qed.

Lemma tag_of_byte_value env t :
  tag_values_ok env -> tag_of_byte env (tag_value env t) = Some t.
Proof.
  intros [_ Hinj].
  assert (Hne : forall a b, a <> b -> (tag_value env a =? tag_value env b) = false).
  { intros a b Hab. apply Z.eqb_neq. intros E. apply Hab, Hinj, E. }
  unfold tag_of_byte, all_message_tags.
  destruct t; simpl;
    repeat (rewrite Z.eqb_refl || rewrite Hne by discriminate);
    reflexivity.
Qed.

Lemma pack_request_shape env r :
  exists body,
    nm_pack_request env (MsgRequest r)
    = Return (uint8 (tag_value env (request_tag r)) :: body).
Proof. destruct r; simpl; eexists; reflexivity. Qed.

Lemma unpack_request_tag env t s :
  tag_values_ok env -> is_request_tag t = true ->
  nm_unpack_response env (tag_value env t :: s)
  = (Raise ERROR unexpected_message_tag, s).
Proof.
  intros Hok Ht. unfold nm_unpack_response. simpl.
  rewrite tag_of_byte_value by exact Hok.
  destruct t; simpl in Ht; try discriminate; reflexivity.
Qed.

Lemma getmsgbytes_app s n bs rest extra :
  pq_getmsgbytes s n = (Return bs, rest) ->
  pq_getmsgbytes (s ++ extra) n = (Return bs, rest ++ extra).
Proof.
  unfold pq_getmsgbytes. rewrite length_app.
  destruct (Nat.ltb_spec (length s) n) as [Hlt | Hge]; [discriminate |].
  intros H. injection H as <- <-.
  destruct (Nat.ltb_spec (length s + length extra) n) as [Hlt | _]; [lia |].
  rewrite take_app_le, drop_app_le by lia. reflexivity.
Qed.

Lemma split_at_nul_app s str rest extra :
  split_at_nul s = Some (str, rest) ->
  split_at_nul (s ++ extra) = Some (str, rest ++ extra).
Proof.
  revert str rest. induction s as [| b s IH]; intros str rest; simpl.
  - discriminate.
  - destruct (b =? 0).
    + intros H. injection H as <- <-. reflexivity.
    + destruct (split_at_nul s) as [[str' rest'] |]; [| discriminate].
      intros H. injection H as <- <-.
      rewrite (IH str' rest' eq_refl). reflexivity.
Qed.

Lemma finish_response_inv resp s r rest :
  finish_response resp s = (Return r, rest) -> r = resp /\ s = [] /\ rest = [].
Proof.
  unfold finish_response. destruct s; simpl; intros H.
  - injection H as <- <-. auto.
  - discriminate.
Qed.

Lemma finish_response_trailing resp extra :
  extra <> [] ->
  fst (finish_response resp ([] ++ extra)) = Raise ERROR invalid_message_format.
Proof. destruct extra; [congruence | reflexivity]. Qed.

Lemma unpack_response_exact env s resp rest extra :
  nm_unpack_response env s = (Return resp, rest) ->
  rest = [] /\
  (extra <> [] ->
   fst (nm_unpack_response env (s ++ extra))
   = Raise ERROR invalid_message_format).
Proof.
  unfold nm_unpack_response. intros H.
  destruct s as [| b s]; simpl in H; [discriminate |]. simpl.
  destruct (tag_of_byte env b) as [[] |]; try discriminate H.
  - destruct s as [| e s]; simpl in H; [discriminate |].
    apply finish_response_inv in H as (_ & -> & ->). simpl.
    split; [reflexivity |]. apply finish_response_trailing.
  - unfold pq_getmsgint4 in *.
    destruct (pq_getmsgbytes s 4) as [[bs | |] r] eqn:E; simpl in H;
      try discriminate H.
    apply finish_response_inv in H as (_ & -> & ->).
    rewrite (getmsgbytes_app _ _ _ _ extra E). simpl.
    split; [reflexivity |]. apply finish_response_trailing.
  - destruct (pq_getmsgbytes s (BLCKSZ env)) as [[bs | |] r] eqn:E;
      simpl in H; try discriminate H.
    apply finish_response_inv in H as (_ & -> & ->).
    rewrite (getmsgbytes_app _ _ _ _ extra E). simpl.
    split; [reflexivity |]. apply finish_response_trailing.
  - unfold pq_getmsgrawstring in *.
    destruct (split_at_nul s) as [[str r] |] eqn:E; simpl in H;
      try discriminate H.
    apply finish_response_inv in H as (_ & -> & ->).
    rewrite (split_at_nul_app _ _ _ extra E). simpl.
    split; [reflexivity |]. apply finish_response_trailing.
  - unfold pq_getmsgint64 in *.
    destruct (pq_getmsgbytes s 8) as [[bs | |] r] eqn:E; simpl in H;
      try discriminate H.
    apply finish_response_inv in H as (_ & -> & ->).
    rewrite (getmsgbytes_app _ _ _ _ extra E). simpl.
    split; [reflexivity |]. apply finish_response_trailing.
Qed.

Lemma be_value_int32 x :
  be_value [uint8 (x / 2 ^ 24); uint8 (x / 2 ^ 16); uint8 (x / 2 ^ 8); uint8 x]
  = x mod 2 ^ 32.
Proof.
  unfold be_value, uint8. cbn [fold_left].
  change (2 ^ 24) with 16777216. change (2 ^ 16) with 65536.
  change (2 ^ 8) with 256. change (2 ^ 32) with 4294967296.
  Z.div_mod_to_equations. lia.
Qed.

Lemma be_value_app4 hi b3 b2 b1 b0 :
  be_value (hi ++ [b3; b2; b1; b0])
  = be_value hi * 2 ^ 32 + be_value [b3; b2; b1; b0].
Proof.
  unfold be_value. rewrite fold_left_app. cbn [fold_left].
  change (2 ^ 32) with 4294967296. lia.
Qed.

Lemma be_value_int64 x :
  be_value [uint8 (x / 2 ^ 32 / 2 ^ 24); uint8 (x / 2 ^ 32 / 2 ^ 16);
            uint8 (x / 2 ^ 32 / 2 ^ 8); uint8 (x / 2 ^ 32);
            uint8 (x / 2 ^ 24); uint8 (x / 2 ^ 16); uint8 (x / 2 ^ 8);
            uint8 x]
  = x mod 2 ^ 64.
Proof.
  change [uint8 (x / 2 ^ 32 / 2 ^ 24); uint8 (x / 2 ^ 32 / 2 ^ 16);
          uint8 (x / 2 ^ 32 / 2 ^ 8); uint8 (x / 2 ^ 32);
          uint8 (x / 2 ^ 24); uint8 (x / 2 ^ 16); uint8 (x / 2 ^ 8);
          uint8 x]
    with ([uint8 (x / 2 ^ 32 / 2 ^ 24); uint8 (x / 2 ^ 32 / 2 ^ 16);
           uint8 (x / 2 ^ 32 / 2 ^ 8); uint8 (x / 2 ^ 32)]
          ++ [uint8 (x / 2 ^ 24); uint8 (x / 2 ^ 16); uint8 (x / 2 ^ 8);
              uint8 x]).
  rewrite be_value_app4, !be_value_int32.
  change (2 ^ 64) with (2 ^ 32 * 2 ^ 32).
  rewrite Z.rem_mul_r by lia. lia.
Qed.

Lemma bool_byte_back b : negb (uint8 (bool_byte b) =? 0) = b.
Proof. destruct b; reflexivity. Qed.

Lemma getmsgbytes_exact s : pq_getmsgbytes s (length s) = (Return s, []).
Proof.
  unfold pq_getmsgbytes. rewrite Nat.ltb_irrefl, firstn_all, skipn_all.
  reflexivity.
Qed.

Lemma split_at_nul_packed message rest :
  Forall (fun b => b <> 0) message ->
  split_at_nul (message ++ 0 :: rest) = Some (message, rest).
Proof.
  induction 1 as [| b message Hb _ IH]; simpl; [reflexivity |].
  destruct (Z.eqb_spec b 0) as [E | _]; [contradiction |].
  rewrite IH. reflexivity.
Qed.

(** What the decoder of section 6.1 makes of a packed request. *)
Lemma unpack_packed_request env r extra :
  tag_values_ok env -> request_in_range r ->
  exists bytes,
    nm_pack_request env (MsgRequest r) = Return bytes /\
    wire_unpack_request env (bytes ++ extra)
    = match extra with
      | [] => (Return r, [])
      | _ :: _ => (Raise ERROR invalid_message_format, extra)
      end.
Proof.
  intros Hok Hr.
  assert (Htag : forall t, tag_of_byte env (uint8 (tag_value env t)) = Some t).
  { intros t. rewrite uint8_small by apply Hok.
    apply tag_of_byte_value, Hok. }
  destruct r as [l x [s d n] f | l x [s d n] f | l x d | l x [s d n] f b];
    unfold request_in_range, rnode_in_range in Hr;
    cbn [spcNode dbNode relNode] in Hr;
    eexists; (split; [reflexivity |]);
    unfold pack_rnode, pq_sendint64, pq_sendint32, pq_sendbyte;
    cbn [app messageTag request_tag spcNode dbNode relNode];
    unfold wire_unpack_request; cbn [pq_getmsgbyte bindS]; rewrite Htag;
    unfold wire_getmsgint64, wire_getmsgrnode, pq_getmsgint4, pq_getmsgbytes;
    cbn [length Nat.ltb Nat.leb take drop bindS pq_getmsgbyte];
    rewrite ?be_value_int64, ?be_value_int32, bool_byte_back;
    rewrite ?Z.mod_small by lia;
    rewrite ?(uint8_small f) by lia;
    destruct extra; reflexivity.
Qed.

(** What [nm_unpack_response] makes of a response laid out as in section
    6.1. *)
Lemma unpack_packed_response env resp :
  tag_values_ok env -> response_in_range env resp ->
  nm_unpack_response env (wire_pack_response env resp) = (Return resp, []).
Proof.
  intros Hok Hr.
  assert (Htag : forall t, tag_of_byte env (uint8 (tag_value env t)) = Some t).
  { intros t. rewrite uint8_small by apply Hok.
    apply tag_of_byte_value, Hok. }
  destruct resp as [e | n | page | sz | message];
    cbn [response_in_range] in Hr;
    unfold wire_pack_response, nm_unpack_response, pq_sendint64, pq_sendint32,
      pq_sendbyte;
    cbn [app response_tag pq_getmsgbyte bindS]; rewrite Htag.
  - cbn [pq_getmsgbyte bindS]. rewrite bool_byte_back. reflexivity.
  - unfold pq_getmsgint4, pq_getmsgbytes.
    cbn [length Nat.ltb Nat.leb take drop bindS].
    rewrite be_value_int32, Z.mod_small by lia. reflexivity.
  - rewrite <- Hr, getmsgbytes_exact. reflexivity.
  - unfold pq_getmsgint64, pq_getmsgbytes.
    cbn [length Nat.ltb Nat.leb take drop bindS].
    rewrite be_value_int64.
    destruct (Z.ltb_spec (sz mod 2 ^ 64) (2 ^ 63)) as [Hlt | Hge];
      cbn [finish_response pq_getmsgend]; do 2 f_equal.
    + f_equal. destruct (Z.neg_nonneg_cases sz) as [Hneg | Hpos].
      * rewrite <- (Z.mod_add sz 1 (2 ^ 64)) in Hlt by lia.
        rewrite Z.mod_small in Hlt by lia. lia.
      * apply Z.mod_small. lia.
    + f_equal. destruct (Z.neg_nonneg_cases sz) as [Hneg | Hpos].
      * rewrite <- (Z.mod_add sz 1 (2 ^ 64)) by lia.
        rewrite Z.mod_small by lia. lia.
      * rewrite Z.mod_small in Hge by lia. lia.
  - unfold pq_getmsgrawstring.
    rewrite (split_at_nul_packed message [] Hr). reflexivity.
Qed.

(** C9. The codec against the wire layout of section 6.1. A request of any
    of the four kinds, with fields in the ranges of their C types, is
    packed by [nm_pack_request] into bytes from which the decoder of that
    layout gets the same request back, using the buffer up to its last
    byte; with any further bytes behind them the decoder raises the error
    of [pq_getmsgend]. The decoder of the file itself, [nm_unpack_response],
    refuses these bytes: it raises on a request tag. It decodes every
    response laid out as in section 6.1 to that response; whatever it
    decodes, it has used up the buffer to the last byte, and the same
    buffer followed by any further bytes raises the error of
    [pq_getmsgend]. [nm_pack_request] refuses to pack a response. *)
Theorem codec_round_trip_and_exact_consumption (env : Env) :
  tag_values_ok env ->
  (forall r, request_in_range r ->
     exists bytes,
       nm_pack_request env (MsgRequest r) = Return bytes /\
       wire_unpack_request env bytes = (Return r, []) /\
       (forall extra, extra <> [] ->
          wire_unpack_request env (bytes ++ extra)
          = (Raise ERROR invalid_message_format, extra)) /\
       fst (nm_unpack_response env bytes)
       = Raise ERROR unexpected_message_tag) /\
  (forall resp, response_in_range env resp ->
     nm_unpack_response env (wire_pack_response env resp)
     = (Return resp, [])) /\
  (forall s resp rest,
     nm_unpack_response env s = (Return resp, rest) ->
     rest = [] /\
     forall extra, extra <> [] ->
       fst (nm_unpack_response env (s ++ extra))
       = Raise ERROR invalid_message_format) /\
  (forall resp,
     nm_pack_request env (MsgResponse resp)
     = Raise ERROR unexpected_message_tag).
Proof.
  intros Hok. split; [| split; [| split]].
  - intros r Hr.
    destruct (unpack_packed_request env r [] Hok Hr) as (bytes & Hpack & Hdec).
    exists bytes. rewrite app_nil_r in Hdec.
    split; [exact Hpack |]. split; [exact Hdec |]. split.
    + intros extra Hne.
      destruct (unpack_packed_request env r extra Hok Hr)
        as (bytes' & Hpack' & Hdec').
      rewrite Hpack in Hpack'. injection Hpack' as <-.
      rewrite Hdec'. destruct extra; [congruence | reflexivity].
    + destruct (pack_request_shape env r) as [body Hbody].
      rewrite Hpack in Hbody. injection Hbody as ->.
      rewrite uint8_small by apply Hok.
      rewrite unpack_request_tag; [reflexivity | exact Hok |].
      destruct r; reflexivity.
  - intros resp. apply unpack_packed_response, Hok.
  - intros s resp rest H. split.
    + apply (unpack_response_exact env s resp rest [] H).
    + intros extra. apply (unpack_response_exact env s resp rest extra H).
  - intros resp. destruct resp; reflexivity.
Qed.

Lemma sample_tag_values_ok : tag_values_ok sample_env.
Proof.
  split.
  - intros t. destruct t; simpl; lia.
  - intros t1 t2. destruct t1, t2; simpl; intros H;
      first [reflexivity | discriminate H].
Qed.

Lemma codec_round_trip_and_exact_consumption_witness :
  (exists bytes,
     nm_pack_request sample_env
       (MsgRequest (NeonGetPageRequest true 256 sample_rnode 0 42))
     = Return bytes /\
     wire_unpack_request sample_env bytes
     = (Return (NeonGetPageRequest true 256 sample_rnode 0 42), [])) /\
  nm_unpack_response sample_env [101; 0; 0; 0; 42]
  = (Return (NeonNblocksResponse 42), []) /\
  fst (nm_unpack_response sample_env ([101; 0; 0; 0; 42] ++ [9]))
  = Raise ERROR invalid_message_format.
Proof.
  destruct (codec_round_trip_and_exact_consumption sample_env
              sample_tag_values_ok) as (Hreq & Hresp & Hexact & _).
  assert (Hrange : request_in_range
                     (NeonGetPageRequest true 256 sample_rnode 0 42))
    by (vm_compute; intuition discriminate).
  assert (Hdec : nm_unpack_response sample_env [101; 0; 0; 0; 42]
                 = (Return (NeonNblocksResponse 42), []))
    by (apply (Hresp (NeonNblocksResponse 42)); simpl; lia).
  split; [| split].
  - destruct (Hreq _ Hrange) as (bytes & Hpack & Hback & _).
    exists bytes. split; assumption.
  - exact Hdec.
  - apply (proj2 (Hexact _ _ _ Hdec)). discriminate.
Defined.

(** ** The record of outside calls only grows *)

Lemma trace_emit e w : trace (emit e w) = trace w ++ [e].
Proof. reflexivity. Qed.

Lemma trace_set_cached_relsize rn f n w :
  trace (set_cached_relsize rn f n w) = trace w.
Proof. reflexivity. Qed.

Lemma trace_update_cached_relsize rn f n w :
  trace (update_cached_relsize rn f n w) = trace w.
Proof.
  unfold update_cached_relsize.
  destruct (relsize_cache w !! _) as [old |]; [destruct (old <? n) |];
    reflexivity.
Qed.

Lemma trace_on_MyPState f w : trace (on_MyPState f w) = trace w.
Proof. reflexivity. Qed.

Lemma trace_page_server_flush env w :
  trace (snd (page_server_flush env w)) = trace w.
Proof. unfold page_server_flush. destruct (ps_flush env _); reflexivity. Qed.

Lemma trace_page_server_receive env w :
  trace (snd (page_server_receive env w)) = trace w.
Proof.
  unfold page_server_receive. destruct (ps_receive env _); reflexivity.
Qed.

Lemma trace_prefetch_read env k w :
  trace (snd (prefetch_read env k w)) = trace w.
Proof.
  unfold prefetch_read.
  pose proof (trace_page_server_receive env w) as H.
  destruct (page_server_receive env w) as [[resp |] w1]; simpl in *; exact H.
Qed.

Lemma trace_wait_loop env n k w :
  trace (snd (wait_loop env n k w)) = trace w.
Proof.
  revert w. induction n as [| n IH]; intros w; simpl; [reflexivity |].
  destruct (ring_receive (MyPState w) <=? k); [| reflexivity].
  pose proof (trace_prefetch_read env (ring_receive (MyPState w)) w) as H.
  destruct (prefetch_read env _ w) as [[|] w1]; simpl in *.
  - rewrite IH. exact H.
  - exact H.
Qed.

Lemma trace_prefetch_wait_for env k w :
  trace (snd (prefetch_wait_for env k w)) = trace w.
Proof.
  unfold prefetch_wait_for.
  destruct ((ring_flush (MyPState w) <=? k)
            && (ring_flush (MyPState w) <? ring_unused (MyPState w))).
  - pose proof (trace_page_server_flush env w) as H.
    destruct (page_server_flush env w) as [[|] w1]; simpl in *.
    + rewrite trace_wait_loop. exact H.
    + exact H.
  - apply trace_wait_loop.
Qed.

Lemma trace_consume_prefetch_responses env w :
  trace (consume_prefetch_responses env w) = trace w.
Proof.
  unfold consume_prefetch_responses.
  destruct (ring_receive (MyPState w) <? ring_unused (MyPState w));
    [apply trace_prefetch_wait_for | reflexivity].
Qed.

Lemma trace_page_server_send env req w :
  exists evs, trace (snd (page_server_send env req w)) = trace w ++ evs.
Proof.
  unfold page_server_send. destruct (ps_send env _); simpl.
  - exists [EvPageServerSend req]. reflexivity.
  - exists []. rewrite app_nil_r. reflexivity.
Qed.

Lemma trace_page_server_request env fuel req w :
  exists evs,
    trace (snd (page_server_request env fuel req w)) = trace w ++ evs.
Proof.
  revert w. induction fuel as [| fuel IH]; intros w; simpl.
  - exists []. rewrite app_nil_r. reflexivity.
  - destruct (trace_page_server_send env req w) as [evs1 H1].
    destruct (page_server_send env req w) as [[|] w1]; simpl in H1.
    + pose proof (trace_page_server_flush env w1) as H2.
      destruct (page_server_flush env w1) as [[|] w2]; simpl in H2.
      * set (w3 := consume_prefetch_responses env _).
        assert (H3 : trace w3 = trace w2).
        { unfold w3. rewrite trace_consume_prefetch_responses. reflexivity. }
        pose proof (trace_page_server_receive env w3) as H4.
        destruct (page_server_receive env w3) as [[resp |] w4]; simpl in *.
        -- exists evs1. congruence.
        -- destruct (IH w4) as [evs Hevs]. exists (evs1 ++ evs).
           rewrite Hevs, H4, H3, H2, H1, app_assoc. reflexivity.
      * destruct (IH w2) as [evs Hevs]. exists (evs1 ++ evs).
        rewrite Hevs, H2, H1, app_assoc. reflexivity.
    + destruct (IH w1) as [evs Hevs]. exists (evs1 ++ evs).
      rewrite Hevs, H1, app_assoc. reflexivity.
Qed.

Ltac solve_trace :=
  simpl; repeat (rewrite <- app_assoc; simpl); rewrite ?app_nil_r;
  reflexivity.

(** ** The redo filter *)

Section RedoFilter.
Context (env : Env) (fuel : nat) (record : XLogReaderState) (block_id : Z).
Context (tag : BufferTag).
Hypothesis Hnot_claimed : old_filter_claims env record block_id = false.
Hypothesis Htag : XLogRecGetBlockTag record block_id = Some tag.

Lemma redo_filter_trace w b w' :
  OidIsValid (dbNode (rnode tag)) = true ->
  neon_redo_read_buffer_filter env fuel record block_id w = (Return b, w') ->
  b = (BufTableLookup env tag <? 0) /\
  exists rest,
    trace w' =
      trace w
      ++ [EvLWLockAcquire tag;
          EvSetLastWrittenLSNForBlock (EndRecPtr record) (rnode tag)
            (forkNum tag) (blockNum tag)]
      ++ (if b then [EvLfcEvict (rnode tag) (forkNum tag) (blockNum tag)]
          else [])
      ++ [EvLWLockRelease tag] ++ rest.
Proof.
  intros Hvalid. unfold neon_redo_read_buffer_filter.
  rewrite Hnot_claimed, Htag, Hvalid. simpl.
  set (w1 := emit (EvLWLockRelease tag) _).
  assert (Hw1 : trace w1 =
      trace w
      ++ [EvLWLockAcquire tag;
          EvSetLastWrittenLSNForBlock (EndRecPtr record) (rnode tag)
            (forkNum tag) (blockNum tag)]
      ++ (if BufTableLookup env tag <? 0
          then [EvLfcEvict (rnode tag) (forkNum tag) (blockNum tag)]
          else [])
      ++ [EvLWLockRelease tag]).
  { unfold w1. destruct (BufTableLookup env tag <? 0); solve_trace. }
  clearbody w1.
  destruct (get_cached_relsize w1 (rnode tag) (forkNum tag)) as [relsize |].
  - destruct (relsize <? uint32 (blockNum tag + 1)); intros H;
      injection H as <- <-; (split; [reflexivity |]).
    + eexists [_]. rewrite trace_emit, trace_update_cached_relsize, Hw1.
      destruct (BufTableLookup env tag <? 0); solve_trace.
    + exists []. rewrite Hw1.
      destruct (BufTableLookup env tag <? 0); solve_trace.
  - destruct (trace_page_server_request env fuel
        (NeonNblocksRequest false (EndRecPtr record) (rnode tag) (forkNum tag))
        w1) as [evs Hevs].
    destruct (page_server_request env fuel _ w1) as [[resp | |] w2];
      simpl in *; intros H; try discriminate H.
    injection H as <- <-. split; [reflexivity |].
    exists (evs ++ [EvSetLastWrittenLSNForRelation (EndRecPtr record)
                      (rnode tag) (forkNum tag)]).
    rewrite trace_emit, trace_set_cached_relsize, Hevs, Hw1.
    destruct (BufTableLookup env tag <? 0); solve_trace.
Qed.

(** What the filter does before it looks at the buffer table. *)
Lemma redo_filter_shared_catalog w :
  OidIsValid (dbNode (rnode tag)) = false ->
  neon_redo_read_buffer_filter env fuel record block_id w = (Return false, w).
Proof.
  intros Hinvalid. unfold neon_redo_read_buffer_filter.
  rewrite Hnot_claimed, Htag, Hinvalid. reflexivity.
Qed.

End RedoFilter.

(** C2, as the code has it. When no earlier filter claims the block and the
    block's database id is valid, then whenever
    [neon_redo_read_buffer_filter] returns, with either answer, it has
    called [SetLastWrittenLSNForBlock] for the block with the record's
    [EndRecPtr], and that call lies between the acquisition and the release
    of the buffer-mapping partition lock. *)
Theorem redo_filter_publishes_under_lock (env : Env) (fuel : nat)
  (record : XLogReaderState) (block_id : Z) (tag : BufferTag)
  (w : World) (b : bool) (w' : World) :
  old_filter_claims env record block_id = false ->
  XLogRecGetBlockTag record block_id = Some tag ->
  OidIsValid (dbNode (rnode tag)) = true ->
  neon_redo_read_buffer_filter env fuel record block_id w = (Return b, w') ->
  exists held rest,
    trace w' = trace w ++ [EvLWLockAcquire tag] ++ held
               ++ [EvLWLockRelease tag] ++ rest /\
    In (EvSetLastWrittenLSNForBlock (EndRecPtr record) (rnode tag)
          (forkNum tag) (blockNum tag)) held /\
    ~ In (EvLWLockRelease tag) held.
Proof.
  intros Hnc Htag Hvalid Hrun.
  destruct (redo_filter_trace env fuel record block_id tag Hnc Htag w b w'
              Hvalid Hrun) as [_ [rest Hrest]].
  exists (EvSetLastWrittenLSNForBlock (EndRecPtr record) (rnode tag)
            (forkNum tag) (blockNum tag)
          :: (if b then [EvLfcEvict (rnode tag) (forkNum tag) (blockNum tag)]
              else [])), rest.
  split; [| split].
  - rewrite Hrest. destruct b; solve_trace.
  - left. reflexivity.
  - destruct b; simpl; intros H; repeat destruct H as [H | H];
      try discriminate H; exact H.
Qed.

(** [page_server_request] raises no error of its own, and on a transport
    that never fails the first attempt brings a response. *)
Lemma page_server_request_outcome env fuel req w :
  match fst (page_server_request env fuel req w) with
  | Raise _ _ => False
  | _ => True
  end.
Proof.
  revert w. induction fuel as [| fuel IH]; intros w; simpl; [exact I |].
  destruct (page_server_send env req w) as [[|] w1]; [| apply IH].
  destruct (page_server_flush env w1) as [[|] w2]; [| apply IH].
  destruct (page_server_receive env _) as [[resp |] w3]; [exact I | apply IH].
Qed.

Lemma page_server_request_answered env fuel req w :
  (forall c, ps_send env c = true /\ ps_flush env c = true /\
             ps_receive env c <> None) ->
  exists resp,
    fst (page_server_request env (S fuel) req w) = Return resp /\
    trace (snd (page_server_request env (S fuel) req w))
    = trace w ++ [EvPageServerSend req].
Proof.
  intros Hsound. simpl. unfold page_server_send.
  rewrite (proj1 (Hsound _)). unfold page_server_flush.
  rewrite (proj1 (proj2 (Hsound _))).
  set (w3 := consume_prefetch_responses env _).
  assert (H3 : trace w3 = trace w ++ [EvPageServerSend req])
    by (unfold w3; rewrite trace_consume_prefetch_responses; reflexivity).
  clearbody w3. unfold page_server_receive.
  destruct (ps_receive env (ps_clock w3)) as [resp |] eqn:E.
  - exists resp. split; [reflexivity | exact H3].
  - destruct (proj2 (proj2 (Hsound _)) E).
Qed.

Lemma redo_filter_run env fuel record block_id tag w :
  old_filter_claims env record block_id = false ->
  XLogRecGetBlockTag record block_id = Some tag ->
  OidIsValid (dbNode (rnode tag)) = true ->
  let r := neon_redo_read_buffer_filter env fuel record block_id w in
  let absent := BufTableLookup env tag <? 0 in
  (fst r = Return absent \/ fst r = OutOfFuel) /\
  (get_cached_relsize w (rnode tag) (forkNum tag) <> None ->
   fst r = Return absent) /\
  ((forall c, ps_send env c = true /\ ps_flush env c = true /\
              ps_receive env c <> None) ->
   fuel <> 0%nat -> fst r = Return absent) /\
  exists rest,
    trace (snd r)
    = trace w
      ++ [EvLWLockAcquire tag;
          EvSetLastWrittenLSNForBlock (EndRecPtr record) (rnode tag)
            (forkNum tag) (blockNum tag)]
      ++ (if absent
          then [EvLfcEvict (rnode tag) (forkNum tag) (blockNum tag)]
          else [])
      ++ [EvLWLockRelease tag] ++ rest.
Proof.
  intros Hnc Htag Hvalid. cbv zeta. unfold neon_redo_read_buffer_filter.
  rewrite Hnc, Htag, Hvalid. cbn [negb].
  set (w1 := emit (EvLWLockRelease tag) _).
  assert (Hw1 : trace w1 =
      trace w
      ++ [EvLWLockAcquire tag;
          EvSetLastWrittenLSNForBlock (EndRecPtr record) (rnode tag)
            (forkNum tag) (blockNum tag)]
      ++ (if BufTableLookup env tag <? 0
          then [EvLfcEvict (rnode tag) (forkNum tag) (blockNum tag)]
          else [])
      ++ [EvLWLockRelease tag]).
  { unfold w1. destruct (BufTableLookup env tag <? 0); solve_trace. }
  assert (Hc1 : get_cached_relsize w1 (rnode tag) (forkNum tag)
                = get_cached_relsize w (rnode tag) (forkNum tag))
    by (unfold w1; destruct (BufTableLookup env tag <? 0); reflexivity).
  clearbody w1. rewrite <- Hc1.
  destruct (get_cached_relsize w1 (rnode tag) (forkNum tag)) as [relsize |].
  - assert (Hrest : exists rest,
      trace (snd (if relsize <? uint32 (blockNum tag + 1)
                  then (Return (BufTableLookup env tag <? 0),
                        emit (EvSetLastWrittenLSNForRelation (EndRecPtr record)
                                (rnode tag) (forkNum tag))
                          (update_cached_relsize (rnode tag) (forkNum tag)
                             (uint32 (blockNum tag + 1)) w1))
                  else (Return (BufTableLookup env tag <? 0), w1)))
      = trace w1 ++ rest).
    { destruct (relsize <? uint32 (blockNum tag + 1)); cbn [snd].
      - eexists [_]. rewrite trace_emit, trace_update_cached_relsize.
        reflexivity.
      - exists []. rewrite app_nil_r. reflexivity. }
    destruct Hrest as [rest Hrest].
    split; [left; destruct (relsize <? _); reflexivity |].
    split; [intros _; destruct (relsize <? _); reflexivity |].
    split; [intros _ _; destruct (relsize <? _); reflexivity |].
    exists rest. rewrite Hrest, Hw1, <- !app_assoc. reflexivity.
  - destruct (trace_page_server_request env fuel
        (NeonNblocksRequest false (EndRecPtr record) (rnode tag) (forkNum tag))
        w1) as [evs Hevs].
    pose proof (page_server_request_outcome env fuel
        (NeonNblocksRequest false (EndRecPtr record) (rnode tag) (forkNum tag))
        w1) as Hout.
    assert (Hans : (forall c, ps_send env c = true /\ ps_flush env c = true /\
                              ps_receive env c <> None) ->
                   fuel <> 0%nat ->
                   exists resp,
                     fst (page_server_request env fuel
                            (NeonNblocksRequest false (EndRecPtr record)
                               (rnode tag) (forkNum tag)) w1) = Return resp).
    { intros Hsound Hfuel. destruct fuel as [| fuel]; [congruence |].
      destruct (page_server_request_answered env fuel
                  (NeonNblocksRequest false (EndRecPtr record) (rnode tag)
                     (forkNum tag)) w1 Hsound) as (resp & Hresp & _).
      exists resp. exact Hresp. }
    destruct (page_server_request env fuel _ w1) as [[resp | lvl site |] w2];
      cbn [fst snd bindS] in *; [| destruct Hout |].
    + split; [left; reflexivity |]. split; [congruence |].
      split; [reflexivity |].
      exists (evs ++ [EvSetLastWrittenLSNForRelation (EndRecPtr record)
                        (rnode tag) (forkNum tag)]).
      rewrite trace_emit, trace_set_cached_relsize, Hevs, Hw1, <- !app_assoc.
      reflexivity.
    + split; [right; reflexivity |]. split; [congruence |].
      split; [intros Hs Hf; destruct (Hans Hs Hf) as [resp H]; discriminate H |].
      exists evs. rewrite Hevs, Hw1, <- !app_assoc. reflexivity.
Qed.

(** C4, as the code has it. When an earlier filter claims the block,
    [neon_redo_read_buffer_filter] answers true at once and does nothing
    else: it neither looks at the database id nor calls [lfc_evict]. When
    none does, a block with an invalid database id gets the answer false
    at once. For any other block the function raises no error and gives no
    answer but the right one, true exactly when the block is absent from
    shared buffers: it gives it whenever the size of the relation is
    cached, and also, when the size has to be asked for, on a transport
    that never fails; all it can do else is wait for the page server
    without end. Before the lock is released [lfc_evict] has been called
    for the block exactly when the block is absent, so whenever the answer
    is true. *)
Theorem redo_filter_skips_absent_blocks (env : Env) (fuel : nat)
  (record : XLogReaderState) (block_id : Z) (tag : BufferTag) (w : World) :
  XLogRecGetBlockTag record block_id = Some tag ->
  let r := neon_redo_read_buffer_filter env fuel record block_id w in
  let absent := BufTableLookup env tag <? 0 in
  (old_filter_claims env record block_id = true -> r = (Return true, w)) /\
  (old_filter_claims env record block_id = false ->
   (OidIsValid (dbNode (rnode tag)) = false -> r = (Return false, w)) /\
   (OidIsValid (dbNode (rnode tag)) = true ->
    (fst r = Return absent \/ fst r = OutOfFuel) /\
    (get_cached_relsize w (rnode tag) (forkNum tag) <> None ->
     fst r = Return absent) /\
    ((forall c, ps_send env c = true /\ ps_flush env c = true /\
                ps_receive env c <> None) ->
     fuel <> 0%nat -> fst r = Return absent) /\
    exists rest,
      trace (snd r)
      = trace w
        ++ [EvLWLockAcquire tag;
            EvSetLastWrittenLSNForBlock (EndRecPtr record) (rnode tag)
              (forkNum tag) (blockNum tag)]
        ++ (if absent
            then [EvLfcEvict (rnode tag) (forkNum tag) (blockNum tag)]
            else [])
        ++ [EvLWLockRelease tag] ++ rest) /\
   (forall b, fst r = Return b ->
      (b = true <->
       OidIsValid (dbNode (rnode tag)) = true /\
       BufTableLookup env tag < 0))).
Proof.
  intros Htag. cbv zeta. split.
  - intros Hclaimed. unfold neon_redo_read_buffer_filter.
    rewrite Hclaimed. reflexivity.
  - intros Hnc.
    pose proof (redo_filter_shared_catalog env fuel record block_id tag Hnc
                  Htag w) as Hshared.
    pose proof (redo_filter_run env fuel record block_id tag w Hnc Htag)
      as Hrun.
    cbv zeta in Hrun.
    split; [exact Hshared |]. split; [exact Hrun |].
    intros b Hb. destruct (OidIsValid (dbNode (rnode tag))).
    + destruct (Hrun eq_refl) as ([H | H] & _); rewrite H in Hb;
        [| discriminate Hb].
      injection Hb as <-. rewrite Z.ltb_lt. tauto.
    + rewrite (Hshared eq_refl) in Hb. injection Hb as <-.
      split; [discriminate | intros [H _]; discriminate H].
Qed.

Lemma redo_filter_publishes_under_lock_witness :
  exists held rest,
    trace (snd (neon_redo_read_buffer_filter sample_env 1 sample_record 0
                  sized_world))
    = trace sized_world ++ [EvLWLockAcquire (sample_tag 3)] ++ held
      ++ [EvLWLockRelease (sample_tag 3)] ++ rest /\
    In (EvSetLastWrittenLSNForBlock (EndRecPtr sample_record)
          (rnode (sample_tag 3)) (forkNum (sample_tag 3))
          (blockNum (sample_tag 3))) held /\
    ~ In (EvLWLockRelease (sample_tag 3)) held.
Proof.
  apply (redo_filter_publishes_under_lock sample_env 1 sample_record 0
           (sample_tag 3) sized_world true _ eq_refl eq_refl eq_refl).
  vm_compute. reflexivity.
Defined.

(** C2 fails on the code as stated: for a block of a shared catalog the
    filter returns without any call to [SetLastWrittenLSNForBlock]. *)
Lemma redo_filter_shared_catalog_unpublished :
  exists w',
    neon_redo_read_buffer_filter sample_env 1 shared_catalog_record 0
      sized_world = (Return false, w') /\
    trace w' = [].
Proof. eexists. split; [vm_compute; reflexivity | reflexivity]. Qed.

Lemma redo_filter_skips_absent_blocks_witness :
  fst (neon_redo_read_buffer_filter sample_env 1 sample_record 0 sized_world)
  = Return true /\
  exists rest,
    trace (snd (neon_redo_read_buffer_filter sample_env 1 sample_record 0
                  sized_world))
    = [EvLWLockAcquire (sample_tag 3);
       EvSetLastWrittenLSNForBlock 700 sample_rnode 0 3;
       EvLfcEvict sample_rnode 0 3;
       EvLWLockRelease (sample_tag 3)] ++ rest.
Proof.
  destruct (redo_filter_skips_absent_blocks sample_env 1 sample_record 0
              (sample_tag 3) sized_world eq_refl) as (_ & Hmain).
  destruct (Hmain eq_refl) as (_ & Hvalid & _).
  destruct (Hvalid eq_refl) as (_ & Hcached & _ & Htrace).
  split; [apply Hcached; vm_compute; discriminate | exact Htrace].
Defined.

(** C4 fails on the code as stated: behind an earlier filter that claims the
    block, the answer is true for a block of a shared catalog, and
    [lfc_evict] has not been called. *)
Lemma redo_filter_chained_claims_block :
  exists w',
    neon_redo_read_buffer_filter chained_env 1 shared_catalog_record 0
      sized_world = (Return true, w') /\
    trace w' = [] /\
    OidIsValid (dbNode (mkRelFileNode 1664 InvalidOid 1262)) = false.
Proof.
  eexists. split; [vm_compute; reflexivity | split; reflexivity].
Qed.

(** ** [neon_extend] *)

Section Extend.
Context (env : Env) (reln : SMgrRelation) (forknum : Z) (buffer : list Z).

Let rn := smgr_rnode reln.

(** What one pass through the WAL-logger leaves in the record of calls. *)
Lemma wallog_page_events blocknum force w w' :
  neon_wallog_page env reln forknum blocknum buffer force w = (Return tt, w') ->
  exists evs,
    trace w' = trace w ++ evs /\
    relsize_cache w' = relsize_cache w /\
    (ShutdownRequestPending env = false -> XLogInsertAllowed env = true ->
     (exists l, In (EvSetLastWrittenLSNForBlock l rn forknum blocknum) evs) /\
     (force = true -> RecoveryInProgress env = false ->
      In (EvLogNewpage rn forknum blocknum buffer) evs)).
Proof.
  unfold neon_wallog_page. fold rn.
  destruct (ShutdownRequestPending env).
  { intros H. injection H as <-. exists []. rewrite app_nil_r.
    repeat split; discriminate. }
  destruct (XLogInsertAllowed env); simpl.
  2: { intros H. injection H as <-. exists []. rewrite app_nil_r.
       repeat split; discriminate. }
  destruct ((force || (forknum =? FSM_FORKNUM)
             || (forknum =? VISIBILITYMAP_FORKNUM))
            && negb (RecoveryInProgress env)) eqn:Hforce.
  - simpl. intros H. injection H as <-.
    eexists [_; _; _]. split; [solve_trace |]. split; [reflexivity |].
    intros _ _. split.
    + eexists. right. right. left. reflexivity.
    + intros _ _. left. reflexivity.
  - assert (Hnolog : force = true -> RecoveryInProgress env = false -> False).
    { intros -> Hrec. rewrite Hrec in Hforce. discriminate Hforce. }
    destruct (PageGetLSN env buffer =? InvalidXLogRecPtr).
    + destruct (PageIsNew env buffer);
        [| destruct (PageIsEmptyHeapPage env buffer)]; simpl; intros H;
        try discriminate H; injection H as <-;
        (eexists [_]; split; [solve_trace |]; split; [reflexivity |];
         intros _ _; split;
         [eexists; left; reflexivity | intros Hf Hr; destruct (Hnolog Hf Hr)]).
    + simpl. intros H. injection H as <-.
      eexists [_]. split; [solve_trace |]. split; [reflexivity |].
      intros _ _. split.
      * eexists. left. reflexivity.
      * intros Hf Hr. destruct (Hnolog Hf Hr).
Qed.


End Extend.






(** ** Slots of the ring *)

Lemma length_buf_set buf k v : length (buf_set buf k v) = length buf.
Proof. apply length_insert. Qed.

Lemma ring_slot_buf_set buf k v k' :
  ring_slot (buf_set buf k v) k' = ring_slot buf k'.
Proof. unfold ring_slot. rewrite length_buf_set. reflexivity. Qed.

Lemma ring_slot_lt buf k : buf <> [] -> (ring_slot buf k < length buf)%nat.
Proof.
  intros Hne. unfold ring_slot.
  assert (0 < Z.of_nat (length buf)) by (destruct buf; [congruence | simpl; lia]).
  pose proof (Z.mod_pos_bound k (Z.of_nat (length buf))). lia.
Qed.

Lemma buf_get_set_same buf k v : buf <> [] -> buf_get (buf_set buf k v) k = v.
Proof.
  intros Hne. unfold buf_get. rewrite ring_slot_buf_set. unfold buf_set.
  rewrite list_lookup_total_insert.
  rewrite decide_True; [reflexivity |]. split; [reflexivity |].
  apply ring_slot_lt, Hne.
Qed.

Lemma buf_get_set_other buf k v k' :
  ring_slot buf k <> ring_slot buf k' ->
  buf_get (buf_set buf k v) k' = buf_get buf k'.
Proof.
  intros Hne. unfold buf_get. rewrite ring_slot_buf_set. unfold buf_set.
  apply list_lookup_total_insert_ne. exact Hne.
Qed.

Lemma buf_get_nil k : buf_get [] k = zero_slot.
Proof. reflexivity. Qed.

(** ** Trailing cleanup touches [ring_last] only *)

Lemma cleanup_loop_frame n p :
  let p' := cleanup_loop n p in
  prf_buffer p' = prf_buffer p /\ prf_hash p' = prf_hash p /\
  ring_unused p' = ring_unused p /\ ring_flush p' = ring_flush p /\
  ring_receive p' = ring_receive p /\
  n_responses_buffered p' = n_responses_buffered p /\
  n_requests_inflight p' = n_requests_inflight p /\
  n_unused p' = n_unused p.
Proof.
  revert p. induction n as [| n IH]; intros p; simpl.
  - repeat split.
  - destruct (ring_last p <? ring_receive p); [| repeat split].
    destruct (status (GetPrfSlot p (ring_last p)));
      [apply (IH (set_ring_last (uint64 (ring_last p + 1)) p)) | ..];
      repeat split.
Qed.

(** ** Retiring a slot *)

Lemma clear_slot_ring_last k p :
  ring_last (prefetch_clear_slot k p) = ring_last p.
Proof.
  unfold prefetch_clear_slot. destruct (status (GetPrfSlot p k)); reflexivity.
Qed.

Lemma clear_slot_status k p :
  status (GetPrfSlot p k) <> PRFS_UNUSED ->
  status (GetPrfSlot (prefetch_clear_slot k p) k) = PRFS_UNUSED.
Proof.
  intros Hused.
  assert (Hne : prf_buffer p <> []).
  { intros Hnil. apply Hused. unfold GetPrfSlot. rewrite Hnil. reflexivity. }
  unfold prefetch_clear_slot, GetPrfSlot, SetPrfSlot.
  destruct (status (buf_get (prf_buffer p) k)); simpl;
    rewrite buf_get_set_same; try reflexivity; try exact Hne.
  intros Hnil. apply Hne.
  apply (f_equal length) in Hnil. rewrite length_buf_set in Hnil.
  destruct (prf_buffer p); [reflexivity | discriminate Hnil].
Qed.

Lemma set_unused_below_last k p :
  k < ring_last p -> prefetch_set_unused k p = p.
Proof.
  intros Hlt. unfold prefetch_set_unused.
  apply Z.ltb_lt in Hlt. rewrite Hlt. reflexivity.
Qed.

Lemma set_unused_unused k p :
  status (GetPrfSlot p k) = PRFS_UNUSED -> prefetch_set_unused k p = p.
Proof.
  intros Hst. unfold prefetch_set_unused. rewrite Hst.
  destruct (k <? ring_last p); reflexivity.
Qed.

(** C10, as the code has it. [prefetch_set_unused] changes nothing, in any
    field of the pipeline state, for a ring index below [ring_last] and for
    a slot that is already unused. Retiring the same ring index a second
    time changes nothing further whenever the first retirement did not
    compact the buffer: when the index was [ring_last], or when
    [ReceiveBufferNeedsCompaction] was false once the slot was cleared. *)
Theorem prefetch_set_unused_noop_and_repeat (p : PrefetchState)
  (ring_index : Z) :
  (ring_index < ring_last p -> prefetch_set_unused ring_index p = p) /\
  (status (GetPrfSlot p ring_index) = PRFS_UNUSED ->
   prefetch_set_unused ring_index p = p) /\
  (ring_last p = ring_index \/
   ReceiveBufferNeedsCompaction (prefetch_clear_slot ring_index p) = false ->
   prefetch_set_unused ring_index (prefetch_set_unused ring_index p)
   = prefetch_set_unused ring_index p).
Proof.
  split; [apply set_unused_below_last |].
  split; [apply set_unused_unused |].
  intros Hquiet.
  destruct (Z.ltb_spec ring_index (ring_last p)) as [Hlt | Hge].
  { rewrite !(set_unused_below_last _ _ Hlt). reflexivity. }
  destruct (decide (status (GetPrfSlot p ring_index) = PRFS_UNUSED))
    as [Hun | Hused].
  { rewrite !(set_unused_unused _ _ Hun). reflexivity. }
  pose proof (clear_slot_status ring_index p Hused) as Hcleared.
  pose proof (clear_slot_ring_last ring_index p) as Hlast.
  assert (Hstep : prefetch_set_unused ring_index p =
    let q := prefetch_clear_slot ring_index p in
    if ring_last q =? ring_index then prefetch_cleanup_trailing_unused q
    else if ReceiveBufferNeedsCompaction q
         then snd (compact_prefetch_buffers q) else q).
  { unfold prefetch_set_unused.
    destruct (Z.ltb_spec ring_index (ring_last p)); [lia |].
    destruct (status (GetPrfSlot p ring_index)); try reflexivity.
    destruct Hused. reflexivity. }
  rewrite Hstep. cbv zeta.
  destruct (Z.eqb_spec (ring_last (prefetch_clear_slot ring_index p))
              ring_index) as [Heq | Hne].
  - apply set_unused_unused.
    unfold prefetch_cleanup_trailing_unused, GetPrfSlot.
    destruct (cleanup_loop_frame
                (Z.to_nat (ring_receive (prefetch_clear_slot ring_index p)
                           - ring_last (prefetch_clear_slot ring_index p)))
                (prefetch_clear_slot ring_index p)) as [Hbuf _].
    rewrite Hbuf. exact Hcleared.
  - destruct Hquiet as [Hfirst | Hnocompact]; [lia |].
    rewrite Hnocompact. apply set_unused_unused, Hcleared.
Qed.

Lemma prefetch_set_unused_noop_and_repeat_witness :
  prefetch_set_unused 0 (prefetch_set_unused 0 three_received)
  = prefetch_set_unused 0 three_received.
Proof.
  apply (proj2 (proj2 (prefetch_set_unused_noop_and_repeat three_received 0))).
  left. vm_compute. reflexivity.
Defined.

(** C10 fails on the code as stated: with three responses buffered at ring
    indexes 0, 1 and 2, retiring index 1 compacts the buffer and moves the
    response of index 0 to index 1; retiring index 1 again throws that
    response away. *)
Lemma second_retirement_drops_moved_slot :
  status (GetPrfSlot (prefetch_set_unused 1 three_received) 1) = PRFS_RECEIVED /\
  buftag (GetPrfSlot (prefetch_set_unused 1 three_received) 1)
  = buftag (GetPrfSlot three_received 0) /\
  prefetch_set_unused 1 (prefetch_set_unused 1 three_received)
  <> prefetch_set_unused 1 three_received.
Proof.
  split; [vm_compute; reflexivity |].
  split; [vm_compute; reflexivity |].
  intros H. apply (f_equal ring_last) in H. vm_compute in H. discriminate H.
Qed.

(** ** Reuse of a buffered request *)

(** C1 fails on the code as stated: on a standby, block 7 was prefetched
    with an effective LSN of 100; a read of the block at LSN 50 with
    [request_latest] false is served from that slot, without a new request,
    although 100 is not 50. *)
Lemma read_hit_with_unequal_lsn :
  exists pos,
    prfh_lookup (prf_hash (MyPState standby_one_in_flight)) (sample_tag 7)
    = Some pos /\
    effective_request_lsn (prf_buffer (MyPState standby_one_in_flight) !!! pos)
    = 100 /\
    exists w',
      neon_read_at_lsn recovery_env 1 sample_rnode 0 7 50 false
        standby_one_in_flight = (Return sample_page, w') /\
      prefetch_hits w' = 1 /\ prefetch_misses w' = 0 /\
      List.filter
        (fun e => match e with EvPageServerSend _ => true | _ => false end)
        (trace w')
      = [EvPageServerSend (NeonGetPageRequest false 100 sample_rnode 0 7)].
Proof.
  exists 0%nat. split; [vm_compute; reflexivity |].
  split; [vm_compute; reflexivity |].
  eexists. split; [vm_compute; reflexivity |].
  split; [reflexivity |]. split; [reflexivity |].
  vm_compute. reflexivity.
Qed.

(** ** The ring counters *)

(** C8 does not hold of the code. [readahead_buffer_resize] copies up to
    [newsize] slots into the new ring, which then spans the whole buffer,
    while [prefetch_register_buffer] makes room only when the ring spans one
    slot less. Sixteen prefetches in a ring of thirty-two, a resize to
    sixteen and a seventeenth prefetch: the invariant holds up to and
    including the resize, the seventeenth request goes into the slot that
    still holds the oldest request, and the ring counters end up seventeen
    apart in a buffer of sixteen. *)
Theorem ring_bound_broken_after_shrink :
  ring_invariant (MyPState sixteen_in_flight) /\
  ring_invariant (MyPState shrunk_to_sixteen) /\
  readahead_buffer_size (MyPState shrunk_to_sixteen) = 16 /\
  status (GetPrfSlot (MyPState shrunk_to_sixteen)
            (ring_unused (MyPState shrunk_to_sixteen))) = PRFS_REQUESTED /\
  fst (neon_prefetch sample_env 1 sample_reln 0 17 shrunk_to_sixteen)
  = Return false /\
  readahead_buffer_size (MyPState (sample_prefetch 17 shrunk_to_sixteen)) = 16 /\
  ring_unused (MyPState (sample_prefetch 17 shrunk_to_sixteen))
  - ring_last (MyPState (sample_prefetch 17 shrunk_to_sixteen)) = 17 /\
  ~ ring_invariant (MyPState (sample_prefetch 17 shrunk_to_sixteen)).
Proof.
  unfold ring_invariant.
  repeat match goal with |- _ /\ _ => split end.
  1-10: vm_compute; first [reflexivity | discriminate].
  - vm_compute. reflexivity.
  - vm_compute. reflexivity.
  - vm_compute. reflexivity.
  - vm_compute. intros (_ & _ & _ & H). apply H. reflexivity.
Qed.

(** ** The pipeline under retirement and disconnection *)

Lemma uint64_small x : 0 <= x < 2 ^ 64 -> uint64 x = x.
Proof. intros H. unfold uint64. apply Z.mod_small. exact H. Qed.

Lemma buf_nonempty (buf : list PrefetchRequest) : 0 < Z.of_nat (length buf) -> buf <> [].
Proof. intros H ->. simpl in H. lia. Qed.

(** Two ring indexes less than a buffer length apart have different
    slots. *)
Lemma ring_slot_inj buf a k1 k2 :
  a <= k1 < a + Z.of_nat (length buf) ->
  a <= k2 < a + Z.of_nat (length buf) ->
  ring_slot buf k1 = ring_slot buf k2 -> k1 = k2.
Proof.
  intros H1 H2 Heq. unfold ring_slot in Heq.
  set (c := Z.of_nat (length buf)) in *.
  assert (Hc : 0 < c) by lia.
  pose proof (Z.mod_pos_bound k1 c Hc). pose proof (Z.mod_pos_bound k2 c Hc).
  assert (Hmod : k1 mod c = k2 mod c) by lia.
  pose proof (Z.div_mod k1 c ltac:(lia)) as E1.
  pose proof (Z.div_mod k2 c ltac:(lia)) as E2.
  assert (k1 / c = k2 / c) by nia.
  nia.
Qed.

Lemma buf_get_set buf a k k' v :
  a <= k < a + Z.of_nat (length buf) ->
  a <= k' < a + Z.of_nat (length buf) ->
  buf_get (buf_set buf k v) k' = if decide (k = k') then v else buf_get buf k'.
Proof.
  intros Hk Hk'. destruct (decide (k = k')) as [<- | Hne].
  - apply buf_get_set_same, buf_nonempty. lia.
  - apply buf_get_set_other. intros Heq. apply Hne.
    exact (ring_slot_inj buf a k k' Hk Hk' Heq).
Qed.

Lemma buf_get_wrap buf k :
  buf_get buf (k + Z.of_nat (length buf)) = buf_get buf k.
Proof.
  unfold buf_get, ring_slot.
  destruct (decide (Z.of_nat (length buf) = 0)) as [E | E].
  - assert (buf = []) as -> by (destruct buf; [reflexivity | simpl in E; lia]).
    reflexivity.
  - replace (k + Z.of_nat (length buf)) with (k + 1 * Z.of_nat (length buf))
      by lia.
    rewrite Z.mod_add by exact E. reflexivity.
Qed.

Lemma buf_set_set buf k v v' :
  buf_set (buf_set buf k v) k v' = buf_set buf k v'.
Proof.
  unfold buf_set at 1. rewrite ring_slot_buf_set. unfold buf_set.
  apply list_insert_insert_eq.
Qed.

(** ** What retirement leaves in place *)

Lemma retire_frame_refl p : retire_frame p p.
Proof. unfold retire_frame. repeat split; auto. lia. Qed.

Lemma retire_frame_trans p1 p2 p3 :
  retire_frame p1 p2 -> retire_frame p2 p3 -> retire_frame p1 p3.
Proof.
  intros (U1 & F1 & R1 & I1 & L1 & S1 & H1) (U2 & F2 & R2 & I2 & L2 & S2 & H2).
  unfold retire_frame. repeat split; try congruence; try lia.
  - intros k Hk. rewrite S2 by (rewrite R1, U1; exact Hk). apply S1, Hk.
  - intros t Ht. apply H2, H1, Ht.
Qed.

(** ** Trailing cleanup keeps the pipeline well formed *)

Lemma cleanup_step_wf p :
  pipeline_wf p ->
  ring_last p < ring_receive p ->
  status (GetPrfSlot p (ring_last p)) = PRFS_UNUSED ->
  pipeline_wf (set_ring_last (uint64 (ring_last p + 1)) p) /\
  retire_frame p (set_ring_last (uint64 (ring_last p + 1)) p).
Proof.
  intros [Hsize Hord Hbnd Hreq Hrcv Hout Hsound Hcomp Hinf] Hlt Hun.
  assert (Hnext : uint64 (ring_last p + 1) = ring_last p + 1).
  { apply uint64_small. lia. }
  rewrite Hnext.
  unfold GetPrfSlot, slot_pos, readahead_buffer_size in *.
  split.
  - constructor; unfold GetPrfSlot, slot_pos, readahead_buffer_size; simpl.
    + exact Hsize.
    + lia.
    + lia.
    + exact Hreq.
    + intros k Hk. apply Hrcv. lia.
    + intros k Hk.
      destruct (decide (k = ring_last p + Z.of_nat (length (prf_buffer p))))
        as [-> | Hne].
      * rewrite buf_get_wrap. exact Hun.
      * apply Hout. lia.
    + intros t i Hti. destruct (Hsound t i Hti) as (k & Hk & Hi & Ht & Hs).
      exists k. repeat split; try assumption; try lia.
      destruct (decide (k = ring_last p)) as [-> | Hne]; [| lia].
      rewrite Hun in Hs. destruct Hs. reflexivity.
    + intros k Hk. apply Hcomp. lia.
    + exact Hinf.
  - unfold retire_frame, GetPrfSlot. simpl. repeat split; auto. lia.
Qed.

Lemma cleanup_loop_wf n p :
  pipeline_wf p ->
  pipeline_wf (cleanup_loop n p) /\ retire_frame p (cleanup_loop n p).
Proof.
  revert p. induction n as [| n IH]; intros p Hwf; simpl.
  - split; [exact Hwf | apply retire_frame_refl].
  - destruct (Z.ltb_spec (ring_last p) (ring_receive p)) as [Hlt | Hge];
      [| split; [exact Hwf | apply retire_frame_refl]].
    destruct (status (GetPrfSlot p (ring_last p))) eqn:Hst;
      try (split; [exact Hwf | apply retire_frame_refl]).
    destruct (cleanup_step_wf p Hwf Hlt Hst) as [Hwf1 Hfr1].
    destruct (IH _ Hwf1) as [Hwf2 Hfr2].
    split; [exact Hwf2 | exact (retire_frame_trans _ _ _ Hfr1 Hfr2)].
Qed.

Lemma cleanup_wf p :
  pipeline_wf p ->
  pipeline_wf (prefetch_cleanup_trailing_unused p) /\
  retire_frame p (prefetch_cleanup_trailing_unused p).
Proof. apply cleanup_loop_wf. Qed.

(** ** A move of the compaction *)

Section MoveSlot.
Context (p : PrefetchState) (s e : Z).
Hypothesis Hwf : pipeline_wf p.
Hypothesis Hs : ring_last p <= s < e.
Hypothesis He : e < ring_receive p.
Hypothesis Hused : status (GetPrfSlot p s) <> PRFS_UNUSED.
Hypothesis Hfree : status (GetPrfSlot p e) = PRFS_UNUSED.

Let source := GetPrfSlot p s.
Let target :=
  mkPrefetchRequest (buftag source) (effective_request_lsn source)
    (response source) (status source) e.
Let p' := compact_move_slot p s e.

Lemma move_slot_fields :
  prf_buffer p' = buf_set (buf_set (prf_buffer p) e target) s zero_slot /\
  prf_hash p'
  = <[buftag source := ring_slot (prf_buffer p) e]>
      (delete (buftag source) (prf_hash p)) /\
  ring_unused p' = ring_unused p /\ ring_flush p' = ring_flush p /\
  ring_receive p' = ring_receive p /\ ring_last p' = ring_last p /\
  n_responses_buffered p' = n_responses_buffered p /\
  n_requests_inflight p' = n_requests_inflight p /\
  n_unused p' = n_unused p.
Proof.
  unfold p', compact_move_slot, prfh_insert, prfh_delete, SetPrfSlot,
    slot_pos. simpl. fold source. fold target.
  rewrite lookup_delete_eq. simpl. rewrite ring_slot_buf_set.
  repeat split.
Qed.

Lemma move_slot_get k :
  ring_last p <= k < ring_last p + readahead_buffer_size p ->
  GetPrfSlot p' k
  = if decide (s = k) then zero_slot
    else if decide (e = k) then target else GetPrfSlot p k.
Proof.
  intros Hk. destruct Hwf as [Hsize Hord Hbnd _ _ _ _ _ _].
  unfold GetPrfSlot, readahead_buffer_size in *.
  destruct move_slot_fields as (-> & _).
  rewrite (buf_get_set _ (ring_last p)); rewrite ?length_buf_set; try lia.
  destruct (decide (s = k)); [reflexivity |].
  apply (buf_get_set _ (ring_last p)); lia.
Qed.

Lemma move_slot_wf :
  pipeline_wf p' /\ retire_frame p p' /\ ring_last p' = ring_last p /\
  status (GetPrfSlot p' s) = PRFS_UNUSED /\
  (forall k, ring_last p <= k < ring_receive p -> k <> s -> k <> e ->
     GetPrfSlot p' k = GetPrfSlot p k).
Proof.
  pose proof Hwf as [Hsize Hord Hbnd Hreq Hrcv Hout Hsound Hcomp Hinf].
  destruct move_slot_fields
    as (Hbuf & Hhash & HU & HF & HR & HL & HB & HI & HN).
  assert (Hcap : readahead_buffer_size p' = readahead_buffer_size p).
  { unfold readahead_buffer_size. rewrite Hbuf, !length_buf_set. reflexivity. }
  assert (Hpos : forall k, slot_pos p' k = slot_pos p k).
  { intros k. unfold slot_pos. rewrite Hbuf, !ring_slot_buf_set. reflexivity. }
  assert (Hsrc : status source = PRFS_RECEIVED).
  { destruct (Hrcv s ltac:(lia)) as [H | H]; [exact H | contradiction]. }
  assert (Hsrc_hash : prf_hash p !! buftag source = Some (slot_pos p s)).
  { apply Hcomp; [lia | exact Hused]. }
  split; [| split; [| split; [| split]]].
  - constructor; rewrite ?Hcap, ?HU, ?HR, ?HL, ?HI; try assumption.
    + intros k Hk. rewrite move_slot_get by lia.
      rewrite !decide_False by lia. apply Hreq, Hk.
    + intros k Hk. rewrite move_slot_get by lia.
      destruct (decide (s = k)); [right; reflexivity |].
      destruct (decide (e = k)); [left; exact Hsrc |]. apply Hrcv, Hk.
    + intros k Hk. rewrite move_slot_get by lia.
      rewrite !decide_False by lia. apply Hout, Hk.
    + intros t i. rewrite Hhash.
      destruct (decide (buftag source = t)) as [<- | Hne].
      * rewrite lookup_insert_eq. intros [= <-].
        exists e. rewrite Hpos, move_slot_get by lia.
        rewrite decide_False, decide_True by lia.
        repeat split; try lia. simpl. rewrite Hsrc. discriminate.
      * rewrite lookup_insert_ne, lookup_delete_ne by exact Hne.
        intros Hti. destruct (Hsound t i Hti) as (k & Hk & Hi & Ht & Hst).
        exists k. rewrite Hpos, move_slot_get by lia.
        assert (s <> k) by (intros <-; apply Hne, Ht).
        assert (e <> k) by (intros <-; apply Hst, Hfree).
        rewrite !decide_False by assumption. auto.
    + intros k Hk. rewrite Hpos, move_slot_get by lia. rewrite Hhash.
      destruct (decide (s = k)) as [<- | Hsk]; [intros H; destruct H; reflexivity |].
      destruct (decide (e = k)) as [<- | Hek].
      * intros _. simpl. apply lookup_insert_eq.
      * intros Hst.
        assert (Hne : buftag source <> buftag (GetPrfSlot p k)).
        { intros Heq. apply Hsk.
          pose proof (Hcomp k Hk Hst) as Hk_hash.
          rewrite <- Heq, Hsrc_hash in Hk_hash.
          injection Hk_hash as Hk_hash.
          apply (ring_slot_inj (prf_buffer p) (ring_last p)); try exact Hk_hash;
            unfold readahead_buffer_size in *; lia. }
        rewrite lookup_insert_ne, lookup_delete_ne by exact Hne.
        apply Hcomp; assumption.
  - unfold retire_frame. rewrite HU, HF, HR, HI, HL.
    repeat split; try lia.
    + intros k Hk. rewrite move_slot_get by lia.
      rewrite !decide_False by lia. reflexivity.
    + intros t Ht. rewrite Hhash.
      assert (Hne : buftag source <> t).
      { intros <-. rewrite Hsrc_hash in Ht. discriminate Ht. }
      rewrite lookup_insert_ne, lookup_delete_ne by exact Hne. exact Ht.
  - exact HL.
  - rewrite move_slot_get by lia. rewrite decide_True by reflexivity.
    reflexivity.
  - intros k Hk Hks Hke. rewrite move_slot_get by lia.
    rewrite !decide_False by congruence. reflexivity.
Qed.

End MoveSlot.

(** ** Compaction keeps the pipeline well formed *)

Lemma compact_find_empty_spec n p search empty :
  0 <= ring_last p -> ring_last p <= search < 2 ^ 64 ->
  (Z.to_nat (search - ring_last p) <= n)%nat ->
  let '(s', e') := compact_find_empty n p search empty in
  (s' = e' /\ ring_last p <= e' < search /\
   status (GetPrfSlot p e') = PRFS_UNUSED) \/
  (s' = ring_last p /\ e' = empty).
Proof.
  revert search. induction n as [| n IH]; intros search Hlast Hsearch Hn; simpl.
  - right. split; [lia | reflexivity].
  - destruct (Z.ltb_spec (ring_last p) search) as [Hlt | Hge].
    + rewrite uint64_small by lia.
      destruct (status (GetPrfSlot p (search - 1))) eqn:Hst.
      * left. repeat split; try lia. exact Hst.
      * specialize (IH (search - 1) Hlast ltac:(lia) ltac:(lia)).
        destruct (compact_find_empty n p (search - 1) empty) as [s' e'].
        destruct IH as [(? & ? & ?) | ?]; [left | right]; auto.
        repeat split; try assumption; lia.
      * specialize (IH (search - 1) Hlast ltac:(lia) ltac:(lia)).
        destruct (compact_find_empty n p (search - 1) empty) as [s' e'].
        destruct IH as [(? & ? & ?) | ?]; [left | right]; auto.
        repeat split; try assumption; lia.
      * specialize (IH (search - 1) Hlast ltac:(lia) ltac:(lia)).
        destruct (compact_find_empty n p (search - 1) empty) as [s' e'].
        destruct IH as [(? & ? & ?) | ?]; [left | right]; auto.
        repeat split; try assumption; lia.
    + right. split; [lia | reflexivity].
Qed.

Lemma compact_move_loop_wf n p search empty n_moved :
  pipeline_wf p ->
  ring_last p <= search <= empty -> empty < ring_receive p ->
  (forall k, search <= k <= empty ->
     status (GetPrfSlot p k) = PRFS_UNUSED) ->
  let '(p', _) := compact_move_loop n p search empty n_moved in
  pipeline_wf p' /\ retire_frame p p'.
Proof.
  revert p search empty n_moved.
  induction n as [| n IH]; intros p search empty n_moved Hwf Hs He Hgap; simpl.
  - split; [exact Hwf | apply retire_frame_refl].
  - destruct (Z.ltb_spec (ring_last p) search) as [Hlt | Hge];
      [| split; [exact Hwf | apply retire_frame_refl]].
    pose proof (wf_order p Hwf) as Hord.
    rewrite uint64_small by lia.
    assert (Hskip : status (GetPrfSlot p (search - 1)) = PRFS_UNUSED ->
      let '(p', _) := compact_move_loop n p (search - 1) empty n_moved in
      pipeline_wf p' /\ retire_frame p p').
    { intros Hst. apply IH; try assumption; try lia.
      intros k Hk. destruct (decide (k = search - 1)) as [-> | Hne];
        [exact Hst | apply Hgap; lia]. }
    assert (Hmove : status (GetPrfSlot p (search - 1)) <> PRFS_UNUSED ->
      let '(p', _) :=
        compact_move_loop n (compact_move_slot p (search - 1) empty)
          (search - 1) (uint64 (empty - 1)) (n_moved + 1) in
      pipeline_wf p' /\ retire_frame p p').
    { intros Hst.
      destruct (move_slot_wf p (search - 1) empty Hwf ltac:(lia) He Hst
                  (Hgap empty ltac:(lia)))
        as (Hwf1 & Hfr1 & Hl1 & Hsrc1 & Hsame1).
      rewrite uint64_small by lia.
      specialize (IH (compact_move_slot p (search - 1) empty) (search - 1)
                    (empty - 1) (n_moved + 1) Hwf1).
      destruct Hfr1 as (HU & HF & HR & HI & HL & HS & HH).
      destruct (compact_move_loop n (compact_move_slot p (search - 1) empty)
                  (search - 1) (empty - 1) (n_moved + 1)) as [p2 m2].
      destruct IH as [Hwf2 Hfr2].
      - rewrite Hl1. lia.
      - rewrite HR. lia.
      - intros k Hk. destruct (decide (k = search - 1)) as [-> | Hne];
          [exact Hsrc1 |].
        rewrite Hsame1 by lia. apply Hgap. lia.
      - split; [exact Hwf2 |].
        apply (retire_frame_trans _ (compact_move_slot p (search - 1) empty));
          [| exact Hfr2].
        unfold retire_frame. repeat split; assumption. }
    destruct (status (GetPrfSlot p (search - 1))) eqn:Hst.
    + apply Hskip. reflexivity.
    + apply Hmove. discriminate.
    + apply Hmove. discriminate.
    + apply Hmove. discriminate.
Qed.

Lemma compact_wf p :
  pipeline_wf p ->
  pipeline_wf (snd (compact_prefetch_buffers p)) /\
  retire_frame p (snd (compact_prefetch_buffers p)).
Proof.
  intros Hwf. unfold compact_prefetch_buffers.
  destruct (ring_receive p =? ring_last p);
    [split; [exact Hwf | apply retire_frame_refl] |].
  pose proof (wf_order p Hwf) as Hord.
  pose proof (compact_find_empty_spec
                (Z.to_nat (ring_receive p - ring_last p)) p (ring_receive p)
                (ring_last p) ltac:(lia) ltac:(lia) ltac:(lia)) as Hfind.
  destruct (compact_find_empty _ p (ring_receive p) (ring_last p))
    as [search empty].
  assert (Hloop :
    let '(p', _) :=
      compact_move_loop (Z.to_nat (search - ring_last p)) p search empty 0 in
    pipeline_wf p' /\ retire_frame p p').
  { destruct Hfind as [(-> & Hrange & Hst) | (-> & ->)].
    - apply compact_move_loop_wf; try assumption; try lia.
      intros k Hk. replace k with empty by lia. exact Hst.
    - rewrite Z.sub_diag. simpl.
      split; [exact Hwf | apply retire_frame_refl]. }
  destruct (compact_move_loop _ p search empty 0) as [p1 n_moved].
  destruct Hloop as [Hwf1 Hfr1].
  destruct (0 <? n_moved); simpl; [| split; assumption].
  destruct (cleanup_wf p1 Hwf1) as [Hwf2 Hfr2].
  split; [exact Hwf2 | exact (retire_frame_trans _ _ _ Hfr1 Hfr2)].
Qed.

(** ** One request dropped by the disconnect hook *)

Section DisconnectStep.
Context (p : PrefetchState).
Hypothesis Hwf : pipeline_wf p.
Hypothesis Hpending : ring_receive p < ring_unused p.

Let k := ring_receive p.
Let slot := GetPrfSlot p k.
Let marked :=
  set_ring_receive (uint64 (ring_receive p + 1))
    (set_n_requests_inflight (n_requests_inflight p - 1)
       (SetPrfSlot p k (set_status PRFS_TAG_REMAINS slot))).
Let q := prefetch_clear_slot k marked.

Lemma disconnect_marked_slot :
  GetPrfSlot marked k = set_status PRFS_TAG_REMAINS slot.
Proof.
  pose proof (wf_size p Hwf) as Hsize.
  unfold marked, GetPrfSlot, SetPrfSlot. simpl.
  apply buf_get_set_same, buf_nonempty. exact Hsize.
Qed.

Lemma disconnect_clear_fields :
  prf_buffer q = buf_set (prf_buffer p) k zero_slot /\
  prf_hash q = delete (buftag slot) (prf_hash p) /\
  ring_unused q = ring_unused p /\ ring_flush q = ring_flush p /\
  ring_receive q = ring_receive p + 1 /\ ring_last q = ring_last p /\
  n_requests_inflight q = n_requests_inflight p - 1.
Proof.
  pose proof (wf_order p Hwf) as Hord.
  unfold q, prefetch_clear_slot. rewrite disconnect_marked_slot. simpl.
  unfold SetPrfSlot, prfh_delete. simpl. rewrite buf_set_set.
  rewrite uint64_small by lia. repeat split.
Qed.

Lemma disconnect_clear_wf :
  pipeline_wf q /\
  (forall k', ring_receive p + 1 <= k' < ring_unused p ->
     GetPrfSlot q k' = GetPrfSlot p k') /\
  (forall t, prf_hash p !! t = None \/ t = buftag slot ->
     prf_hash q !! t = None).
Proof.
  pose proof Hwf as [Hsize Hord Hbnd Hreq Hrcv Hout Hsound Hcomp Hinf].
  destruct disconnect_clear_fields as (Hbuf & Hhash & HU & HF & HR & HL & HI).
  assert (Hcap : readahead_buffer_size q = readahead_buffer_size p).
  { unfold readahead_buffer_size. rewrite Hbuf, length_buf_set. reflexivity. }
  assert (Hpos : forall k', slot_pos q k' = slot_pos p k').
  { intros k'. unfold slot_pos. rewrite Hbuf, ring_slot_buf_set. reflexivity. }
  assert (Hget : forall k',
    ring_last p <= k' < ring_last p + readahead_buffer_size p ->
    GetPrfSlot q k' = if decide (k = k') then zero_slot else GetPrfSlot p k').
  { intros k' Hk'. unfold GetPrfSlot, readahead_buffer_size in *. rewrite Hbuf.
    apply (buf_get_set _ (ring_last p)); unfold k; lia. }
  assert (Hslot_hash : prf_hash p !! buftag slot = Some (slot_pos p k)).
  { apply Hcomp; [unfold k; lia |]. unfold slot.
    rewrite (Hreq k) by (unfold k; lia). discriminate. }
  split; [| split].
  - constructor; rewrite ?Hcap, ?HU, ?HR, ?HL, ?HI; try assumption; try lia.
    + intros k' Hk'. rewrite Hget by lia. rewrite decide_False by (unfold k; lia).
      apply Hreq. lia.
    + intros k' Hk'. rewrite Hget by lia.
      destruct (decide (k = k')); [right; reflexivity |].
      apply Hrcv. unfold k in *. lia.
    + intros k' Hk'. rewrite Hget by lia. rewrite decide_False by (unfold k; lia).
      apply Hout, Hk'.
    + intros t i. rewrite Hhash.
      destruct (decide (buftag slot = t)) as [<- | Hne];
        [rewrite lookup_delete_eq; discriminate |].
      rewrite lookup_delete_ne by exact Hne. intros Hti.
      destruct (Hsound t i Hti) as (k' & Hk' & Hi' & Ht' & Hst').
      exists k'. rewrite Hpos, Hget by lia.
      assert (k <> k') by (intros <-; apply Hne, Ht').
      rewrite decide_False by assumption. auto.
    + intros k' Hk'. rewrite Hpos, Hget by lia. rewrite Hhash.
      destruct (decide (k = k')) as [<- | Hkk];
        [intros H; destruct H; reflexivity |].
      intros Hst.
      assert (Hne : buftag slot <> buftag (GetPrfSlot p k')).
      { intros Heq. apply Hkk.
        pose proof (Hcomp k' Hk' Hst) as Hk_hash.
        rewrite <- Heq, Hslot_hash in Hk_hash. injection Hk_hash as Hk_hash.
        apply (ring_slot_inj (prf_buffer p) (ring_last p)); try exact Hk_hash;
          unfold readahead_buffer_size, k in *; lia. }
      rewrite lookup_delete_ne by exact Hne. apply Hcomp; assumption.
  - intros k' Hk'. rewrite Hget by lia.
    rewrite decide_False by (unfold k; lia). reflexivity.
  - intros t [Ht | ->]; rewrite Hhash.
    + destruct (decide (buftag slot = t)) as [<- | Hne];
        [apply lookup_delete_eq | rewrite lookup_delete_ne by exact Hne; exact Ht].
    + apply lookup_delete_eq.
Qed.

Lemma disconnect_step_unfold :
  prefetch_set_unused k marked
  = if ring_last q =? k then prefetch_cleanup_trailing_unused q
    else if ReceiveBufferNeedsCompaction q
         then snd (compact_prefetch_buffers q) else q.
Proof.
  pose proof (wf_order p Hwf) as Hord.
  unfold prefetch_set_unused.
  assert (Hlast : ring_last marked = ring_last p) by reflexivity.
  rewrite Hlast.
  destruct (Z.ltb_spec k (ring_last p)) as [Hlt | _]; [unfold k in Hlt; lia |].
  rewrite disconnect_marked_slot. reflexivity.
Qed.

Lemma disconnect_step_wf :
  let p' := prefetch_set_unused k marked in
  pipeline_wf p' /\
  ring_unused p' = ring_unused p /\ ring_flush p' = ring_flush p /\
  ring_receive p' = ring_receive p + 1 /\
  (forall k', ring_receive p + 1 <= k' < ring_unused p ->
     GetPrfSlot p' k' = GetPrfSlot p k') /\
  (forall t, prf_hash p !! t = None \/ t = buftag slot ->
     prf_hash p' !! t = None).
Proof.
  destruct disconnect_clear_fields as (Hbuf & Hhash & HU & HF & HR & HL & HI).
  destruct disconnect_clear_wf as (Hwfq & Hsame & Hnone).
  assert (Hframe : forall p', pipeline_wf p' /\ retire_frame q p' ->
    pipeline_wf p' /\
    ring_unused p' = ring_unused p /\ ring_flush p' = ring_flush p /\
    ring_receive p' = ring_receive p + 1 /\
    (forall k', ring_receive p + 1 <= k' < ring_unused p ->
       GetPrfSlot p' k' = GetPrfSlot p k') /\
    (forall t, prf_hash p !! t = None \/ t = buftag slot ->
       prf_hash p' !! t = None)).
  { intros p' (Hwf' & HU' & HF' & HR' & HI' & HL' & HS' & HH').
    split; [exact Hwf' |]. split; [congruence |]. split; [congruence |].
    split; [congruence |]. split.
    - intros k' Hk'. rewrite HS' by (rewrite HR, HU; exact Hk').
      apply Hsame, Hk'.
    - intros t Ht. apply HH', Hnone, Ht. }
  cbv zeta. rewrite disconnect_step_unfold.
  destruct (ring_last q =? k).
  - apply Hframe, cleanup_wf, Hwfq.
  - destruct (ReceiveBufferNeedsCompaction q).
    + apply Hframe, compact_wf, Hwfq.
    + apply Hframe. split; [exact Hwfq | apply retire_frame_refl].
Qed.

End DisconnectStep.

(** ** The disconnect hook *)

Lemma pipeline_wf_set_ring_flush v p :
  pipeline_wf p -> pipeline_wf (set_ring_flush v p).
Proof.
  intros [Hsize Hord Hbnd Hreq Hrcv Hout Hsound Hcomp Hinf].
  constructor; assumption.
Qed.

Lemma disconnect_loop_wf n p :
  pipeline_wf p ->
  (Z.to_nat (ring_unused p - ring_receive p) <= n)%nat ->
  pipeline_wf (disconnect_loop n p) /\
  ring_unused (disconnect_loop n p) = ring_unused p /\
  ring_flush (disconnect_loop n p) = ring_flush p /\
  ring_receive (disconnect_loop n p) = ring_unused p /\
  (forall t,
     prf_hash p !! t = None \/
     (exists k, ring_receive p <= k < ring_unused p /\
                t = buftag (GetPrfSlot p k)) ->
     prf_hash (disconnect_loop n p) !! t = None).
Proof.
  revert p. induction n as [| n IH]; intros p Hwf Hn;
    pose proof (wf_order p Hwf) as Hord; simpl.
  - split; [exact Hwf |]. repeat split; try lia.
    intros t [Ht | (k & Hk & _)]; [exact Ht | lia].
  - destruct (Z.ltb_spec (ring_receive p) (ring_unused p)) as [Hlt | Hge].
    + destruct (disconnect_step_wf p Hwf Hlt)
        as (Hwf1 & HU1 & HF1 & HR1 & HS1 & HH1).
      match goal with
      | |- context [disconnect_loop n ?p1] =>
          destruct (IH p1 Hwf1) as (Hwf2 & HU2 & HF2 & HR2 & HH2);
          [rewrite HU1, HR1; lia |]
      end.
      split; [exact Hwf2 |]. split; [congruence |]. split; [congruence |].
      split; [congruence |].
      intros t Ht. apply HH2.
      destruct Ht as [Ht | (k & Hk & ->)].
      * left. apply HH1. left. exact Ht.
      * destruct (decide (k = ring_receive p)) as [-> | Hne].
        -- left. apply HH1. right. reflexivity.
        -- right. exists k. rewrite HU1, HR1. split; [lia |].
           rewrite HS1 by lia. reflexivity.
    + split; [exact Hwf |]. repeat split; try lia.
      intros t [Ht | (k & Hk & _)]; [exact Ht | lia].
Qed.

Lemma buf_get_same_slot buf k k' :
  k mod Z.of_nat (length buf) = k' mod Z.of_nat (length buf) ->
  buf_get buf k = buf_get buf k'.
Proof. intros H. unfold buf_get, ring_slot. rewrite H. reflexivity. Qed.

(** In a well-formed pipeline in which nothing is in flight, every slot of
    the buffer holds a response or nothing. *)
Lemma idle_pipeline_slots p k :
  pipeline_wf p -> ring_receive p = ring_unused p ->
  status (GetPrfSlot p k) = PRFS_RECEIVED \/
  status (GetPrfSlot p k) = PRFS_UNUSED.
Proof.
  intros [Hsize Hord Hbnd Hreq Hrcv Hout Hsound Hcomp Hinf] Hidle.
  unfold GetPrfSlot, readahead_buffer_size in *.
  set (c := Z.of_nat (length (prf_buffer p))) in *.
  set (k' := ring_last p + (k - ring_last p) mod c).
  pose proof (Z.mod_pos_bound (k - ring_last p) c Hsize) as Hb.
  assert (Hsame : k mod c = k' mod c).
  { unfold k'. rewrite Zplus_mod_idemp_r. f_equal. lia. }
  rewrite (buf_get_same_slot _ k k' Hsame).
  destruct (Z.lt_ge_cases k' (ring_unused p)).
  - apply Hrcv. unfold k'. lia.
  - right. apply Hout. unfold k'. lia.
Qed.

(** The bounded form of well-formedness gives the general one. *)
Lemma pipeline_wf_checked p : pipeline_wf_check p -> pipeline_wf p.
Proof.
  intros (Hsize & Hord & Hbnd & Hreq & Hrcv & Hout & Hsound & Hcomp & Hinf).
  rewrite Forall_forall in Hreq, Hrcv, Hout, Hcomp.
  constructor; try assumption.
  - intros k Hk. apply Hreq, elem_of_seqZ. lia.
  - intros k Hk. apply Hrcv, elem_of_seqZ. lia.
  - intros k Hk. apply Hout, elem_of_seqZ. lia.
  - intros t i Hti. specialize (Hsound t i Hti).
    apply Exists_exists in Hsound as (k & Hk & Hi & Ht & Hst).
    apply elem_of_seqZ in Hk. exists k. repeat split; try assumption; lia.
  - intros k Hk. apply Hcomp, elem_of_seqZ. lia.
Qed.

(** The pipeline with three prefetches in flight is well formed. *)
Lemma three_in_flight_wf : pipeline_wf (MyPState three_in_flight).
Proof.
  apply pipeline_wf_checked. apply (bool_decide_unpack _). vm_compute. exact I.
Qed.

(** C3, as the code has it. On a well-formed pipeline,
    [prefetch_on_ps_disconnect] retires every request that was waiting for
    a response: each goes through [PRFS_TAG_REMAINS] only on its way into
    [prefetch_set_unused]. When the hook returns, the tag of every such
    request is gone from the tag index, no slot of the buffer is requested
    or left with a bare tag, [ring_receive] and [ring_flush] equal
    [ring_unused], nothing is counted as in flight, and the pipeline is
    well formed again. *)
Theorem disconnect_retires_requests (p : PrefetchState) :
  pipeline_wf p ->
  ring_unused (prefetch_on_ps_disconnect p) = ring_unused p /\
  ring_receive (prefetch_on_ps_disconnect p) = ring_unused p /\
  ring_flush (prefetch_on_ps_disconnect p) = ring_unused p /\
  n_requests_inflight (prefetch_on_ps_disconnect p) = 0 /\
  (forall k, ring_receive p <= k < ring_unused p ->
     status (GetPrfSlot p k) = PRFS_REQUESTED /\
     prf_hash (prefetch_on_ps_disconnect p) !! buftag (GetPrfSlot p k) = None) /\
  (forall k,
     status (GetPrfSlot (prefetch_on_ps_disconnect p) k) = PRFS_RECEIVED \/
     status (GetPrfSlot (prefetch_on_ps_disconnect p) k) = PRFS_UNUSED) /\
  pipeline_wf (prefetch_on_ps_disconnect p) /\
  ring_invariant (prefetch_on_ps_disconnect p).
Proof.
  intros Hwf. unfold prefetch_on_ps_disconnect.
  pose proof (pipeline_wf_set_ring_flush (ring_unused p) p Hwf) as Hwf0.
  cbv zeta.
  change (ring_unused p - ring_receive p)
    with (ring_unused (set_ring_flush (ring_unused p) p)
          - ring_receive (set_ring_flush (ring_unused p) p)).
  destruct (disconnect_loop_wf
              (Z.to_nat (ring_unused (set_ring_flush (ring_unused p) p)
                         - ring_receive (set_ring_flush (ring_unused p) p)))
              (set_ring_flush (ring_unused p) p) Hwf0 ltac:(lia))
    as (Hwf' & HU & HF & HR & HH).
  set (p' := disconnect_loop _ _) in *.
  change (ring_unused p' = ring_unused p) in HU.
  change (ring_flush p' = ring_unused p) in HF.
  change (ring_receive p' = ring_unused p) in HR.
  pose proof (wf_inflight _ Hwf') as Hinf.
  pose proof (wf_order _ Hwf') as Hord.
  pose proof (wf_bound _ Hwf') as Hbnd.
  split; [exact HU |]. split; [exact HR |]. split; [exact HF |].
  split; [lia |]. split; [| split; [| split]].
  - intros k Hk. split; [apply (wf_requested p Hwf), Hk |].
    apply HH. right. exists k. split; [exact Hk | reflexivity].
  - intros k. apply idle_pipeline_slots; [exact Hwf' | congruence].
  - exact Hwf'.
  - unfold ring_invariant. lia.
Qed.

Lemma disconnect_retires_requests_witness :
  ring_receive (prefetch_on_ps_disconnect (MyPState three_in_flight))
  = ring_unused (MyPState three_in_flight) /\
  ring_flush (prefetch_on_ps_disconnect (MyPState three_in_flight))
  = ring_unused (MyPState three_in_flight) /\
  n_requests_inflight (prefetch_on_ps_disconnect (MyPState three_in_flight)) = 0 /\
  prf_hash (prefetch_on_ps_disconnect (MyPState three_in_flight))
    !! buftag (GetPrfSlot (MyPState three_in_flight) 1) = None.
Proof.
  destruct (disconnect_retires_requests (MyPState three_in_flight)
              three_in_flight_wf)
    as (_ & Hreceive & Hflush & Hinflight & Hretired & _).
  split; [exact Hreceive |]. split; [exact Hflush |].
  split; [exact Hinflight |].
  apply (Hretired 1). vm_compute. split; [discriminate | reflexivity].
Defined.

(** C3 fails on the code as stated: of three prefetches in flight at ring
    indexes 0, 1 and 2, none is left in status TAG_REMAINS by the disconnect
    hook and none stays in the tag index; their slots are unused and the
    ring is empty. *)
Lemma disconnect_keeps_no_tag :
  Forall (fun k =>
      status (GetPrfSlot (MyPState three_in_flight) k) = PRFS_REQUESTED /\
      buftag (GetPrfSlot (MyPState three_in_flight) k) = sample_tag (k + 1) /\
      status (GetPrfSlot (prefetch_on_ps_disconnect (MyPState three_in_flight)) k)
      = PRFS_UNUSED /\
      status (GetPrfSlot (prefetch_on_ps_disconnect (MyPState three_in_flight)) k)
      <> PRFS_TAG_REMAINS /\
      prf_hash (prefetch_on_ps_disconnect (MyPState three_in_flight))
        !! sample_tag (k + 1) = None)
    [0; 1; 2] /\
  ring_receive (MyPState three_in_flight) = 0 /\
  ring_unused (MyPState three_in_flight) = 3 /\
  ring_last (prefetch_on_ps_disconnect (MyPState three_in_flight)) = 3 /\
  prf_hash (prefetch_on_ps_disconnect (MyPState three_in_flight)) = ∅.
Proof.
  split.
  - apply Forall_cons. split; [| apply Forall_cons; split;
      [| apply Forall_cons; split; [| apply Forall_nil_2]]].
    all: vm_compute; repeat split; discriminate.
  - vm_compute. repeat split.
Qed.

(** * Further properties *)

(** ** The request LSN *)

Lemma land_pow2_mask x a : 0 <= a -> Z.land x (2 ^ a - 1) = x mod 2 ^ a.
Proof.
  intros Ha. rewrite <- Z.land_ones by exact Ha.
  rewrite Z.ones_equiv. reflexivity.
Qed.

Section AdjustLsn.
Context (env : Env) (a b : Z).
Hypothesis Ha : 0 <= a <= b.
Hypothesis Hblck : XLOG_BLCKSZ env = 2 ^ a.
Hypothesis Hseg : wal_segment_size env = 2 ^ b.
Hypothesis Hhdr :
  0 < SizeOfXLogShortPHD env < SizeOfXLogLongPHD env /\
  SizeOfXLogLongPHD env < XLOG_BLCKSZ env.

Lemma adjust_lsn_cases lsn :
  0 <= lsn < 2 ^ 64 ->
  (lsn mod XLOG_BLCKSZ env = SizeOfXLogShortPHD env /\
   nm_adjust_lsn env lsn = lsn - SizeOfXLogShortPHD env) \/
  (lsn mod XLOG_BLCKSZ env <> SizeOfXLogShortPHD env /\
   lsn mod wal_segment_size env = SizeOfXLogLongPHD env /\
   nm_adjust_lsn env lsn = lsn - SizeOfXLogLongPHD env) \/
  (lsn mod XLOG_BLCKSZ env <> SizeOfXLogShortPHD env /\
   lsn mod wal_segment_size env <> SizeOfXLogLongPHD env /\
   nm_adjust_lsn env lsn = lsn).
Proof.
  intros Hlsn. unfold nm_adjust_lsn.
  rewrite Hblck, Hseg, !land_pow2_mask by lia.
  rewrite <- Hblck, <- Hseg.
  assert (Hpos : 0 < XLOG_BLCKSZ env) by lia.
  assert (Hspos : 0 < wal_segment_size env).
  { rewrite Hseg. apply Z.pow_pos_nonneg; lia. }
  pose proof (Z.mod_pos_bound lsn (XLOG_BLCKSZ env) Hpos) as Hm.
  pose proof (Z.mod_pos_bound lsn (wal_segment_size env) Hspos) as Hs.
  pose proof (Z.mod_le lsn (XLOG_BLCKSZ env) ltac:(lia) Hpos) as Hle.
  pose proof (Z.mod_le lsn (wal_segment_size env) ltac:(lia) Hspos) as Hles.
  destruct (Z.eqb_spec (lsn mod XLOG_BLCKSZ env) (SizeOfXLogShortPHD env))
    as [E1 | E1].
  - left. split; [exact E1 |]. apply uint64_small. lia.
  - right.
    destruct (Z.eqb_spec (lsn mod wal_segment_size env)
                (SizeOfXLogLongPHD env)) as [E2 | E2].
    + left. repeat split; try assumption. apply uint64_small. lia.
    + right. repeat split; assumption.
Qed.

Lemma segment_multiple_of_block :
  exists q, 0 < q /\ wal_segment_size env = q * XLOG_BLCKSZ env.
Proof.
  exists (2 ^ (b - a)). split; [apply Z.pow_pos_nonneg; lia |].
  rewrite Hblck, Hseg, <- Z.pow_add_r by lia. f_equal. lia.
Qed.

Lemma adjust_lsn_at_page_start lsn :
  0 <= lsn < 2 ^ 64 ->
  nm_adjust_lsn env lsn <> lsn ->
  nm_adjust_lsn env lsn mod XLOG_BLCKSZ env = 0.
Proof.
  intros Hlsn Hne.
  assert (Hpos : 0 < XLOG_BLCKSZ env) by lia.
  destruct (adjust_lsn_cases lsn Hlsn)
    as [(E & ->) | [(_ & E & ->) | (_ & _ & E)]]; [| | contradiction].
  - rewrite <- E. rewrite Zminus_mod_idemp_r, Z.sub_diag. apply Z.mod_0_l. lia.
  - destruct segment_multiple_of_block as (q & Hq & Hmul).
    assert (Hdiv : (lsn - SizeOfXLogLongPHD env) mod wal_segment_size env = 0).
    { rewrite <- E, Zminus_mod_idemp_r, Z.sub_diag. apply Z.mod_0_l. lia. }
    apply Z.mod_divide in Hdiv; [| lia].
    apply Z.mod_divide; [lia |].
    destruct Hdiv as [c Hc]. exists (c * q). rewrite Hc, Hmul. ring.
Qed.

Lemma adjust_lsn_range lsn :
  0 <= lsn < 2 ^ 64 -> 0 <= nm_adjust_lsn env lsn <= lsn.
Proof.
  intros Hlsn.
  assert (Hpos : 0 < XLOG_BLCKSZ env) by lia.
  assert (Hspos : 0 < wal_segment_size env).
  { rewrite Hseg. apply Z.pow_pos_nonneg; lia. }
  pose proof (Z.mod_le lsn (XLOG_BLCKSZ env) ltac:(lia) Hpos) as Hle.
  pose proof (Z.mod_le lsn (wal_segment_size env) ltac:(lia) Hspos) as Hles.
  destruct (adjust_lsn_cases lsn Hlsn)
    as [(E & ->) | [(_ & E & ->) | (_ & _ & ->)]]; lia.
Qed.

Lemma adjust_lsn_fixed lsn :
  0 <= lsn < 2 ^ 64 ->
  lsn mod XLOG_BLCKSZ env = 0 -> nm_adjust_lsn env lsn = lsn.
Proof.
  intros Hlsn Hz.
  destruct segment_multiple_of_block as (q & Hq & Hmul).
  destruct (adjust_lsn_cases lsn Hlsn)
    as [(E & _) | [(_ & E & _) | (_ & _ & E)]]; [lia | | exact E].
  exfalso.
  assert (Hpos : 0 < XLOG_BLCKSZ env) by lia.
  assert (Hlong : (lsn mod wal_segment_size env) mod XLOG_BLCKSZ env = 0).
  { apply Z.mod_divide; [lia |]. apply Z.mod_divide in Hz; [| lia].
    rewrite Z.mod_eq by lia. apply Z.divide_sub_r; [exact Hz |].
    apply Z.divide_mul_l. exists q. exact Hmul. }
  rewrite E, Z.mod_small in Hlong by lia. lia.
Qed.

End AdjustLsn.

(** X1. With the block and segment sizes of the WAL powers of two and the
    page headers shorter than a block, [nm_adjust_lsn] returns its argument
    or the start of the page its argument lies in, never a position further
    on; the LSN it returns does not point just behind a page header, and
    adjusting it again changes nothing. *)
Theorem nm_adjust_lsn_rewinds_to_page_start (env : Env) (a b lsn : Z) :
  0 <= a <= b ->
  XLOG_BLCKSZ env = 2 ^ a ->
  wal_segment_size env = 2 ^ b ->
  0 < SizeOfXLogShortPHD env < SizeOfXLogLongPHD env /\
  SizeOfXLogLongPHD env < XLOG_BLCKSZ env ->
  0 <= lsn < 2 ^ 64 ->
  (nm_adjust_lsn env lsn = lsn \/
   nm_adjust_lsn env lsn = lsn - lsn mod XLOG_BLCKSZ env) /\
  0 <= nm_adjust_lsn env lsn <= lsn /\
  nm_adjust_lsn env lsn mod XLOG_BLCKSZ env <> SizeOfXLogShortPHD env /\
  nm_adjust_lsn env lsn mod wal_segment_size env <> SizeOfXLogLongPHD env /\
  nm_adjust_lsn env (nm_adjust_lsn env lsn) = nm_adjust_lsn env lsn.
Proof.
  intros Ha Hblck Hseg Hhdr Hlsn.
  pose proof (adjust_lsn_cases env a b Ha Hblck Hseg Hhdr lsn Hlsn) as Hcases.
  pose proof (adjust_lsn_range env a b Ha Hblck Hseg Hhdr lsn Hlsn) as Hrange.
  pose proof (adjust_lsn_at_page_start env a b Ha Hblck Hseg Hhdr lsn Hlsn)
    as Hstart.
  pose proof (adjust_lsn_fixed env a b Ha Hblck Hseg Hhdr
                (nm_adjust_lsn env lsn) ltac:(lia)) as Hfixed.
  destruct (segment_multiple_of_block env a b Ha Hblck Hseg)
    as (q & Hq & Hmul).
  assert (Hpos : 0 < XLOG_BLCKSZ env) by lia.
  destruct (Z.eq_dec (nm_adjust_lsn env lsn) lsn) as [Heq | Hne].
  - rewrite Heq in *.
    destruct Hcases as [(E & E') | [(_ & E & E') | (E1 & E2 & _)]]; try lia.
  - specialize (Hstart Hne). specialize (Hfixed Hstart).
    repeat split; try lia.
    + right.
      destruct Hcases as [(E & ->) | [(E1 & E & ->) | (_ & _ & E)]];
        [lia | | contradiction].
      f_equal.
      assert (Hm : (lsn mod wal_segment_size env) mod XLOG_BLCKSZ env
                   = lsn mod XLOG_BLCKSZ env).
      { rewrite Hmul, Z.mul_comm, Z.rem_mul_r by lia.
        rewrite (Z.mul_comm (XLOG_BLCKSZ env)), Z.mod_add by lia.
        apply Z.mod_mod. lia. }
      rewrite <- Hm, E. symmetry. apply Z.mod_small. lia.
    + intros E.
      assert (Hm : (nm_adjust_lsn env lsn mod wal_segment_size env)
                   mod XLOG_BLCKSZ env = 0).
      { apply Z.mod_divide; [lia |]. apply Z.mod_divide in Hstart; [| lia].
        rewrite Z.mod_eq by lia. apply Z.divide_sub_r; [exact Hstart |].
        apply Z.divide_mul_l. exists q. exact Hmul. }
      rewrite E, Z.mod_small in Hm by lia. lia.
Qed.

Lemma nm_adjust_lsn_rewinds_to_page_start_witness :
  nm_adjust_lsn sample_env (3 * 8192 + 24) = 3 * 8192 /\
  nm_adjust_lsn sample_env (nm_adjust_lsn sample_env (16777216 + 40))
  = nm_adjust_lsn sample_env (16777216 + 40).
Proof.
  assert (Hhdr : 0 < SizeOfXLogShortPHD sample_env < SizeOfXLogLongPHD sample_env
                 /\ SizeOfXLogLongPHD sample_env < XLOG_BLCKSZ sample_env).
  { vm_compute. repeat split. }
  split.
  - destruct (nm_adjust_lsn_rewinds_to_page_start sample_env 13 24
                (3 * 8192 + 24) ltac:(lia) eq_refl eq_refl Hhdr ltac:(lia))
      as ([H | H] & _ & Hshort & _).
    + exfalso. apply Hshort. rewrite H. reflexivity.
    + rewrite H. reflexivity.
  - apply (nm_adjust_lsn_rewinds_to_page_start sample_env 13 24
             (16777216 + 40) ltac:(lia) eq_refl eq_refl Hhdr ltac:(lia)).
Defined.

(** ** The persistence switch *)

Lemma classify_permanent reln :
  smgr_relpersistence reln = RELPERSISTENCE_PERMANENT ->
  classify_persistence reln = PersistencePermanent.
Proof. intros H. unfold classify_persistence. rewrite H. reflexivity. Qed.

Lemma classify_local reln :
  smgr_relpersistence reln = RELPERSISTENCE_TEMP \/
  smgr_relpersistence reln = RELPERSISTENCE_UNLOGGED ->
  classify_persistence reln = PersistenceLocal.
Proof.
  intros [H | H]; unfold classify_persistence; rewrite H; reflexivity.
Qed.

Lemma classify_unknown reln :
  smgr_relpersistence reln = 0 ->
  classify_persistence reln = PersistenceUnknown.
Proof. intros H. unfold classify_persistence. rewrite H. reflexivity. Qed.

(** [neon_nblocks] on a permanent relation whose size is cached. *)
Lemma neon_nblocks_cached env fuel reln forknum n w :
  smgr_relpersistence reln = RELPERSISTENCE_PERMANENT ->
  get_cached_relsize w (smgr_rnode reln) forknum = Some n ->
  neon_nblocks env fuel reln forknum w = (Return n, w).
Proof.
  intros Hperm Hcached. unfold neon_nblocks. rewrite Hperm, Hcached.
  reflexivity.
Qed.

(** ** The unlogged build *)

(** X2. The life of an unlogged build of a permanent, empty relation. The
    start makes the relation look unlogged, creates its main fork locally
    and enters phase 1, in which a commit is refused; the end of phase 1
    enters phase 2; the end of the build makes the relation permanent again,
    forgets the cached size of each of its forks, closes and unlinks each
    fork locally, and leaves no build in progress, so that a commit goes
    through. *)
Theorem unlogged_build_of_permanent_relation (env : Env) (fuel : nat)
  (reln : SMgrRelation) (b : Backend) (w1 : World) :
  smgr_relpersistence reln = RELPERSISTENCE_PERMANENT ->
  unlogged_build_phase (build b) = UNLOGGED_BUILD_NOT_IN_PROGRESS ->
  neon_nblocks env fuel reln MAIN_FORKNUM (world b) = (Return 0, w1) ->
  let rn := smgr_rnode reln in
  let reln1 := set_smgr_relpersistence RELPERSISTENCE_UNLOGGED reln in
  let b1 := snd (neon_start_unlogged_build env fuel reln b) in
  let b2 := neon_finish_unlogged_build_phase_1 reln1 b1 in
  let b3 := snd (neon_end_unlogged_build reln1 b2) in
  fst (neon_start_unlogged_build env fuel reln b) = Ok reln1 /\
  build b1 = mkUnloggedBuild (Some reln1) UNLOGGED_BUILD_PHASE_1 /\
  world b1 = w1 /\
  md_calls b1 = md_calls b ++ [MdCreate rn MAIN_FORKNUM false] /\
  fst (at_end_of_xact XACT_EVENT_COMMIT b1)
  = Raise ERROR unlogged_build_not_finished /\
  build b2 = mkUnloggedBuild (Some reln1) UNLOGGED_BUILD_PHASE_2 /\
  fst (neon_end_unlogged_build reln1 b2) = reln /\
  build b3 = mkUnloggedBuild None UNLOGGED_BUILD_NOT_IN_PROGRESS /\
  (forall forknum, 0 <= forknum <= MAX_FORKNUM ->
     get_cached_relsize (world b3) rn forknum = None) /\
  md_calls b3
  = md_calls b1
    ++ flat_map (fun f => [MdClose rn f; MdUnlink rn InvalidBackendId f true])
         [0; 1; 2; 3] /\
  at_end_of_xact XACT_EVENT_COMMIT b3 = (Return tt, b3).
Proof.
  intros Hperm Hidle Hempty. cbv zeta.
  assert (Hstart : neon_start_unlogged_build env fuel reln b
    = (Ok (set_smgr_relpersistence RELPERSISTENCE_UNLOGGED reln),
       md_call (MdCreate (smgr_rnode reln) MAIN_FORKNUM false)
         (set_build
            (mkUnloggedBuild
               (Some (set_smgr_relpersistence RELPERSISTENCE_UNLOGGED reln))
               UNLOGGED_BUILD_PHASE_1)
            (set_world w1 b)))).
  { unfold neon_start_unlogged_build, in_world.
    rewrite Hidle, (classify_permanent reln Hperm), Hempty. reflexivity. }
  rewrite Hstart. simpl.
  split; [reflexivity |]. split; [reflexivity |]. split; [reflexivity |].
  split; [reflexivity |]. split; [reflexivity |]. split; [reflexivity |].
  split.
  { destruct reln as [rn persistence]. simpl in Hperm. subst persistence.
    reflexivity. }
  split; [reflexivity |].
  split.
  { intros forknum Hfork. unfold get_cached_relsize. simpl.
    unfold MAX_FORKNUM in Hfork.
    assert (Hcases : forknum = 0 \/ forknum = 1 \/ forknum = 2 \/ forknum = 3)
      by lia.
    destruct Hcases as [-> | [-> | [-> | ->]]];
      repeat first [apply lookup_delete_eq
                   | rewrite lookup_delete_ne by (intros [=])]. }
  split; [rewrite <- !app_assoc; reflexivity |].
  reflexivity.
Qed.

Lemma unlogged_build_of_permanent_relation_witness :
  fst (neon_start_unlogged_build sample_env 1 sample_reln
         (mkBackend sized_world
            (mkUnloggedBuild None UNLOGGED_BUILD_NOT_IN_PROGRESS) []))
  = Ok (set_smgr_relpersistence RELPERSISTENCE_UNLOGGED sample_reln).
Proof.
  destruct (unlogged_build_of_permanent_relation sample_env 1 sample_reln
              (mkBackend sized_world
                 (mkUnloggedBuild None UNLOGGED_BUILD_NOT_IN_PROGRESS) [])
              sized_world eq_refl eq_refl eq_refl) as (Hstart & _).
  exact Hstart.
Defined.

(** X3. [neon_start_unlogged_build] refuses to start a second build, and a
    build of a permanent relation whose main fork is not empty; in both
    cases the build state is left as it was, and nothing is created
    locally. A temporary or unlogged relation enters the build state
    [UNLOGGED_BUILD_NOT_PERMANENT], from which the end of phase 1 and the
    end of the build touch neither the size cache nor local storage. *)
Theorem unlogged_build_refusals_and_local_relations (env : Env) (fuel : nat)
  (reln : SMgrRelation) (b : Backend) :
  (unlogged_build_phase (build b) <> UNLOGGED_BUILD_NOT_IN_PROGRESS ->
   neon_start_unlogged_build env fuel reln b
   = (Fail unlogged_build_already_in_progress, b)) /\
  (unlogged_build_phase (build b) = UNLOGGED_BUILD_NOT_IN_PROGRESS ->
   smgr_relpersistence reln = RELPERSISTENCE_PERMANENT ->
   forall n w1,
     neon_nblocks env fuel reln MAIN_FORKNUM (world b) = (Return n, w1) ->
     n <> 0 ->
     neon_start_unlogged_build env fuel reln b
     = (Fail index_is_not_empty, set_world w1 b)) /\
  (unlogged_build_phase (build b) = UNLOGGED_BUILD_NOT_IN_PROGRESS ->
   smgr_relpersistence reln = RELPERSISTENCE_TEMP \/
   smgr_relpersistence reln = RELPERSISTENCE_UNLOGGED ->
   let b1 := set_build (mkUnloggedBuild (Some reln)
                          UNLOGGED_BUILD_NOT_PERMANENT) b in
   neon_start_unlogged_build env fuel reln b = (Ok reln, b1) /\
   neon_finish_unlogged_build_phase_1 reln b1 = b1 /\
   neon_end_unlogged_build reln b1
   = (reln,
      set_build (mkUnloggedBuild None UNLOGGED_BUILD_NOT_IN_PROGRESS) b)).
Proof.
  split; [| split].
  - intros Hbusy. unfold neon_start_unlogged_build.
    destruct (unlogged_build_phase (build b)); [contradiction | ..];
      reflexivity.
  - intros Hidle Hperm n w1 Hn Hne. unfold neon_start_unlogged_build, in_world.
    rewrite Hidle, (classify_permanent reln Hperm), Hn. simpl.
    apply Z.eqb_neq in Hne. rewrite Hne. reflexivity.
  - intros Hidle Hlocal. cbv zeta.
    unfold neon_start_unlogged_build.
    rewrite Hidle, (classify_local reln Hlocal). simpl.
    repeat split.
Qed.

Lemma unlogged_build_refusals_and_local_relations_witness :
  neon_start_unlogged_build sample_env 1 sample_reln
    (mkBackend sized_world
       (mkUnloggedBuild (Some sample_reln) UNLOGGED_BUILD_PHASE_2) [])
  = (Fail unlogged_build_already_in_progress,
     mkBackend sized_world
       (mkUnloggedBuild (Some sample_reln) UNLOGGED_BUILD_PHASE_2) []).
Proof.
  apply (proj1 (unlogged_build_refusals_and_local_relations sample_env 1
                  sample_reln
                  (mkBackend sized_world
                     (mkUnloggedBuild (Some sample_reln)
                        UNLOGGED_BUILD_PHASE_2) []))).
  discriminate.
Defined.

(** ** Creation, truncation and the size cache *)

(** X4. A permanent relation fork that has just been created outside redo
    is known to be empty: [neon_nblocks] answers 0 from the size cache,
    without a request to the page server. Created during redo, a fork keeps
    the size that was already known for it, and is empty only if none was;
    the size reported into [smgr_cached_nblocks] is the one [neon_nblocks]
    then answers. Nothing is created locally. *)
Theorem neon_create_seeds_relation_size (env : Env) (fuel : nat)
  (reln : SMgrRelation) (forkNum_ : Z) (b : Backend) :
  smgr_relpersistence reln = RELPERSISTENCE_PERMANENT ->
  let b1 := snd (neon_create reln forkNum_ false b) in
  let b2 := snd (neon_create reln forkNum_ true b) in
  fst (neon_create reln forkNum_ false b) = Ok None /\
  neon_nblocks env fuel reln forkNum_ (world b1) = (Return 0, world b1) /\
  md_calls b1 = md_calls b /\
  (forall n, get_cached_relsize (world b) (smgr_rnode reln) forkNum_ = Some n ->
     0 <= n ->
     neon_create reln forkNum_ true b = (Ok (Some n), b)) /\
  (get_cached_relsize (world b) (smgr_rnode reln) forkNum_ = None ->
   fst (neon_create reln forkNum_ true b) = Ok (Some 0) /\
   neon_nblocks env fuel reln forkNum_ (world b2) = (Return 0, world b2)) /\
  md_calls b2 = md_calls b.
Proof.
  intros Hperm. cbv zeta. unfold neon_create.
  rewrite (classify_permanent reln Hperm). simpl.
  split; [reflexivity |].
  split.
  { apply neon_nblocks_cached; [exact Hperm |].
    unfold get_cached_relsize. simpl. apply lookup_insert_eq. }
  split; [reflexivity |].
  split.
  { intros n Hn Hpos. unfold on_world, update_cached_relsize.
    unfold get_cached_relsize in Hn. rewrite Hn.
    destruct (Z.ltb_spec n 0) as [Hlt | _]; [lia |].
    unfold get_cached_relsize. rewrite Hn. destruct b; reflexivity. }
  split.
  { intros Hnone. unfold on_world, update_cached_relsize.
    unfold get_cached_relsize in Hnone. rewrite Hnone. simpl.
    unfold get_cached_relsize. simpl. rewrite lookup_insert_eq.
    split; [reflexivity |].
    apply neon_nblocks_cached; [exact Hperm |].
    unfold get_cached_relsize. simpl. apply lookup_insert_eq. }
  unfold on_world. reflexivity.
Qed.

Lemma neon_create_seeds_relation_size_witness :
  neon_nblocks sample_env 1 sample_reln MAIN_FORKNUM
    (world (snd (neon_create sample_reln MAIN_FORKNUM false
                   (mkBackend (sample_world (neon_init 16))
                      (mkUnloggedBuild None UNLOGGED_BUILD_NOT_IN_PROGRESS)
                      []))))
  = (Return 0,
     world (snd (neon_create sample_reln MAIN_FORKNUM false
                   (mkBackend (sample_world (neon_init 16))
                      (mkUnloggedBuild None UNLOGGED_BUILD_NOT_IN_PROGRESS)
                      [])))).
Proof.
  destruct (neon_create_seeds_relation_size sample_env 1 sample_reln
              MAIN_FORKNUM
              (mkBackend (sample_world (neon_init 16))
                 (mkUnloggedBuild None UNLOGGED_BUILD_NOT_IN_PROGRESS) [])
              eq_refl) as (_ & Hnblocks & _).
  exact Hnblocks.
Defined.

(** X5. [neon_truncate] of a permanent relation records the new size, so
    that [neon_nblocks] answers it without a request; it flushes the WAL up
    to the adjusted insert position and then publishes that same position
    as the last-written LSN of the relation, and it truncates nothing
    locally. *)
Theorem neon_truncate_records_size_and_lsn (env : Env) (fuel : nat)
  (reln : SMgrRelation) (forknum nblocks : Z) (b : Backend) :
  smgr_relpersistence reln = RELPERSISTENCE_PERMANENT ->
  let b1 := snd (neon_truncate env reln forknum nblocks b) in
  let lsn := nm_adjust_lsn env (GetXLogInsertRecPtr (world b)) in
  fst (neon_truncate env reln forknum nblocks b) = Ok tt /\
  neon_nblocks env fuel reln forknum (world b1) = (Return nblocks, world b1) /\
  trace (world b1)
  = trace (world b)
    ++ [EvXLogFlush lsn;
        EvSetLastWrittenLSNForRelation lsn (smgr_rnode reln) forknum] /\
  MyPState (world b1) = MyPState (world b) /\
  md_calls b1 = md_calls b.
Proof.
  intros Hperm. cbv zeta. unfold neon_truncate.
  rewrite (classify_permanent reln Hperm). simpl.
  split; [reflexivity |].
  split.
  { apply neon_nblocks_cached; [exact Hperm |].
    unfold get_cached_relsize. simpl. apply lookup_insert_eq. }
  split; [rewrite <- app_assoc; reflexivity |].
  split; reflexivity.
Qed.

Lemma neon_truncate_records_size_and_lsn_witness :
  fst (neon_truncate sample_env sample_reln MAIN_FORKNUM 5
         (mkBackend sized_world
            (mkUnloggedBuild None UNLOGGED_BUILD_NOT_IN_PROGRESS) []))
  = Ok tt.
Proof.
  destruct (neon_truncate_records_size_and_lsn sample_env 1 sample_reln
              MAIN_FORKNUM 5
              (mkBackend sized_world
                 (mkUnloggedBuild None UNLOGGED_BUILD_NOT_IN_PROGRESS) [])
              eq_refl) as (Hok & _).
  exact Hok.
Defined.

(** ** Writes *)

(** X6. [neon_write] keeps local relations local and remote relations
    remote. For a temporary or unlogged relation, and for a relation of
    unknown persistence that exists locally, it makes one [mdwrite] and
    nothing else: no WAL record, no last-written LSN, no write into the
    local file cache. For a permanent relation, and for one of unknown
    persistence that does not exist locally, it never calls [md.c]; it goes
    through the eviction WAL-logger and, unless that raised, ends by writing
    the page into the local file cache, leaving the size cache as it was. *)
Theorem neon_write_local_or_remote (env : Env) (loc : LocalStore)
  (reln : SMgrRelation) (forknum blocknum : Z) (buffer : list Z)
  (skipFsync : bool) (b : Backend) :
  let rn := smgr_rnode reln in
  (smgr_relpersistence reln = RELPERSISTENCE_TEMP \/
   smgr_relpersistence reln = RELPERSISTENCE_UNLOGGED \/
   smgr_relpersistence reln = 0 /\ mdexists loc rn forknum = true ->
   neon_write env loc reln forknum blocknum buffer skipFsync b
   = (Ok tt, md_call (MdWrite rn forknum blocknum buffer skipFsync) b)) /\
  (smgr_relpersistence reln = RELPERSISTENCE_PERMANENT \/
   smgr_relpersistence reln = 0 /\ mdexists loc rn forknum = false ->
   md_calls (snd (neon_write env loc reln forknum blocknum buffer skipFsync b))
   = md_calls b /\
   forall b',
     neon_write env loc reln forknum blocknum buffer skipFsync b = (Ok tt, b') ->
     neon_wallog_page env reln forknum blocknum buffer false (world b)
     = (Return tt, snd (neon_wallog_page env reln forknum blocknum buffer
                          false (world b))) /\
     world b'
     = emit (EvLfcWrite rn forknum blocknum buffer)
         (snd (neon_wallog_page env reln forknum blocknum buffer false
                 (world b))) /\
     relsize_cache (world b') = relsize_cache (world b)).
Proof.
  cbv zeta. split.
  - intros [H | [H | [H Hmd]]]; unfold neon_write.
    + rewrite (classify_local reln (or_introl H)). reflexivity.
    + rewrite (classify_local reln (or_intror H)). reflexivity.
    + rewrite (classify_unknown reln H), Hmd. reflexivity.
  - intros Hremote.
    assert (Hwrite :
      neon_write env loc reln forknum blocknum buffer skipFsync b
      = neon_write_remote env reln forknum blocknum buffer b).
    { unfold neon_write. destruct Hremote as [H | [H Hmd]].
      - rewrite (classify_permanent reln H). reflexivity.
      - rewrite (classify_unknown reln H), Hmd. reflexivity. }
    rewrite Hwrite. unfold neon_write_remote, in_world.
    pose proof (wallog_page_events env reln forknum buffer blocknum false
                  (world b)) as Hev.
    destruct (neon_wallog_page env reln forknum blocknum buffer false (world b))
      as [[[] | lvl site |] w1]; simpl; (split; [reflexivity |]);
      intros b' Hb'; try discriminate Hb'.
    injection Hb' as <-. simpl.
    destruct (Hev w1 eq_refl) as (evs & _ & Hcache & _).
    repeat split. exact Hcache.
Qed.

Lemma neon_write_local_or_remote_witness :
  neon_write sample_env (mkLocalStore (fun _ _ => true) (fun _ _ _ => [])
                           (fun _ _ _ => None))
    (mkSMgrRelation sample_rnode 0) MAIN_FORKNUM 3 sample_page false
    (mkBackend sized_world
       (mkUnloggedBuild None UNLOGGED_BUILD_NOT_IN_PROGRESS) [])
  = (Ok tt,
     mkBackend sized_world
       (mkUnloggedBuild None UNLOGGED_BUILD_NOT_IN_PROGRESS)
       [MdWrite sample_rnode MAIN_FORKNUM 3 sample_page false]).
Proof.
  apply (proj1 (neon_write_local_or_remote sample_env
                  (mkLocalStore (fun _ _ => true) (fun _ _ _ => [])
                     (fun _ _ _ => None))
                  (mkSMgrRelation sample_rnode 0) MAIN_FORKNUM 3 sample_page
                  false
                  (mkBackend sized_world
                     (mkUnloggedBuild None UNLOGGED_BUILD_NOT_IN_PROGRESS)
                     []))).
  right. right. split; reflexivity.
Defined.

(** ** Sample states in good order *)

Lemma pipeline_ext_checked p : pipeline_ext_check p -> pipeline_ext p.
Proof.
  intros (Hfl & Hidx & Hresp).
  rewrite Forall_forall in Hidx, Hresp.
  constructor.
  - exact Hfl.
  - intros k Hk. apply Hidx, elem_of_seqZ. lia.
  - intros k Hk Hst.
    destruct (Hresp k ltac:(apply elem_of_seqZ; lia) Hst) as [r Hr].
    rewrite Hr. discriminate.
Qed.

Lemma pipeline_ok_checked p : pipeline_ok_check p -> pipeline_ok p.
Proof.
  intros (Hwf & Hext & Htrim).
  split; [exact (pipeline_wf_checked p Hwf) |].
  split; [exact (pipeline_ext_checked p Hext) | exact Htrim].
Qed.

Lemma three_in_flight_ok : pipeline_ok (MyPState three_in_flight).
Proof.
  apply pipeline_ok_checked. apply (bool_decide_unpack _). vm_compute. exact I.
Qed.

Lemma three_received_ok : pipeline_ok three_received.
Proof.
  apply pipeline_ok_checked. apply (bool_decide_unpack _). vm_compute. exact I.
Qed.

Lemma middle_retired_ok : pipeline_ok middle_retired.
Proof.
  apply pipeline_ok_checked. apply (bool_decide_unpack _). vm_compute. exact I.
Qed.

(** ** The pipeline invariants under retirement *)

Lemma retires_refl p : retires p p.
Proof.
  constructor; auto; try lia. intros t slot' H. exists slot'. auto.
Qed.

Lemma retires_trans p1 p2 p3 :
  retires p1 p2 -> retires p2 p3 -> retires p1 p3.
Proof.
  intros [S1 U1 L1 R1 A1 K1 O1] [S2 U2 L2 R2 A2 K2 O2].
  constructor; try congruence; try lia.
  - auto.
  - intros t slot3 H3. destruct (K2 t slot3 H3) as (slot2 & H2 & Ht & Hl).
    destruct (K1 t slot2 H2) as (slot1 & H1 & Ht' & Hl').
    exists slot1. repeat split; congruence.
  - intros k Hk. rewrite O2 by (rewrite U1, S1; lia). apply O1, Hk.
Qed.

(** The slot the index has for a tag, in terms of ring indexes. *)
Lemma buffered_in_window p t slot :
  pipeline_wf p -> buffered p t = Some slot ->
  exists k, ring_last p <= k < ring_unused p /\ slot = GetPrfSlot p k /\
            buftag slot = t /\ status slot <> PRFS_UNUSED /\
            prf_hash p !! t = Some (slot_pos p k).
Proof.
  intros Hwf. unfold buffered.
  destruct (prf_hash p !! t) as [pos |] eqn:Hpos; [| discriminate].
  simpl. intros [= <-].
  destruct (wf_hash_sound p Hwf t pos Hpos) as (k & Hk & -> & Ht & Hst).
  exists k. split; [exact Hk |]. split; [reflexivity |]. auto.
Qed.

Lemma buffered_of_slot p k :
  pipeline_wf p -> ring_last p <= k < ring_unused p ->
  status (GetPrfSlot p k) <> PRFS_UNUSED ->
  buffered p (buftag (GetPrfSlot p k)) = Some (GetPrfSlot p k).
Proof.
  intros Hwf Hk Hst. unfold buffered.
  rewrite (wf_hash_complete p Hwf k Hk Hst). reflexivity.
Qed.

(** *** Trailing cleanup *)

Lemma cleanup_loop_last n p :
  0 <= ring_last p <= ring_receive p -> ring_receive p < 2 ^ 64 ->
  let p' := cleanup_loop n p in
  ring_last p <= ring_last p' <= ring_receive p /\
  (forall k, ring_last p <= k < ring_last p' ->
     status (GetPrfSlot p k) = PRFS_UNUSED) /\
  ((Z.to_nat (ring_receive p - ring_last p) <= n)%nat ->
   ring_last p' < ring_receive p ->
   status (GetPrfSlot p (ring_last p')) <> PRFS_UNUSED).
Proof.
  revert p. induction n as [| n IH]; intros p Hord Hmax; simpl.
  - split; [lia |]. split; [intros k Hk; lia |]. intros Hn Hlt. lia.
  - destruct (Z.ltb_spec (ring_last p) (ring_receive p)) as [Hlt | Hge].
    + destruct (status (GetPrfSlot p (ring_last p))) eqn:Hst;
        try (split; [lia |]; split; [intros k Hk; lia |];
             intros _ _; rewrite Hst; discriminate).
      specialize (IH (set_ring_last (uint64 (ring_last p + 1)) p)).
      rewrite uint64_small in * by lia.
      simpl in IH. destruct IH as (Hl & Hun & Hpost); [lia | lia |].
      split; [lia |]. split.
      * intros k Hk. destruct (decide (k = ring_last p)) as [-> | Hne];
          [exact Hst | apply Hun; lia].
      * intros Hn Hlt'. apply Hpost; [lia | exact Hlt'].
    + split; [lia |]. split; [intros k Hk; lia |]. intros _ Hlt. lia.
Qed.

Lemma cleanup_ok p :
  pipeline_wf p -> pipeline_ext p ->
  pipeline_ok (prefetch_cleanup_trailing_unused p) /\
  retires p (prefetch_cleanup_trailing_unused p) /\
  prf_buffer (prefetch_cleanup_trailing_unused p) = prf_buffer p /\
  prf_hash (prefetch_cleanup_trailing_unused p) = prf_hash p /\
  ring_receive (prefetch_cleanup_trailing_unused p) = ring_receive p /\
  ring_flush (prefetch_cleanup_trailing_unused p) = ring_flush p /\
  n_requests_inflight (prefetch_cleanup_trailing_unused p)
  = n_requests_inflight p /\
  (forall k, ring_last p <= k < ring_last (prefetch_cleanup_trailing_unused p) ->
     status (GetPrfSlot p k) = PRFS_UNUSED).
Proof.
  intros Hwf [Hflush Hindex Hresp].
  destruct (cleanup_wf p Hwf) as [Hwf' Hfr].
  pose proof (wf_order p Hwf) as Hord.
  unfold prefetch_cleanup_trailing_unused in *.
  set (n := Z.to_nat (ring_receive p - ring_last p)) in *.
  destruct (cleanup_loop_frame n p)
    as (Hbuf & Hhash & HU & HF & HR & HB & HI & HN).
  destruct (cleanup_loop_last n p ltac:(lia) ltac:(lia)) as (HL & Hun & Hpost).
  set (p' := cleanup_loop n p) in *.
  assert (Hget : forall k, GetPrfSlot p' k = GetPrfSlot p k).
  { intros k. unfold GetPrfSlot. rewrite Hbuf. reflexivity. }
  split; [split; [exact Hwf' | split] |].
  - constructor.
    + rewrite HR, HF, HU. exact Hflush.
    + intros k Hk. rewrite Hget. apply Hindex. lia.
    + intros k Hk. rewrite Hget. apply Hresp. lia.
  - intros Hlt. rewrite Hget.
    destruct (Z.lt_ge_cases (ring_last p') (ring_receive p)) as [Hin | Hout].
    + apply Hpost; [lia | exact Hin].
    + rewrite (wf_requested p Hwf) by lia. discriminate.
  - split; [| repeat split; try assumption].
    constructor; try lia.
    + unfold readahead_buffer_size. rewrite Hbuf. reflexivity.
    + intros t. rewrite Hhash. auto.
    + intros t slot'. unfold buffered. rewrite Hhash, Hbuf. intros H.
      exists slot'. auto.
    + intros k _. apply Hget.
Qed.

(** *** Compaction *)

Lemma compact_find_empty_highest n p search empty :
  0 <= ring_last p -> ring_last p <= search < 2 ^ 64 ->
  (Z.to_nat (search - ring_last p) <= n)%nat ->
  let '(s', e') := compact_find_empty n p search empty in
  (s' = e' /\ ring_last p <= e' < search /\
   status (GetPrfSlot p e') = PRFS_UNUSED /\
   forall k, e' < k < search -> status (GetPrfSlot p k) <> PRFS_UNUSED) \/
  (s' = ring_last p /\ e' = empty /\
   forall k, ring_last p <= k < search ->
     status (GetPrfSlot p k) <> PRFS_UNUSED).
Proof.
  revert search. induction n as [| n IH]; intros search Hlast Hsearch Hn; simpl.
  - right. split; [lia |]. split; [reflexivity |]. intros k Hk. lia.
  - destruct (Z.ltb_spec (ring_last p) search) as [Hlt | Hge].
    + rewrite uint64_small by lia.
      assert (Hrec : status (GetPrfSlot p (search - 1)) <> PRFS_UNUSED ->
        let '(s', e') := compact_find_empty n p (search - 1) empty in
        (s' = e' /\ ring_last p <= e' < search /\
         status (GetPrfSlot p e') = PRFS_UNUSED /\
         forall k, e' < k < search -> status (GetPrfSlot p k) <> PRFS_UNUSED) \/
        (s' = ring_last p /\ e' = empty /\
         forall k, ring_last p <= k < search ->
           status (GetPrfSlot p k) <> PRFS_UNUSED)).
      { intros Hst.
        specialize (IH (search - 1) Hlast ltac:(lia) ltac:(lia)).
        destruct (compact_find_empty n p (search - 1) empty) as [s' e'].
        destruct IH as [(? & ? & ? & Hd) | (? & ? & Hd)]; [left | right].
        - repeat split; try assumption; try lia.
          intros k Hk. destruct (decide (k = search - 1)) as [-> | Hne];
            [exact Hst | apply Hd; lia].
        - repeat split; try assumption.
          intros k Hk. destruct (decide (k = search - 1)) as [-> | Hne];
            [exact Hst | apply Hd; lia]. }
      destruct (status (GetPrfSlot p (search - 1))) eqn:Hst;
        try (apply Hrec; discriminate).
      left. repeat split; try lia; exact Hst.
    + right. split; [lia |]. split; [reflexivity |]. intros k Hk. lia.
Qed.

Section MoveSlotContent.
Context (p : PrefetchState) (s e : Z).
Hypothesis Hwf : pipeline_wf p.
Hypothesis Hext : pipeline_ext p.
Hypothesis Hs : ring_last p <= s < e.
Hypothesis He : e < ring_receive p.
Hypothesis Hused : status (GetPrfSlot p s) <> PRFS_UNUSED.
Hypothesis Hfree : status (GetPrfSlot p e) = PRFS_UNUSED.

Lemma move_slot_size :
  readahead_buffer_size (compact_move_slot p s e) = readahead_buffer_size p.
Proof.
  destruct (move_slot_fields p s e) as (Hbuf & _).
  unfold readahead_buffer_size. rewrite Hbuf, !length_buf_set. reflexivity.
Qed.

Lemma move_slot_total k :
  ring_last p <= k < ring_last p + readahead_buffer_size p ->
  prf_buffer (compact_move_slot p s e) !!! slot_pos p k
  = GetPrfSlot (compact_move_slot p s e) k.
Proof.
  intros Hk. destruct (move_slot_fields p s e) as (Hbuf & _).
  unfold GetPrfSlot, buf_get, slot_pos. rewrite Hbuf, !ring_slot_buf_set.
  reflexivity.
Qed.

Lemma move_slot_ext : pipeline_ext (compact_move_slot p s e).
Proof.
  pose proof Hwf as [Hsize Hord Hbnd Hreq Hrcv Hout Hsound Hcomp Hinf].
  destruct Hext as [Hflush Hindex Hresp].
  destruct (move_slot_fields p s e)
    as (Hbuf & Hhash & HU & HF & HR & HL & HB & HI & HN).
  constructor; rewrite ?HU, ?HF, ?HR, ?HL.
  - exact Hflush.
  - intros k Hk. rewrite (move_slot_get p s e Hwf Hs He) by lia.
    destruct (decide (s = k)); [intros H; destruct H; reflexivity |].
    destruct (decide (e = k)) as [<- | _]; [reflexivity |].
    apply Hindex, Hk.
  - intros k Hk. rewrite (move_slot_get p s e Hwf Hs He) by lia.
    destruct (decide (s = k)); [discriminate |].
    destruct (decide (e = k)) as [<- | _]; [| apply Hresp, Hk].
    simpl. intros Hst. apply Hresp; [lia | exact Hst].
Qed.

Lemma move_slot_buffered t :
  slot_content <$> buffered (compact_move_slot p s e) t
  = slot_content <$> buffered p t.
Proof.
  pose proof Hwf as [Hsize Hord Hbnd Hreq Hrcv Hout Hsound Hcomp Hinf].
  destruct (move_slot_fields p s e) as (Hbuf & Hhash & _).
  assert (Hsrc_hash : prf_hash p !! buftag (GetPrfSlot p s)
                      = Some (slot_pos p s)).
  { apply Hcomp; [lia | exact Hused]. }
  unfold buffered. rewrite Hhash.
  destruct (decide (buftag (GetPrfSlot p s) = t)) as [<- | Hne].
  - rewrite lookup_insert_eq, Hsrc_hash. simpl.
    change (ring_slot (prf_buffer p) e) with (slot_pos p e).
    rewrite move_slot_total by lia.
    rewrite (move_slot_get p s e Hwf Hs He) by lia.
    rewrite decide_False, decide_True by lia. reflexivity.
  - rewrite lookup_insert_ne, lookup_delete_ne by exact Hne.
    destruct (prf_hash p !! t) as [pos |] eqn:Hpos; [| reflexivity].
    simpl. destruct (Hsound t pos Hpos) as (k & Hk & -> & Ht & Hst).
    rewrite move_slot_total by lia.
    rewrite (move_slot_get p s e Hwf Hs He) by lia.
    assert (s <> k) by (intros <-; apply Hne, Ht).
    assert (e <> k) by (intros <-; apply Hst, Hfree).
    rewrite !decide_False by assumption. reflexivity.
Qed.

Lemma move_slot_retires : retires p (compact_move_slot p s e).
Proof.
  pose proof Hwf as [Hsize Hord Hbnd Hreq Hrcv Hout Hsound Hcomp Hinf].
  destruct (move_slot_fields p s e)
    as (Hbuf & Hhash & HU & HF & HR & HL & HB & HI & HN).
  destruct (move_slot_wf p s e Hwf Hs He Hused Hfree)
    as (_ & (_ & _ & _ & _ & _ & _ & Habs) & _).
  constructor; rewrite ?HU, ?HR, ?HL; try lia.
  - apply move_slot_size.
  - exact Habs.
  - intros t slot' Hslot'.
    pose proof (move_slot_buffered t) as Hc. rewrite Hslot' in Hc.
    destruct (buffered p t) as [slot |]; [| discriminate Hc].
    exists slot. split; [reflexivity |].
    simpl in Hc. injection Hc as Hc1 Hc2 _ _. auto.
  - intros k Hk. rewrite (move_slot_get p s e Hwf Hs He) by lia.
    rewrite !decide_False by lia. reflexivity.
Qed.

End MoveSlotContent.

Lemma move_loop_post_stop p search empty n_moved :
  pipeline_wf p -> pipeline_ext p ->
  search = ring_last p -> ring_last p <= empty ->
  (forall k, search <= k <= empty -> status (GetPrfSlot p k) = PRFS_UNUSED) ->
  (forall k, empty < k < ring_receive p ->
     status (GetPrfSlot p k) <> PRFS_UNUSED) ->
  move_loop_post p empty n_moved (p, n_moved).
Proof.
  intros Hwf Hext -> He Hgap Hdense. unfold move_loop_post.
  split; [exact Hwf |]. split; [exact Hext |].
  split; [apply retires_refl |].
  split; [reflexivity |].
  split; [reflexivity |]. split; [reflexivity |]. split; [reflexivity |].
  split; [reflexivity |]. split; [lia |]. split; [reflexivity |].
  exists empty. split; [lia |]. split; assumption.
Qed.

Lemma compact_move_loop_ok n p search empty n_moved :
  pipeline_wf p -> pipeline_ext p ->
  ring_last p <= search <= empty -> empty < ring_receive p ->
  (forall k, search <= k <= empty -> status (GetPrfSlot p k) = PRFS_UNUSED) ->
  (forall k, empty < k < ring_receive p ->
     status (GetPrfSlot p k) <> PRFS_UNUSED) ->
  (Z.to_nat (search - ring_last p) <= n)%nat ->
  move_loop_post p empty n_moved
    (compact_move_loop n p search empty n_moved).
Proof.
  revert p search empty n_moved.
  induction n as [| n IH];
    intros p search empty n_moved Hwf Hext Hs He Hgap Hdense Hn; simpl.
  - apply (move_loop_post_stop p search); try assumption; lia.
  - destruct (Z.ltb_spec (ring_last p) search) as [Hlt | Hge];
      [| apply (move_loop_post_stop p search); try assumption; lia].
    pose proof (wf_order p Hwf) as Hord.
    rewrite uint64_small by lia.
    assert (Hskip : status (GetPrfSlot p (search - 1)) = PRFS_UNUSED ->
      move_loop_post p empty n_moved
        (compact_move_loop n p (search - 1) empty n_moved)).
    { intros Hst. apply IH; try assumption; try lia.
      intros k Hk. destruct (decide (k = search - 1)) as [-> | Hne];
        [exact Hst | apply Hgap; lia]. }
    assert (Hmove : status (GetPrfSlot p (search - 1)) <> PRFS_UNUSED ->
      move_loop_post p empty n_moved
        (compact_move_loop n (compact_move_slot p (search - 1) empty)
           (search - 1) (uint64 (empty - 1)) (n_moved + 1))).
    { intros Hst.
      assert (Hse : ring_last p <= search - 1 < empty) by lia.
      pose proof (Hgap empty ltac:(lia)) as Hfree.
      destruct (move_slot_wf p (search - 1) empty Hwf Hse He Hst Hfree)
        as (Hwf1 & Hfr1 & Hl1 & Hsrc1 & Hsame1).
      pose proof (move_slot_ext p (search - 1) empty Hwf Hext Hse He) as Hext1.
      pose proof (move_slot_buffered p (search - 1) empty Hwf Hse He Hst Hfree)
        as Hcont1.
      pose proof (move_slot_retires p (search - 1) empty Hwf Hse He Hst Hfree)
        as Hret1.
      destruct (move_slot_fields p (search - 1) empty)
        as (_ & _ & HU1 & HF1 & HR1 & _ & _ & HI1 & _).
      pose proof (move_slot_get p (search - 1) empty Hwf Hse He) as Hget1.
      rewrite uint64_small by lia.
      set (p1 := compact_move_slot p (search - 1) empty) in *.
      specialize (IH p1 (search - 1) (empty - 1) (n_moved + 1) Hwf1 Hext1).
      unfold move_loop_post in IH |- *.
      destruct (compact_move_loop n p1 (search - 1) (empty - 1) (n_moved + 1))
        as [p2 m2].
      destruct IH as (Hwf2 & Hext2 & Hret2 & Hcont2 & HL2 & HR2 & HF2 & HI2
                      & Hm2 & _ & empty' & He' & Hgap2 & Hdense2).
      + rewrite Hl1. lia.
      + rewrite HR1. lia.
      + intros k Hk. destruct (decide (k = search - 1)) as [-> | Hne];
          [exact Hsrc1 |].
        rewrite Hsame1 by lia. apply Hgap. lia.
      + intros k Hk. rewrite HR1 in Hk.
        pose proof (wf_bound p Hwf).
        rewrite Hget1 by lia.
        rewrite decide_False by lia.
        destruct (decide (empty = k)) as [<- | Hne]; [exact Hst |].
        apply Hdense. lia.
      + rewrite Hl1. lia.
      + split; [exact Hwf2 |]. split; [exact Hext2 |].
        split; [exact (retires_trans _ _ _ Hret1 Hret2) |].
        split; [intros t; rewrite Hcont2; apply Hcont1 |].
        split; [congruence |]. split; [congruence |]. split; [congruence |].
        split; [congruence |]. split; [lia |]. split; [lia |].
        exists empty'. rewrite Hl1, HR1 in *.
        split; [lia |]. split; assumption. }
    destruct (status (GetPrfSlot p (search - 1))) eqn:Hst.
    + apply Hskip. reflexivity.
    + apply Hmove. discriminate.
    + apply Hmove. discriminate.
    + apply Hmove. discriminate.
Qed.

(** [compact_prefetch_buffers] on a pipeline whose oldest slot is in use. *)
Lemma compact_ok p :
  pipeline_ok p ->
  let '(moved, p') := compact_prefetch_buffers p in
  pipeline_ok p' /\ retires p p' /\
  (forall t, slot_content <$> buffered p' t = slot_content <$> buffered p t) /\
  ring_receive p' = ring_receive p /\ ring_flush p' = ring_flush p /\
  n_requests_inflight p' = n_requests_inflight p /\
  (moved = false -> p' = p) /\
  (moved = true ->
   ring_last p < ring_last p' /\
   forall k, ring_last p' <= k < ring_receive p ->
     status (GetPrfSlot p' k) <> PRFS_UNUSED) /\
  (moved = true <->
   exists k, ring_last p <= k < ring_receive p /\
             status (GetPrfSlot p k) = PRFS_UNUSED).
Proof.
  intros (Hwf & Hext & Htrim).
  pose proof (wf_order p Hwf) as Hord.
  assert (Hsame : pipeline_ok p /\ retires p p /\
    (forall t, slot_content <$> buffered p t = slot_content <$> buffered p t) /\
    ring_receive p = ring_receive p /\ ring_flush p = ring_flush p /\
    n_requests_inflight p = n_requests_inflight p /\ (false = false -> p = p)).
  { split; [exact (conj Hwf (conj Hext Htrim)) |].
    split; [apply retires_refl |]. repeat split. }
  unfold compact_prefetch_buffers.
  destruct (Z.eqb_spec (ring_receive p) (ring_last p)) as [Heq | Hne].
  { destruct Hsame as (H1 & H2 & H3 & H4 & H5 & H6 & H7).
    repeat (split; [assumption |]). split; [discriminate |].
    split; [discriminate |]. intros (k & Hk & _). lia. }
  pose proof (compact_find_empty_highest
                (Z.to_nat (ring_receive p - ring_last p)) p (ring_receive p)
                (ring_last p) ltac:(lia) ltac:(lia) ltac:(lia)) as Hfind.
  destruct (compact_find_empty _ p (ring_receive p) (ring_last p))
    as [search empty].
  destruct Hfind as [(-> & Hrange & Hst & Hdense) | (-> & -> & Hdense)].
  - pose proof (compact_move_loop_ok (Z.to_nat (empty - ring_last p)) p empty
                  empty 0 Hwf Hext ltac:(lia) ltac:(lia)) as Hloop.
    unfold move_loop_post in Hloop.
    destruct (compact_move_loop _ p empty empty 0) as [p1 n_moved].
    destruct Hloop as (Hwf1 & Hext1 & Hret1 & Hcont1 & HL1 & HR1 & HF1 & HI1
                       & Hm1 & Hnone & empty' & He' & Hgap1 & Hdense1).
    { intros k Hk. replace k with empty by lia. exact Hst. }
    { exact Hdense. }
    { lia. }
    assert (Hmoved : 0 < n_moved).
    { destruct (Z.lt_ge_cases 0 n_moved) as [Hpos | Hzero]; [exact Hpos |].
      exfalso. assert (n_moved = 0) as E by lia.
      rewrite (Hnone E) in Hgap1.
      apply Htrim; [lia |]. apply Hgap1. lia. }
    apply Z.ltb_lt in Hmoved. rewrite Hmoved.
    destruct (cleanup_ok p1 Hwf1 Hext1)
      as (Hok2 & Hret2 & Hbuf2 & Hhash2 & HR2 & HF2 & HI2 & Hun2).
    set (p2 := prefetch_cleanup_trailing_unused p1) in *.
    assert (Hget2 : forall k, GetPrfSlot p2 k = GetPrfSlot p1 k).
    { intros k. unfold GetPrfSlot. rewrite Hbuf2. reflexivity. }
    assert (Hlast2 : ring_last p2 = empty' + 1).
    { destruct Hok2 as (Hwf2 & _ & Htrim2).
      pose proof (wf_order p2 Hwf2) as Hord2.
      pose proof (rt_last _ _ Hret2) as Hl2. rewrite HL1 in Hl2.
      destruct (Z.lt_trichotomy (ring_last p2) (empty' + 1))
        as [Hlt | [Heq | Hgt]]; [| exact Heq |].
      - exfalso. apply Htrim2; [rewrite HR2, HR1 in Hord2; lia |].
        rewrite Hget2. apply Hgap1. lia.
      - exfalso. apply (Hdense1 (empty' + 1)); [rewrite HR2, HR1 in Hord2; lia |].
        apply Hun2. rewrite HL1. lia. }
    split; [exact Hok2 |].
    split; [exact (retires_trans _ _ _ Hret1 Hret2) |].
    split.
    { intros t. rewrite <- Hcont1. unfold buffered.
      rewrite Hhash2, Hbuf2. reflexivity. }
    split; [congruence |]. split; [congruence |]. split; [congruence |].
    split; [discriminate |].
    split.
    { intros _. split; [lia |]. intros k Hk. rewrite Hget2.
      apply Hdense1. lia. }
    split; [| reflexivity]. intros _. exists empty. split; [lia | exact Hst].
  - rewrite Z.sub_diag. simpl.
    destruct Hsame as (H1 & H2 & H3 & H4 & H5 & H6 & H7).
    repeat (split; [assumption |]). split; [discriminate |].
    split; [discriminate |]. intros (k & Hk & Hst).
    exfalso. exact (Hdense k Hk Hst).
Qed.

(** *** Retiring a slot that holds a response *)

Section RetireReceived.
Context (p : PrefetchState) (k : Z).
Hypothesis Hwf : pipeline_wf p.
Hypothesis Hext : pipeline_ext p.
Hypothesis Hk : ring_last p <= k < ring_receive p.
Hypothesis Hst : status (GetPrfSlot p k) = PRFS_RECEIVED.

Let slot := GetPrfSlot p k.
Let q := prefetch_clear_slot k p.

Lemma clear_received_fields :
  prf_buffer q = buf_set (prf_buffer p) k zero_slot /\
  prf_hash q = delete (buftag slot) (prf_hash p) /\
  ring_unused q = ring_unused p /\ ring_flush q = ring_flush p /\
  ring_receive q = ring_receive p /\ ring_last q = ring_last p /\
  n_requests_inflight q = n_requests_inflight p /\
  n_responses_buffered q = n_responses_buffered p - 1.
Proof.
  unfold q, prefetch_clear_slot. rewrite Hst. simpl.
  unfold SetPrfSlot, prfh_delete. simpl. rewrite buf_set_set.
  repeat split.
Qed.

Lemma clear_received_get k' :
  ring_last p <= k' < ring_last p + readahead_buffer_size p ->
  GetPrfSlot q k' = if decide (k = k') then zero_slot else GetPrfSlot p k'.
Proof.
  intros Hk'. pose proof (wf_order p Hwf) as Hord.
  pose proof (wf_bound p Hwf) as Hbnd.
  destruct clear_received_fields as (Hbuf & _).
  unfold GetPrfSlot, readahead_buffer_size in *. rewrite Hbuf.
  apply (buf_get_set _ (ring_last p)); lia.
Qed.

Lemma clear_received_wf : pipeline_wf q.
Proof.
  pose proof Hwf as [Hsize Hord Hbnd Hreq Hrcv Hout Hsound Hcomp Hinf].
  destruct clear_received_fields
    as (Hbuf & Hhash & HU & HF & HR & HL & HI & HB).
  assert (Hcap : readahead_buffer_size q = readahead_buffer_size p).
  { unfold readahead_buffer_size. rewrite Hbuf, length_buf_set. reflexivity. }
  assert (Hpos : forall k', slot_pos q k' = slot_pos p k').
  { intros k'. unfold slot_pos. rewrite Hbuf, ring_slot_buf_set. reflexivity. }
  assert (Hslot_hash : prf_hash p !! buftag slot = Some (slot_pos p k)).
  { apply Hcomp; [lia |]. unfold slot in *. rewrite Hst. discriminate. }
  constructor; rewrite ?Hcap, ?HU, ?HR, ?HL, ?HI; try assumption.
  - intros k' Hk'. rewrite clear_received_get by lia.
    rewrite decide_False by lia. apply Hreq, Hk'.
  - intros k' Hk'. rewrite clear_received_get by lia.
    destruct (decide (k = k')); [right; reflexivity | apply Hrcv, Hk'].
  - intros k' Hk'. rewrite clear_received_get by lia.
    rewrite decide_False by lia. apply Hout, Hk'.
  - intros t i. rewrite Hhash.
    destruct (decide (buftag slot = t)) as [<- | Hne];
      [rewrite lookup_delete_eq; discriminate |].
    rewrite lookup_delete_ne by exact Hne. intros Hti.
    destruct (Hsound t i Hti) as (k' & Hk' & Hi' & Ht' & Hst').
    exists k'. rewrite Hpos, clear_received_get by lia.
    assert (k <> k') by (intros <-; apply Hne, Ht').
    rewrite decide_False by assumption. auto.
  - intros k' Hk'. rewrite Hpos, clear_received_get by lia. rewrite Hhash.
    destruct (decide (k = k')) as [<- | Hkk];
      [intros H; destruct H; reflexivity |].
    intros Hst'.
    assert (Hne : buftag slot <> buftag (GetPrfSlot p k')).
    { intros Heq. apply Hkk.
      pose proof (Hcomp k' Hk' Hst') as Hk_hash.
      rewrite <- Heq, Hslot_hash in Hk_hash. injection Hk_hash as Hk_hash.
      apply (ring_slot_inj (prf_buffer p) (ring_last p)); try exact Hk_hash;
        unfold readahead_buffer_size in *; lia. }
    rewrite lookup_delete_ne by exact Hne. apply Hcomp; assumption.
Qed.

Lemma clear_received_ext : pipeline_ext q.
Proof.
  pose proof (wf_order p Hwf) as Hord. pose proof (wf_bound p Hwf) as Hbnd.
  destruct Hext as [Hflush Hindex Hresp].
  destruct clear_received_fields
    as (Hbuf & Hhash & HU & HF & HR & HL & HI & HB).
  constructor; rewrite ?HU, ?HF, ?HR, ?HL.
  - exact Hflush.
  - intros k' Hk'. rewrite clear_received_get by lia.
    destruct (decide (k = k')); [intros H; destruct H; reflexivity |].
    apply Hindex, Hk'.
  - intros k' Hk'. rewrite clear_received_get by lia.
    destruct (decide (k = k')); [discriminate | apply Hresp, Hk'].
Qed.

Lemma clear_received_buffered t :
  buffered q t = if decide (t = buftag slot) then None else buffered p t.
Proof.
  pose proof Hwf as [Hsize Hord Hbnd Hreq Hrcv Hout Hsound Hcomp Hinf].
  destruct clear_received_fields as (Hbuf & Hhash & _).
  unfold buffered. rewrite Hhash.
  destruct (decide (t = buftag slot)) as [-> | Hne].
  - rewrite lookup_delete_eq. reflexivity.
  - rewrite lookup_delete_ne by congruence.
    destruct (prf_hash p !! t) as [pos |] eqn:Hpos; [| reflexivity].
    cbn [fmap option_fmap option_map]. apply (f_equal Some).
    destruct (Hsound t pos Hpos) as (k' & Hk' & -> & Ht & Hst').
    assert (Hkk : k <> k') by (intros <-; apply Hne; symmetry; exact Ht).
    pose proof (clear_received_get k' ltac:(lia)) as Hget.
    rewrite decide_False in Hget by exact Hkk.
    transitivity (GetPrfSlot q k'); [| exact Hget].
    unfold GetPrfSlot, buf_get, slot_pos.
    rewrite Hbuf, ring_slot_buf_set. reflexivity.
Qed.

Lemma clear_received_retires : retires p q.
Proof.
  pose proof (wf_order p Hwf) as Hord.
  destruct clear_received_fields
    as (Hbuf & Hhash & HU & HF & HR & HL & HI & HB).
  constructor; rewrite ?HU, ?HR, ?HL; try lia.
  - unfold readahead_buffer_size. rewrite Hbuf, length_buf_set. reflexivity.
  - intros t Ht. rewrite Hhash.
    destruct (decide (buftag slot = t)) as [<- | Hne];
      [apply lookup_delete_eq | rewrite lookup_delete_ne by exact Hne; exact Ht].
  - intros t slot'. rewrite clear_received_buffered.
    destruct (decide (t = buftag slot)); [discriminate |].
    intros H. exists slot'. auto.
  - intros k' Hk'. rewrite clear_received_get by lia.
    rewrite decide_False by lia. reflexivity.
Qed.

Lemma set_unused_received_unfold :
  prefetch_set_unused k p
  = if ring_last q =? k then prefetch_cleanup_trailing_unused q
    else if ReceiveBufferNeedsCompaction q
         then snd (compact_prefetch_buffers q) else q.
Proof.
  unfold prefetch_set_unused.
  destruct (Z.ltb_spec k (ring_last p)) as [Hlt | _]; [lia |].
  rewrite Hst. reflexivity.
Qed.

(** What [prefetch_set_unused] does to a slot that holds a response. *)
Lemma set_unused_received_ok :
  trimmed p ->
  let p' := prefetch_set_unused k p in
  pipeline_ok p' /\ retires p p' /\
  ring_receive p' = ring_receive p /\ ring_flush p' = ring_flush p /\
  n_requests_inflight p' = n_requests_inflight p /\
  (forall t, slot_content <$> buffered p' t
             = if decide (t = buftag slot) then None
               else slot_content <$> buffered p t) /\
  (k = ring_last p -> ring_last p < ring_last p').
Proof.
  intros Htrim. cbv zeta.
  pose proof (wf_order p Hwf) as Hord.
  destruct clear_received_fields
    as (Hbuf & Hhash & HU & HF & HR & HL & HI & HB).
  pose proof clear_received_wf as Hwfq.
  pose proof clear_received_ext as Hextq.
  pose proof clear_received_retires as Hretq.
  pose proof clear_received_buffered as Hbufq.
  assert (Hcontq : forall t, slot_content <$> buffered q t
                   = if decide (t = buftag slot) then None
                     else slot_content <$> buffered p t).
  { intros t. rewrite Hbufq. destruct (decide (t = buftag slot)); reflexivity. }
  rewrite set_unused_received_unfold.
  destruct (Z.eqb_spec (ring_last q) k) as [Heq | Hne].
  - destruct (cleanup_ok q Hwfq Hextq)
      as (Hok & Hret & Hbuf' & Hhash' & HR' & HF' & HI' & Hun').
    split; [exact Hok |].
    split; [exact (retires_trans _ _ _ Hretq Hret) |].
    split; [congruence |]. split; [congruence |]. split; [congruence |].
    split.
    + intros t. rewrite <- Hcontq. unfold buffered.
      rewrite Hhash', Hbuf'. reflexivity.
    + intros _. destruct Hok as (Hwf' & _ & Htrim').
      pose proof (rt_last _ _ Hret) as Hl'.
      destruct (Z.eq_dec (ring_last (prefetch_cleanup_trailing_unused q))
                  (ring_last q)) as [Hsame | Hmoved]; [| lia].
      exfalso.
      pose proof (wf_order _ Hwf') as Hord'.
      apply Htrim'; [rewrite (rt_unused _ _ Hret), HU; lia |].
      rewrite Hsame, Heq. unfold GetPrfSlot. rewrite Hbuf'.
      pose proof (clear_received_get k ltac:(pose proof (wf_size p Hwf); lia))
        as Hget.
      rewrite decide_True in Hget by reflexivity.
      unfold GetPrfSlot in Hget. rewrite Hget. reflexivity.
  - assert (Htrimq : trimmed q).
    { unfold trimmed. rewrite HL, HU. intros Hlt.
      rewrite clear_received_get by (pose proof (wf_size p Hwf); lia).
      rewrite decide_False by lia. apply Htrim, Hlt. }
    destruct (ReceiveBufferNeedsCompaction q).
    + pose proof (compact_ok q (conj Hwfq (conj Hextq Htrimq))) as Hc.
      destruct (compact_prefetch_buffers q) as [moved p2]. simpl.
      destruct Hc as (Hok & Hret & Hcont & HR' & HF' & HI' & _).
      split; [exact Hok |].
      split; [exact (retires_trans _ _ _ Hretq Hret) |].
      split; [congruence |]. split; [congruence |]. split; [congruence |].
      split; [intros t; rewrite Hcont; apply Hcontq | lia].
    + split; [exact (conj Hwfq (conj Hextq Htrimq)) |].
      split; [exact Hretq |].
      split; [exact HR |]. split; [exact HF |]. split; [exact HI |].
      split; [exact Hcontq | lia].
Qed.

End RetireReceived.

(** *** The disconnect hook *)

Section DisconnectStepOk.
Context (p : PrefetchState).
Hypothesis Hwf : pipeline_wf p.
Hypothesis Hext : pipeline_ext p.
Hypothesis Htrim : trimmed p.
Hypothesis Hpending : ring_receive p < ring_unused p.
Hypothesis Hflushed : ring_flush p = ring_unused p.

Let k := ring_receive p.
Let slot := GetPrfSlot p k.
Let marked :=
  set_ring_receive (uint64 (ring_receive p + 1))
    (set_n_requests_inflight (n_requests_inflight p - 1)
       (SetPrfSlot p k (set_status PRFS_TAG_REMAINS slot))).
Let q := prefetch_clear_slot k marked.

Lemma dropped_fields :
  prf_buffer q = buf_set (prf_buffer p) k zero_slot /\
  prf_hash q = delete (buftag slot) (prf_hash p) /\
  ring_unused q = ring_unused p /\ ring_flush q = ring_flush p /\
  ring_receive q = ring_receive p + 1 /\ ring_last q = ring_last p /\
  n_requests_inflight q = n_requests_inflight p - 1.
Proof. exact (disconnect_clear_fields p Hwf Hpending). Qed.

Lemma dropped_wf :
  pipeline_wf q /\
  (forall k', ring_receive p + 1 <= k' < ring_unused p ->
     GetPrfSlot q k' = GetPrfSlot p k') /\
  (forall t, prf_hash p !! t = None \/ t = buftag slot ->
     prf_hash q !! t = None).
Proof. exact (disconnect_clear_wf p Hwf Hpending). Qed.

Lemma dropped_unfold :
  prefetch_set_unused k marked
  = if ring_last q =? k then prefetch_cleanup_trailing_unused q
    else if ReceiveBufferNeedsCompaction q
         then snd (compact_prefetch_buffers q) else q.
Proof. exact (disconnect_step_unfold p Hwf). Qed.

Lemma dropped_get k' :
  ring_last p <= k' < ring_last p + readahead_buffer_size p ->
  GetPrfSlot q k' = if decide (k = k') then zero_slot else GetPrfSlot p k'.
Proof.
  intros Hk'. pose proof (wf_order p Hwf) as Hord.
  pose proof (wf_bound p Hwf) as Hbnd.
  destruct dropped_fields as (Hbuf & _).
  unfold GetPrfSlot, readahead_buffer_size in *.
  rewrite Hbuf. apply (buf_get_set _ (ring_last p)); unfold k; lia.
Qed.

Lemma dropped_ext : pipeline_ext q.
Proof.
  pose proof (wf_order p Hwf) as Hord. pose proof (wf_bound p Hwf) as Hbnd.
  destruct Hext as [Hflush Hindex Hresp].
  destruct dropped_fields as (Hbuf & Hhash & HU & HF & HR & HL & HI).
  constructor; rewrite ?HU, ?HF, ?HR, ?HL.
  - lia.
  - intros k' Hk'. rewrite dropped_get by lia.
    destruct (decide (k = k')); [intros H; destruct H; reflexivity |].
    apply Hindex, Hk'.
  - intros k' Hk'. rewrite dropped_get by lia.
    destruct (decide (k = k')) as [| Hne]; [discriminate |].
    apply Hresp. unfold k in Hne. lia.
Qed.

Lemma dropped_buffered t :
  buffered q t = if decide (t = buftag slot) then None else buffered p t.
Proof.
  pose proof Hwf as [Hsize Hord Hbnd Hreq Hrcv Hout Hsound Hcomp Hinf].
  destruct dropped_fields as (Hbuf & Hhash & _).
  unfold buffered. rewrite Hhash.
  destruct (decide (t = buftag slot)) as [-> | Hne].
  - rewrite lookup_delete_eq. reflexivity.
  - rewrite lookup_delete_ne by congruence.
    destruct (prf_hash p !! t) as [pos |] eqn:Hpos; [| reflexivity].
    cbn [fmap option_fmap option_map]. apply (f_equal Some).
    destruct (Hsound t pos Hpos) as (k' & Hk' & -> & Ht & Hst').
    assert (Hkk : k <> k') by (intros <-; apply Hne; symmetry; exact Ht).
    pose proof (dropped_get k' ltac:(lia)) as Hget.
    rewrite decide_False in Hget by exact Hkk.
    transitivity (GetPrfSlot q k'); [| exact Hget].
    unfold GetPrfSlot, buf_get, slot_pos.
    rewrite Hbuf, ring_slot_buf_set. reflexivity.
Qed.

Lemma dropped_retires : retires p q.
Proof.
  pose proof (wf_order p Hwf) as Hord.
  destruct dropped_fields as (Hbuf & Hhash & HU & HF & HR & HL & HI).
  constructor; rewrite ?HU, ?HR, ?HL; try lia.
  - unfold readahead_buffer_size. rewrite Hbuf, length_buf_set. reflexivity.
  - intros t Ht. rewrite Hhash.
    destruct (decide (buftag slot = t)) as [<- | Hne];
      [apply lookup_delete_eq | rewrite lookup_delete_ne by exact Hne; exact Ht].
  - intros t slot'. rewrite dropped_buffered.
    destruct (decide (t = buftag slot)); [discriminate |].
    intros H. exists slot'. auto.
  - intros k' Hk'. rewrite dropped_get by lia.
    rewrite decide_False by (unfold k; lia). reflexivity.
Qed.

(** One turn of the loop of [prefetch_on_ps_disconnect]. *)
Lemma disconnect_step_ok :
  let p' := prefetch_set_unused k marked in
  pipeline_ok p' /\ retires p p' /\
  ring_flush p' = ring_flush p /\ ring_receive p' = ring_receive p + 1 /\
  (forall k', ring_receive p + 1 <= k' < ring_unused p ->
     GetPrfSlot p' k' = GetPrfSlot p k') /\
  prf_hash p' !! buftag slot = None /\
  (ring_last p = ring_receive p -> ring_last p < ring_last p').
Proof.
  pose proof (wf_order p Hwf) as Hord.
  destruct dropped_fields as (Hbuf & Hhash & HU & HF & HR & HL & HI).
  destruct dropped_wf as (Hwfq & Hsame & Hnone).
  pose proof dropped_ext as Hextq.
  pose proof dropped_retires as Hretq.
  assert (Hframe : forall p', pipeline_ok p' -> retires q p' ->
    ring_flush p' = ring_flush q -> ring_receive p' = ring_receive q ->
    (forall k', ring_receive q <= k' < ring_unused q ->
       GetPrfSlot p' k' = GetPrfSlot q k') ->
    (ring_last q = k -> ring_last q < ring_last p') ->
    pipeline_ok p' /\ retires p p' /\
    ring_flush p' = ring_flush p /\ ring_receive p' = ring_receive p + 1 /\
    (forall k', ring_receive p + 1 <= k' < ring_unused p ->
       GetPrfSlot p' k' = GetPrfSlot p k') /\
    prf_hash p' !! buftag slot = None /\
    (ring_last p = ring_receive p -> ring_last p < ring_last p')).
  { intros p' Hok Hret HF' HR' Hsame' Hadv.
    split; [exact Hok |]. split; [exact (retires_trans _ _ _ Hretq Hret) |].
    split; [congruence |]. split; [congruence |]. split; [| split].
    - intros k' Hk'. rewrite Hsame' by (rewrite HR, HU; exact Hk').
      apply Hsame, Hk'.
    - apply (rt_absent _ _ Hret), Hnone. right. reflexivity.
    - intros Hlast. rewrite <- HL. apply Hadv. rewrite HL. exact Hlast. }
  cbv zeta. rewrite dropped_unfold.
  destruct (Z.eqb_spec (ring_last q) k) as [Heq | Hne].
  - destruct (cleanup_ok q Hwfq Hextq)
      as (Hok & Hret & Hbuf' & Hhash' & HR' & HF' & HI' & Hun').
    apply Hframe; try assumption.
    + intros k' _. unfold GetPrfSlot. rewrite Hbuf'. reflexivity.
    + intros _. destruct Hok as (Hwf' & _ & Htrim').
      pose proof (rt_last _ _ Hret) as Hl'.
      destruct (Z.eq_dec (ring_last (prefetch_cleanup_trailing_unused q))
                  (ring_last q)) as [Hsame0 | Hmoved]; [| lia].
      exfalso. apply Htrim'; [rewrite (rt_unused _ _ Hret), HU; lia |].
      rewrite Hsame0, Heq. unfold GetPrfSlot. rewrite Hbuf'.
      pose proof (dropped_get k ltac:(pose proof (wf_size p Hwf);
                                      unfold k; lia)) as Hget.
      rewrite decide_True in Hget by reflexivity.
      unfold GetPrfSlot in Hget. rewrite Hget. reflexivity.
  - assert (Htrimq : trimmed q).
    { unfold trimmed. rewrite HL, HU. intros Hlt.
      rewrite dropped_get by (pose proof (wf_size p Hwf); lia).
      rewrite decide_False by lia. apply Htrim, Hlt. }
    destruct (ReceiveBufferNeedsCompaction q).
    + pose proof (compact_ok q (conj Hwfq (conj Hextq Htrimq))) as Hc.
      destruct (compact_wf q Hwfq) as [_ Hfr].
      destruct (compact_prefetch_buffers q) as [moved p2]. simpl in *.
      destruct Hc as (Hok & Hret & Hcont & HR' & HF' & HI' & _).
      destruct Hfr as (_ & _ & _ & _ & _ & Hkeep & _).
      apply Hframe; try assumption. intros Hq. contradiction.
    + apply Hframe;
        [exact (conj Hwfq (conj Hextq Htrimq)) | apply retires_refl
        | reflexivity | reflexivity | auto | intros Hq; contradiction].
Qed.

(** What the turn leaves in the tag index. *)
Lemma disconnect_step_content t :
  slot_content <$> buffered (prefetch_set_unused k marked) t
  = if decide (t = buftag slot) then None
    else slot_content <$> buffered p t.
Proof.
  destruct dropped_fields as (Hbuf & Hhash & HU & HF & HR & HL & HI).
  destruct dropped_wf as (Hwfq & Hsame & Hnone).
  pose proof dropped_ext as Hextq.
  assert (Hq : slot_content <$> buffered q t
               = if decide (t = buftag slot) then None
                 else slot_content <$> buffered p t).
  { rewrite dropped_buffered. destruct (decide (t = buftag slot)); reflexivity. }
  rewrite dropped_unfold.
  destruct (Z.eqb_spec (ring_last q) k) as [Heq | Hne].
  - destruct (cleanup_ok q Hwfq Hextq) as (_ & _ & Hbuf' & Hhash' & _).
    unfold buffered at 1. rewrite Hbuf', Hhash'. exact Hq.
  - assert (Htrimq : trimmed q).
    { unfold trimmed. rewrite HL, HU. intros Hlt.
      pose proof (wf_order p Hwf) as Hord.
      rewrite dropped_get by (pose proof (wf_size p Hwf); lia).
      rewrite decide_False by lia. apply Htrim, Hlt. }
    destruct (ReceiveBufferNeedsCompaction q); [| exact Hq].
    pose proof (compact_ok q (conj Hwfq (conj Hextq Htrimq))) as Hc.
    destruct (compact_prefetch_buffers q) as [moved p2].
    destruct Hc as (_ & _ & Hcont & _). cbn [snd]. rewrite Hcont. exact Hq.
Qed.

End DisconnectStepOk.

Lemma disconnect_loop_ok n p :
  pipeline_ok p -> ring_flush p = ring_unused p ->
  (Z.to_nat (ring_unused p - ring_receive p) <= n)%nat ->
  pipeline_ok (disconnect_loop n p) /\ retires p (disconnect_loop n p) /\
  ring_flush (disconnect_loop n p) = ring_unused p /\
  ring_receive (disconnect_loop n p) = ring_unused p /\
  (forall k, ring_receive p <= k < ring_unused p ->
     prf_hash (disconnect_loop n p) !! buftag (GetPrfSlot p k) = None) /\
  (ring_last p = ring_receive p -> ring_receive p < ring_unused p ->
   ring_last p < ring_last (disconnect_loop n p)).
Proof.
  revert p. induction n as [| n IH]; intros p Hok Hflushed Hn;
    pose proof Hok as (Hwf & Hext & Htrim);
    pose proof (wf_order p Hwf) as Hord; simpl.
  - split; [exact Hok |]. split; [apply retires_refl |].
    split; [exact Hflushed |]. split; [lia |].
    split; [intros k Hk; lia | lia].
  - destruct (Z.ltb_spec (ring_receive p) (ring_unused p)) as [Hlt | Hge].
    + destruct (disconnect_step_ok p Hwf Hext Htrim Hlt Hflushed)
        as (Hok1 & Hret1 & HF1 & HR1 & HS1 & HH1 & Hadv1).
      match goal with
      | |- context [disconnect_loop n ?p1] =>
          destruct (IH p1 Hok1) as (Hok2 & Hret2 & HF2 & HR2 & HH2 & _);
          [rewrite HF1, (rt_unused _ _ Hret1); exact Hflushed
          | rewrite (rt_unused _ _ Hret1), HR1; lia |]
      end.
      rewrite (rt_unused _ _ Hret1) in HF2, HR2.
      split; [exact Hok2 |]. split; [exact (retires_trans _ _ _ Hret1 Hret2) |].
      split; [exact HF2 |]. split; [exact HR2 |]. split.
      * intros k Hk. destruct (decide (k = ring_receive p)) as [-> | Hne].
        -- apply (rt_absent _ _ Hret2), HH1.
        -- rewrite <- (HS1 k) by lia. apply HH2.
           rewrite (rt_unused _ _ Hret1), HR1. lia.
      * intros Hlast _. pose proof (rt_last _ _ Hret2). specialize (Hadv1 Hlast).
        lia.
    + split; [exact Hok |]. split; [apply retires_refl |].
      split; [exact Hflushed |]. split; [lia |].
      split; [intros k Hk; lia | lia].
Qed.

Lemma set_ring_flush_ok v p :
  pipeline_ok p -> ring_receive p <= v <= ring_unused p ->
  pipeline_ok (set_ring_flush v p) /\ retires p (set_ring_flush v p).
Proof.
  intros (Hwf & [Hflush Hindex Hresp] & Htrim) Hv.
  split; [split; [apply pipeline_wf_set_ring_flush, Hwf | split] |].
  - constructor; [simpl; lia | exact Hindex | exact Hresp].
  - exact Htrim.
  - constructor; auto; try (simpl; lia).
    intros t slot' H. exists slot'. auto.
Qed.

(** [prefetch_on_ps_disconnect] on a pipeline in good order. *)
Lemma disconnect_ok p :
  pipeline_ok p ->
  pipeline_ok (prefetch_on_ps_disconnect p) /\
  retires p (prefetch_on_ps_disconnect p) /\
  ring_flush (prefetch_on_ps_disconnect p) = ring_unused p /\
  ring_receive (prefetch_on_ps_disconnect p) = ring_unused p /\
  n_requests_inflight (prefetch_on_ps_disconnect p) = 0 /\
  (forall k, ring_receive p <= k < ring_unused p ->
     prf_hash (prefetch_on_ps_disconnect p) !! buftag (GetPrfSlot p k) = None) /\
  (ring_last p = ring_receive p -> ring_receive p < ring_unused p ->
   ring_last p < ring_last (prefetch_on_ps_disconnect p)).
Proof.
  intros Hok. pose proof Hok as (Hwf & Hext & Htrim).
  pose proof (wf_order p Hwf) as Hord.
  destruct (set_ring_flush_ok (ring_unused p) p Hok ltac:(lia)) as [Hok0 Hret0].
  unfold prefetch_on_ps_disconnect. cbv zeta.
  change (ring_unused p - ring_receive p)
    with (ring_unused (set_ring_flush (ring_unused p) p)
          - ring_receive (set_ring_flush (ring_unused p) p)).
  destruct (disconnect_loop_ok
              (Z.to_nat (ring_unused (set_ring_flush (ring_unused p) p)
                         - ring_receive (set_ring_flush (ring_unused p) p)))
              (set_ring_flush (ring_unused p) p) Hok0 eq_refl ltac:(lia))
    as (Hok' & Hret' & HF & HR & HH & Hadv).
  set (p' := disconnect_loop _ _) in *.
  change (ring_flush p' = ring_unused p) in HF.
  change (ring_receive p' = ring_unused p) in HR.
  split; [exact Hok' |]. split; [exact (retires_trans _ _ _ Hret0 Hret') |].
  split; [exact HF |]. split; [exact HR |]. split; [| split].
  - destruct Hok' as (Hwf' & _). rewrite (wf_inflight _ Hwf'), HR.
    rewrite (rt_unused _ _ Hret'). simpl. lia.
  - exact HH.
  - exact Hadv.
Qed.

(** The hook leaves the responses that have been received where the tag
    index finds them. *)
Lemma disconnect_loop_content n p t :
  pipeline_ok p -> ring_flush p = ring_unused p ->
  (forall k, ring_receive p <= k < ring_unused p ->
     buftag (GetPrfSlot p k) <> t) ->
  slot_content <$> buffered (disconnect_loop n p) t
  = slot_content <$> buffered p t.
Proof.
  revert p. induction n as [| n IH]; intros p Hok Hflushed Hnot;
    pose proof Hok as (Hwf & Hext & Htrim);
    pose proof (wf_order p Hwf) as Hord; simpl; [reflexivity |].
  destruct (Z.ltb_spec (ring_receive p) (ring_unused p)) as [Hlt | Hge];
    [| reflexivity].
  destruct (disconnect_step_ok p Hwf Hext Htrim Hlt Hflushed)
    as (Hok1 & Hret1 & HF1 & HR1 & HS1 & _).
  pose proof (disconnect_step_content p Hwf Hext Htrim Hlt Hflushed t) as Hc1.
  rewrite decide_False in Hc1
    by (intros ->; apply (Hnot (ring_receive p)); [lia | reflexivity]).
  match goal with
  | |- context [disconnect_loop n ?p1] =>
      rewrite (IH p1 Hok1);
      [exact Hc1
      | rewrite HF1, (rt_unused _ _ Hret1); exact Hflushed
      | intros k Hk; rewrite (rt_unused _ _ Hret1), HR1 in Hk;
        rewrite HS1 by lia; apply Hnot; lia]
  end.
Qed.

Lemma disconnect_content p t :
  pipeline_ok p ->
  (forall k, ring_receive p <= k < ring_unused p ->
     buftag (GetPrfSlot p k) <> t) ->
  slot_content <$> buffered (prefetch_on_ps_disconnect p) t
  = slot_content <$> buffered p t.
Proof.
  intros Hok Hnot. pose proof Hok as (Hwf & _).
  pose proof (wf_order p Hwf) as Hord.
  destruct (set_ring_flush_ok (ring_unused p) p Hok ltac:(lia)) as [Hok0 _].
  unfold prefetch_on_ps_disconnect. cbv zeta.
  change (ring_unused p - ring_receive p)
    with (ring_unused (set_ring_flush (ring_unused p) p)
          - ring_receive (set_ring_flush (ring_unused p) p)).
  rewrite (disconnect_loop_content _ _ t Hok0 eq_refl Hnot). reflexivity.
Qed.

(** ** Waiting for responses *)

Lemma quiet_refl w : quiet w w.
Proof. unfold quiet. repeat split; lia. Qed.

Lemma quiet_trans w1 w2 w3 : quiet w1 w2 -> quiet w2 w3 -> quiet w1 w3.
Proof.
  unfold quiet. intros (?&?&?&?&?&?&?&?) (?&?&?&?&?&?&?&?).
  repeat split; try congruence; lia.
Qed.

Lemma pipeline_only_refl w : pipeline_only w w.
Proof. split; [apply quiet_refl | reflexivity]. Qed.

Lemma pipeline_only_trans w1 w2 w3 :
  pipeline_only w1 w2 -> pipeline_only w2 w3 -> pipeline_only w1 w3.
Proof.
  intros [Q1 T1] [Q2 T2].
  split; [exact (quiet_trans _ _ _ Q1 Q2) | congruence].
Qed.

Lemma pipeline_only_on_MyPState f w : pipeline_only w (on_MyPState f w).
Proof. unfold pipeline_only, quiet. simpl. repeat split; lia. Qed.

Lemma pipeline_only_tick w : pipeline_only w (tick w).
Proof. unfold pipeline_only, quiet. simpl. repeat split; lia. Qed.

(** A response arrives for the oldest request in flight. *)
Section ReceiveOne.
Context (p : PrefetchState) (resp : NeonResponse).
Hypothesis Hok : pipeline_ok p.
Hypothesis Hflushed : ring_receive p < ring_flush p.

Let k := ring_receive p.
Let p' := receive_into resp p.

Lemma received_fields :
  prf_buffer p'
  = buf_set (prf_buffer p) k (received_with resp (GetPrfSlot p k)) /\
  prf_hash p' = prf_hash p /\ ring_unused p' = ring_unused p /\
  ring_flush p' = ring_flush p /\ ring_receive p' = ring_receive p + 1 /\
  ring_last p' = ring_last p /\
  n_requests_inflight p' = n_requests_inflight p - 1.
Proof.
  destruct Hok as (Hwf & Hext & _).
  pose proof (wf_order p Hwf) as Hord.
  pose proof (ext_flush p Hext) as Hfl.
  unfold p', receive_into. cbv zeta. unfold SetPrfSlot. simpl.
  rewrite uint64_small by lia. repeat split.
Qed.

Lemma received_get j :
  ring_last p <= j < ring_last p + readahead_buffer_size p ->
  GetPrfSlot p' j
  = if decide (k = j) then received_with resp (GetPrfSlot p k)
    else GetPrfSlot p j.
Proof.
  intros Hj. destruct Hok as (Hwf & Hext & _).
  pose proof (wf_order p Hwf) as Hord. pose proof (wf_bound p Hwf) as Hbnd.
  pose proof (ext_flush p Hext) as Hfl.
  destruct received_fields as (Hbuf & _).
  unfold GetPrfSlot, readahead_buffer_size in *. rewrite Hbuf.
  apply (buf_get_set _ (ring_last p)); unfold k; lia.
Qed.

Lemma received_total pos :
  buftag (prf_buffer p' !!! pos) = buftag (prf_buffer p !!! pos) /\
  effective_request_lsn (prf_buffer p' !!! pos)
  = effective_request_lsn (prf_buffer p !!! pos).
Proof.
  destruct received_fields as (Hbuf & _). rewrite Hbuf. unfold buf_set.
  rewrite list_lookup_total_insert.
  destruct (decide (_ /\ _)) as [[<- _] | _]; [| split; reflexivity].
  split; reflexivity.
Qed.

Lemma received_ok :
  pipeline_ok p' /\ retires p p' /\
  (forall j, ring_last p <= j < ring_last p + readahead_buffer_size p ->
     GetPrfSlot p' j
     = if decide (k = j) then received_with resp (GetPrfSlot p k)
       else GetPrfSlot p j).
Proof.
  pose proof Hok as (Hwf & Hext & Htrim).
  pose proof Hwf as [Hsize Hord Hbnd Hreq Hrcv Hout Hsound Hcomp Hinf].
  pose proof Hext as [Hflush Hindex Hresp].
  destruct received_fields as (Hbuf & Hhash & HU & HF & HR & HL & HI).
  assert (Hcap : readahead_buffer_size p' = readahead_buffer_size p).
  { unfold readahead_buffer_size. rewrite Hbuf, length_buf_set. reflexivity. }
  assert (Hpos : forall j, slot_pos p' j = slot_pos p j).
  { intros j. unfold slot_pos. rewrite Hbuf, ring_slot_buf_set. reflexivity. }
  assert (Hkreq : status (GetPrfSlot p k) = PRFS_REQUESTED).
  { apply Hreq. unfold k. lia. }
  split; [split; [| split] | split].
  - constructor; rewrite ?Hcap, ?HU, ?HR, ?HL, ?HI; try assumption; try lia.
    + intros j Hj. rewrite received_get by lia.
      rewrite decide_False by (unfold k; lia). apply Hreq. lia.
    + intros j Hj. rewrite received_get by lia.
      destruct (decide (k = j)); [left; reflexivity |].
      apply Hrcv. unfold k in *. lia.
    + intros j Hj. rewrite received_get by lia.
      rewrite decide_False by (unfold k; lia). apply Hout, Hj.
    + intros t i. rewrite Hhash. intros Hti.
      destruct (Hsound t i Hti) as (j & Hj & Hi' & Ht' & Hst').
      exists j. rewrite Hpos, received_get by lia.
      destruct (decide (k = j)) as [<- | Hne]; [| auto].
      split; [exact Hj |]. split; [exact Hi' |].
      split; [exact Ht' | discriminate].
    + intros j Hj. rewrite Hpos, received_get by lia. rewrite Hhash.
      destruct (decide (k = j)) as [<- | Hne].
      * intros _. simpl. apply Hcomp; [exact Hj |]. rewrite Hkreq. discriminate.
      * apply Hcomp, Hj.
  - constructor; rewrite ?HU, ?HF, ?HR, ?HL.
    + lia.
    + intros j Hj. rewrite received_get by lia.
      destruct (decide (k = j)) as [<- | Hne]; [| apply Hindex, Hj].
      intros _. simpl. apply Hindex; [exact Hj |]. rewrite Hkreq. discriminate.
    + intros j Hj. rewrite received_get by lia.
      destruct (decide (k = j)) as [<- | Hne]; [discriminate |].
      apply Hresp. unfold k in Hne. lia.
  - unfold trimmed. rewrite HL, HU. intros Hlt.
    rewrite received_get by lia.
    destruct (decide (k = ring_last p)); [discriminate | apply Htrim, Hlt].
  - constructor; rewrite ?HU, ?HR, ?HL; [exact Hcap | lia | lia | lia | | |].
    + intros t. rewrite Hhash. auto.
    + intros t slot'. unfold buffered. rewrite Hhash.
      destruct (prf_hash p !! t) as [pos |]; [| discriminate].
      cbn [fmap option_fmap option_map]. intros [= <-].
      exists (prf_buffer p !!! pos). split; [reflexivity |].
      apply received_total.
    + intros j Hj. rewrite received_get by lia.
      rewrite decide_False by (unfold k; lia). reflexivity.
  - apply received_get.
Qed.

End ReceiveOne.

Lemma drained_after_disconnect p :
  pipeline_ok p -> drained (prefetch_on_ps_disconnect p).
Proof.
  intros Hok.
  destruct (disconnect_ok p Hok) as (_ & Hret & HF & HR & HI & _).
  unfold drained. rewrite (rt_unused _ _ Hret). auto.
Qed.

Lemma dropped_after_disconnect k p :
  pipeline_ok p -> ring_receive p <= k ->
  dropped_from k p (prefetch_on_ps_disconnect p).
Proof.
  intros Hok Hk.
  destruct (disconnect_ok p Hok) as (Hok' & Hret & HF & HR & HI & HH & Hadv).
  split; [exact Hk |]. split; [apply drained_after_disconnect, Hok |].
  split; [intros j Hj; apply HH; lia |].
  intros Hlast Hlt. destruct Hok as (Hwf & _).
  pose proof (wf_order p Hwf). apply Hadv; lia.
Qed.

(** [prefetch_read] on the oldest request in flight, once it is flushed. *)
Lemma prefetch_read_ok env w :
  pipeline_ok (MyPState w) ->
  ring_receive (MyPState w) < ring_flush (MyPState w) ->
  let r := prefetch_read env (ring_receive (MyPState w)) w in
  pipeline_ok (MyPState (snd r)) /\
  retires (MyPState w) (MyPState (snd r)) /\
  pipeline_only w (snd r) /\
  ps_clock (snd r) = S (ps_clock w) /\
  (fst r = false ->
   dropped_from (ring_receive (MyPState w)) (MyPState w) (MyPState (snd r))) /\
  (fst r = true ->
   exists resp, ps_receive env (ps_clock w) = Some resp /\
     ring_flush (MyPState (snd r)) = ring_flush (MyPState w) /\
     waited_for env (ps_clock w) (ps_clock (snd r))
       (ring_receive (MyPState w)) (MyPState w) (MyPState (snd r))).
Proof.
  intros Hok Hflushed. cbv zeta.
  assert (Hread : prefetch_read env (ring_receive (MyPState w)) w
    = match ps_receive env (ps_clock w) with
      | Some resp =>
          (true, set_MyPState (receive_into resp (MyPState w)) (tick w))
      | None => (false, on_MyPState prefetch_on_ps_disconnect (tick w))
      end).
  { unfold prefetch_read, page_server_receive.
    destruct (ps_receive env (ps_clock w)); reflexivity. }
  rewrite Hread. clear Hread.
  destruct (ps_receive env (ps_clock w)) as [resp |] eqn:Hrecv;
    cbn [fst snd MyPState set_MyPState on_MyPState tick set_ps_clock ps_clock].
  - destruct (received_ok (MyPState w) resp Hok Hflushed)
      as (Hok' & Hret & Hget).
    destruct (received_fields (MyPState w) resp Hok Hflushed)
      as (Hbuf & Hhash & HU & HF & HR & HL & HI).
    split; [exact Hok' |]. split; [exact Hret |].
    split; [unfold pipeline_only, quiet; simpl; repeat split; lia |].
    split; [reflexivity |]. split; [discriminate |].
    intros _. exists resp. split; [reflexivity |]. split; [exact HF |].
    unfold waited_for.
    split; [exact Hhash |]. split; [exact HL |]. split; [exact HU |].
    split; [rewrite HR; lia |]. split; [exact (rt_size _ _ Hret) |].
    intros j Hj. specialize (Hget j Hj).
    destruct (decide (ring_receive (MyPState w) <= j <= ring_receive (MyPState w)))
      as [Hin | Hout].
    + exists resp.
      rewrite decide_True in Hget by lia.
      assert (Hj' : j = ring_receive (MyPState w)) by lia.
      rewrite Hj' in Hget |- *.
      replace (Z.to_nat (ring_receive (MyPState w) + 1
                         - ring_receive (MyPState w))) with 1%nat by lia.
      split; [lia |].
      replace (S (ps_clock w) - 1)%nat with (ps_clock w) by lia.
      split; [exact Hrecv | exact Hget].
    + rewrite decide_False in Hget by lia. exact Hget.
  - destruct (disconnect_ok (MyPState w) Hok) as (Hok' & Hret & _).
    split; [exact Hok' |]. split; [exact Hret |].
    split; [unfold pipeline_only, quiet; simpl; repeat split; lia |].
    split; [reflexivity |].
    split; [intros _; apply dropped_after_disconnect; [exact Hok | lia]
           | discriminate].
Qed.

Lemma waited_for_nothing env clock k p :
  k < ring_receive p -> waited_for env clock clock k p p.
Proof.
  intros Hk. unfold waited_for. repeat split; try lia.
  intros j Hj. rewrite decide_False by lia. reflexivity.
Qed.

Lemma received_with_twice resp slot slot' :
  slot' = slot -> received_with resp slot' = received_with resp slot.
Proof. intros ->. reflexivity. Qed.

(** The loop of [prefetch_wait_for]. *)
Lemma wait_loop_ok env n k w :
  pipeline_ok (MyPState w) ->
  k < ring_flush (MyPState w) ->
  (Z.to_nat (k + 1 - ring_receive (MyPState w)) <= n)%nat ->
  let r := wait_loop env n k w in
  pipeline_ok (MyPState (snd r)) /\
  retires (MyPState w) (MyPState (snd r)) /\
  pipeline_only w (snd r) /\
  (fst r = false -> dropped_from k (MyPState w) (MyPState (snd r))) /\
  (fst r = true ->
   ring_flush (MyPState (snd r)) = ring_flush (MyPState w) /\
   ps_clock (snd r)
   = (ps_clock w + Z.to_nat (k + 1 - ring_receive (MyPState w)))%nat /\
   waited_for env (ps_clock w) (ps_clock (snd r)) k (MyPState w)
     (MyPState (snd r))).
Proof.
  revert w. induction n as [| n IH]; intros w Hok Hflushed Hn; cbv zeta.
  - simpl. split; [exact Hok |]. split; [apply retires_refl |].
    split; [apply pipeline_only_refl |]. split; [discriminate |].
    intros _. split; [reflexivity |]. split; [lia |].
    apply waited_for_nothing. lia.
  - simpl.
    destruct (Z.leb_spec (ring_receive (MyPState w)) k) as [Hle | Hgt].
    + pose proof (prefetch_read_ok env w Hok ltac:(lia)) as Hread.
      cbv zeta in Hread.
      destruct (prefetch_read env (ring_receive (MyPState w)) w)
        as [[|] w1]; simpl in Hread;
        destruct Hread as (Hok1 & Hret1 & Honly1 & Hclock1 & Hfail1 & Hgood1).
      * destruct (Hgood1 eq_refl) as (resp & Hrecv & HF1 & Hw1).
        destruct Hw1 as (Hhash1 & HL1 & HU1 & HR1 & Hcap1 & Hslots1).
        specialize (IH w1 Hok1 ltac:(lia) ltac:(lia)). cbv zeta in IH.
        destruct (wait_loop env n k w1) as [b w2]. simpl in *.
        destruct IH as (Hok2 & Hret2 & Honly2 & Hfail2 & Hgood2).
        split; [exact Hok2 |].
        split; [exact (retires_trans _ _ _ Hret1 Hret2) |].
        split; [exact (pipeline_only_trans _ _ _ Honly1 Honly2) |].
        split.
        { intros Hb. destruct (Hfail2 Hb) as (Hk2 & Hdr2 & Hgone2 & _).
          pose proof Hok as (Hwf & _).
          pose proof (wf_order _ Hwf) as Hord. pose proof (wf_bound _ Hwf).
          split; [lia |]. split; [exact Hdr2 |]. split; [| lia].
          intros j Hj.
          specialize (Hslots1 j ltac:(lia)).
          specialize (Hgone2 j ltac:(lia)).
          destruct (decide (ring_receive (MyPState w) <= j
                            <= ring_receive (MyPState w)));
            [| rewrite <- Hslots1; exact Hgone2].
          destruct Hslots1 as (r1 & _ & _ & Hs1).
          rewrite Hs1 in Hgone2. exact Hgone2. }
        intros Hb. destruct (Hgood2 Hb) as (HF2 & Hclock2' & Hw2).
        destruct Hw2 as (Hhash2 & HL2 & HU2 & HR2 & Hcap2 & Hslots2).
        split; [congruence |].
        assert (Hclock : ps_clock w2
                         = (ps_clock w
                            + Z.to_nat (k + 1 - ring_receive (MyPState w)))%nat)
          by lia.
        split; [exact Hclock |].
        unfold waited_for.
        split; [congruence |]. split; [congruence |]. split; [congruence |].
        split; [lia |]. split; [congruence |].
        intros j Hj.
        specialize (Hslots1 j Hj).
        specialize (Hslots2 j ltac:(rewrite HL1, Hcap1; exact Hj)).
        destruct Honly2 as ((_ & _ & _ & _ & _ & _ & _ & Hclock2) & _).
        destruct (decide (ring_receive (MyPState w) <= j <= k)) as [Hin | Hout].
        -- destruct (decide (j = ring_receive (MyPState w))) as [-> | Hne].
           ++ rewrite decide_True in Hslots1 by lia.
              rewrite decide_False in Hslots2 by lia.
              destruct Hslots1 as (r1 & Hc1 & Hr1 & Hs1).
              exists r1. split; [lia |].
              replace (Z.to_nat (ring_receive (MyPState w) + 1
                                 - ring_receive (MyPState w)))
                with 1%nat in Hr1 by lia.
              replace (ps_clock w2
                       - Z.to_nat (k + 1 - ring_receive (MyPState w)))%nat
                with (ps_clock w1 - 1)%nat by lia.
              split; [exact Hr1 |]. congruence.
           ++ rewrite decide_False in Hslots1 by lia.
              rewrite decide_True in Hslots2 by lia.
              destruct Hslots2 as (r2 & Hc2 & Hr2 & Hs2).
              exists r2. split; [lia |]. split; [exact Hr2 |]. congruence.
        -- rewrite decide_False in Hslots1 by lia.
           rewrite decide_False in Hslots2 by lia. congruence.
      * split; [exact Hok1 |]. split; [exact Hret1 |].
        split; [exact Honly1 |]. split; [| discriminate].
        intros _. destruct (Hfail1 eq_refl) as (_ & Hdr1 & Hgone1 & Hadv1).
        pose proof Hok as (Hwf & _). pose proof (wf_order _ Hwf) as Hord.
        split; [exact Hle |]. split; [exact Hdr1 |].
        split; [intros j Hj; apply Hgone1; lia |].
        intros Hlast Hlt. apply Hadv1; lia.
    + simpl. split; [exact Hok |]. split; [apply retires_refl |].
      split; [apply pipeline_only_refl |]. split; [discriminate |].
      intros _. split; [reflexivity |]. split; [lia |].
      apply waited_for_nothing. lia.
Qed.

(** [prefetch_wait_for] on a ring index below [ring_unused]: it keeps the
    pipeline in good order; when it succeeds, the slots up to that index
    hold responses from the transport; when it fails, the pipeline has been
    emptied of requests. *)
Lemma prefetch_wait_for_ok env k w :
  pipeline_ok (MyPState w) ->
  k < ring_unused (MyPState w) ->
  let r := prefetch_wait_for env k w in
  pipeline_ok (MyPState (snd r)) /\
  retires (MyPState w) (MyPState (snd r)) /\
  pipeline_only w (snd r) /\
  (fst r = false -> dropped_from k (MyPState w) (MyPState (snd r))) /\
  (fst r = true ->
   k < ring_flush (MyPState (snd r)) /\
   waited_for env (ps_clock w) (ps_clock (snd r)) k (MyPState w)
     (MyPState (snd r))).
Proof.
  intros Hok Hk. cbv zeta. unfold prefetch_wait_for.
  pose proof Hok as (Hwf & Hext & Htrim).
  pose proof (wf_order _ Hwf) as Hord. pose proof (ext_flush _ Hext) as Hfl.
  assert (Hloop : forall w0,
    pipeline_ok (MyPState w0) -> k < ring_flush (MyPState w0) ->
    retires (MyPState w) (MyPState w0) -> pipeline_only w w0 ->
    (dropped_from k (MyPState w0)
       (MyPState (snd (wait_loop env
          (Z.to_nat (k + 1 - ring_receive (MyPState w0))) k w0))) ->
     dropped_from k (MyPState w)
       (MyPState (snd (wait_loop env
          (Z.to_nat (k + 1 - ring_receive (MyPState w0))) k w0)))) ->
    (forall clock', waited_for env (ps_clock w0) clock' k (MyPState w0)
                      (MyPState (snd (wait_loop env
                         (Z.to_nat (k + 1 - ring_receive (MyPState w0))) k w0))) ->
       waited_for env (ps_clock w) clock' k (MyPState w)
         (MyPState (snd (wait_loop env
            (Z.to_nat (k + 1 - ring_receive (MyPState w0))) k w0)))) ->
    let r := wait_loop env (Z.to_nat (k + 1 - ring_receive (MyPState w0))) k
               w0 in
    pipeline_ok (MyPState (snd r)) /\
    retires (MyPState w) (MyPState (snd r)) /\
    pipeline_only w (snd r) /\
    (fst r = false -> dropped_from k (MyPState w) (MyPState (snd r))) /\
    (fst r = true ->
     k < ring_flush (MyPState (snd r)) /\
     waited_for env (ps_clock w) (ps_clock (snd r)) k (MyPState w)
       (MyPState (snd r)))).
  { intros w0 Hok0 Hfl0 Hret0 Honly0 Hdrop Hshift. cbv zeta.
    destruct (wait_loop_ok env _ k w0 Hok0 Hfl0 (Nat.le_refl _))
      as (Hok1 & Hret1 & Honly1 & Hfail1 & Hgood1).
    split; [exact Hok1 |]. split; [exact (retires_trans _ _ _ Hret0 Hret1) |].
    split; [exact (pipeline_only_trans _ _ _ Honly0 Honly1) |].
    split; [intros Hb; apply Hdrop, Hfail1, Hb |].
    intros Hb. destruct (Hgood1 Hb) as (HF1 & _ & Hw1).
    split; [lia |]. apply Hshift, Hw1. }
  destruct ((ring_flush (MyPState w) <=? k)
            && (ring_flush (MyPState w) <? ring_unused (MyPState w)))
    eqn:Hcond.
  - unfold page_server_flush.
    destruct (ps_flush env (ps_clock w)) eqn:Hflush_ok.
    + destruct (set_ring_flush_ok (ring_unused (MyPState w)) (MyPState w) Hok
                  ltac:(lia)) as [Hok0 Hret0].
      apply (Hloop (on_MyPState (fun p => set_ring_flush (ring_unused p) p)
                      (tick w))).
      * exact Hok0.
      * simpl. lia.
      * exact Hret0.
      * unfold pipeline_only, quiet. simpl. repeat split; lia.
      * auto.
      * intros clock' Hw. simpl in Hw.
        destruct Hw as (Hhash & HL & HU & HR & Hcap & Hslots).
        unfold waited_for. simpl in *.
        repeat (split; [assumption |]).
        intros j Hj. specialize (Hslots j Hj).
        destruct (decide (ring_receive (MyPState w) <= j <= k)); [| exact Hslots].
        destruct Hslots as (r1 & Hc1 & Hr1 & Hs1).
        exists r1. split; [lia |]. split; assumption.
    + simpl. destruct (disconnect_ok (MyPState w) Hok) as (Hok' & Hret & _).
      split; [exact Hok' |]. split; [exact Hret |].
      split; [unfold pipeline_only, quiet; simpl; repeat split; lia |].
      split; [| discriminate].
      intros _. apply dropped_after_disconnect; [exact Hok |].
      apply andb_true_iff in Hcond. destruct Hcond as [Hc _].
      apply Z.leb_le in Hc. lia.
  - apply (Hloop w); [exact Hok | | apply retires_refl
                     | apply pipeline_only_refl | auto | auto].
    apply andb_false_iff in Hcond. destruct Hcond as [Hc | Hc].
    + apply Z.leb_gt in Hc. lia.
    + apply Z.ltb_ge in Hc. lia.
Qed.

(** On a transport that delivers, the wait succeeds. *)
Lemma wait_loop_healthy env n k w :
  (forall c, (ps_clock w <= c)%nat -> ps_receive env c <> None) ->
  fst (wait_loop env n k w) = true.
Proof.
  revert w. induction n as [| n IH]; intros w Hhealthy; simpl;
    [reflexivity |].
  destruct (ring_receive (MyPState w) <=? k); [| reflexivity].
  unfold prefetch_read, page_server_receive.
  destruct (ps_receive env (ps_clock w)) as [resp |] eqn:Hrecv.
  - apply IH. intros c Hc. apply Hhealthy. simpl in Hc. lia.
  - exfalso. exact (Hhealthy (ps_clock w) (Nat.le_refl _) Hrecv).
Qed.

Lemma prefetch_wait_for_healthy env k w :
  (forall c, (ps_clock w <= c)%nat ->
     ps_flush env c = true /\ ps_receive env c <> None) ->
  fst (prefetch_wait_for env k w) = true.
Proof.
  intros Hhealthy. unfold prefetch_wait_for. cbv zeta.
  destruct ((ring_flush (MyPState w) <=? k)
            && (ring_flush (MyPState w) <? ring_unused (MyPState w))).
  - unfold page_server_flush.
    rewrite (proj1 (Hhealthy (ps_clock w) (Nat.le_refl _))).
    apply wait_loop_healthy. intros c Hc. apply Hhealthy. simpl in Hc. lia.
  - apply wait_loop_healthy. intros c Hc. apply Hhealthy, Hc.
Qed.

(** ** Retiring in general *)

Lemma buffered_none p t : buffered p t = None <-> prf_hash p !! t = None.
Proof.
  unfold buffered. destruct (prf_hash p !! t); simpl; split; congruence.
Qed.

(** [prefetch_set_unused] on any ring index below [ring_receive]. *)
Lemma set_unused_ok k p :
  pipeline_ok p -> k < ring_receive p ->
  pipeline_ok (prefetch_set_unused k p) /\
  retires p (prefetch_set_unused k p) /\
  ring_receive (prefetch_set_unused k p) = ring_receive p /\
  ring_flush (prefetch_set_unused k p) = ring_flush p /\
  n_requests_inflight (prefetch_set_unused k p) = n_requests_inflight p /\
  (ring_last p <= k -> status (GetPrfSlot p k) <> PRFS_UNUSED ->
   prf_hash (prefetch_set_unused k p) !! buftag (GetPrfSlot p k) = None) /\
  (forall t, t <> buftag (GetPrfSlot p k) ->
     slot_content <$> buffered (prefetch_set_unused k p) t
     = slot_content <$> buffered p t) /\
  (k = ring_last p -> status (GetPrfSlot p k) <> PRFS_UNUSED ->
   ring_last p < ring_last (prefetch_set_unused k p)).
Proof.
  intros Hok Hk. pose proof Hok as (Hwf & Hext & Htrim).
  assert (Hnoop : prefetch_set_unused k p = p ->
    (ring_last p <= k -> status (GetPrfSlot p k) = PRFS_UNUSED) ->
    pipeline_ok (prefetch_set_unused k p) /\
    retires p (prefetch_set_unused k p) /\
    ring_receive (prefetch_set_unused k p) = ring_receive p /\
    ring_flush (prefetch_set_unused k p) = ring_flush p /\
    n_requests_inflight (prefetch_set_unused k p) = n_requests_inflight p /\
    (ring_last p <= k -> status (GetPrfSlot p k) <> PRFS_UNUSED ->
     prf_hash (prefetch_set_unused k p) !! buftag (GetPrfSlot p k) = None) /\
    (forall t, t <> buftag (GetPrfSlot p k) ->
       slot_content <$> buffered (prefetch_set_unused k p) t
       = slot_content <$> buffered p t) /\
    (k = ring_last p -> status (GetPrfSlot p k) <> PRFS_UNUSED ->
     ring_last p < ring_last (prefetch_set_unused k p))).
  { intros -> Hun. split; [exact Hok |]. split; [apply retires_refl |].
    repeat (split; [reflexivity |]).
    split; [intros Hl Hst; destruct (Hst (Hun Hl)) |].
    split; [reflexivity |].
    intros Hl Hst. destruct (Hst (Hun ltac:(lia))). }
  destruct (Z.lt_ge_cases k (ring_last p)) as [Hlow | Hin].
  { apply Hnoop; [apply set_unused_below_last, Hlow | lia]. }
  destruct (status (GetPrfSlot p k)) eqn:Hst.
  - apply Hnoop; [apply set_unused_unused, Hst | auto].
  - destruct (wf_received p Hwf k ltac:(lia)) as [H | H];
      rewrite H in Hst; discriminate.
  - destruct (set_unused_received_ok p k Hwf Hext ltac:(lia) Hst Htrim)
      as (Hok' & Hret & HR & HF & HI & Hcont & Hadv).
    split; [exact Hok' |]. split; [exact Hret |].
    split; [exact HR |]. split; [exact HF |]. split; [exact HI |].
    split; [| split].
    + intros _ _. apply buffered_none.
      specialize (Hcont (buftag (GetPrfSlot p k))).
      rewrite decide_True in Hcont by reflexivity.
      destruct (buffered (prefetch_set_unused k p) _); [discriminate | reflexivity].
    + intros t Ht. rewrite Hcont. rewrite decide_False by exact Ht.
      reflexivity.
    + intros Hl _. apply Hadv, Hl.
  - destruct (wf_received p Hwf k ltac:(lia)) as [H | H];
      rewrite H in Hst; discriminate.
Qed.

(** [prefetch_wait_for(ring_index); prefetch_set_unused(ring_index);] on a
    slot in use: however the wait ends, the tag of the slot has left the
    index. *)
Lemma wait_and_retire_ok env k w :
  pipeline_ok (MyPState w) ->
  ring_last (MyPState w) <= k < ring_unused (MyPState w) ->
  status (GetPrfSlot (MyPState w) k) <> PRFS_UNUSED ->
  let w' := wait_and_retire env k w in
  pipeline_ok (MyPState w') /\
  retires (MyPState w) (MyPState w') /\
  pipeline_only w w' /\
  prf_hash (MyPState w') !! buftag (GetPrfSlot (MyPState w) k) = None /\
  (k = ring_last (MyPState w) ->
   ring_last (MyPState w) < ring_last (MyPState w')).
Proof.
  intros Hok Hk Hst. cbv zeta. unfold wait_and_retire.
  pose proof Hok as (Hwf & Hext & Htrim).
  pose proof (wf_order _ Hwf) as Hord. pose proof (wf_size _ Hwf) as Hsize.
  pose proof (wf_bound _ Hwf) as Hbnd.
  destruct (prefetch_wait_for_ok env k w Hok ltac:(lia))
    as (Hok1 & Hret1 & Honly1 & Hfail1 & Hgood1).
  destruct (prefetch_wait_for env k w) as [b w1]. simpl in *.
  set (p := MyPState w) in *. set (p1 := MyPState w1) in *.
  assert (Hdone : k < ring_receive p1 /\
    (b = false -> prf_hash p1 !! buftag (GetPrfSlot p k) = None /\
                  (k = ring_last p -> ring_last p < ring_last p1)) /\
    (b = true -> ring_last p1 = ring_last p /\
                 status (GetPrfSlot p1 k) <> PRFS_UNUSED /\
                 buftag (GetPrfSlot p1 k) = buftag (GetPrfSlot p k))).
  { destruct b.
    - destruct (Hgood1 eq_refl) as (_ & Hw).
      destruct Hw as (Hhash & HL & HU & HR & Hcap & Hslots).
      specialize (Hslots k ltac:(lia)).
      split; [lia |]. split; [discriminate |].
      intros _. split; [exact HL |].
      destruct (decide (ring_receive p <= k <= k)).
      + destruct Hslots as (r1 & _ & _ & ->).
        split; [discriminate | reflexivity].
      + rewrite Hslots. auto.
    - destruct (Hfail1 eq_refl) as (Hrk & (Hdr & _) & Hgone & Hadv).
      split; [rewrite Hdr, (rt_unused _ _ Hret1); lia |].
      split; [| discriminate]. intros _. split; [apply Hgone; lia |].
      intros ->. apply Hadv; [reflexivity | lia]. }
  destruct Hdone as (Hk1 & Hfailed & Hwaited).
  destruct (set_unused_ok k p1 Hok1 Hk1)
    as (Hok2 & Hret2 & _ & _ & _ & Hnone2 & _ & Hadv2).
  split; [exact Hok2 |].
  split; [exact (retires_trans _ _ _ Hret1 Hret2) |].
  split; [exact (pipeline_only_trans _ _ _ Honly1
                   (pipeline_only_on_MyPState _ _)) |].
  destruct b.
  - destruct (Hwaited eq_refl) as (HL1 & Hst1 & Htag1).
    split.
    + rewrite <- Htag1. apply Hnone2; [lia | exact Hst1].
    + intros Hl. rewrite <- HL1. apply Hadv2; [lia | exact Hst1].
  - destruct (Hfailed eq_refl) as (Hnone1 & Hadv1).
    split.
    + apply (rt_absent _ _ Hret2), Hnone1.
    + intros Hl. pose proof (rt_last _ _ Hret2). specialize (Hadv1 Hl). lia.
Qed.

(** ** Registering a request *)

(** The status of a slot of the ring. *)
Lemma slot_status_in_window p k :
  pipeline_wf p -> ring_last p <= k < ring_unused p ->
  status (GetPrfSlot p k) <> PRFS_UNUSED ->
  (ring_receive p <= k /\ status (GetPrfSlot p k) = PRFS_REQUESTED) \/
  (k < ring_receive p /\ status (GetPrfSlot p k) = PRFS_RECEIVED).
Proof.
  intros Hwf Hk Hst.
  destruct (Z.le_gt_cases (ring_receive p) k) as [Hge | Hlt].
  - left. split; [exact Hge |]. apply (wf_requested p Hwf). lia.
  - right. split; [exact Hlt |].
    destruct (wf_received p Hwf k ltac:(lia)) as [H | H];
      [exact H | contradiction].
Qed.

(** The lookup at the head of [prefetch_register_buffer]. *)
Lemma register_lookup_ok env tag force_latest force_lsn w :
  pipeline_ok (MyPState w) ->
  match register_lookup env tag force_latest force_lsn w with
  | (Some k, w') =>
      w' = set_prefetch_duplicates (prefetch_duplicates w + 1) w /\
      ring_last (MyPState w) <= k < ring_unused (MyPState w) /\
      buftag (GetPrfSlot (MyPState w) k) = tag /\
      prf_hash (MyPState w) !! tag = Some (slot_pos (MyPState w) k) /\
      (status (GetPrfSlot (MyPState w) k) = PRFS_REQUESTED \/
       status (GetPrfSlot (MyPState w) k) = PRFS_RECEIVED) /\
      request_lsn_acceptable force_latest force_lsn
        (GetPrfSlot (MyPState w) k) = true
  | (None, w') =>
      pipeline_ok (MyPState w') /\ retires (MyPState w) (MyPState w') /\
      pipeline_only w w' /\ prf_hash (MyPState w') !! tag = None /\
      (prf_hash (MyPState w) !! tag = None \/
       exists slot, buffered (MyPState w) tag = Some slot /\
         request_lsn_acceptable force_latest force_lsn slot = false)
  end.
Proof.
  intros Hok. pose proof Hok as (Hwf & Hext & Htrim).
  unfold register_lookup, prfh_lookup.
  destruct (prf_hash (MyPState w) !! tag) as [pos |] eqn:Hpos.
  - destruct (wf_hash_sound _ Hwf tag pos Hpos) as (k & Hk & -> & Htag & Hst).
    change (prf_buffer (MyPState w) !!! slot_pos (MyPState w) k)
      with (GetPrfSlot (MyPState w) k).
    rewrite (ext_index _ Hext k Hk Hst).
    destruct (request_lsn_acceptable force_latest force_lsn
                (GetPrfSlot (MyPState w) k)) eqn:Hacc.
    + destruct (slot_status_in_window _ k Hwf Hk Hst) as [[_ Hs] | [_ Hs]];
        rewrite Hs; repeat split; auto; lia.
    + destruct (wait_and_retire_ok env k w Hok Hk Hst)
        as (Hok' & Hret & Honly & Hnone & _).
      rewrite Htag in Hnone.
      split; [exact Hok' |]. split; [exact Hret |]. split; [exact Honly |].
      split; [exact Hnone |]. right.
      exists (GetPrfSlot (MyPState w) k). split; [| exact Hacc].
      unfold buffered. rewrite Hpos. reflexivity.
  - split; [exact Hok |]. split; [apply retires_refl |].
    split; [apply pipeline_only_refl |]. split; [exact Hpos | left; reflexivity].
Qed.

(** Making room when the ring is one slot short of full. *)
Lemma register_make_room_ok env w :
  pipeline_ok (MyPState w) ->
  2 <= readahead_buffer_size (MyPState w) ->
  ring_unused (MyPState w) - ring_last (MyPState w)
  < readahead_buffer_size (MyPState w) ->
  ring_unused (MyPState w) + readahead_buffer_size (MyPState w) < 2 ^ 64 ->
  let w' := register_make_room env w in
  pipeline_ok (MyPState w') /\ retires (MyPState w) (MyPState w') /\
  pipeline_only w w' /\
  ring_unused (MyPState w') - ring_last (MyPState w') + 1
  < readahead_buffer_size (MyPState w').
Proof.
  intros Hok Hcap Hroom Hmax. cbv zeta.
  pose proof Hok as (Hwf & Hext & Htrim).
  pose proof (wf_order _ Hwf) as Hord.
  unfold register_make_room. rewrite uint64_small by lia.
  destruct (Z.eqb_spec (ring_last (MyPState w)
                        + readahead_buffer_size (MyPState w) - 1)
              (ring_unused (MyPState w))) as [Hfull | Hfree].
  - assert (Hlast_used : status (GetPrfSlot (MyPState w) (ring_last (MyPState w)))
                         <> PRFS_UNUSED) by (apply Htrim; lia).
    assert (Hswitch :
      let w1 :=
        match status (GetPrfSlot (MyPState w) (ring_last (MyPState w))) with
        | PRFS_REQUESTED => wait_and_retire env (ring_last (MyPState w)) w
        | PRFS_RECEIVED | PRFS_TAG_REMAINS =>
            on_MyPState (prefetch_set_unused (ring_last (MyPState w))) w
        | PRFS_UNUSED => w
        end in
      pipeline_ok (MyPState w1) /\ retires (MyPState w) (MyPState w1) /\
      pipeline_only w w1 /\
      ring_last (MyPState w) < ring_last (MyPState w1)).
    { cbv zeta.
      destruct (slot_status_in_window _ (ring_last (MyPState w)) Hwf
                  ltac:(lia) Hlast_used) as [[_ Hs] | [Hlt Hs]]; rewrite Hs.
      - destruct (wait_and_retire_ok env (ring_last (MyPState w)) w Hok
                    ltac:(lia) Hlast_used) as (H1 & H2 & H3 & _ & H5).
        auto.
      - destruct (set_unused_ok (ring_last (MyPState w)) (MyPState w) Hok Hlt)
          as (H1 & H2 & _ & _ & _ & _ & _ & H5).
        split; [exact H1 |]. split; [exact H2 |].
        split; [apply pipeline_only_on_MyPState |].
        apply H5; [reflexivity | exact Hlast_used]. }
    assert (Hfinish : forall w1,
      pipeline_ok (MyPState w1) /\ retires (MyPState w) (MyPState w1) /\
      pipeline_only w w1 /\ ring_last (MyPState w) < ring_last (MyPState w1) ->
      pipeline_ok (MyPState w1) /\ retires (MyPState w) (MyPState w1) /\
      pipeline_only w w1 /\
      ring_unused (MyPState w1) - ring_last (MyPState w1) + 1
      < readahead_buffer_size (MyPState w1)).
    { intros w1 (H1 & H2 & H3 & H4). repeat (split; [assumption |]).
      rewrite (rt_unused _ _ H2), (rt_size _ _ H2). lia. }
    destruct (ReceiveBufferNeedsCompaction (MyPState w)).
    + pose proof (compact_ok (MyPState w) Hok) as Hc.
      destruct (compact_prefetch_buffers (MyPState w)) as [moved p1].
      destruct Hc as (Hok1 & Hret1 & _ & _ & _ & _ & Hsame & Hmoved & _).
      destruct moved.
      * apply Hfinish. split; [exact Hok1 |]. split; [exact Hret1 |].
        split; [apply (pipeline_only_on_MyPState (fun _ => p1)) |].
        apply Hmoved. reflexivity.
      * rewrite (Hsame eq_refl).
        replace (set_MyPState (MyPState w) w) with w by (destruct w; reflexivity).
        apply Hfinish, Hswitch.
    + apply Hfinish, Hswitch.
  - split; [exact Hok |]. split; [apply retires_refl |].
    split; [apply pipeline_only_refl | lia].
Qed.

(** A write into the slot that the next request will take. *)
Section OpenSlot.
Context (p : PrefetchState) (v : PrefetchRequest).
Hypothesis Hok : pipeline_ok p.
Hypothesis Hroom : ring_unused p - ring_last p < readahead_buffer_size p.
Hypothesis Hv : status v = PRFS_UNUSED.

Let u := ring_unused p.
Let p1 := SetPrfSlot p u v.

Lemma open_slot_get j :
  ring_last p <= j < ring_last p + readahead_buffer_size p ->
  GetPrfSlot p1 j = if decide (u = j) then v else GetPrfSlot p j.
Proof.
  intros Hj. destruct Hok as (Hwf & _).
  pose proof (wf_order p Hwf) as Hord.
  unfold p1, GetPrfSlot, SetPrfSlot, readahead_buffer_size in *. simpl.
  apply (buf_get_set _ (ring_last p)); unfold u; lia.
Qed.

Lemma open_slot_ok :
  pipeline_ok p1 /\ prf_hash p1 = prf_hash p /\
  ring_unused p1 = ring_unused p /\ ring_flush p1 = ring_flush p /\
  ring_receive p1 = ring_receive p /\ ring_last p1 = ring_last p /\
  readahead_buffer_size p1 = readahead_buffer_size p /\
  GetPrfSlot p1 u = v.
Proof.
  pose proof Hok as (Hwf & Hext & Htrim).
  pose proof Hwf as [Hsize Hord Hbnd Hreq Hrcv Hout Hsound Hcomp Hinf].
  pose proof Hext as [Hflush Hindex Hresp].
  assert (Hcap : readahead_buffer_size p1 = readahead_buffer_size p).
  { unfold p1, readahead_buffer_size, SetPrfSlot. simpl.
    rewrite length_buf_set. reflexivity. }
  assert (Hpos : forall j, slot_pos p1 j = slot_pos p j).
  { intros j. unfold p1, slot_pos, SetPrfSlot. simpl.
    rewrite ring_slot_buf_set. reflexivity. }
  assert (Hin : forall j, ring_last p <= j < ring_unused p ->
                GetPrfSlot p1 j = GetPrfSlot p j).
  { intros j Hj. rewrite open_slot_get by lia.
    rewrite decide_False by (unfold u; lia). reflexivity. }
  assert (HU1 : ring_unused p1 = ring_unused p) by reflexivity.
  assert (HR1 : ring_receive p1 = ring_receive p) by reflexivity.
  assert (HL1 : ring_last p1 = ring_last p) by reflexivity.
  assert (HF1 : ring_flush p1 = ring_flush p) by reflexivity.
  assert (HI1 : n_requests_inflight p1 = n_requests_inflight p) by reflexivity.
  assert (HH1 : prf_hash p1 = prf_hash p) by reflexivity.
  split; [split; [| split] |].
  - constructor; rewrite ?Hcap, ?HU1, ?HR1, ?HL1, ?HI1, ?HH1; try assumption.
    + intros j Hj. rewrite Hin by lia. apply Hreq, Hj.
    + intros j Hj. rewrite Hin by lia. apply Hrcv, Hj.
    + intros j Hj. rewrite open_slot_get by lia.
      destruct (decide (u = j)); [exact Hv | apply Hout, Hj].
    + intros t i Hti. destruct (Hsound t i Hti) as (j & Hj & Hi & Ht & Hst).
      exists j. rewrite Hpos, Hin by lia. auto.
    + intros j Hj. rewrite Hpos, Hin by exact Hj. apply Hcomp, Hj.
  - constructor; rewrite ?HU1, ?HR1, ?HL1, ?HF1.
    + exact Hflush.
    + intros j Hj. rewrite Hin by exact Hj. apply Hindex, Hj.
    + intros j Hj. rewrite Hin by lia. apply Hresp, Hj.
  - unfold trimmed. rewrite HL1, HU1. intros Hlt.
    rewrite Hin by lia. apply Htrim, Hlt.
  - repeat (split; [reflexivity |]). split; [exact Hcap |].
    rewrite open_slot_get by (unfold u; lia).
    rewrite decide_True by reflexivity. reflexivity.
Qed.

End OpenSlot.

(** The request of the open slot enters the ring. *)
Section Enqueue.
Context (p : PrefetchState) (tag : BufferTag).
Hypothesis Hok : pipeline_ok p.
Hypothesis Hroom : ring_unused p - ring_last p < readahead_buffer_size p.
Hypothesis Hmax : ring_unused p + 1 < 2 ^ 64.
Hypothesis Habsent : prf_hash p !! tag = None.

Let u := ring_unused p.
Hypothesis Hst : status (GetPrfSlot p u) = PRFS_UNUSED.
Hypothesis Htag : buftag (GetPrfSlot p u) = tag.
Hypothesis Hidx : my_ring_index (GetPrfSlot p u) = u.
Hypothesis Hresp0 : response (GetPrfSlot p u) = None.

Let p' := enqueue_request u p.

Lemma enqueue_fields :
  prf_buffer p'
  = buf_set (prf_buffer p) u (set_status PRFS_REQUESTED (GetPrfSlot p u)) /\
  prf_hash p' = <[tag := slot_pos p u]> (prf_hash p) /\
  ring_unused p' = ring_unused p + 1 /\ ring_flush p' = ring_flush p /\
  ring_receive p' = ring_receive p /\ ring_last p' = ring_last p /\
  n_requests_inflight p' = n_requests_inflight p + 1.
Proof.
  destruct Hok as (Hwf & _). pose proof (wf_order p Hwf) as Hord.
  pose proof (wf_size p Hwf) as Hsize.
  unfold p', enqueue_request. cbv zeta.
  unfold SetPrfSlot, prfh_insert, GetPrfSlot, slot_pos. simpl.
  rewrite buf_get_set_same by (apply buf_nonempty; exact Hsize).
  simpl. change (buf_get (prf_buffer p) u) with (GetPrfSlot p u).
  rewrite Htag, Habsent. simpl. rewrite ring_slot_buf_set.
  rewrite uint64_small by lia. repeat split.
Qed.

Lemma enqueue_get j :
  ring_last p <= j < ring_last p + readahead_buffer_size p ->
  GetPrfSlot p' j
  = if decide (u = j) then set_status PRFS_REQUESTED (GetPrfSlot p u)
    else GetPrfSlot p j.
Proof.
  intros Hj. destruct Hok as (Hwf & _).
  pose proof (wf_order p Hwf) as Hord.
  destruct enqueue_fields as (Hbuf & _).
  unfold GetPrfSlot, readahead_buffer_size in *. rewrite Hbuf.
  apply (buf_get_set _ (ring_last p)); unfold u; lia.
Qed.

Lemma enqueue_ok :
  pipeline_ok p' /\
  readahead_buffer_size p' = readahead_buffer_size p /\
  prf_hash p' !! tag = Some (slot_pos p' u) /\
  GetPrfSlot p' u = set_status PRFS_REQUESTED (GetPrfSlot p u) /\
  (forall t, t <> tag -> buffered p' t = buffered p t).
Proof.
  pose proof Hok as (Hwf & Hext & Htrim).
  pose proof Hwf as [Hsize Hord Hbnd Hreq Hrcv Hout Hsound Hcomp Hinf].
  pose proof Hext as [Hflush Hindex Hresp].
  destruct enqueue_fields as (Hbuf & Hhash & HU & HF & HR & HL & HI).
  assert (Hcap : readahead_buffer_size p' = readahead_buffer_size p).
  { unfold readahead_buffer_size. rewrite Hbuf, length_buf_set. reflexivity. }
  assert (Hpos : forall j, slot_pos p' j = slot_pos p j).
  { intros j. unfold slot_pos. rewrite Hbuf, ring_slot_buf_set. reflexivity. }
  assert (Hin : forall j, ring_last p <= j < ring_unused p ->
                GetPrfSlot p' j = GetPrfSlot p j).
  { intros j Hj. rewrite enqueue_get by lia.
    rewrite decide_False by (unfold u; lia). reflexivity. }
  assert (Hu : GetPrfSlot p' u = set_status PRFS_REQUESTED (GetPrfSlot p u)).
  { rewrite enqueue_get by (unfold u; lia).
    rewrite decide_True by reflexivity. reflexivity. }
  assert (Hother : forall j, ring_last p <= j < ring_unused p ->
    status (GetPrfSlot p j) <> PRFS_UNUSED -> buftag (GetPrfSlot p j) <> tag).
  { intros j Hj Hstj Heq. pose proof (Hcomp j Hj Hstj) as Hin'.
    rewrite Heq, Habsent in Hin'. discriminate Hin'. }
  split; [split; [| split] |].
  - constructor; rewrite ?Hcap, ?HU, ?HR, ?HL, ?HI; try assumption; try lia.
    + intros j Hj. destruct (decide (j = u)) as [-> | Hne].
      * rewrite Hu. reflexivity.
      * rewrite Hin by (unfold u in Hne; lia). apply Hreq. unfold u in Hne. lia.
    + intros j Hj. rewrite Hin by lia. apply Hrcv, Hj.
    + intros j Hj. rewrite enqueue_get by lia.
      rewrite decide_False by (unfold u; lia). apply Hout. lia.
    + intros t i. rewrite Hhash.
      destruct (decide (tag = t)) as [<- | Hne].
      * rewrite lookup_insert_eq. intros [= <-]. exists u.
        rewrite Hpos, Hu. split; [unfold u; lia |]. split; [reflexivity |].
        split; [exact Htag | discriminate].
      * rewrite lookup_insert_ne by exact Hne. intros Hti.
        destruct (Hsound t i Hti) as (j & Hj & Hi & Ht & Hstj).
        exists j. rewrite Hpos, Hin by lia. split; [lia | auto].
    + intros j Hj. rewrite Hpos, Hhash.
      destruct (decide (j = u)) as [-> | Hne].
      * intros _. rewrite Hu. simpl. rewrite Htag. apply lookup_insert_eq.
      * assert (Hj' : ring_last p <= j < ring_unused p)
          by (unfold u in Hne; lia).
        rewrite Hin by exact Hj'. intros Hstj.
        rewrite lookup_insert_ne by (apply not_eq_sym, Hother; assumption).
        apply Hcomp; assumption.
  - constructor; rewrite ?HU, ?HF, ?HR, ?HL.
    + lia.
    + intros j Hj. destruct (decide (j = u)) as [-> | Hne].
      * intros _. rewrite Hu. exact Hidx.
      * rewrite Hin by (unfold u in Hne; lia). apply Hindex.
        unfold u in Hne. lia.
    + intros j Hj. rewrite Hin by lia. apply Hresp, Hj.
  - unfold trimmed. rewrite HL, HU. intros _.
    destruct (decide (ring_last p = u)) as [-> | Hne].
    + rewrite Hu. discriminate.
    + rewrite Hin by (unfold u in Hne; lia). apply Htrim.
      unfold u in Hne. lia.
  - split; [exact Hcap |]. split; [| split; [exact Hu |]].
    + rewrite Hhash, Hpos. apply lookup_insert_eq.
    + intros t Ht. unfold buffered. rewrite Hhash.
      rewrite lookup_insert_ne by congruence.
      destruct (prf_hash p !! t) as [pos |] eqn:Hpos'; [| reflexivity].
      cbn [fmap option_fmap option_map]. apply (f_equal Some).
      destruct (Hsound t pos Hpos') as (j & Hj & -> & _ & _).
      transitivity (GetPrfSlot p' j); [| apply Hin, Hj].
      unfold GetPrfSlot, buf_get, slot_pos.
      rewrite Hbuf, ring_slot_buf_set. reflexivity.
Qed.

End Enqueue.

(** [while (!page_server->send(&request));] *)
Lemma send_until_accepted_ok env fuel req w :
  pipeline_ok (MyPState w) ->
  let r := send_until_accepted env fuel req w in
  pipeline_ok (MyPState (snd r)) /\
  retires (MyPState w) (MyPState (snd r)) /\
  quiet w (snd r) /\
  match fst r with
  | Return _ => trace (snd r) = trace w ++ [EvPageServerSend req]
  | OutOfFuel => trace (snd r) = trace w
  | Raise _ _ => False
  end.
Proof.
  revert w. induction fuel as [| fuel IH]; intros w Hok; cbv zeta; simpl.
  - split; [exact Hok |]. split; [apply retires_refl |].
    split; [apply quiet_refl | reflexivity].
  - unfold page_server_send. destruct (ps_send env (ps_clock w)); simpl.
    + split; [exact Hok |]. split; [apply retires_refl |].
      split; [unfold quiet; simpl; repeat split; lia | reflexivity].
    + destruct (disconnect_ok (MyPState w) Hok) as (Hok1 & Hret1 & _).
      specialize (IH (on_MyPState prefetch_on_ps_disconnect (tick w)) Hok1).
      cbv zeta in IH.
      destruct (send_until_accepted env fuel req
                  (on_MyPState prefetch_on_ps_disconnect (tick w)))
        as [r w']. simpl in *.
      destruct IH as (Hok2 & Hret2 & Hq2 & Htr2).
      split; [exact Hok2 |]. split; [exact (retires_trans _ _ _ Hret1 Hret2) |].
      split; [| exact Htr2].
      apply (quiet_trans _ (on_MyPState prefetch_on_ps_disconnect (tick w)));
        [unfold quiet; simpl; repeat split; lia | exact Hq2].
Qed.

(** The sending and the enqueueing at the end of [prefetch_do_request]. *)
Lemma send_and_enqueue_ok env fuel req tag w :
  slot_ready tag (MyPState w) ->
  let u := ring_unused (MyPState w) in
  let r :=
    let* (_u, w) := send_until_accepted env fuel req w in
    (Return tt, set_MyPState (enqueue_request u (MyPState w)) w) in
  pipeline_ok (MyPState (snd r)) /\
  readahead_buffer_size (MyPState (snd r))
  = readahead_buffer_size (MyPState w) /\
  ring_last (MyPState w) <= ring_last (MyPState (snd r)) /\
  quiet w (snd r) /\
  (forall t, prf_hash (MyPState w) !! t = None -> t <> tag ->
     prf_hash (MyPState (snd r)) !! t = None) /\
  match fst r with
  | Return _ =>
      trace (snd r) = trace w ++ [EvPageServerSend req] /\
      ring_unused (MyPState (snd r)) = u + 1 /\
      registered_at tag u (MyPState (snd r)) /\
      GetPrfSlot (MyPState (snd r)) u
      = set_status PRFS_REQUESTED (GetPrfSlot (MyPState w) u)
  | OutOfFuel =>
      trace (snd r) = trace w /\ ring_unused (MyPState (snd r)) = u
  | Raise _ _ => False
  end.
Proof.
  intros (Hok & Hroom & Hmax & Habsent & Hst & Htag & Hidx). cbv zeta.
  pose proof Hok as (Hwf & _).
  pose proof (wf_order _ Hwf) as Hord.
  destruct (send_until_accepted_ok env fuel req w Hok)
    as (Hok1 & Hret1 & Hq1 & Htr1).
  destruct (send_until_accepted env fuel req w) as [r w1].
  cbn [fst snd] in Hok1, Hret1, Hq1, Htr1.
  assert (Hu1 : GetPrfSlot (MyPState w1) (ring_unused (MyPState w))
                = GetPrfSlot (MyPState w) (ring_unused (MyPState w))).
  { apply (rt_outside _ _ Hret1). lia. }
  pose proof (rt_unused _ _ Hret1) as HU1.
  pose proof (rt_size _ _ Hret1) as Hcap1.
  pose proof (rt_last _ _ Hret1) as HL1.
  pose proof (wf_order _ (proj1 Hok1)) as Hord1.
  destruct r as [[] | lvl site |];
    cbn [bindS fst snd MyPState set_MyPState trace]; [| destruct Htr1 |].
  - destruct (enqueue_ok (MyPState w1) tag Hok1
                ltac:(rewrite HU1, Hcap1; lia) ltac:(rewrite HU1; lia)
                (rt_absent _ _ Hret1 tag Habsent)
                ltac:(rewrite HU1, Hu1; exact Htag)
                ltac:(rewrite HU1, Hu1; exact Hidx))
      as (Hok2 & Hcap2 & Hin2 & Hslot2 & Hother2).
    destruct (enqueue_fields (MyPState w1) tag Hok1
                ltac:(rewrite HU1; lia) (rt_absent _ _ Hret1 tag Habsent)
                ltac:(rewrite HU1, Hu1; exact Htag))
      as (_ & Hhash2 & HU2 & _ & _ & HL2 & _).
    rewrite HU1 in *.
    split; [exact Hok2 |]. split; [congruence |]. split; [lia |].
    split; [exact Hq1 |].
    split.
    { intros t Ht Hne. rewrite Hhash2, lookup_insert_ne by congruence.
      apply (rt_absent _ _ Hret1), Ht. }
    split; [exact Htr1 |]. split; [exact HU2 |].
    split; [| rewrite Hslot2, Hu1; reflexivity].
    split; [lia |]. split; [exact Hin2 |].
    rewrite Hslot2, Hu1. simpl. auto.
  - split; [exact Hok1 |]. split; [exact Hcap1 |]. split; [exact HL1 |].
    split; [exact Hq1 |].
    split; [intros t Ht _; apply (rt_absent _ _ Hret1), Ht |].
    split; [exact Htr1 | exact HU1].
Qed.

Lemma choose_request_lsn_forced env tag latest lsn w :
  choose_request_lsn env tag (Some latest) (Some lsn) w = (latest, lsn, lsn, w).
Proof. reflexivity. Qed.

Lemma choose_request_lsn_free env tag force_latest force_lsn w :
  force_lsn = None \/ force_latest = None ->
  let '(latest, lsn, eff, w1) :=
    choose_request_lsn env tag force_latest force_lsn w in
  (latest, lsn)
  = fst (neon_get_request_lsn env (rnode tag) (forkNum tag) (blockNum tag) w)
  /\ eff = Z.max (prefetch_lsn w) lsn /\ prefetch_lsn w1 = eff.
Proof.
  intros Hfree. unfold choose_request_lsn.
  assert (Hgo :
    let '(latest, lsn, eff, w1) :=
      let '(latest, lsn, w0) :=
        neon_get_request_lsn env (rnode tag) (forkNum tag) (blockNum tag) w in
      let w0 := set_prefetch_lsn (Z.max (prefetch_lsn w0) lsn) w0 in
      (latest, lsn, prefetch_lsn w0, w0) in
    (latest, lsn)
    = fst (neon_get_request_lsn env (rnode tag) (forkNum tag) (blockNum tag) w)
    /\ eff = Z.max (prefetch_lsn w) lsn /\ prefetch_lsn w1 = eff).
  { unfold neon_get_request_lsn.
    destruct (RecoveryInProgress env); [| destruct (am_walsender env);
      [| destruct (GetFlushRecPtr env <? _)]]; simpl; auto. }
  destruct force_lsn as [l |], force_latest as [b |]; try exact Hgo.
  destruct Hfree as [H | H]; discriminate H.
Qed.

Lemma choose_request_lsn_frame env tag force_latest force_lsn w :
  let '(latest, lsn, eff, w1) :=
    choose_request_lsn env tag force_latest force_lsn w in
  MyPState w1 = MyPState w /\
  prefetch_lsn w <= prefetch_lsn w1 /\
  prefetch_hits w1 = prefetch_hits w /\
  prefetch_misses w1 = prefetch_misses w /\
  prefetch_expired w1 = prefetch_expired w /\
  prefetch_duplicates w1 = prefetch_duplicates w /\
  relsize_cache w1 = relsize_cache w /\
  xlog_insert w1 = xlog_insert w /\
  ps_clock w1 = ps_clock w /\
  (trace w1 = trace w \/ trace w1 = trace w ++ [EvXLogFlush lsn]).
Proof.
  unfold choose_request_lsn.
  assert (Hgo :
    let '(latest, lsn, eff, w1) :=
      let '(latest, lsn, w0) :=
        neon_get_request_lsn env (rnode tag) (forkNum tag) (blockNum tag) w in
      let w0 := set_prefetch_lsn (Z.max (prefetch_lsn w0) lsn) w0 in
      (latest, lsn, prefetch_lsn w0, w0) in
    MyPState w1 = MyPState w /\
    prefetch_lsn w <= prefetch_lsn w1 /\
    prefetch_hits w1 = prefetch_hits w /\
    prefetch_misses w1 = prefetch_misses w /\
    prefetch_expired w1 = prefetch_expired w /\
    prefetch_duplicates w1 = prefetch_duplicates w /\
    relsize_cache w1 = relsize_cache w /\
    xlog_insert w1 = xlog_insert w /\
    ps_clock w1 = ps_clock w /\
    (trace w1 = trace w \/ trace w1 = trace w ++ [EvXLogFlush lsn])).
  { unfold neon_get_request_lsn.
    destruct (RecoveryInProgress env); [| destruct (am_walsender env);
      [| destruct (GetFlushRecPtr env <? _)]]; simpl;
      repeat (split; [first [reflexivity | lia] |]); auto. }
  destruct force_lsn as [l |], force_latest as [b |]; try exact Hgo.
  repeat (split; [first [reflexivity | lia] |]). left; reflexivity.
Qed.

Lemma prefetch_do_request_unfold env fuel u force_latest force_lsn w :
  prefetch_do_request env fuel u force_latest force_lsn w
  = let slot := GetPrfSlot (MyPState w) u in
    let '(latest, lsn, eff, w1) :=
      choose_request_lsn env (buftag slot) force_latest force_lsn w in
    let w2 :=
      on_MyPState (fun p => SetPrfSlot p u (set_effective_request_lsn eff slot))
        w1 in
    let* (_u, w3) :=
      send_until_accepted env fuel
        (NeonGetPageRequest latest lsn (rnode (buftag slot))
           (forkNum (buftag slot)) (blockNum (buftag slot))) w2 in
    (Return tt, set_MyPState (enqueue_request u (MyPState w3)) w3).
Proof.
  unfold prefetch_do_request, choose_request_lsn. cbv zeta.
  destruct force_lsn as [l |], force_latest as [b |]; try reflexivity;
    destruct (neon_get_request_lsn env _ _ _ w) as [[latest lsn] w0];
    reflexivity.
Qed.

Lemma choose_request_lsn_on_MyPState env tag force_latest force_lsn f w :
  choose_request_lsn env tag force_latest force_lsn (on_MyPState f w)
  = let '(latest, lsn, eff, w0) :=
      choose_request_lsn env tag force_latest force_lsn w in
    (latest, lsn, eff, set_MyPState (f (MyPState w)) w0).
Proof.
  unfold choose_request_lsn, neon_get_request_lsn.
  destruct force_lsn, force_latest; try reflexivity;
    (destruct (RecoveryInProgress env); [| destruct (am_walsender env);
      [| destruct (GetFlushRecPtr env <? _)]]; reflexivity).
Qed.

Lemma prepare_slot_ok tag eff p :
  pipeline_ok p ->
  ring_unused p - ring_last p < readahead_buffer_size p ->
  ring_unused p + 1 < 2 ^ 64 ->
  prf_hash p !! tag = None ->
  let v := set_effective_request_lsn eff
             (set_my_ring_index (ring_unused p)
                (set_buftag tag (GetPrfSlot p (ring_unused p)))) in
  let p2 := SetPrfSlot (prepare_slot tag p) (ring_unused p) v in
  slot_ready tag p2 /\
  GetPrfSlot (prepare_slot tag p) (ring_unused p)
  = set_my_ring_index (ring_unused p)
      (set_buftag tag (GetPrfSlot p (ring_unused p))) /\
  GetPrfSlot p2 (ring_unused p) = v /\
  prf_hash p2 = prf_hash p /\ ring_unused p2 = ring_unused p /\
  ring_last p2 = ring_last p /\
  readahead_buffer_size p2 = readahead_buffer_size p.
Proof.
  intros Hok Hroom Hmax Habsent. cbv zeta.
  pose proof Hok as (Hwf & _).
  pose proof (wf_order _ Hwf) as Hord.
  assert (Hst : status (GetPrfSlot p (ring_unused p)) = PRFS_UNUSED)
    by (apply (wf_outside _ Hwf); lia).
  destruct (open_slot_ok p
              (set_my_ring_index (ring_unused p)
                 (set_buftag tag (GetPrfSlot p (ring_unused p))))
              Hok Hroom Hst)
    as (Hok1 & Hh1 & HU1 & HF1 & HR1 & HL1 & Hc1 & Hg1).
  fold (prepare_slot tag p) in Hok1, Hh1, HU1, HF1, HR1, HL1, Hc1, Hg1.
  assert (Hroom1 : ring_unused (prepare_slot tag p)
                   - ring_last (prepare_slot tag p)
                   < readahead_buffer_size (prepare_slot tag p))
    by (rewrite HU1, HL1, Hc1; exact Hroom).
  pose proof (open_slot_ok (prepare_slot tag p)
              (set_effective_request_lsn eff
                 (set_my_ring_index (ring_unused p)
                    (set_buftag tag (GetPrfSlot p (ring_unused p)))))
              Hok1 Hroom1 Hst) as H2.
  rewrite HU1 in H2.
  destruct H2 as (Hok2 & Hh2 & HU2 & HF2 & HR2 & HL2 & Hc2 & Hg2).
  split.
  { unfold slot_ready. rewrite ?HU2, ?HL2, ?Hc2, ?Hh2, ?Hg2, ?HU1, ?HL1, ?Hc1, ?Hh1.
    split; [exact Hok2 |]. split; [exact Hroom |]. split; [exact Hmax |].
    split; [exact Habsent |]. split; [exact Hst |].
    split; reflexivity. }
  split; [exact Hg1 |]. split; [exact Hg2 |].
  split; [congruence |]. split; [congruence |]. split; congruence.
Qed.

Lemma register_new_request_unfold env fuel tag force_latest force_lsn w :
  0 < readahead_buffer_size (MyPState w) ->
  register_new_request env fuel tag force_latest force_lsn w
  = let u := ring_unused (MyPState w) in
    let '(latest, lsn, eff, w0) :=
      choose_request_lsn env tag force_latest force_lsn w in
    let v := set_effective_request_lsn eff
               (set_my_ring_index u
                  (set_buftag tag (GetPrfSlot (MyPState w) u))) in
    let p2 := SetPrfSlot (prepare_slot tag (MyPState w)) u v in
    let* (_u, w) :=
      (let* (_u, w3) :=
         send_until_accepted env fuel
           (NeonGetPageRequest latest lsn (rnode tag) (forkNum tag)
              (blockNum tag)) (set_MyPState p2 w0) in
       (Return tt, set_MyPState (enqueue_request u (MyPState w3)) w3)) in
    (Return u,
     if (0 <? flush_every_n_requests env)
        && (flush_every_n_requests env
            <=? uint64 (ring_unused (MyPState w) - ring_flush (MyPState w)))
     then
       on_MyPState (fun p => set_ring_flush (ring_unused p) p)
         (snd (page_server_flush env w))
     else w).
Proof.
  intros Hsize.
  assert (Hprep : GetPrfSlot (prepare_slot tag (MyPState w))
                    (ring_unused (MyPState w))
                  = set_my_ring_index (ring_unused (MyPState w))
                      (set_buftag tag
                         (GetPrfSlot (MyPState w) (ring_unused (MyPState w))))).
  { unfold prepare_slot, GetPrfSlot, SetPrfSlot. simpl.
    apply buf_get_set_same, buf_nonempty. exact Hsize. }
  unfold register_new_request. cbv zeta.
  rewrite prefetch_do_request_unfold. cbv zeta.
  change (MyPState (on_MyPState
            (fun p => SetPrfSlot p (ring_unused (MyPState w))
               (set_my_ring_index (ring_unused (MyPState w))
                  (set_buftag tag (GetPrfSlot p (ring_unused (MyPState w))))))
            w))
    with (prepare_slot tag (MyPState w)).
  rewrite Hprep. cbn [buftag set_my_ring_index set_buftag].
  rewrite choose_request_lsn_on_MyPState.
  destruct (choose_request_lsn env tag force_latest force_lsn w)
    as [[[latest lsn] eff] w0].
  reflexivity.
Qed.

(** The flush at the end of [prefetch_register_buffer]. *)
Lemma register_flush_ok env w :
  pipeline_ok (MyPState w) ->
  let p := MyPState w in
  let w' :=
    if (0 <? flush_every_n_requests env)
       && (flush_every_n_requests env
           <=? uint64 (ring_unused p - ring_flush p))
    then
      let w := snd (page_server_flush env w) in
      on_MyPState (fun p => set_ring_flush (ring_unused p) p) w
    else w in
  pipeline_ok (MyPState w') /\ retires p (MyPState w') /\
  pipeline_only w w' /\
  ((prf_buffer (MyPState w') = prf_buffer p /\
    prf_hash (MyPState w') = prf_hash p /\
    ring_last (MyPState w') = ring_last p) \/
   (0 < flush_every_n_requests env /\ ps_flush env (ps_clock w) = false /\
    drained (MyPState w') /\
    forall k, ring_receive p <= k < ring_unused p ->
      prf_hash (MyPState w') !! buftag (GetPrfSlot p k) = None)).
Proof.
  intros Hok. cbv zeta.
  pose proof Hok as (Hwf & Hext & Htrim).
  pose proof (wf_order _ Hwf) as Hord.
  pose proof (ext_flush _ Hext) as Hfl.
  destruct (Z.ltb_spec 0 (flush_every_n_requests env)) as [Hpos | Hnot];
    cbn [andb];
    [destruct (flush_every_n_requests env
               <=? uint64 (ring_unused (MyPState w) - ring_flush (MyPState w)))
    |].
  - unfold page_server_flush.
    destruct (ps_flush env (ps_clock w)) eqn:Hflush_ok; cbn [snd].
    + destruct (set_ring_flush_ok (ring_unused (MyPState w)) (MyPState w) Hok
                  ltac:(lia)) as (Hok1 & Hret1).
      split; [exact Hok1 |]. split; [exact Hret1 |].
      split; [unfold pipeline_only, quiet; simpl; repeat split; lia |].
      left. repeat split.
    + destruct (disconnect_ok (MyPState w) Hok)
        as (Hok1 & Hret1 & HF1 & HR1 & HI1 & Hgone & _).
      pose proof (rt_unused _ _ Hret1) as HU1.
      destruct (set_ring_flush_ok
                  (ring_unused (prefetch_on_ps_disconnect (MyPState w)))
                  (prefetch_on_ps_disconnect (MyPState w)) Hok1
                  ltac:(lia)) as (Hok2 & Hret2).
      split; [exact Hok2 |].
      split; [exact (retires_trans _ _ _ Hret1 Hret2) |].
      split; [unfold pipeline_only, quiet; simpl; repeat split; lia |].
      right. split; [exact Hpos |]. split; [reflexivity |]. split.
      * unfold drained. simpl. rewrite HR1, HI1, HU1. repeat split.
      * intros k Hk. exact (Hgone k Hk).
  - split; [exact Hok |]. split; [apply retires_refl |].
    split; [apply pipeline_only_refl |]. left. repeat split.
  - split; [exact Hok |]. split; [apply retires_refl |].
    split; [apply pipeline_only_refl |]. left. repeat split.
Qed.

(** The registration proper, on a ring with room for the request. *)
Lemma register_new_request_ok env fuel tag force_latest force_lsn w :
  pipeline_ok (MyPState w) ->
  ring_unused (MyPState w) - ring_last (MyPState w)
  < readahead_buffer_size (MyPState w) ->
  ring_unused (MyPState w) + 1 < 2 ^ 64 ->
  prf_hash (MyPState w) !! tag = None ->
  let u := ring_unused (MyPState w) in
  let '(latest, lsn, eff, w0) :=
    choose_request_lsn env tag force_latest force_lsn w in
  let req :=
    NeonGetPageRequest latest lsn (rnode tag) (forkNum tag) (blockNum tag) in
  let r := register_new_request env fuel tag force_latest force_lsn w in
  pipeline_ok (MyPState (snd r)) /\
  readahead_buffer_size (MyPState (snd r))
  = readahead_buffer_size (MyPState w) /\
  ring_last (MyPState w) <= ring_last (MyPState (snd r)) /\
  (forall t, prf_hash (MyPState w) !! t = None -> t <> tag ->
     prf_hash (MyPState (snd r)) !! t = None) /\
  quiet w0 (snd r) /\
  match fst r with
  | Return k =>
      k = u /\ trace (snd r) = trace w0 ++ [EvPageServerSend req] /\
      ring_unused (MyPState (snd r)) = u + 1 /\
      registered_or_dropped env (ps_clock w) tag u (MyPState (snd r)) /\
      (registered_at tag u (MyPState (snd r)) ->
       effective_request_lsn (GetPrfSlot (MyPState (snd r)) u) = eff)
  | OutOfFuel =>
      trace (snd r) = trace w0 /\ ring_unused (MyPState (snd r)) = u
  | Raise _ _ => False
  end.
Proof.
  intros Hok Hroom Hmax Habsent. cbv zeta.
  pose proof Hok as (Hwf & _).
  pose proof (wf_order _ Hwf) as Hord.
  pose proof (wf_size _ Hwf) as Hsize.
  pose proof (choose_request_lsn_frame env tag force_latest force_lsn w)
    as Hfr.
  destruct (choose_request_lsn env tag force_latest force_lsn w)
    as [[[latest lsn] eff] w0] eqn:Hch.
  destruct Hfr as (HP0 & _ & _ & _ & _ & _ & _ & _ & Hclk0 & _).
  destruct (prepare_slot_ok tag eff (MyPState w) Hok Hroom Hmax Habsent)
    as (Hready & Hprep & Hg2 & Hh2 & HU2 & HL2 & Hc2).
  rewrite (register_new_request_unfold env fuel tag force_latest force_lsn w
             Hsize), Hch.
  cbv zeta.
  set (p2 := SetPrfSlot (prepare_slot tag (MyPState w))
               (ring_unused (MyPState w))
               (set_effective_request_lsn eff
                  (set_my_ring_index (ring_unused (MyPState w))
                     (set_buftag tag
                        (GetPrfSlot (MyPState w) (ring_unused (MyPState w))))))) in *.
  set (req := NeonGetPageRequest latest lsn (rnode tag) (forkNum tag)
                (blockNum tag)).
  set (w2 := set_MyPState p2 w0).
  pose proof (send_and_enqueue_ok env fuel req tag w2 Hready) as Hsend.
  cbv zeta in Hsend.
  change (MyPState w2) with p2 in Hsend.
  change (trace w2) with (trace w0) in Hsend.
  rewrite HU2, Hc2, HL2, Hh2 in Hsend.
  destruct (let* (_u, w3) := send_until_accepted env fuel req w2 in
            (Return tt,
             set_MyPState (enqueue_request (ring_unused (MyPState w))
                             (MyPState w3)) w3)) as [r3 w3] eqn:Hrun.
  cbn [fst snd] in Hsend.
  destruct Hsend as (Hok3 & Hc3 & HL3 & Hq3 & Hab3 & Hcase).
  change (quiet w0 w3) in Hq3.
  destruct r3 as [[] | lvl site |]; [| destruct Hcase |].
  - destruct Hcase as (Htr3 & HU3 & Hreg3 & Hslot3).
    cbn [bindS fst snd].
    pose proof (register_flush_ok env w3 Hok3) as Hflush.
    cbv zeta in Hflush.
    set (w4 := if (0 <? flush_every_n_requests env) && _ then _ else w3) in *.
    destruct Hflush as (Hok4 & Hret4 & (Hq4 & Htr4) & Hcase4).
    split; [exact Hok4 |].
    split; [rewrite (rt_size _ _ Hret4); exact Hc3 |].
    split; [pose proof (rt_last _ _ Hret4); lia |].
    split; [intros t Ht Hne; apply (rt_absent _ _ Hret4), Hab3; assumption |].
    split; [exact (quiet_trans _ _ _ Hq3 Hq4) |].
    split; [reflexivity |].
    split; [rewrite Htr4; exact Htr3 |].
    split; [rewrite (rt_unused _ _ Hret4); exact HU3 |].
    destruct Hreg3 as (Hin3 & Hh3 & Htag3 & Hidx3).
    destruct Hcase4 as [(Hb4 & Hh4 & HL4) | (Hpos & Hfail & Hdr & Hgone)].
    + assert (Hg4 : forall k, GetPrfSlot (MyPState w4) k
                              = GetPrfSlot (MyPState w3) k).
      { intros k. unfold GetPrfSlot. rewrite Hb4. reflexivity. }
      split.
      * left. split.
        -- unfold registered_at, slot_pos. rewrite Hg4, Hh4, HL4, Hb4.
           rewrite (rt_unused _ _ Hret4).
           split; [exact Hin3 |]. split; [exact Hh3 |].
           split; [exact Htag3 | exact Hidx3].
        -- rewrite Hg4, Hslot3. reflexivity.
      * intros _. rewrite Hg4, Hslot3, Hg2. reflexivity.
    + assert (Hnone : prf_hash (MyPState w4) !! tag = None).
      { rewrite <- Htag3. apply Hgone.
        pose proof (wf_order _ (proj1 Hok3)) as Hord3.
        pose proof (ext_flush _ (proj1 (proj2 Hok3))) as Hfl3.
        assert (Hrq : status (GetPrfSlot (MyPState w3)
                                (ring_unused (MyPState w)))
                      = PRFS_REQUESTED) by (rewrite Hslot3; reflexivity).
        destruct (Z.le_gt_cases (ring_receive (MyPState w3))
                    (ring_unused (MyPState w))) as [Hge | Hlt]; [lia |].
        destruct (wf_received _ (proj1 Hok3) (ring_unused (MyPState w))
                    ltac:(lia)) as [H | H]; rewrite Hrq in H; discriminate H. }
      split.
      * right. split; [exact Hpos |]. split; [| split; [exact Hdr | exact Hnone]].
        exists (ps_clock w3). split; [| exact Hfail].
        destruct Hq3 as (_ & _ & _ & _ & _ & _ & _ & Hclk3). lia.
      * intros (_ & Hh & _). rewrite Hnone in Hh. discriminate Hh.
  - destruct Hcase as (Htr3 & HU3).
    cbn [bindS fst snd].
    split; [exact Hok3 |]. split; [exact Hc3 |]. split; [exact HL3 |].
    split; [exact Hab3 |]. split; [exact Hq3 |].
    split; [exact Htr3 | exact HU3].
Qed.

Lemma choose_request_lsn_same env tag force_latest force_lsn w w' :
  quiet w w' -> trace w' = trace w ->
  let '(latest, lsn, eff, w0) :=
    choose_request_lsn env tag force_latest force_lsn w in
  let '(latest', lsn', eff', w0') :=
    choose_request_lsn env tag force_latest force_lsn w' in
  latest' = latest /\ lsn' = lsn /\ eff' = eff /\ trace w0' = trace w0 /\
  quiet w0 w0' /\ MyPState w0' = MyPState w'.
Proof.
  intros Hq Htr. pose proof Hq as (Hlsn & H1 & H2 & H3 & H4 & H5 & H6 & H7).
  unfold choose_request_lsn, neon_get_request_lsn.
  destruct force_lsn, force_latest;
    try (split; [reflexivity |]; split; [reflexivity |];
         split; [reflexivity |]; split; [exact Htr |];
         split; [exact Hq | reflexivity]);
    (destruct (RecoveryInProgress env); [| destruct (am_walsender env);
      [| destruct (GetFlushRecPtr env <? _)]]; simpl;
     rewrite ?Hlsn, ?Htr;
     (split; [reflexivity |]); (split; [reflexivity |]);
     (split; [reflexivity |]); (split; [reflexivity |]);
     (split; [| reflexivity]);
     unfold quiet; simpl; rewrite ?Hlsn;
     repeat (split; [first [reflexivity | assumption] |]); exact H7).
Qed.

(** [prefetch_register_buffer] on a ring in good order that has room. *)
Lemma prefetch_register_buffer_ok env fuel tag force_latest force_lsn w :
  pipeline_ok (MyPState w) ->
  2 <= readahead_buffer_size (MyPState w) ->
  ring_unused (MyPState w) - ring_last (MyPState w)
  < readahead_buffer_size (MyPState w) ->
  ring_unused (MyPState w) + readahead_buffer_size (MyPState w) < 2 ^ 64 ->
  let '(latest, lsn, eff, w0) :=
    choose_request_lsn env tag force_latest force_lsn w in
  let req :=
    NeonGetPageRequest latest lsn (rnode tag) (forkNum tag) (blockNum tag) in
  let r := prefetch_register_buffer env fuel tag force_latest force_lsn w in
  let p' := MyPState (snd r) in
  pipeline_ok p' /\
  readahead_buffer_size p' = readahead_buffer_size (MyPState w) /\
  ring_last (MyPState w) <= ring_last p' /\
  (forall t, prf_hash (MyPState w) !! t = None -> t <> tag ->
     prf_hash p' !! t = None) /\
  match fst r with
  | Return k =>
      ring_unused p' - ring_last p' < readahead_buffer_size p' /\
      ((snd r = set_prefetch_duplicates (prefetch_duplicates w + 1) w /\
        registered_at tag k (MyPState w) /\
        request_lsn_acceptable force_latest force_lsn
          (GetPrfSlot (MyPState w) k) = true) \/
       ((prf_hash (MyPState w) !! tag = None \/
         exists slot, buffered (MyPState w) tag = Some slot /\
           request_lsn_acceptable force_latest force_lsn slot = false) /\
        k = ring_unused (MyPState w) /\
        ring_unused p' = ring_unused (MyPState w) + 1 /\
        quiet w0 (snd r) /\
        trace (snd r) = trace w0 ++ [EvPageServerSend req] /\
        registered_or_dropped env (ps_clock w) tag k p' /\
        (registered_at tag k p' ->
         effective_request_lsn (GetPrfSlot p' k) = eff)))
  | OutOfFuel =>
      trace (snd r) = trace w0 /\ ring_unused p' = ring_unused (MyPState w)
  | Raise _ _ => False
  end.
Proof.
  intros Hok Hcap Hroom Hmax.
  pose proof (choose_request_lsn_frame env tag force_latest force_lsn w)
    as Hfr.
  destruct (choose_request_lsn env tag force_latest force_lsn w)
    as [[[latest lsn] eff] w0] eqn:Hch.
  cbv zeta. destruct Hfr as (HP0 & _).
  pose proof Hok as (Hwf & Hext & Htrim).
  pose proof (wf_order _ Hwf) as Hord.
  unfold prefetch_register_buffer.
  pose proof (register_lookup_ok env tag force_latest force_lsn w Hok) as Hlk.
  destruct (register_lookup env tag force_latest force_lsn w)
    as [[k |] w1].
  - destruct Hlk as (-> & Hk & Htag & Hh & Hst & Hacc).
    cbn [fst snd set_prefetch_duplicates MyPState].
    split; [exact Hok |]. split; [reflexivity |]. split; [lia |].
    split; [intros t Ht _; exact Ht |].
    split; [exact Hroom |]. left.
    split; [reflexivity |]. split; [| exact Hacc].
    split; [exact Hk |]. split; [exact Hh |]. split; [exact Htag |].
    apply (ext_index _ Hext k Hk).
    destruct Hst as [H | H]; rewrite H; discriminate.
  - destruct Hlk as (Hok1 & Hret1 & (Hq1 & Htr1) & Hnone1 & Hwhy).
    pose proof (rt_size _ _ Hret1) as Hc1.
    pose proof (rt_unused _ _ Hret1) as HU1.
    pose proof (rt_last _ _ Hret1) as HL1.
    destruct (register_make_room_ok env w1 Hok1
                ltac:(rewrite Hc1; exact Hcap)
                ltac:(rewrite Hc1, HU1; lia)
                ltac:(rewrite Hc1, HU1; exact Hmax))
      as (Hok2 & Hret2 & (Hq2 & Htr2) & Hroom2).
    set (w2 := register_make_room env w1) in *.
    pose proof (rt_size _ _ Hret2) as Hc2.
    pose proof (rt_unused _ _ Hret2) as HU2.
    pose proof (rt_last _ _ Hret2) as HL2.
    pose proof (register_new_request_ok env fuel tag force_latest force_lsn w2
                  Hok2 ltac:(lia) ltac:(rewrite HU2, HU1; lia)
                  (rt_absent _ _ Hret2 tag Hnone1)) as Hnew.
    cbv zeta in Hnew.
    pose proof (choose_request_lsn_same env tag force_latest force_lsn w w2
                  (quiet_trans _ _ _ Hq1 Hq2) ltac:(congruence)) as Hsame.
    rewrite Hch in Hsame.
    destruct (choose_request_lsn env tag force_latest force_lsn w2)
      as [[[latest2 lsn2] eff2] w02].
    destruct Hsame as (-> & -> & -> & Htr0 & Hq0 & _).
    destruct Hnew as (Hok3 & Hc3 & HL3 & Hab3 & Hq3 & Hcase).
    split; [exact Hok3 |]. split; [congruence |]. split; [lia |].
    split.
    { intros t Ht Hne. apply Hab3; [| exact Hne].
      apply (rt_absent _ _ Hret2), (rt_absent _ _ Hret1), Ht. }
    destruct (fst (register_new_request env fuel tag force_latest force_lsn
                     w2)) as [k | lvl site |].
    + destruct Hcase as (-> & Htr3 & HU3 & Hreg & Heff).
      split; [rewrite Hc3, HU3; lia |]. right.
      rewrite HU2, HU1 in *.
      split; [exact Hwhy |].
      split; [reflexivity |]. split; [exact HU3 |].
      split; [exact (quiet_trans _ _ _ Hq0 Hq3) |].
      split; [rewrite Htr3, Htr0; reflexivity |].
      split; [| exact Heff].
      destruct Hreg as [Hreg | (Hpos & (c & Hc & Hfail) & Hrest)];
        [left; exact Hreg |].
      right. split; [exact Hpos |]. split; [| exact Hrest].
      exists c. split; [| exact Hfail].
      destruct Hq1 as (_ & _ & _ & _ & _ & _ & _ & Hclk1).
      destruct Hq2 as (_ & _ & _ & _ & _ & _ & _ & Hclk2). lia.
    + exact Hcase.
    + destruct Hcase as (Htr3 & HU3).
      split; [rewrite Htr3, Htr0; reflexivity | congruence].
Qed.

(** ** Reading a page *)

Lemma prefetch_wait_for_received env k w :
  ring_receive (MyPState w) <= ring_flush (MyPState w) ->
  k < ring_receive (MyPState w) ->
  prefetch_wait_for env k w = (true, w).
Proof.
  intros Hfl Hk. unfold prefetch_wait_for. cbv zeta.
  destruct (Z.leb_spec (ring_flush (MyPState w)) k) as [H | _]; [lia |].
  cbn [andb].
  replace (Z.to_nat (k + 1 - ring_receive (MyPState w))) with 0%nat by lia.
  reflexivity.
Qed.

(** The slot that the tag index has for a tag, as a slot of the ring. *)
Lemma buffered_slot p tag slot :
  pipeline_ok p -> buffered p tag = Some slot ->
  exists k, ring_last p <= k < ring_unused p /\
    prf_hash p !! tag = Some (slot_pos p k) /\
    slot = GetPrfSlot p k /\ buftag slot = tag /\ my_ring_index slot = k /\
    status slot <> PRFS_UNUSED.
Proof.
  intros (Hwf & Hext & _) Hb. unfold buffered in Hb.
  destruct (prf_hash p !! tag) as [pos |] eqn:Hpos; [| discriminate Hb].
  cbn [fmap option_fmap option_map] in Hb. injection Hb as <-.
  destruct (wf_hash_sound _ Hwf tag pos Hpos) as (k & Hk & -> & Htag & Hst).
  exists k. change (prf_buffer p !!! slot_pos p k) with (GetPrfSlot p k).
  split; [exact Hk |]. split; [reflexivity |]. split; [reflexivity |].
  split; [exact Htag |]. split; [apply (ext_index _ Hext k Hk Hst) | exact Hst].
Qed.

(** [neon_read_at_lsn] of a page whose response is in the ring. *)
Lemma read_of_received env fuel rn forkNum_ blkno request_lsn request_latest
  w slot page :
  pipeline_ok (MyPState w) ->
  buffered (MyPState w) (mkBufferTag rn forkNum_ blkno) = Some slot ->
  status slot = PRFS_RECEIVED ->
  response slot = Some (NeonGetPageResponse page) ->
  request_lsn <= effective_request_lsn slot ->
  let r := neon_read_at_lsn env (S fuel) rn forkNum_ blkno request_lsn
             request_latest w in
  fst r = Return page /\
  trace (snd r)
  = trace w
    ++ (if RecoveryInProgress env && negb (am_startup_process env)
        then [EvXLogWaitForReplayOf request_lsn] else [])
    ++ [EvLfcWrite rn forkNum_ blkno page] /\
  prefetch_hits (snd r) = prefetch_hits w + 1 /\
  ps_clock (snd r) = ps_clock w /\
  pipeline_ok (MyPState (snd r)) /\
  ring_unused (MyPState (snd r)) = ring_unused (MyPState w) /\
  ring_receive (MyPState (snd r)) = ring_receive (MyPState w) /\
  forall t,
    slot_content <$> buffered (MyPState (snd r)) t
    = if decide (t = mkBufferTag rn forkNum_ blkno) then None
      else slot_content <$> buffered (MyPState w) t.
Proof.
  intros Hok Hb Hst Hresp Hlsn. cbv zeta.
  pose proof Hok as (Hwf & Hext & Htrim).
  destruct (buffered_slot _ _ _ Hok Hb)
    as (k & Hk & Hpos & Hslot & Htag & Hidx & Hused).
  assert (Hrcv : k < ring_receive (MyPState w)).
  { destruct (Z.lt_ge_cases k (ring_receive (MyPState w))) as [H | H];
      [exact H |].
    pose proof (wf_requested _ Hwf k ltac:(lia)) as Hreq.
    rewrite <- Hslot, Hst in Hreq. discriminate Hreq. }
  set (w0 := if RecoveryInProgress env && negb (am_startup_process env)
             then emit (EvXLogWaitForReplayOf request_lsn) w else w).
  assert (HP0 : MyPState w0 = MyPState w)
    by (unfold w0; destruct (_ && _); reflexivity).
  assert (Htr0 : trace w0
                 = trace w
                   ++ (if RecoveryInProgress env
                          && negb (am_startup_process env)
                       then [EvXLogWaitForReplayOf request_lsn] else []))
    by (unfold w0; destruct (_ && _); simpl;
        [reflexivity | rewrite app_nil_r; reflexivity]).
  assert (Hh0 : prefetch_hits w0 = prefetch_hits w)
    by (unfold w0; destruct (_ && _); reflexivity).
  assert (Hc0 : ps_clock w0 = ps_clock w)
    by (unfold w0; destruct (_ && _); reflexivity).
  unfold neon_read_at_lsn. cbv zeta. fold w0.
  unfold read_lookup, prfh_lookup. rewrite HP0, Hpos.
  change (prf_buffer (MyPState w) !!! slot_pos (MyPState w) k)
    with (GetPrfSlot (MyPState w) k).
  rewrite <- Hslot, Hidx.
  destruct (Z.leb_spec request_lsn (effective_request_lsn slot)) as [_ | H];
    [| lia].
  set (w1 := set_prefetch_hits (prefetch_hits w0 + 1) w0).
  cbn [read_wait_loop bindS fst snd].
  rewrite (prefetch_wait_for_received env k w1)
    by (change (MyPState w1) with (MyPState w0); rewrite HP0;
        first [apply (ext_flush _ Hext) | exact Hrcv]).
  cbn [bindS fst snd].
  change (MyPState w1) with (MyPState w0). rewrite HP0.
  change (prf_buffer (MyPState w) !!! slot_pos (MyPState w) k)
    with (GetPrfSlot (MyPState w) k).
  rewrite <- Hslot, Hresp.
  cbn [fst snd].
  set (w2 := on_MyPState prefetch_cleanup_trailing_unused _).
  assert (HP2 : MyPState w2
                = prefetch_cleanup_trailing_unused
                    (prefetch_set_unused k (MyPState w)))
    by (rewrite <- HP0; reflexivity).
  assert (Htr2 : trace w2 = trace w0 ++ [EvLfcWrite rn forkNum_ blkno page])
    by reflexivity.
  assert (Hh2 : prefetch_hits w2 = prefetch_hits w0 + 1) by reflexivity.
  assert (Hc2 : ps_clock w2 = ps_clock w0) by reflexivity.
  rewrite HP2, Htr2, Hh2, Hc2. clearbody w2 w0.
  destruct (set_unused_ok k (MyPState w) Hok Hrcv)
    as (Hok1 & Hret1 & HR1 & _ & _ & Hgone & Hothers & _).
  destruct (cleanup_ok _ (proj1 Hok1) (proj1 (proj2 Hok1)))
    as (Hok2 & Hret2 & Hbuf2 & Hhash2 & HR2 & _).
  split; [reflexivity |].
  split; [rewrite Htr0, <- app_assoc; reflexivity |].
  split; [lia |].
  split; [exact Hc0 |].
  split; [exact Hok2 |].
  split; [rewrite (rt_unused _ _ Hret2), (rt_unused _ _ Hret1); reflexivity |].
  split; [congruence |].
  intros t.
  assert (Hb2 : forall t', buffered (prefetch_cleanup_trailing_unused
                                        (prefetch_set_unused k (MyPState w))) t'
                           = buffered (prefetch_set_unused k (MyPState w)) t').
  { intros t'. unfold buffered. rewrite Hhash2, Hbuf2. reflexivity. }
  rewrite Hb2.
  destruct (decide (t = mkBufferTag rn forkNum_ blkno)) as [-> | Hne].
  - unfold buffered. rewrite <- Htag at 1. rewrite Hslot.
    rewrite (Hgone ltac:(lia) ltac:(rewrite <- Hslot; exact Hused)).
    reflexivity.
  - apply Hothers. rewrite <- Hslot, Htag. exact Hne.
Qed.

Lemma neon_read_at_lsn_unfold env fuel rn forkNum_ blkno request_lsn
  request_latest w :
  neon_read_at_lsn env fuel rn forkNum_ blkno request_lsn request_latest w
  = let w :=
      if RecoveryInProgress env && negb (am_startup_process env)
      then emit (EvXLogWaitForReplayOf request_lsn) w
      else w in
    let '(entry, w) :=
      read_lookup env (mkBufferTag rn forkNum_ blkno) request_lsn w in
    let* (found, w) :=
      read_wait_loop env fuel (mkBufferTag rn forkNum_ blkno) request_latest
        request_lsn entry w in
    read_finish rn forkNum_ blkno found w.
Proof. reflexivity. Qed.

(** The wait for a request in flight and the end of the read, on a
    transport that delivers. *)
Lemma read_tail env rn forkNum_ blkno k w1 :
  pipeline_ok (MyPState w1) ->
  ring_receive (MyPState w1) <= k < ring_unused (MyPState w1) ->
  buftag (GetPrfSlot (MyPState w1) k) = mkBufferTag rn forkNum_ blkno ->
  (forall c, (ps_clock w1 <= c)%nat ->
     ps_flush env c = true /\ ps_receive env c <> None) ->
  fst (prefetch_wait_for env k w1) = true /\
  read_outcome env rn forkNum_ blkno k w1
    (read_finish rn forkNum_ blkno (slot_pos (MyPState w1) k, k)
       (snd (prefetch_wait_for env k w1))).
Proof.
  intros Hok Hk Htag Hhealthy.
  pose proof Hok as (Hwf & Hext & Htrim).
  pose proof (prefetch_wait_for_healthy env k w1 Hhealthy) as Htrue.
  split; [exact Htrue |].
  destruct (prefetch_wait_for_ok env k w1 Hok ltac:(lia))
    as (Hok2 & Hret2 & (Hq2 & Htr2) & _ & Hgood).
  destruct (prefetch_wait_for env k w1) as [b w2]. cbn [fst snd] in *.
  subst b. destruct (Hgood eq_refl) as (_ & Hw).
  destruct Hw as (Hhash2 & HL2 & HU2 & HR2 & Hcap2 & Hslots2).
  pose proof (wf_order _ Hwf) as Hord. pose proof (wf_bound _ Hwf) as Hbnd.
  pose proof (Hslots2 (ring_receive (MyPState w1)) ltac:(lia)) as Hfirst.
  rewrite decide_True in Hfirst by lia.
  destruct Hfirst as (_ & Hfirst & _).
  specialize (Hslots2 k ltac:(lia)). rewrite decide_True in Hslots2 by lia.
  destruct Hslots2 as (resp & Hclk & Hrecv & Hget).
  replace (Z.to_nat (k + 1 - k)) with 1%nat in Hclk, Hrecv by lia.
  replace (ps_clock w2 - 1)%nat with (Nat.pred (ps_clock w2)) in Hrecv by lia.
  assert (Hposeq : prf_buffer (MyPState w2) !!! slot_pos (MyPState w1) k
                   = GetPrfSlot (MyPState w2) k).
  { unfold GetPrfSlot, buf_get, slot_pos, ring_slot.
    unfold readahead_buffer_size in Hcap2.
    apply Nat2Z.inj in Hcap2. rewrite Hcap2. reflexivity. }
  destruct Hq2 as (_ & Hh2 & Hm2 & _ & _ & _ & _ & Hc2).
  unfold read_finish. cbn [fst snd]. rewrite Hposeq, Hget.
  cbn [response received_with set_response set_status].
  assert (Hrest : forall res : Exit (list Z),
    fst (res, w2) = res /\
    (trace w2 = trace w1 ->
     match resp with
     | NeonGetPageResponse _ => True
     | NeonErrorResponse _ => res = Raise ERROR could_not_read_block
     | _ => res = Raise ERROR unexpected_response
     end ->
     match resp with
     | NeonGetPageResponse _ => True
     | _ => read_outcome env rn forkNum_ blkno k w1 (res, w2)
     end)).
  { intros res. split; [reflexivity |]. intros _ Hres.
    destruct resp; try exact I; unfold read_outcome; cbn [fst snd];
      (split; [exact Hok2 |]); (split; [exact Hh2 |]);
      (split; [exact Hm2 |]); (split; [exact HU2 |]);
      (split; [lia |]); (split; [exact Hfirst |]);
      eexists; (split; [exact Hrecv |]); cbn beta iota;
      (split; [exact Hres | exact Htr2]). }
  destruct resp as [e | n | page | d | msg];
    try (apply (proj2 (Hrest _) Htr2); reflexivity).
  unfold read_outcome. cbn [fst snd].
  set (w3 := on_MyPState prefetch_cleanup_trailing_unused _).
  assert (HP3 : MyPState w3
                = prefetch_cleanup_trailing_unused
                    (prefetch_set_unused k (MyPState w2))) by reflexivity.
  assert (Htr3 : trace w3 = trace w2 ++ [EvLfcWrite rn forkNum_ blkno page])
    by reflexivity.
  assert (Hh3 : prefetch_hits w3 = prefetch_hits w2) by reflexivity.
  assert (Hm3 : prefetch_misses w3 = prefetch_misses w2) by reflexivity.
  assert (Hc3 : ps_clock w3 = ps_clock w2) by reflexivity.
  rewrite HP3, Htr3, Hh3, Hm3, Hc3. clearbody w3.
  destruct (set_unused_ok k (MyPState w2) Hok2 ltac:(lia))
    as (Hok4 & Hret4 & HR4 & _ & _ & Hgone & _).
  destruct (cleanup_ok _ (proj1 Hok4) (proj1 (proj2 Hok4)))
    as (Hok5 & Hret5 & _ & Hhash5 & HR5 & _).
  split; [exact Hok5 |]. split; [exact Hh2 |]. split; [exact Hm2 |].
  split; [rewrite (rt_unused _ _ Hret5), (rt_unused _ _ Hret4); exact HU2 |].
  split; [rewrite HR5, HR4; lia |]. split; [exact Hfirst |].
  exists (NeonGetPageResponse page). split; [exact Hrecv |].
  split; [reflexivity |]. split; [rewrite Htr2; reflexivity |].
  rewrite Hhash5, <- Htag.
  replace (buftag (GetPrfSlot (MyPState w1) k))
    with (buftag (GetPrfSlot (MyPState w2) k))
    by (rewrite Hget; reflexivity).
  apply Hgone; [lia |]. rewrite Hget. discriminate.
Qed.

Lemma read_of_requested (env : Env) (fuel : nat)
  (rn : RelFileNode) (forkNum_ blkno request_lsn : Z) (request_latest : bool)
  (w : World) (slot : PrefetchRequest) :
  pipeline_ok (MyPState w) ->
  buffered (MyPState w) (mkBufferTag rn forkNum_ blkno) = Some slot ->
  status slot = PRFS_REQUESTED ->
  request_lsn <= effective_request_lsn slot ->
  (forall c, (ps_clock w <= c)%nat ->
     ps_flush env c = true /\ ps_receive env c <> None) ->
  let w1 :=
    set_prefetch_hits (prefetch_hits w + 1)
      (if RecoveryInProgress env && negb (am_startup_process env)
       then emit (EvXLogWaitForReplayOf request_lsn) w else w) in
  read_outcome env rn forkNum_ blkno (my_ring_index slot) w1
    (neon_read_at_lsn env (S fuel) rn forkNum_ blkno request_lsn
       request_latest w).
Proof.
  intros Hok Hb Hst Hlsn Hhealthy. cbv zeta.
  pose proof Hok as (Hwf & Hext & Htrim).
  destruct (buffered_slot _ _ _ Hok Hb)
    as (k & Hk & Hpos & Hslot & Htag & Hidx & Hused).
  assert (Hrcv : ring_receive (MyPState w) <= k).
  { destruct (Z.le_gt_cases (ring_receive (MyPState w)) k) as [H | H];
      [exact H |].
    destruct (wf_received _ Hwf k ltac:(lia)) as [E | E];
      rewrite <- Hslot, Hst in E; discriminate E. }
  rewrite neon_read_at_lsn_unfold. cbv zeta.
  set (w0 := if RecoveryInProgress env && negb (am_startup_process env)
             then emit (EvXLogWaitForReplayOf request_lsn) w else w).
  assert (HP0 : MyPState w0 = MyPState w)
    by (unfold w0; destruct (_ && _); reflexivity).
  assert (Hh0 : prefetch_hits w0 = prefetch_hits w)
    by (unfold w0; destruct (_ && _); reflexivity).
  assert (Hc0 : ps_clock w0 = ps_clock w)
    by (unfold w0; destruct (_ && _); reflexivity).
  unfold read_lookup, prfh_lookup. rewrite HP0, Hpos.
  change (prf_buffer (MyPState w) !!! slot_pos (MyPState w) k)
    with (GetPrfSlot (MyPState w) k).
  rewrite <- Hslot, Hidx.
  destruct (Z.leb_spec request_lsn (effective_request_lsn slot)) as [_ | H];
    [| lia].
  rewrite Hh0.
  set (w1 := set_prefetch_hits (prefetch_hits w + 1) w0).
  assert (HP1 : MyPState w1 = MyPState w) by exact HP0.
  assert (Hc1 : ps_clock w1 = ps_clock w) by exact Hc0.
  destruct (read_tail env rn forkNum_ blkno k w1
              ltac:(rewrite HP1; exact Hok) ltac:(rewrite HP1; lia)
              ltac:(rewrite HP1, <- Hslot; exact Htag)
              ltac:(rewrite Hc1; exact Hhealthy)) as (Htrue & Hout).
  cbn [read_wait_loop bindS fst snd].
  rewrite HP1 in Hout.
  destruct (prefetch_wait_for env k w1) as [b w2]. cbn [fst snd] in *.
  subst b. cbn [bindS]. exact Hout.
Qed.

(** ** Synchronous requests *)

(** [consume_prefetch_responses] leaves nothing in flight. *)
Lemma consume_prefetch_responses_ok env w :
  pipeline_ok (MyPState w) ->
  ring_flush (MyPState w) = ring_unused (MyPState w) ->
  let w' := consume_prefetch_responses env w in
  pipeline_ok (MyPState w') /\ retires (MyPState w) (MyPState w') /\
  pipeline_only w w' /\ drained (MyPState w').
Proof.
  intros Hok Hflush. cbv zeta.
  pose proof Hok as (Hwf & Hext & Htrim).
  pose proof (wf_order _ Hwf) as Hord.
  unfold consume_prefetch_responses. cbv zeta.
  destruct (Z.ltb_spec (ring_receive (MyPState w)) (ring_unused (MyPState w)))
    as [Hlt | Hge].
  - rewrite uint64_small by lia.
    destruct (prefetch_wait_for_ok env (ring_unused (MyPState w) - 1) w Hok
                ltac:(lia)) as (Hok1 & Hret1 & Honly1 & Hfalse & Htrue).
    cbv zeta in Hok1, Hret1, Honly1, Hfalse, Htrue.
    destruct (prefetch_wait_for env (ring_unused (MyPState w) - 1) w)
      as [[|] w1]; cbn [fst snd] in *.
    + split; [exact Hok1 |]. split; [exact Hret1 |]. split; [exact Honly1 |].
      destruct (Htrue eq_refl) as (Hfl1 & _ & _ & HU1 & HR1 & _).
      pose proof (ext_flush _ (proj1 (proj2 Hok1))) as Hfl1'.
      pose proof (wf_inflight _ (proj1 Hok1)) as Hinf1.
      unfold drained. lia.
    + split; [exact Hok1 |]. split; [exact Hret1 |]. split; [exact Honly1 |].
      destruct (Hfalse eq_refl) as (_ & Hdr & _). exact Hdr.
  - split; [exact Hok |]. split; [apply retires_refl |].
    split; [apply pipeline_only_refl |].
    pose proof (wf_inflight _ Hwf) as Hinf. unfold drained. lia.
Qed.

(** [page_server_request] on a pipeline in good order. *)
Lemma page_server_request_ok env fuel req w :
  pipeline_ok (MyPState w) ->
  let r := page_server_request env fuel req w in
  pipeline_ok (MyPState (snd r)) /\
  retires (MyPState w) (MyPState (snd r)) /\
  quiet w (snd r) /\
  (exists n, (n <= fuel)%nat /\
     trace (snd r) = trace w ++ replicate n (EvPageServerSend req) /\
     forall resp, fst r = Return resp -> (1 <= n)%nat) /\
  match fst r with
  | Return resp =>
      drained (MyPState (snd r)) /\
      (ps_clock w < ps_clock (snd r))%nat /\
      ps_receive env (Nat.pred (ps_clock (snd r))) = Some resp
  | OutOfFuel => True
  | Raise _ _ => False
  end.
Proof.
  revert w. induction fuel as [| fuel IH]; intros w Hok; cbv zeta.
  - cbn [page_server_request fst snd].
    split; [exact Hok |]. split; [apply retires_refl |].
    split; [apply quiet_refl |].
    split; [| exact I].
    exists 0%nat. split; [lia |]. split; [simpl; rewrite app_nil_r; reflexivity |].
    intros resp H. discriminate H.
  - assert (Hretry : forall w1 m,
      pipeline_ok (MyPState w1) -> retires (MyPState w) (MyPState w1) ->
      quiet w w1 -> (m <= 1)%nat ->
      trace w1 = trace w ++ replicate m (EvPageServerSend req) ->
      let r := page_server_request env fuel req w1 in
      pipeline_ok (MyPState (snd r)) /\
      retires (MyPState w) (MyPState (snd r)) /\
      quiet w (snd r) /\
      (exists n, (n <= S fuel)%nat /\
         trace (snd r) = trace w ++ replicate n (EvPageServerSend req) /\
         forall resp, fst r = Return resp -> (1 <= n)%nat) /\
      match fst r with
      | Return resp =>
          drained (MyPState (snd r)) /\
          (ps_clock w < ps_clock (snd r))%nat /\
          ps_receive env (Nat.pred (ps_clock (snd r))) = Some resp
      | OutOfFuel => True
      | Raise _ _ => False
      end).
    { intros w1 m Hok1 Hret1 Hq1 Hm Htr1. cbv zeta.
      destruct (IH w1 Hok1) as (Hok2 & Hret2 & Hq2 & (n & Hn & Htr2 & Hpos) & Hcase).
      split; [exact Hok2 |].
      split; [exact (retires_trans _ _ _ Hret1 Hret2) |].
      split; [exact (quiet_trans _ _ _ Hq1 Hq2) |].
      split.
      - exists (m + n)%nat. split; [lia |]. split.
        + rewrite Htr2, Htr1, <- app_assoc, <- replicate_add. reflexivity.
        + intros resp H. specialize (Hpos resp H). lia.
      - destruct (fst (page_server_request env fuel req w1)); [| exact Hcase ..].
        destruct Hcase as (Hdr & Hclk & Hrcv).
        split; [exact Hdr |]. split; [| exact Hrcv].
        destruct Hq1 as (_ & _ & _ & _ & _ & _ & _ & Hc). lia. }
    cbn [page_server_request]. unfold page_server_send.
    destruct (ps_send env (ps_clock w)).
    + set (w1 := emit (EvPageServerSend req) (tick w)).
      assert (Hok1 : pipeline_ok (MyPState w1)) by exact Hok.
      assert (Hq1 : quiet w w1)
        by (unfold quiet; simpl; repeat split; lia).
      assert (Htr1 : trace w1 = trace w ++ replicate 1 (EvPageServerSend req))
        by reflexivity.
      unfold page_server_flush.
      destruct (ps_flush env (ps_clock w1)).
      * destruct (set_ring_flush_ok (ring_unused (MyPState w1)) (MyPState w1)
                    Hok1 ltac:(pose proof (wf_order _ (proj1 Hok1)); lia))
          as (Hok2 & Hret2).
        set (w2 := on_MyPState (fun p => set_ring_flush (ring_unused p) p)
                     (tick w1)).
        destruct (consume_prefetch_responses_ok env w2 Hok2 eq_refl)
          as (Hok3 & Hret3 & (Hq3 & Htr3) & Hdr3).
        set (w3 := consume_prefetch_responses env w2) in *.
        assert (Hq2 : quiet w w2)
          by (unfold quiet; simpl; repeat split; lia).
        unfold page_server_receive.
        destruct (ps_receive env (ps_clock w3)) as [resp |] eqn:Hrcv.
        -- cbn [fst snd]. split; [exact Hok3 |].
           split; [exact (retires_trans _ _ _ Hret2 Hret3) |].
           split.
           { apply (quiet_trans _ w3); [exact (quiet_trans _ _ _ Hq2 Hq3) |].
             unfold quiet; simpl; repeat split; lia. }
           split.
           { exists 1%nat. split; [lia |]. split; [| intros; lia].
             cbn [trace tick set_ps_clock]. rewrite Htr3. exact Htr1. }
           split; [exact Hdr3 |]. split.
           ++ cbn [ps_clock tick set_ps_clock].
              destruct Hq3 as (_ & _ & _ & _ & _ & _ & _ & Hc3).
              destruct Hq2 as (_ & _ & _ & _ & _ & _ & _ & Hc2).
              lia.
           ++ exact Hrcv.
        -- destruct (disconnect_ok (MyPState w3) Hok3) as (Hok4 & Hret4 & _).
           apply (Hretry (on_MyPState prefetch_on_ps_disconnect (tick w3))
                    1%nat Hok4
                    (retires_trans _ _ _ Hret2 (retires_trans _ _ _ Hret3 Hret4))).
           ++ apply (quiet_trans _ w3); [exact (quiet_trans _ _ _ Hq2 Hq3) |].
              unfold quiet; simpl; repeat split; lia.
           ++ lia.
           ++ cbn [trace on_MyPState set_MyPState tick set_ps_clock].
              rewrite Htr3. exact Htr1.
      * destruct (disconnect_ok (MyPState w1) Hok1) as (Hok4 & Hret4 & _).
        apply (Hretry (on_MyPState prefetch_on_ps_disconnect (tick w1))
                 1%nat Hok4 Hret4).
        -- unfold quiet; simpl; repeat split; lia.
        -- lia.
        -- exact Htr1.
    + destruct (disconnect_ok (MyPState w) Hok) as (Hok4 & Hret4 & _).
      apply (Hretry (on_MyPState prefetch_on_ps_disconnect (tick w))
               0%nat Hok4 Hret4).
      * unfold quiet; simpl; repeat split; lia.
      * lia.
      * simpl. rewrite app_nil_r. reflexivity.
Qed.

(** ** The state at backend start *)

Lemma neon_init_slot size k :
  0 < size -> GetPrfSlot (neon_init size) k = zero_slot.
Proof.
  intros Hsize. unfold GetPrfSlot, buf_get, neon_init, ring_slot. simpl.
  rewrite length_replicate, Z2Nat.id by lia.
  apply lookup_total_replicate_2.
  pose proof (Z.mod_pos_bound k size Hsize). lia.
Qed.

(** ** The size of a relation *)

Lemma request_lsn_frame env rn forknum blkno w :
  let '(latest, lsn, w0) := neon_get_request_lsn env rn forknum blkno w in
  MyPState w0 = MyPState w /\ quiet w w0 /\
  (trace w0 = trace w \/ trace w0 = trace w ++ [EvXLogFlush lsn]).
Proof.
  unfold neon_get_request_lsn.
  destruct (RecoveryInProgress env); [| destruct (am_walsender env);
    [| destruct (GetFlushRecPtr env <? _)]];
    (split; [reflexivity |]); (split; [apply quiet_refl || (unfold quiet; simpl; repeat split; lia) |]);
    auto.
Qed.

Lemma request_lsn_clock env rn forknum blkno w :
  ps_clock (snd (neon_get_request_lsn env rn forknum blkno w)) = ps_clock w.
Proof.
  unfold neon_get_request_lsn.
  destruct (RecoveryInProgress env); [| destruct (am_walsender env);
    [| destruct (GetFlushRecPtr env <? _)]]; reflexivity.
Qed.

Lemma neon_nblocks_remote env fuel reln forknum w :
  smgr_relpersistence reln = RELPERSISTENCE_PERMANENT ->
  get_cached_relsize w (smgr_rnode reln) forknum = None ->
  pipeline_ok (MyPState w) ->
  let '(latest, lsn, w0) :=
    neon_get_request_lsn env (smgr_rnode reln) forknum
      (REL_METADATA_PSEUDO_BLOCKNO env) w in
  let req := NeonNblocksRequest latest lsn (smgr_rnode reln) forknum in
  let r := neon_nblocks env fuel reln forknum w in
  pipeline_ok (MyPState (snd r)) /\
  retires (MyPState w) (MyPState (snd r)) /\
  (exists n, (n <= fuel)%nat /\
     trace (snd r) = trace w0 ++ replicate n (EvPageServerSend req)) /\
  match fst r with
  | Return n_blocks =>
      ps_receive env (Nat.pred (ps_clock (snd r)))
      = Some (NeonNblocksResponse n_blocks) /\
      drained (MyPState (snd r)) /\
      get_cached_relsize (snd r) (smgr_rnode reln) forknum = Some n_blocks
  | Raise lvl site =>
      lvl = ERROR /\
      get_cached_relsize (snd r) (smgr_rnode reln) forknum = None /\
      ((exists msg, ps_receive env (Nat.pred (ps_clock (snd r)))
                    = Some (NeonErrorResponse msg)) /\
       site = could_not_read_relation_size \/
       site = unexpected_response)
  | OutOfFuel => True
  end.
Proof.
  intros Hperm Hnone Hok.
  pose proof (request_lsn_frame env (smgr_rnode reln) forknum
                (REL_METADATA_PSEUDO_BLOCKNO env) w) as Hfr.
  unfold neon_nblocks. rewrite Hperm, Hnone. cbn [Z.eqb Pos.eqb].
  destruct (neon_get_request_lsn env (smgr_rnode reln) forknum
              (REL_METADATA_PSEUDO_BLOCKNO env) w) as [[latest lsn] w0].
  destruct Hfr as (HP0 & Hq0 & Htr0). cbv zeta.
  set (req := NeonNblocksRequest latest lsn (smgr_rnode reln) forknum).
  destruct (page_server_request_ok env fuel req w0
              ltac:(rewrite HP0; exact Hok))
    as (Hok1 & Hret1 & Hq1 & (n & Hn & Htr1 & _) & Hcase).
  rewrite HP0 in Hret1.
  assert (Hcache : relsize_cache
                     (snd (page_server_request env fuel req w0))
                   = relsize_cache w).
  { destruct Hq0 as (_ & _ & _ & _ & _ & H0 & _).
    destruct Hq1 as (_ & _ & _ & _ & _ & H1 & _). congruence. }
  destruct (page_server_request env fuel req w0) as [[resp | lvl site |] w1];
    cbn [fst snd bindS] in *; [| destruct Hcase |].
  - destruct Hcase as (Hdr & _ & Hrcv).
    assert (Hkeep : pipeline_ok (MyPState w1) /\
                    retires (MyPState w) (MyPState w1) /\
                    exists n0, (n0 <= fuel)%nat /\
                      trace w1 = trace w0 ++ replicate n0 (EvPageServerSend req))
      by (split; [exact Hok1 | split; [exact Hret1 | exists n; auto]]).
    destruct Hkeep as (K1 & K2 & K3).
    assert (Hw1none : get_cached_relsize w1 (smgr_rnode reln) forknum = None)
      by (unfold get_cached_relsize; rewrite Hcache; exact Hnone).
    destruct resp; cbn [fst snd];
      try (split; [exact K1 |]; split; [exact K2 |]; split; [exact K3 |];
           split; [reflexivity |]; split; [exact Hw1none |];
           right; reflexivity).
    + unfold update_cached_relsize.
      unfold get_cached_relsize in Hw1none. rewrite Hw1none.
      cbn [set_cached_relsize set_relsize_cache MyPState trace ps_clock].
      split; [exact K1 |]. split; [exact K2 |]. split; [exact K3 |].
      split; [exact Hrcv |]. split; [exact Hdr |].
      unfold get_cached_relsize. simpl. apply lookup_insert_eq.
    + split; [exact K1 |]. split; [exact K2 |]. split; [exact K3 |].
      split; [reflexivity |]. split; [exact Hw1none |].
      left. split; [eexists; exact Hrcv | reflexivity].
  - split; [exact Hok1 |]. split; [exact Hret1 |].
    split; [exists n; auto | exact I].
Qed.

(** ** A read that finds nothing in the ring *)

Lemma send_until_accepted_healthy env fuel req w :
  ps_send env (ps_clock w) = true ->
  send_until_accepted env (S fuel) req w
  = (Return tt, emit (EvPageServerSend req) (tick w)).
Proof.
  intros Hsend. simpl. unfold page_server_send. rewrite Hsend. reflexivity.
Qed.

Lemma register_new_request_returns env fuel tag force_latest force_lsn w :
  0 < readahead_buffer_size (MyPState w) ->
  ps_send env (ps_clock w) = true ->
  fst (register_new_request env (S fuel) tag force_latest force_lsn w)
  = Return (ring_unused (MyPState w)).
Proof.
  intros Hsize Hsend.
  rewrite (register_new_request_unfold env (S fuel) tag force_latest force_lsn
             w Hsize). cbv zeta.
  pose proof (choose_request_lsn_frame env tag force_latest force_lsn w)
    as Hfr.
  destruct (choose_request_lsn env tag force_latest force_lsn w)
    as [[[latest lsn] eff] w0].
  destruct Hfr as (_ & _ & _ & _ & _ & _ & _ & _ & Hclk & _).
  rewrite send_until_accepted_healthy by (simpl; rewrite Hclk; exact Hsend).
  reflexivity.
Qed.

Lemma prefetch_register_buffer_returns env fuel tag force_latest force_lsn w :
  pipeline_ok (MyPState w) ->
  2 <= readahead_buffer_size (MyPState w) ->
  ring_unused (MyPState w) - ring_last (MyPState w)
  < readahead_buffer_size (MyPState w) ->
  ring_unused (MyPState w) + readahead_buffer_size (MyPState w) < 2 ^ 64 ->
  (forall c, (ps_clock w <= c)%nat -> ps_send env c = true) ->
  exists k,
    fst (prefetch_register_buffer env (S fuel) tag force_latest force_lsn w)
    = Return k.
Proof.
  intros Hok Hcap Hroom Hmax Hsend. unfold prefetch_register_buffer.
  pose proof (register_lookup_ok env tag force_latest force_lsn w Hok) as Hlk.
  destruct (register_lookup env tag force_latest force_lsn w) as [[k |] w1].
  - exists k. reflexivity.
  - destruct Hlk as (Hok1 & Hret1 & (Hq1 & _) & _).
    pose proof (rt_size _ _ Hret1) as Hc1.
    pose proof (rt_unused _ _ Hret1) as HU1.
    pose proof (rt_last _ _ Hret1) as HL1.
    destruct (register_make_room_ok env w1 Hok1
                ltac:(rewrite Hc1; exact Hcap)
                ltac:(rewrite Hc1, HU1; lia)
                ltac:(rewrite Hc1, HU1; exact Hmax))
      as (Hok2 & Hret2 & (Hq2 & _) & _).
    eexists. apply register_new_request_returns.
    + rewrite (rt_size _ _ Hret2), Hc1. lia.
    + apply Hsend.
      destruct Hq1 as (_ & _ & _ & _ & _ & _ & _ & Hclk1).
      destruct Hq2 as (_ & _ & _ & _ & _ & _ & _ & Hclk2). lia.
Qed.

(** ** Resizing the ring *)

Lemma readahead_buffer_resize_unfold env newsize w :
  readahead_buffer_resize env newsize w
  = let w1 := resize_wait env newsize w in
    let old := MyPState w1 in
    let newP :=
      mkPrefetchState newsize newsize newsize newsize 0 0 newsize ∅
        (replicate (Z.to_nat newsize) zero_slot) in
    set_MyPState
      (snd (resize_copy_loop (Z.to_nat (ring_unused old - ring_last old)) old
              (uint64 (ring_unused old - 1)) newsize newP)) w1.
Proof.
  unfold readahead_buffer_resize, readahead_buffer_resize_states, resize_wait.
  cbv zeta.
  destruct (resize_copy_loop _ _ _ _ _) as [[end_ nfree] newP]. reflexivity.
Qed.

Lemma resize_copy_loop_step n old end_ nfree newP :
  resize_copy_loop (S n) old end_ nfree newP
  = if (ring_last old <=? end_) && negb (end_ =? UINT64_MAX)
       && negb (nfree =? 0) then
      match status (GetPrfSlot old end_) with
      | PRFS_UNUSED => resize_copy_loop n old (uint64 (end_ - 1)) nfree newP
      | _ =>
          resize_copy_loop n old (uint64 (end_ - 1)) (uint64 (nfree - 1))
            (resize_copy_one (GetPrfSlot old end_) (uint64 (nfree - 1)) newP)
      end
    else (end_, nfree, newP).
Proof.
  simpl. destruct (_ && _); [| reflexivity].
  unfold resize_copy_one.
  destruct (status (GetPrfSlot old end_)) eqn:Hst; reflexivity.
Qed.

(** A position of the new buffer, read as a slot of the new ring. *)
Lemma resized_slot p N j :
  readahead_buffer_size p = N -> 0 <= j < N ->
  GetPrfSlot p j = prf_buffer p !!! Z.to_nat j /\ slot_pos p j = Z.to_nat j.
Proof.
  intros Hlen Hj. unfold GetPrfSlot, buf_get, slot_pos, ring_slot.
  unfold readahead_buffer_size in Hlen. rewrite Hlen, Z.mod_small by lia.
  split; reflexivity.
Qed.

(** Two slots in use of a ring in good order have different tags. *)
Lemma used_slots_differ p i1 i2 :
  pipeline_wf p ->
  ring_last p <= i1 < ring_unused p -> ring_last p <= i2 < ring_unused p ->
  status (GetPrfSlot p i1) <> PRFS_UNUSED ->
  status (GetPrfSlot p i2) <> PRFS_UNUSED ->
  buftag (GetPrfSlot p i1) = buftag (GetPrfSlot p i2) -> i1 = i2.
Proof.
  intros Hwf H1 H2 Hs1 Hs2 Htag.
  pose proof (wf_hash_complete _ Hwf i1 H1 Hs1) as E1.
  pose proof (wf_hash_complete _ Hwf i2 H2 Hs2) as E2.
  rewrite Htag, E2 in E1. injection E1 as E.
  pose proof (wf_bound _ Hwf) as Hbnd. unfold readahead_buffer_size in Hbnd.
  apply (ring_slot_inj (prf_buffer p) (ring_last p)); [lia | lia |].
  symmetry. exact E.
Qed.

(** A slot of the old ring that the loop passes over. *)
Lemma resize_skip_inv old newP N e nfree :
  pipeline_ok old ->
  resize_copied old N e nfree newP ->
  ring_last old < e ->
  status (GetPrfSlot old (e - 1)) = PRFS_UNUSED ->
  resize_copied old N (e - 1) nfree newP.
Proof.
  intros (Hwf & _) [Hlen Hnf He Hlow Hdense HU HF HL HR HRge HI Hfree Hslot
                    Hfl Hall Hsound Hcomp] Hlt Hst.
  assert (Hbelow : e - 1 < ring_receive old).
  { destruct (Z.lt_ge_cases (e - 1) (ring_receive old)) as [H | H];
      [exact H |].
    rewrite (wf_requested _ Hwf (e - 1)) in Hst by lia. discriminate Hst. }
  assert (Hmax : Z.max (e - 1) (ring_receive old) = Z.max e (ring_receive old))
    by lia.
  constructor; rewrite ?Hmax; try assumption; try lia.
  - intros j Hj. destruct (Hslot j Hj) as (i & Hi & Hrest).
    exists i. split; [lia | exact Hrest].
  - intros i Hi Hs. destruct (Z.eq_dec i (e - 1)) as [-> | Hne];
      [contradiction |].
    apply Hall; [lia | exact Hs].
Qed.

(** A slot in use copied into the new buffer. *)
Section ResizeStep.
Context (old newP : PrefetchState) (N e nfree : Z).
Hypothesis Hok : pipeline_ok old.
Hypothesis HN : 0 < N < 2 ^ 64.
Hypothesis Hinv : resize_copied old N e nfree newP.
Hypothesis Hlt : ring_last old < e.
Hypothesis Hnfree : nfree <> 0.
Hypothesis Hused : status (GetPrfSlot old (e - 1)) <> PRFS_UNUSED.

Let slot := GetPrfSlot old (e - 1).
Let newP' := resize_copy_one slot (nfree - 1) newP.

Lemma resize_step_fresh : prf_hash newP !! buftag slot = None.
Proof.
  destruct Hok as (Hwf & _).
  destruct (prf_hash newP !! buftag slot) as [pos |] eqn:Hpos; [| reflexivity].
  exfalso.
  destruct (rc_hash_sound _ _ _ _ _ Hinv _ _ Hpos) as (j & Hj & -> & Htag).
  destruct (rc_slot _ _ _ _ _ Hinv j Hj) as (i & Hi & Hsi & Hbuf & _).
  rewrite Hbuf in Htag. cbn [buftag set_my_ring_index] in Htag.
  pose proof (rc_e _ _ _ _ _ Hinv) as He.
  pose proof (used_slots_differ old i (e - 1) Hwf ltac:(lia) ltac:(lia) Hsi
                Hused Htag). lia.
Qed.

Lemma resize_step_status :
  (ring_receive old <= e - 1 /\ status slot = PRFS_REQUESTED) \/
  (e - 1 < ring_receive old /\ status slot = PRFS_RECEIVED).
Proof.
  destruct Hok as (Hwf & _). pose proof (rc_e _ _ _ _ _ Hinv) as He.
  apply slot_status_in_window; [exact Hwf | lia | exact Hused].
Qed.

Lemma resize_step_fields :
  prf_buffer newP'
  = <[Z.to_nat (nfree - 1) := set_my_ring_index (nfree - 1) slot]>
      (prf_buffer newP) /\
  prf_hash newP' = <[buftag slot := Z.to_nat (nfree - 1)]> (prf_hash newP) /\
  ring_unused newP' = N /\ ring_flush newP' = N /\
  ring_last newP' = nfree - 1 /\
  ring_receive newP'
  = (if decide (ring_receive old <= e - 1) then ring_receive newP - 1
     else ring_receive newP) /\
  n_requests_inflight newP'
  = (if decide (ring_receive old <= e - 1) then n_requests_inflight newP + 1
     else n_requests_inflight newP).
Proof.
  destruct Hinv as [Hlen Hnf He Hlow Hdense HU HF HL HR HRge HI Hfree Hslot
                    Hfl Hall Hsound Hcomp].
  pose proof resize_step_fresh as Hfresh.
  unfold newP', resize_copy_one. cbv zeta.
  cbn [buftag set_my_ring_index prf_hash set_prf_buffer].
  unfold prfh_insert. rewrite Hfresh. cbn [fst].
  destruct resize_step_status as [[Hge Hst] | [Hbelow Hst]]; rewrite Hst;
    unfold resize_account;
    cbn [prf_buffer prf_hash ring_unused ring_flush ring_last ring_receive
         n_requests_inflight set_n_unused set_prf_hash set_prf_buffer
         set_ring_last set_ring_receive set_n_requests_inflight
         set_n_responses_buffered];
    rewrite ?HL, ?HU, ?HF.
  - rewrite !uint64_small by lia.
    rewrite !decide_True by exact Hge. repeat split.
  - rewrite !uint64_small by lia.
    rewrite !decide_False by lia. repeat split.
Qed.

Lemma resize_step_inv : resize_copied old N (e - 1) (nfree - 1) newP'.
Proof.
  destruct resize_step_fields as (Hbuf' & Hhash' & HU' & HF' & HL' & HR' & HI').
  pose proof resize_step_fresh as Hfresh.
  pose proof Hinv as [Hlen Hnf He Hlow Hdense HU HF HL HR HRge HI Hfree Hslot
                      Hfl Hall Hsound Hcomp].
  destruct Hok as (Hwf & _).
  pose proof (wf_order _ Hwf) as Hord.
  assert (Hlen_nat : length (prf_buffer newP) = Z.to_nat N)
    by (unfold readahead_buffer_size in Hlen; lia).
  assert (Hhere : prf_buffer newP' !!! Z.to_nat (nfree - 1)
                  = set_my_ring_index (nfree - 1) slot).
  { rewrite Hbuf'. apply list_lookup_total_insert_eq. lia. }
  assert (Hthere : forall j, 0 <= j -> j <> nfree - 1 ->
            prf_buffer newP' !!! Z.to_nat j = prf_buffer newP !!! Z.to_nat j).
  { intros j Hj Hne. rewrite Hbuf'. apply list_lookup_total_insert_ne. lia. }
  assert (Hrecv' : ring_receive newP'
                   = N - (ring_unused old
                          - Z.max (e - 1) (ring_receive old))).
  { rewrite HR', HR. destruct (decide (ring_receive old <= e - 1)); lia. }
  assert (Hrecv_le : ring_receive newP' <= ring_receive newP)
    by (rewrite HR'; destruct (decide (ring_receive old <= e - 1)); lia).
  constructor.
  - unfold readahead_buffer_size in *. rewrite Hbuf', length_insert.
    exact Hlen.
  - lia.
  - lia.
  - lia.
  - intros Hge. specialize (Hdense ltac:(lia)). lia.
  - exact HU'.
  - exact HF'.
  - exact HL'.
  - exact Hrecv'.
  - rewrite HR'. destruct (decide (ring_receive old <= e - 1)) as [Hge | Hb];
      [| lia].
    specialize (Hdense ltac:(lia)). lia.
  - rewrite HI', HI. destruct (decide (ring_receive old <= e - 1)); lia.
  - intros j Hj. rewrite Hthere by lia. apply Hfree. lia.
  - intros j Hj. destruct (Z.eq_dec j (nfree - 1)) as [-> | Hne].
    + exists (e - 1). split; [lia |]. split; [exact Hused |].
      split; [exact Hhere |].
      rewrite HR'. destruct (decide (ring_receive old <= e - 1)) as [Hge | Hb].
      * specialize (Hdense ltac:(lia)). split; intros _; lia.
      * split; intros H; lia.
    + destruct (Hslot j ltac:(lia)) as (i & Hi & Hsi & Hbuf & Hiff).
      exists i. split; [lia |]. split; [exact Hsi |].
      split; [rewrite Hthere by lia; exact Hbuf |].
      rewrite HR'. destruct (decide (ring_receive old <= e - 1)) as [Hge | Hb];
        [| exact Hiff].
      split; intros H; [| lia].
      pose proof (proj1 Hiff ltac:(lia)). lia.
  - intros i Hi. destruct (Z.eq_dec i (e - 1)) as [-> | Hne].
    + specialize (Hdense ltac:(lia)).
      replace (N - (ring_unused old - (e - 1))) with (nfree - 1) by lia.
      exact Hhere.
    + assert (Hpos : nfree <= N - (ring_unused old - i)).
      { destruct (Z.le_gt_cases (ring_receive old) e) as [Hge | Hb].
        - specialize (Hdense Hge). lia.
        - lia. }
      rewrite Hthere by lia. apply Hfl. lia.
  - intros i Hi Hsi. destruct (Z.eq_dec i (e - 1)) as [-> | Hne].
    + exists (nfree - 1). split; [lia | exact Hhere].
    + destruct (Hall i ltac:(lia) Hsi) as (j & Hj & Hbuf).
      exists j. split; [lia |]. rewrite Hthere by lia. exact Hbuf.
  - intros t pos Hpos. rewrite Hhash' in Hpos.
    destruct (decide (t = buftag slot)) as [-> | Hne].
    + rewrite lookup_insert_eq in Hpos. injection Hpos as <-.
      exists (nfree - 1). split; [lia |]. split; [reflexivity |].
      rewrite Hhere. reflexivity.
    + rewrite lookup_insert_ne in Hpos by congruence.
      destruct (Hsound t pos Hpos) as (j & Hj & -> & Htag).
      exists j. split; [lia |]. split; [reflexivity |].
      rewrite Hthere by lia. exact Htag.
  - intros j Hj. rewrite Hhash'.
    destruct (Z.eq_dec j (nfree - 1)) as [-> | Hne].
    + rewrite Hhere. cbn [buftag set_my_ring_index].
      apply lookup_insert_eq.
    + rewrite Hthere by lia.
      rewrite lookup_insert_ne; [apply Hcomp; lia |].
      intros Heq. pose proof (Hcomp j ltac:(lia)) as Hc.
      rewrite <- Heq, Hfresh in Hc. discriminate Hc.
Qed.

End ResizeStep.

(** The first loop of [readahead_buffer_resize]. *)
Lemma resize_copy_loop_inv n old N e nfree newP :
  pipeline_ok old -> 0 < N < 2 ^ 64 ->
  resize_copied old N e nfree newP ->
  n = Z.to_nat (e - ring_last old) ->
  exists e' nfree',
    resize_copied old N e' nfree'
      (snd (resize_copy_loop n old (uint64 (e - 1)) nfree newP)) /\
    (e' = ring_last old \/ nfree' = 0).
Proof.
  intros Hok HN. pose proof Hok as (Hwf & _).
  pose proof (wf_order _ Hwf) as Hord.
  revert e nfree newP. induction n as [| n IH]; intros e nfree newP Hinv Hn;
    pose proof (rc_e _ _ _ _ _ Hinv) as He.
  - exists e, nfree. split; [exact Hinv |]. left. lia.
  - rewrite resize_copy_loop_step.
    assert (Hend : uint64 (e - 1) = e - 1) by (apply uint64_small; lia).
    rewrite Hend.
    destruct (Z.leb_spec (ring_last old) (e - 1)) as [_ | H]; [| lia].
    destruct (Z.eqb_spec (e - 1) UINT64_MAX) as [H | _];
      [unfold UINT64_MAX in H; lia |].
    destruct (Z.eqb_spec nfree 0) as [Hz | Hnz]; cbn [andb negb].
    + exists e, nfree. split; [exact Hinv |]. right. exact Hz.
    + pose proof (rc_nfree _ _ _ _ _ Hinv) as Hnf.
      destruct (status (GetPrfSlot old (e - 1))) eqn:Hst.
      * apply IH; [| lia].
        apply resize_skip_inv; [exact Hok | exact Hinv | lia | exact Hst].
      * rewrite (uint64_small (nfree - 1)) by lia.
        apply IH; [| lia].
        apply resize_step_inv; try assumption; [lia |].
        rewrite Hst. discriminate.
      * rewrite (uint64_small (nfree - 1)) by lia.
        apply IH; [| lia].
        apply resize_step_inv; try assumption; [lia |].
        rewrite Hst. discriminate.
      * rewrite (uint64_small (nfree - 1)) by lia.
        apply IH; [| lia].
        apply resize_step_inv; try assumption; [lia |].
        rewrite Hst. discriminate.
Qed.

(** The new state before anything is copied. *)
Lemma resize_copied_start old N :
  pipeline_ok old -> 0 < N ->
  resize_copied old N (ring_unused old) N
    (mkPrefetchState N N N N 0 0 N ∅ (replicate (Z.to_nat N) zero_slot)).
Proof.
  intros (Hwf & _) HN. pose proof (wf_order _ Hwf) as Hord.
  constructor; cbn [ring_unused ring_flush ring_last ring_receive
                    n_requests_inflight prf_hash prf_buffer].
  - unfold readahead_buffer_size. cbn [prf_buffer].
    rewrite length_replicate. lia.
  - lia.
  - lia.
  - lia.
  - intros _. lia.
  - reflexivity.
  - reflexivity.
  - reflexivity.
  - lia.
  - lia.
  - lia.
  - intros j Hj. apply lookup_total_replicate_2. lia.
  - intros j Hj. lia.
  - intros i Hi. lia.
  - intros i Hi. lia.
  - intros t pos H. rewrite lookup_empty in H. discriminate H.
  - intros j Hj. lia.
Qed.

(** What the first loop has built is a pipeline in good order. *)
Lemma resize_copied_ok old N e nfree newP :
  pipeline_ok old -> 0 < N < 2 ^ 64 ->
  resize_copied old N e nfree newP -> pipeline_ok newP.
Proof.
  intros (Hwf & Hext & _) HN
    [Hlen Hnf He Hlow Hdense HU HF HL HR HRge HI Hfree Hslot Hfl Hall
     Hsound Hcomp].
  pose proof (wf_order _ Hwf) as Hord.
  assert (Hin : forall j, nfree <= j < N ->
            GetPrfSlot newP j = prf_buffer newP !!! Z.to_nat j /\
            slot_pos newP j = Z.to_nat j)
    by (intros j Hj; apply (resized_slot newP N); [exact Hlen | lia]).
  assert (Hrecv_le : ring_receive newP <= N) by lia.
  split; [| split].
  - constructor; rewrite ?Hlen, ?HU, ?HL.
    + lia.
    + lia.
    + lia.
    + intros k Hk. destruct (Hin k ltac:(lia)) as (-> & _).
      destruct (Hslot k ltac:(lia)) as (i & Hi & Hsi & -> & Hiff).
      cbn [status set_my_ring_index].
      apply (wf_requested _ Hwf). pose proof (proj2 Hiff ltac:(lia)). lia.
    + intros k Hk. destruct (Hin k ltac:(lia)) as (-> & _).
      destruct (Hslot k ltac:(lia)) as (i & Hi & Hsi & -> & Hiff).
      cbn [status set_my_ring_index].
      apply (wf_received _ Hwf).
      destruct (Z.lt_ge_cases i (ring_receive old)) as [H | H]; [lia |].
      pose proof (proj1 Hiff H). lia.
    + intros k Hk. unfold GetPrfSlot, buf_get, ring_slot.
      unfold readahead_buffer_size in Hlen. rewrite Hlen.
      replace (k mod N) with (k - N)
        by (apply Z.mod_unique with 1; lia).
      rewrite Hfree by lia. reflexivity.
    + intros t pos Hpos. destruct (Hsound t pos Hpos) as (j & Hj & -> & Htag).
      destruct (Hin j Hj) as (Hg & Hp).
      exists j. split; [lia |]. split; [symmetry; exact Hp |].
      rewrite Hg. split; [exact Htag |].
      destruct (Hslot j Hj) as (i & _ & Hsi & -> & _). exact Hsi.
    + intros k Hk _. destruct (Hin k ltac:(lia)) as (-> & ->).
      apply Hcomp. lia.
    + lia.
  - constructor; rewrite ?HU, ?HL, ?HF.
    + lia.
    + intros k Hk _. destruct (Hin k ltac:(lia)) as (-> & _).
      destruct (Hslot k ltac:(lia)) as (i & _ & _ & -> & _). reflexivity.
    + intros k Hk. destruct (Hin k ltac:(lia)) as (-> & _).
      destruct (Hslot k ltac:(lia)) as (i & Hi & Hsi & -> & Hiff).
      cbn [status response set_my_ring_index]. intros Hst.
      apply (ext_response _ Hext); [| exact Hst].
      destruct (Z.lt_ge_cases i (ring_receive old)) as [H | H]; [lia |].
      pose proof (proj1 Hiff H). lia.
  - unfold trimmed. rewrite HU, HL. intros Hlt.
    destruct (Hin nfree ltac:(lia)) as (-> & _).
    destruct (Hslot nfree ltac:(lia)) as (i & _ & Hsi & -> & _). exact Hsi.
Qed.

(** The wait at the head of [readahead_buffer_resize] leaves no more
    requests in flight than the new buffer can take. *)
Lemma resize_wait_ok env newsize w :
  pipeline_ok (MyPState w) -> 0 < newsize ->
  let w1 := resize_wait env newsize w in
  pipeline_ok (MyPState w1) /\ retires (MyPState w) (MyPState w1) /\
  pipeline_only w w1 /\
  n_requests_inflight (MyPState w1) <= newsize.
Proof.
  intros Hok HN. cbv zeta. unfold resize_wait.
  pose proof Hok as (Hwf & _).
  pose proof (wf_order _ Hwf) as Hord.
  pose proof (wf_inflight _ Hwf) as Hinf.
  destruct (Z.ltb_spec newsize (n_requests_inflight (MyPState w)))
    as [Hmany | Hfew].
  - rewrite uint64_small by lia.
    destruct (prefetch_wait_for_ok env (ring_unused (MyPState w) - newsize) w
                Hok ltac:(lia)) as (Hok1 & Hret1 & Honly1 & Hfalse & Htrue).
    split; [exact Hok1 |]. split; [exact Hret1 |]. split; [exact Honly1 |].
    destruct (fst (prefetch_wait_for env (ring_unused (MyPState w) - newsize)
                     w)) eqn:Hres.
    + destruct (Htrue eq_refl) as (_ & _ & _ & HU1 & HR1 & _).
      pose proof (wf_inflight _ (proj1 Hok1)) as Hinf1. lia.
    + destruct (Hfalse eq_refl) as (_ & (_ & _ & Hzero) & _). lia.
  - split; [exact Hok |]. split; [apply retires_refl |].
    split; [apply pipeline_only_refl | lia].
Qed.

(** ** A prefetch and the read that follows *)

Lemma requests_sent_app tr1 tr2 :
  requests_sent (tr1 ++ tr2) = requests_sent tr1 ++ requests_sent tr2.
Proof. apply omap_app. Qed.

Lemma neon_prefetch_registers env fuel reln forknum blocknum w :
  smgr_relpersistence reln = 0 \/
  smgr_relpersistence reln = RELPERSISTENCE_PERMANENT ->
  lfc_cache_contains env (smgr_rnode reln) forknum blocknum = false ->
  pipeline_ok (MyPState w) ->
  2 <= readahead_buffer_size (MyPState w) ->
  ring_unused (MyPState w) - ring_last (MyPState w)
  < readahead_buffer_size (MyPState w) ->
  ring_unused (MyPState w) + readahead_buffer_size (MyPState w) < 2 ^ 64 ->
  prf_hash (MyPState w)
  !! mkBufferTag (smgr_rnode reln) forknum blocknum = None ->
  (forall c, (ps_clock w <= c)%nat ->
     ps_send env c = true /\ ps_flush env c = true) ->
  let '(latest, lsn, w0) :=
    neon_get_request_lsn env (smgr_rnode reln) forknum blocknum w in
  let r := neon_prefetch env (S fuel) reln forknum blocknum w in
  fst r = Return false /\
  pipeline_ok (MyPState (snd r)) /\
  trace (snd r)
  = trace w0
    ++ [EvPageServerSend
          (NeonGetPageRequest latest lsn (smgr_rnode reln) forknum
             blocknum)] /\
  prefetch_hits (snd r) = prefetch_hits w /\
  prefetch_misses (snd r) = prefetch_misses w /\
  (ps_clock w <= ps_clock (snd r))%nat /\
  ring_unused (MyPState (snd r)) = ring_unused (MyPState w) + 1 /\
  exists slot,
    buffered (MyPState (snd r))
      (mkBufferTag (smgr_rnode reln) forknum blocknum) = Some slot /\
    my_ring_index slot = ring_unused (MyPState w) /\
    status slot = PRFS_REQUESTED /\
    effective_request_lsn slot = Z.max (prefetch_lsn w) lsn.
Proof.
  intros Hpers Hlfc Hok Hcap Hroom Hmax Hnone Hhealthy.
  assert (Hremote : (smgr_relpersistence reln =? 0)
                    || (smgr_relpersistence reln =? RELPERSISTENCE_PERMANENT)
                    = true)
    by (destruct Hpers as [-> | ->]; reflexivity).
  unfold neon_prefetch. rewrite Hremote, Hlfc. cbv zeta.
  set (tag := mkBufferTag (smgr_rnode reln) forknum blocknum) in *.
  pose proof (prefetch_register_buffer_ok env (S fuel) tag None None w
                Hok Hcap Hroom Hmax) as Hreg.
  pose proof (choose_request_lsn_free env tag None None w
                (or_introl eq_refl)) as Hfree.
  pose proof (choose_request_lsn_frame env tag None None w) as Hframe.
  pose proof (request_lsn_frame env (smgr_rnode reln) forknum blocknum w)
    as Hfr.
  destruct (prefetch_register_buffer_returns env fuel tag None None w
              Hok Hcap Hroom Hmax
              ltac:(intros c Hc; apply Hhealthy; exact Hc)) as (k & Hret).
  unfold choose_request_lsn in Hreg, Hfree, Hframe.
  cbn [rnode forkNum blockNum tag] in Hreg, Hfree, Hframe.
  destruct (neon_get_request_lsn env (smgr_rnode reln) forknum blocknum w)
    as [[latest lsn] w0].
  cbv zeta in Hreg. cbn [fst] in Hfree.
  destruct Hfr as (_ & Hq0 & _).
  destruct Hq0 as (_ & Hh0 & Hm0 & _ & _ & _ & _ & Hc0).
  destruct Hreg as (Hok' & _ & _ & _ & Hcase).
  destruct (prefetch_register_buffer env (S fuel) tag None None w)
    as [res w'].
  cbn [fst snd] in *. subst res. cbn [bindS fst snd].
  destruct Hcase as (_ & [(_ & (_ & Hh & _) & _) | Hnew]);
    [rewrite Hnone in Hh; discriminate Hh |].
  destruct Hnew as (_ & -> & HU & Hq & Htr & Hrd & Heff).
  destruct Hq as (_ & Hq2 & Hq3 & _ & _ & _ & _ & Hq8).
  cbn [prefetch_hits prefetch_misses ps_clock set_prefetch_lsn] in Hq2, Hq3,
    Hq8.
  cbn [trace set_prefetch_lsn] in Htr.
  destruct Hrd as [(Hin & Hst) | (_ & (c & Hc & Hfail) & _)];
    [| rewrite (proj2 (Hhealthy c Hc)) in Hfail; discriminate Hfail].
  split; [reflexivity |]. split; [exact Hok' |]. split; [exact Htr |].
  split; [congruence |]. split; [congruence |]. split; [lia |].
  split; [exact HU |].
  exists (GetPrfSlot (MyPState w') (ring_unused (MyPState w))).
  pose proof Hin as (_ & Hhash & _ & Hidx).
  split; [unfold buffered; rewrite Hhash; reflexivity |].
  split; [exact Hidx |]. split; [exact Hst |].
  destruct Hfree as (_ & Hlsn & _).
  cbn [prefetch_lsn set_prefetch_lsn] in Hlsn.
  rewrite (Heff Hin). exact Hlsn.
Qed.

(** ** A buffered request that is not good enough *)

(** After [prefetch_wait_for] and [prefetch_set_unused] of a ring index,
    the receive pointer is beyond it. *)
Lemma wait_and_retire_received env k w :
  pipeline_ok (MyPState w) ->
  ring_last (MyPState w) <= k < ring_unused (MyPState w) ->
  k < ring_receive (MyPState (wait_and_retire env k w)).
Proof.
  intros Hok Hk. unfold wait_and_retire.
  destruct (prefetch_wait_for_ok env k w Hok ltac:(lia))
    as (Hok1 & Hret1 & _ & Hfail1 & Hgood1).
  destruct (prefetch_wait_for env k w) as [b w1]. cbn [fst snd] in *.
  assert (Hk1 : k < ring_receive (MyPState w1)).
  { destruct b.
    - destruct (Hgood1 eq_refl) as (_ & Hw).
      destruct Hw as (_ & _ & _ & HR & _). lia.
    - destruct (Hfail1 eq_refl) as (_ & (Hdr & _) & _).
      rewrite Hdr, (rt_unused _ _ Hret1). lia. }
  destruct (set_unused_ok k (MyPState w1) Hok1 Hk1) as (_ & _ & HR & _).
  cbn [MyPState on_MyPState set_MyPState]. rewrite HR. exact Hk1.
Qed.

(** A registration never moves the receive pointer back. *)
Lemma register_new_request_receive env fuel tag force_latest force_lsn w :
  pipeline_ok (MyPState w) ->
  ring_unused (MyPState w) - ring_last (MyPState w)
  < readahead_buffer_size (MyPState w) ->
  ring_unused (MyPState w) + 1 < 2 ^ 64 ->
  prf_hash (MyPState w) !! tag = None ->
  ring_receive (MyPState w)
  <= ring_receive
       (MyPState (snd (register_new_request env fuel tag force_latest
                         force_lsn w))).
Proof.
  intros Hok Hroom Hmax Habsent.
  pose proof Hok as (Hwf & _).
  pose proof (wf_size _ Hwf) as Hsize.
  pose proof (choose_request_lsn_frame env tag force_latest force_lsn w)
    as Hfr.
  destruct (choose_request_lsn env tag force_latest force_lsn w)
    as [[[latest lsn] eff] w0] eqn:Hch.
  destruct Hfr as (HP0 & _).
  destruct (prepare_slot_ok tag eff (MyPState w) Hok Hroom Hmax Habsent)
    as (Hready & _).
  rewrite (register_new_request_unfold env fuel tag force_latest force_lsn w
             Hsize), Hch.
  cbv zeta.
  set (p2 := SetPrfSlot (prepare_slot tag (MyPState w))
               (ring_unused (MyPState w))
               (set_effective_request_lsn eff
                  (set_my_ring_index (ring_unused (MyPState w))
                     (set_buftag tag
                        (GetPrfSlot (MyPState w) (ring_unused (MyPState w))))))) in *.
  assert (HR2 : ring_receive p2 = ring_receive (MyPState w)) by reflexivity.
  set (req := NeonGetPageRequest latest lsn (rnode tag) (forkNum tag)
                (blockNum tag)).
  set (w2 := set_MyPState p2 w0).
  destruct (send_until_accepted_ok env fuel req w2 (proj1 Hready))
    as (Hok3 & Hret3 & _ & Hcase3).
  pose proof (send_and_enqueue_ok env fuel req tag w2 Hready) as Hsend.
  cbv zeta in Hsend.
  destruct (send_until_accepted env fuel req w2) as [r3 w3].
  cbn [fst snd] in Hok3, Hret3, Hcase3, Hsend.
  pose proof (rt_receive _ _ Hret3) as HR3.
  change (MyPState w2) with p2 in HR3.
  destruct r3 as [[] | lvl site |]; [| destruct Hcase3 |];
    cbn [bindS fst snd] in Hsend |- *.
  - destruct Hsend as (Hok4 & _).
    set (w4 := set_MyPState
                 (enqueue_request (ring_unused (MyPState w2)) (MyPState w3))
                 w3) in *.
    assert (HR4 : ring_receive (MyPState w4) = ring_receive (MyPState w3))
      by reflexivity.
    pose proof (register_flush_ok env w4 Hok4) as Hflush.
    cbv zeta in Hflush. destruct Hflush as (_ & Hret5 & _).
    pose proof (rt_receive _ _ Hret5) as HR5.
    change (ring_unused (MyPState w2)) with (ring_unused (MyPState w)) in *.
    apply (Z.le_trans _ (ring_receive (MyPState w4))); [lia | exact HR5].
  - lia.
Qed.

Lemma register_lookup_stale env tag force_latest force_lsn w slot :
  buffered (MyPState w) tag = Some slot ->
  request_lsn_acceptable force_latest force_lsn slot = false ->
  register_lookup env tag force_latest force_lsn w
  = (None, wait_and_retire env (my_ring_index slot) w).
Proof.
  intros Hb Hacc. unfold register_lookup, prfh_lookup. unfold buffered in Hb.
  destruct (prf_hash (MyPState w) !! tag) as [pos |]; [| discriminate Hb].
  cbn [fmap option_fmap option_map] in Hb. injection Hb as Hslot.
  rewrite Hslot, Hacc. reflexivity.
Qed.

(** A registration that found a request not good enough leaves the receive
    pointer beyond it. *)
Lemma register_stale_received env fuel tag force_latest force_lsn w slot :
  pipeline_ok (MyPState w) ->
  2 <= readahead_buffer_size (MyPState w) ->
  ring_unused (MyPState w) - ring_last (MyPState w)
  < readahead_buffer_size (MyPState w) ->
  ring_unused (MyPState w) + readahead_buffer_size (MyPState w) < 2 ^ 64 ->
  buffered (MyPState w) tag = Some slot ->
  request_lsn_acceptable force_latest force_lsn slot = false ->
  my_ring_index slot
  < ring_receive
      (MyPState (snd (prefetch_register_buffer env fuel tag force_latest
                        force_lsn w))).
Proof.
  intros Hok Hcap Hroom Hmax Hb Hacc.
  destruct (buffered_slot _ _ _ Hok Hb)
    as (k & Hk & Hpos & Hslot & Htag & Hidx & Hused).
  unfold prefetch_register_buffer.
  rewrite (register_lookup_stale env tag force_latest force_lsn w slot Hb
             Hacc), Hidx.
  destruct (wait_and_retire_ok env k w Hok Hk
              ltac:(rewrite <- Hslot; exact Hused))
    as (Hok1 & Hret1 & _ & Hnone1 & _).
  rewrite <- Hslot, Htag in Hnone1.
  pose proof (wait_and_retire_received env k w Hok Hk) as Hrcv1.
  set (w1 := wait_and_retire env k w) in *.
  pose proof (rt_size _ _ Hret1) as Hc1.
  pose proof (rt_unused _ _ Hret1) as HU1.
  pose proof (rt_last _ _ Hret1) as HL1.
  destruct (register_make_room_ok env w1 Hok1
              ltac:(rewrite Hc1; exact Hcap)
              ltac:(rewrite Hc1, HU1; lia)
              ltac:(rewrite Hc1, HU1; exact Hmax))
    as (Hok2 & Hret2 & _ & Hroom2).
  set (w2 := register_make_room env w1) in *.
  pose proof (rt_size _ _ Hret2) as Hc2.
  pose proof (rt_unused _ _ Hret2) as HU2.
  pose proof (rt_receive _ _ Hret2) as HR2.
  pose proof (register_new_request_receive env fuel tag force_latest force_lsn
                w2 Hok2 ltac:(lia) ltac:(rewrite HU2, HU1; lia)
                (rt_absent _ _ Hret2 tag Hnone1)) as HR3.
  lia.
Qed.

(** In a pipeline in good order the slot of a registered request is the
    only slot in use that holds its tag. *)
Lemma registered_slot_is_sole env clock tag k p :
  pipeline_ok p -> registered_or_dropped env clock tag k p ->
  forall j, ring_last p <= j < ring_unused p ->
    status (GetPrfSlot p j) <> PRFS_UNUSED ->
    buftag (GetPrfSlot p j) = tag -> j = k.
Proof.
  intros (Hwf & _) Hrd j Hj Hst Htag.
  pose proof (wf_hash_complete _ Hwf j Hj Hst) as Hh. rewrite Htag in Hh.
  pose proof (wf_bound _ Hwf) as Hbnd.
  destruct Hrd as [((Hk & Hhk & _) & _) | (_ & _ & _ & Hnone)].
  - rewrite Hhk in Hh. injection Hh as Hpos. unfold slot_pos in Hpos.
    symmetry.
    apply (ring_slot_inj (prf_buffer p) (ring_last p));
      [unfold readahead_buffer_size in Hbnd; lia
      | unfold readahead_buffer_size in Hbnd; lia | exact Hpos].
  - rewrite Hnone in Hh. discriminate Hh.
Qed.

Lemma slot_pos_same_size p p' k :
  readahead_buffer_size p' = readahead_buffer_size p ->
  slot_pos p' k = slot_pos p k.
Proof.
  unfold readahead_buffer_size, slot_pos, ring_slot. intros H.
  apply Nat2Z.inj in H. rewrite H. reflexivity.
Qed.

(** The lookup of [neon_read_at_lsn] on a request whose LSN is too small:
    it is waited for, where it is still in flight, and retired. *)
Lemma read_lookup_stale env tag request_lsn w slot :
  pipeline_ok (MyPState w) ->
  buffered (MyPState w) tag = Some slot ->
  effective_request_lsn slot < request_lsn ->
  (status slot = PRFS_REQUESTED ->
   forall c, (ps_clock w <= c)%nat ->
     ps_flush env c = true /\ ps_receive env c <> None) ->
  let w1 := wait_and_retire env (my_ring_index slot) w in
  read_lookup env tag request_lsn w
  = (None, set_prefetch_expired (prefetch_expired w1 + 1) w1).
Proof.
  intros Hok Hb Hlsn Hhealthy. cbv zeta.
  pose proof Hok as (Hwf & Hext & Htrim).
  destruct (buffered_slot _ _ _ Hok Hb)
    as (k & Hk & Hpos & Hslot & Htag & Hidx & Hused).
  unfold read_lookup, prfh_lookup. rewrite Hpos.
  change (prf_buffer (MyPState w) !!! slot_pos (MyPState w) k)
    with (GetPrfSlot (MyPState w) k).
  rewrite <- Hslot, Hidx.
  destruct (Z.leb_spec request_lsn (effective_request_lsn slot)) as [H | _];
    [lia |].
  unfold wait_and_retire.
  destruct (slot_status_in_window _ k Hwf Hk
              ltac:(rewrite <- Hslot; exact Hused))
    as [[Hrk Hst] | [Hrk Hst]]; rewrite <- Hslot in Hst; rewrite Hst.
  - pose proof (prefetch_wait_for_healthy env k w (Hhealthy Hst)) as Htrue.
    destruct (prefetch_wait_for_ok env k w Hok ltac:(lia))
      as (_ & _ & _ & _ & Hgood).
    destruct (prefetch_wait_for env k w) as [b w1]. cbn [fst snd] in *.
    subst b. destruct (Hgood eq_refl) as (_ & Hw).
    destruct Hw as (_ & HL1 & _ & _ & Hcap1 & Hslots).
    pose proof (wf_size _ Hwf) as Hsize.
    specialize (Hslots k ltac:(pose proof (wf_bound _ Hwf); lia)).
    rewrite decide_True in Hslots by lia.
    destruct Hslots as (resp & _ & _ & Hget).
    rewrite <- (slot_pos_same_size (MyPState w) (MyPState w1) k Hcap1).
    change (prf_buffer (MyPState w1) !!! slot_pos (MyPState w1) k)
      with (GetPrfSlot (MyPState w1) k).
    rewrite Hget, <- Hslot. cbn [my_ring_index received_with set_response
                                  set_status].
    rewrite Hidx. reflexivity.
  - rewrite (prefetch_wait_for_received env k w
               (proj1 (ext_flush _ Hext)) Hrk).
    cbn [snd].
    change (prf_buffer (MyPState w) !!! slot_pos (MyPState w) k)
      with (GetPrfSlot (MyPState w) k).
    rewrite <- Hslot, Hidx. reflexivity.
Qed.

(** The loop of [neon_read_at_lsn] and the end of the read when the ring
    holds no request for the block, on a transport that delivers. *)
Lemma read_wait_miss env fuel rn forkNum_ blkno request_lsn request_latest w :
  pipeline_ok (MyPState w) ->
  2 <= readahead_buffer_size (MyPState w) ->
  ring_unused (MyPState w) - ring_last (MyPState w)
  < readahead_buffer_size (MyPState w) ->
  ring_unused (MyPState w) + readahead_buffer_size (MyPState w) < 2 ^ 64 ->
  prf_hash (MyPState w) !! mkBufferTag rn forkNum_ blkno = None ->
  (forall c, (ps_clock w <= c)%nat ->
     ps_send env c = true /\ ps_flush env c = true /\
     ps_receive env c <> None) ->
  let r :=
    let* (found, w') :=
      read_wait_loop env (S fuel) (mkBufferTag rn forkNum_ blkno)
        request_latest request_lsn None w in
    read_finish rn forkNum_ blkno found w' in
  let p' := MyPState (snd r) in
  let sent :=
    [EvPageServerSend
       (NeonGetPageRequest request_latest request_lsn rn forkNum_ blkno)] in
  pipeline_ok p' /\
  prefetch_hits (snd r) = prefetch_hits w /\
  prefetch_misses (snd r) = prefetch_misses w + 1 /\
  ring_unused p' = ring_unused (MyPState w) + 1 /\
  ring_receive p' = ring_unused p' /\
  exists resp,
    ps_receive env (Nat.pred (ps_clock (snd r))) = Some resp /\
    match resp with
    | NeonGetPageResponse page =>
        fst r = Return page /\
        trace (snd r)
        = trace w ++ sent ++ [EvLfcWrite rn forkNum_ blkno page] /\
        prf_hash p' !! mkBufferTag rn forkNum_ blkno = None
    | NeonErrorResponse _ =>
        fst r = Raise ERROR could_not_read_block /\
        trace (snd r) = trace w ++ sent
    | _ =>
        fst r = Raise ERROR unexpected_response /\
        trace (snd r) = trace w ++ sent
    end.
Proof.
  intros Hok Hcap Hroom Hmax Hnone Hhealthy. cbv zeta.
  set (tag := mkBufferTag rn forkNum_ blkno) in *.
  set (w1 := set_prefetch_misses (prefetch_misses w + 1) w).
  assert (HP1 : MyPState w1 = MyPState w) by reflexivity.
  assert (Hc1 : ps_clock w1 = ps_clock w) by reflexivity.
  assert (Hreg_eq :
    read_wait_loop env (S fuel) tag request_latest request_lsn None w
    = let* (found, w2) :=
        (let* (ring_index, w2) :=
           prefetch_register_buffer env (S fuel) tag (Some request_latest)
             (Some request_lsn) w1 in
         (Return (slot_pos (MyPState w2) ring_index, ring_index), w2)) in
      match prefetch_wait_for env (snd found) w2 with
      | (true, w3) => (Return found, w3)
      | (false, w3) =>
          read_wait_loop env fuel tag request_latest request_lsn None w3
      end) by reflexivity.
  rewrite Hreg_eq. clear Hreg_eq.
  pose proof (prefetch_register_buffer_ok env (S fuel) tag
                (Some request_latest) (Some request_lsn) w1
                ltac:(rewrite HP1; exact Hok) ltac:(rewrite HP1; exact Hcap)
                ltac:(rewrite HP1; exact Hroom)
                ltac:(rewrite HP1; exact Hmax)) as Hreg.
  rewrite choose_request_lsn_forced in Hreg. cbv zeta in Hreg.
  destruct (prefetch_register_buffer_returns env fuel tag
              (Some request_latest) (Some request_lsn) w1
              ltac:(rewrite HP1; exact Hok) ltac:(rewrite HP1; exact Hcap)
              ltac:(rewrite HP1; exact Hroom) ltac:(rewrite HP1; exact Hmax)
              ltac:(intros c Hc; apply Hhealthy; lia)) as (k & Hret).
  destruct (prefetch_register_buffer env (S fuel) tag (Some request_latest)
              (Some request_lsn) w1) as [res w2].
  cbn [fst snd] in Hreg, Hret. subst res.
  destruct Hreg as (Hok2 & Hcap2 & _ & _ & _ & Hcase).
  rewrite HP1 in Hcase.
  destruct Hcase as [(_ & (_ & Hh & _) & _) | Hnew];
    [rewrite Hnone in Hh; discriminate Hh |].
  destruct Hnew as (_ & -> & HU2 & Hq2 & Htr2 & Hrd & _).
  destruct Hq2 as (_ & Hh2 & Hm2 & _ & _ & _ & _ & Hclk2).
  destruct Hrd as [(Hin & Hst) | (_ & (c & Hc & Hfail) & _)];
    [| rewrite (proj1 (proj2 (Hhealthy c ltac:(lia)))) in Hfail;
       discriminate Hfail].
  destruct Hin as (Hk & _ & Htag & _).
  assert (Hreq : ring_receive (MyPState w2) <= ring_unused (MyPState w)).
  { destruct (Z.le_gt_cases (ring_receive (MyPState w2))
                (ring_unused (MyPState w))) as [H | H]; [exact H |].
    destruct (wf_received _ (proj1 Hok2) (ring_unused (MyPState w))
                ltac:(lia)) as [E | E]; rewrite Hst in E; discriminate E. }
  destruct (read_tail env rn forkNum_ blkno (ring_unused (MyPState w)) w2
              Hok2 ltac:(lia) Htag
              ltac:(intros c Hc; split; apply Hhealthy; lia))
    as (Htrue & Hout).
  cbn [bindS fst snd].
  destruct (prefetch_wait_for env (ring_unused (MyPState w)) w2) as [b w3].
  cbn [fst snd] in *. subst b. cbn [bindS].
  destruct Hout as (A1 & A2 & A3 & A4 & A5 & _ & resp & Hrecv & Hresp).
  split; [exact A1 |]. split; [simpl in Hh2; lia |].
  split; [simpl in Hm2; lia |]. split; [lia |]. split; [lia |].
  exists resp. split; [exact Hrecv |].
  change (trace w1) with (trace w) in Htr2.
  destruct resp; destruct Hresp as (R1 & R2);
    try (split; [exact R1 | rewrite R2; exact Htr2]).
  destruct R2 as (R2 & R3). split; [exact R1 |].
  split; [rewrite R2, Htr2, <- !app_assoc; reflexivity | exact R3].
Qed.

Lemma acceptable_forced force_latest force_lsn slot :
  request_lsn_acceptable (Some force_latest) (Some force_lsn) slot
  = if force_latest then force_lsn <=? effective_request_lsn slot
    else effective_request_lsn slot =? force_lsn.
Proof.
  unfold request_lsn_acceptable. destruct force_latest.
  - rewrite Z.leb_antisym. reflexivity.
  - apply Z.eqb_sym.
Qed.

(** A buffered request that is good enough is handed back. *)
Lemma register_hands_back env fuel tag force_latest force_lsn w slot :
  pipeline_ok (MyPState w) ->
  buffered (MyPState w) tag = Some slot ->
  request_lsn_acceptable force_latest force_lsn slot = true ->
  prefetch_register_buffer env fuel tag force_latest force_lsn w
  = (Return (my_ring_index slot),
     set_prefetch_duplicates (prefetch_duplicates w + 1) w).
Proof.
  intros Hok Hb Hacc. pose proof Hok as (Hwf & _).
  destruct (buffered_slot _ _ _ Hok Hb)
    as (k & Hk & Hpos & Hslot & _ & _ & Hused).
  unfold prefetch_register_buffer, register_lookup, prfh_lookup.
  rewrite Hpos.
  change (prf_buffer (MyPState w) !!! slot_pos (MyPState w) k)
    with (GetPrfSlot (MyPState w) k).
  rewrite <- Hslot, Hacc.
  destruct (slot_status_in_window _ k Hwf Hk
              ltac:(rewrite <- Hslot; exact Hused)) as [[_ Hst] | [_ Hst]];
    rewrite <- Hslot in Hst; rewrite Hst; reflexivity.
Qed.

(** One that is not is waited for and retired, and a new request is
    registered. *)
Lemma register_replaces_stale env fuel tag force_latest force_lsn w slot :
  pipeline_ok (MyPState w) ->
  2 <= readahead_buffer_size (MyPState w) ->
  ring_unused (MyPState w) - ring_last (MyPState w)
  < readahead_buffer_size (MyPState w) ->
  ring_unused (MyPState w) + readahead_buffer_size (MyPState w) < 2 ^ 64 ->
  buffered (MyPState w) tag = Some slot ->
  request_lsn_acceptable (Some force_latest) (Some force_lsn) slot = false ->
  let r := prefetch_register_buffer env fuel tag (Some force_latest)
             (Some force_lsn) w in
  let p' := MyPState (snd r) in
  pipeline_ok p' /\
  my_ring_index slot < ring_receive p' /\
  ((forall c, (ps_clock w <= c)%nat -> ps_send env c = true) ->
   fuel <> 0%nat -> exists k, fst r = Return k) /\
  match fst r with
  | Return k =>
      k = ring_unused (MyPState w) /\
      trace (snd r)
      = trace w
        ++ [EvPageServerSend
              (NeonGetPageRequest force_latest force_lsn (rnode tag)
                 (forkNum tag) (blockNum tag))] /\
      prefetch_duplicates (snd r) = prefetch_duplicates w /\
      (forall j, ring_last p' <= j < ring_unused p' ->
         status (GetPrfSlot p' j) <> PRFS_UNUSED ->
         buftag (GetPrfSlot p' j) = tag -> j = k) /\
      registered_or_dropped env (ps_clock w) tag k p' /\
      (registered_at tag k p' ->
       effective_request_lsn (GetPrfSlot p' k) = force_lsn)
  | OutOfFuel => trace (snd r) = trace w
  | Raise _ _ => False
  end.
Proof.
  intros Hok Hcap Hroom Hmax Hb Hacc. cbv zeta.
  pose proof (register_stale_received env fuel tag (Some force_latest)
                (Some force_lsn) w slot Hok Hcap Hroom Hmax Hb Hacc) as Hrcv.
  pose proof (prefetch_register_buffer_ok env fuel tag (Some force_latest)
                (Some force_lsn) w Hok Hcap Hroom Hmax) as Hreg.
  rewrite choose_request_lsn_forced in Hreg. cbv zeta in Hreg.
  destruct Hreg as (Hok' & _ & _ & _ & Hcase).
  split; [exact Hok' |]. split; [exact Hrcv |].
  split.
  { intros Hsend Hfuel. destruct fuel as [| fuel]; [congruence |].
    apply (prefetch_register_buffer_returns env fuel tag (Some force_latest)
             (Some force_lsn) w Hok Hcap Hroom Hmax Hsend). }
  destruct (prefetch_register_buffer env fuel tag (Some force_latest)
              (Some force_lsn) w) as [[k | lvl site |] w'];
    cbn [fst snd] in *; [| exact Hcase | exact (proj1 Hcase)].
  destruct Hcase as (_ & [(_ & Hat & Hgood) | Hnew]).
  - exfalso.
    destruct (buffered_slot _ _ _ Hok Hb) as (k' & _ & Hpos' & Hslot' & _).
    destruct Hat as (_ & Hpos & _).
    rewrite Hpos' in Hpos. injection Hpos as Hpos.
    assert (Hsame : GetPrfSlot (MyPState w) k = slot).
    { rewrite Hslot'. unfold GetPrfSlot, buf_get. unfold slot_pos in Hpos.
      rewrite Hpos. reflexivity. }
    rewrite Hsame, Hacc in Hgood. discriminate Hgood.
  - destruct Hnew as (_ & -> & _ & Hq & Htr & Hrd & Heff).
    split; [reflexivity |]. split; [exact Htr |].
    split; [exact (proj1 (proj2 (proj2 (proj2 (proj2 Hq))))) |].
    split; [exact (registered_slot_is_sole env _ tag _ _ Hok' Hrd) |].
    split; [exact Hrd | exact Heff].
Qed.

(** What the lookup of [neon_read_at_lsn] leaves of a request whose LSN is
    too small. *)
Lemma read_lookup_stale_ok env tag request_lsn w slot :
  pipeline_ok (MyPState w) ->
  buffered (MyPState w) tag = Some slot ->
  effective_request_lsn slot < request_lsn ->
  (status slot = PRFS_REQUESTED ->
   forall c, (ps_clock w <= c)%nat ->
     ps_flush env c = true /\ ps_receive env c <> None) ->
  let r := read_lookup env tag request_lsn w in
  fst r = None /\
  pipeline_ok (MyPState (snd r)) /\
  retires (MyPState w) (MyPState (snd r)) /\
  prf_hash (MyPState (snd r)) !! tag = None /\
  my_ring_index slot < ring_receive (MyPState (snd r)) /\
  prefetch_expired (snd r) = prefetch_expired w + 1 /\
  prefetch_hits (snd r) = prefetch_hits w /\
  prefetch_misses (snd r) = prefetch_misses w /\
  trace (snd r) = trace w /\
  (ps_clock w <= ps_clock (snd r))%nat.
Proof.
  intros Hok Hb Hlsn Hhealthy. cbv zeta.
  rewrite (read_lookup_stale env tag request_lsn w slot Hok Hb Hlsn Hhealthy).
  destruct (buffered_slot _ _ _ Hok Hb)
    as (k & Hk & Hpos & Hslot & Htag & Hidx & Hused).
  rewrite Hidx.
  destruct (wait_and_retire_ok env k w Hok Hk
              ltac:(rewrite <- Hslot; exact Hused))
    as (Hok1 & Hret1 & (Hq1 & Htr1) & Hnone1 & _).
  rewrite <- Hslot, Htag in Hnone1.
  pose proof (wait_and_retire_received env k w Hok Hk) as Hrcv1.
  destruct Hq1 as (_ & Hh & Hm & He & _ & _ & _ & Hclk).
  set (w1 := wait_and_retire env k w) in *.
  cbn [fst snd MyPState set_prefetch_expired prefetch_expired prefetch_hits
       prefetch_misses trace ps_clock].
  split; [reflexivity |]. split; [exact Hok1 |]. split; [exact Hret1 |].
  split; [exact Hnone1 |]. split; [exact Hrcv1 |]. split; [lia |].
  split; [exact Hh |]. split; [exact Hm |]. split; [exact Htr1 | exact Hclk].
Qed.

(** ** What a synchronous request costs *)

Lemma neon_nblocks_asked env fuel reln forknum w :
  smgr_relpersistence reln = RELPERSISTENCE_PERMANENT ->
  get_cached_relsize w (smgr_rnode reln) forknum = None ->
  pipeline_ok (MyPState w) ->
  let '(latest, lsn, w0) :=
    neon_get_request_lsn env (smgr_rnode reln) forknum
      (REL_METADATA_PSEUDO_BLOCKNO env) w in
  let req := NeonNblocksRequest latest lsn (smgr_rnode reln) forknum in
  let r := neon_nblocks env fuel reln forknum w in
  (exists n, (n <= fuel)%nat /\
     trace (snd r) = trace w0 ++ replicate n (EvPageServerSend req) /\
     (fst r <> OutOfFuel -> (1 <= n)%nat)) /\
  ((forall c, ps_send env c = true /\ ps_flush env c = true /\
              ps_receive env c <> None) ->
   fuel <> 0%nat ->
   fst r <> OutOfFuel /\
   trace (snd r) = trace w0 ++ [EvPageServerSend req]) /\
  match fst r with
  | Raise lvl site =>
      drained (MyPState (snd r)) /\
      exists resp,
        ps_receive env (Nat.pred (ps_clock (snd r))) = Some resp /\
        match resp with
        | NeonNblocksResponse _ => False
        | NeonErrorResponse _ => site = could_not_read_relation_size
        | _ => site = unexpected_response
        end
  | _ => True
  end.
Proof.
  intros Hperm Hnone Hok.
  pose proof (request_lsn_frame env (smgr_rnode reln) forknum
                (REL_METADATA_PSEUDO_BLOCKNO env) w) as Hfr.
  unfold neon_nblocks. rewrite Hperm, Hnone. cbn [Z.eqb Pos.eqb].
  destruct (neon_get_request_lsn env (smgr_rnode reln) forknum
              (REL_METADATA_PSEUDO_BLOCKNO env) w) as [[latest lsn] w0].
  destruct Hfr as (HP0 & _). cbv zeta.
  set (req := NeonNblocksRequest latest lsn (smgr_rnode reln) forknum).
  destruct (page_server_request_ok env fuel req w0
              ltac:(rewrite HP0; exact Hok))
    as (_ & _ & _ & (n & Hn & Htr1 & Hone) & Hcase).
  assert (Hanswer :
    (forall c, ps_send env c = true /\ ps_flush env c = true /\
               ps_receive env c <> None) ->
    fuel <> 0%nat ->
    exists resp,
      fst (page_server_request env fuel req w0) = Return resp /\
      trace (snd (page_server_request env fuel req w0))
      = trace w0 ++ [EvPageServerSend req]).
  { intros Hsound Hfuel. destruct fuel as [| fuel]; [congruence |].
    apply page_server_request_answered, Hsound. }
  destruct (page_server_request env fuel req w0) as [[resp | lvl site |] w1];
    cbn [fst snd bindS] in *; [| destruct Hcase |].
  - destruct Hcase as (Hdr & _ & Hrcv).
    assert (Htrace : forall w', trace w' = trace w1 ->
      (exists n0, (n0 <= fuel)%nat /\
         trace w' = trace w0 ++ replicate n0 (EvPageServerSend req) /\
         (1 <= n0)%nat) /\
      ((forall c, ps_send env c = true /\ ps_flush env c = true /\
                  ps_receive env c <> None) ->
       fuel <> 0%nat -> trace w' = trace w0 ++ [EvPageServerSend req])).
    { intros w' ->. split.
      - exists n. split; [exact Hn |]. split; [exact Htr1 |].
        exact (Hone resp eq_refl).
      - intros Hs Hf. destruct (Hanswer Hs Hf) as (_ & _ & H). exact H. }
    destruct resp; cbn [fst snd].
    all: try (destruct (Htrace w1 eq_refl) as ((n0 & A & B & C) & D);
              split; [exists n0; auto |];
              split; [intros Hs Hf; split; [discriminate | exact (D Hs Hf)] |];
              split; [exact Hdr |]; eexists; split; [exact Hrcv |];
              reflexivity).
    destruct (Htrace (update_cached_relsize (smgr_rnode reln) forknum
                        n_blocks w1)
                (trace_update_cached_relsize _ _ _ _))
      as ((n0 & A & B & C) & D).
    split; [exists n0; auto |].
    split; [intros Hs Hf; split; [discriminate | exact (D Hs Hf)] | exact I].
  - split; [exists n; split; [exact Hn |]; split; [exact Htr1 |];
            intros H; destruct (H eq_refl) |].
    split; [| exact I].
    intros Hs Hf. destruct (Hanswer Hs Hf) as (resp & H & _). discriminate H.
Qed.

(** ** Reuse of a buffered request, on a pipeline in good order *)

(** C1, as the code has it. Let the pipeline be in good order, with at
    least two slots and one of them free, and let the tag index hold a slot
    for the block. With forced parameters, [prefetch_register_buffer] hands
    that slot back exactly when its LSN passes the test (at least
    [force_lsn] when [force_latest], equal to it otherwise), and then only
    counts a duplicate. A slot that fails the test is waited for and
    retired and a new request is registered: every response up to that of
    the old request has been received or dropped with the connection, one
    request with the forced LSN and flag has been sent, its slot is the only
    one in use that holds the tag, and the pipeline is in good order; the
    call raises no error and returns when the transport accepts the
    request. The lookup of [neon_read_at_lsn] applies one test whatever
    [request_latest] is: it reads from the slot when its LSN is at least
    [request_lsn]; otherwise, on a transport that delivers where the
    request is still in flight, the request is waited for and retired: the
    tag has left the index, the receive pointer is beyond the slot, and one
    expired prefetch is counted. The read then counts a miss, sends one
    request of its own with the LSN and flag it was given, and decides on
    the response to it. *)
Theorem reuse_of_buffered_request (env : Env) (rn : RelFileNode)
  (forkNum_ blkno : Z) (pos : nat) (w : World) :
  let tag := mkBufferTag rn forkNum_ blkno in
  let p := MyPState w in
  pipeline_ok p ->
  2 <= readahead_buffer_size p ->
  ring_unused p - ring_last p < readahead_buffer_size p ->
  ring_unused p + readahead_buffer_size p < 2 ^ 64 ->
  prfh_lookup (prf_hash p) tag = Some pos ->
  let slot := prf_buffer p !!! pos in
  let k0 := my_ring_index slot in
  (forall (fuel : nat) (force_latest : bool) (force_lsn : Z),
     let r := prefetch_register_buffer env fuel tag (Some force_latest)
                (Some force_lsn) w in
     let p' := MyPState (snd r) in
     ((if force_latest then force_lsn <= effective_request_lsn slot
       else effective_request_lsn slot = force_lsn) ->
      r = (Return k0,
           set_prefetch_duplicates (prefetch_duplicates w + 1) w)) /\
     ((if force_latest then effective_request_lsn slot < force_lsn
       else effective_request_lsn slot <> force_lsn) ->
      pipeline_ok p' /\
      k0 < ring_receive p' /\
      ((forall c, (ps_clock w <= c)%nat -> ps_send env c = true) ->
       fuel <> 0%nat -> exists k, fst r = Return k) /\
      match fst r with
      | Return k =>
          k = ring_unused p /\
          trace (snd r)
          = trace w
            ++ [EvPageServerSend
                  (NeonGetPageRequest force_latest force_lsn rn forkNum_
                     blkno)] /\
          prefetch_duplicates (snd r) = prefetch_duplicates w /\
          (forall j, ring_last p' <= j < ring_unused p' ->
             status (GetPrfSlot p' j) <> PRFS_UNUSED ->
             buftag (GetPrfSlot p' j) = tag -> j = k) /\
          registered_or_dropped env (ps_clock w) tag k p' /\
          (registered_at tag k p' ->
           effective_request_lsn (GetPrfSlot p' k) = force_lsn)
      | OutOfFuel => trace (snd r) = trace w
      | Raise _ _ => False
      end)) /\
  (forall request_lsn : Z,
     let r := read_lookup env tag request_lsn w in
     (request_lsn <= effective_request_lsn slot ->
      r = (Some (pos, k0), set_prefetch_hits (prefetch_hits w + 1) w)) /\
     (effective_request_lsn slot < request_lsn ->
      (status slot = PRFS_REQUESTED ->
       forall c, (ps_clock w <= c)%nat ->
         ps_flush env c = true /\ ps_receive env c <> None) ->
      fst r = None /\
      pipeline_ok (MyPState (snd r)) /\
      retires p (MyPState (snd r)) /\
      prf_hash (MyPState (snd r)) !! tag = None /\
      k0 < ring_receive (MyPState (snd r)) /\
      prefetch_expired (snd r) = prefetch_expired w + 1 /\
      prefetch_hits (snd r) = prefetch_hits w /\
      prefetch_misses (snd r) = prefetch_misses w /\
      trace (snd r) = trace w)) /\
  (forall (fuel : nat) (request_lsn : Z) (request_latest : bool),
     effective_request_lsn slot < request_lsn ->
     (forall c, (ps_clock w <= c)%nat ->
        ps_send env c = true /\ ps_flush env c = true /\
        ps_receive env c <> None) ->
     let r := neon_read_at_lsn env (S fuel) rn forkNum_ blkno request_lsn
                request_latest w in
     let p' := MyPState (snd r) in
     pipeline_ok p' /\
     prefetch_hits (snd r) = prefetch_hits w /\
     prefetch_misses (snd r) = prefetch_misses w + 1 /\
     requests_sent (trace (snd r))
     = requests_sent (trace w)
       ++ [NeonGetPageRequest request_latest request_lsn rn forkNum_ blkno] /\
     ring_unused p' = ring_unused p + 1 /\
     ring_receive p' = ring_unused p' /\
     exists resp,
       ps_receive env (Nat.pred (ps_clock (snd r))) = Some resp /\
       match resp with
       | NeonGetPageResponse page =>
           fst r = Return page /\ prf_hash p' !! tag = None
       | NeonErrorResponse _ => fst r = Raise ERROR could_not_read_block
       | _ => fst r = Raise ERROR unexpected_response
       end).
Proof.
  intros tag p Hok Hcap Hroom Hmax Hhit slot k0. subst p.
  unfold prfh_lookup in Hhit.
  assert (Hb : buffered (MyPState w) tag = Some slot)
    by (unfold buffered; rewrite Hhit; reflexivity).
  split; [| split].
  - intros fuel force_latest force_lsn. cbv zeta.
    pose proof (acceptable_forced force_latest force_lsn slot) as Hacc.
    split; intros Htest.
    + apply (register_hands_back env fuel tag _ _ w slot Hok Hb).
      rewrite Hacc. destruct force_latest;
        [apply Z.leb_le | apply Z.eqb_eq]; exact Htest.
    + apply (register_replaces_stale env fuel tag force_latest force_lsn w
               slot Hok Hcap Hroom Hmax Hb).
      rewrite Hacc. destruct force_latest;
        [apply Z.leb_gt | apply Z.eqb_neq]; exact Htest.
  - intros request_lsn. cbv zeta. split.
    + intros Hle. unfold read_lookup, prfh_lookup. rewrite Hhit. fold slot.
      destruct (Z.leb_spec request_lsn (effective_request_lsn slot));
        [reflexivity | lia].
    + intros Hlt Hhealthy.
      destruct (read_lookup_stale_ok env tag request_lsn w slot Hok Hb Hlt
                  Hhealthy)
        as (H1 & H2 & H3 & H4 & H5 & H6 & H7 & H8 & H9 & _).
      repeat (split; [assumption |]). assumption.
  - intros fuel request_lsn request_latest Hlt Hhealthy. cbv zeta.
    rewrite neon_read_at_lsn_unfold. cbv zeta. fold tag.
    set (w0 := if RecoveryInProgress env && negb (am_startup_process env)
               then emit (EvXLogWaitForReplayOf request_lsn) w else w).
    assert (HP0 : MyPState w0 = MyPState w)
      by (unfold w0; destruct (_ && _); reflexivity).
    assert (Hs0 : requests_sent (trace w0) = requests_sent (trace w))
      by (unfold w0; destruct (_ && _); [| reflexivity];
          change (requests_sent
                    (trace w ++ [EvXLogWaitForReplayOf request_lsn])
                  = requests_sent (trace w));
          rewrite requests_sent_app, app_nil_r; reflexivity).
    assert (Hh0 : prefetch_hits w0 = prefetch_hits w)
      by (unfold w0; destruct (_ && _); reflexivity).
    assert (Hm0 : prefetch_misses w0 = prefetch_misses w)
      by (unfold w0; destruct (_ && _); reflexivity).
    assert (Hc0 : ps_clock w0 = ps_clock w)
      by (unfold w0; destruct (_ && _); reflexivity).
    clearbody w0.
    destruct (read_lookup_stale_ok env tag request_lsn w0 slot
                ltac:(rewrite HP0; exact Hok) ltac:(rewrite HP0; exact Hb)
                Hlt
                ltac:(intros _ c Hc; split; apply Hhealthy; lia))
      as (Hnone & Hok1 & Hret1 & Hgone1 & _ & _ & Hh1 & Hm1 & Htr1 & Hclk1).
    destruct (read_lookup env tag request_lsn w0) as [entry w1].
    cbn [fst snd] in *. subst entry.
    pose proof (rt_size _ _ Hret1) as Hsz1.
    pose proof (rt_unused _ _ Hret1) as HU1.
    pose proof (rt_last _ _ Hret1) as HL1.
    rewrite HP0 in Hsz1, HU1, HL1.
    destruct (read_wait_miss env fuel rn forkNum_ blkno request_lsn
                request_latest w1 Hok1
                ltac:(rewrite Hsz1; exact Hcap)
                ltac:(rewrite Hsz1, HU1; lia)
                ltac:(rewrite Hsz1, HU1; exact Hmax)
                Hgone1
                ltac:(intros c Hc; apply Hhealthy; lia))
      as (A1 & A2 & A3 & A4 & A5 & resp & Hrecv & Hresp).
    fold tag in A1, A2, A3, A4, A5, Hrecv, Hresp |- *.
    set (r := let* (found, w') :=
                read_wait_loop env (S fuel) tag request_latest request_lsn
                  None w1 in
              read_finish rn forkNum_ blkno found w') in *.
    split; [exact A1 |]. split; [lia |]. split; [lia |].
    split.
    { rewrite <- Hs0, <- Htr1.
      destruct resp; destruct Hresp as (_ & R2);
        try (rewrite R2, requests_sent_app; reflexivity).
      destruct R2 as (-> & _).
      rewrite !requests_sent_app, app_nil_r. reflexivity. }
    split; [lia |]. split; [exact A5 |].
    exists resp. split; [exact Hrecv |].
    destruct resp; destruct Hresp as (R1 & R2); try exact R1.
    split; [exact R1 | exact (proj2 R2)].
Qed.

Lemma reuse_of_buffered_request_witness :
  fst (prefetch_register_buffer recovery_env 1 (sample_tag 7) (Some false)
         (Some 50) standby_one_in_flight)
  = Return (ring_unused (MyPState standby_one_in_flight)) /\
  fst (read_lookup recovery_env (sample_tag 7) 150 standby_one_in_flight)
  = None /\
  fst (neon_read_at_lsn recovery_env 1 sample_rnode 0 7 150 true
         standby_one_in_flight)
  = Return sample_page.
Proof.
  destruct (reuse_of_buffered_request recovery_env sample_rnode 0 7 0%nat
              standby_one_in_flight
              ltac:(apply pipeline_ok_checked; apply (bool_decide_unpack _);
                    vm_compute; exact I)
              ltac:(vm_compute; discriminate)
              ltac:(vm_compute; reflexivity)
              ltac:(vm_compute; reflexivity)
              ltac:(vm_compute; reflexivity))
    as (Hregister & Hlookup & Hread).
  assert (Hhealthy : forall c, (ps_clock standby_one_in_flight <= c)%nat ->
            ps_send recovery_env c = true /\ ps_flush recovery_env c = true /\
            ps_receive recovery_env c <> None)
    by (intros c _; split; [reflexivity |];
        split; [reflexivity | discriminate]).
  split; [| split].
  - destruct (Hregister 1%nat false 50) as (_ & Hstale).
    destruct (Hstale ltac:(vm_compute; discriminate))
      as (_ & _ & Hreturns & Hcase).
    destruct (Hreturns ltac:(intros c _; reflexivity) ltac:(discriminate))
      as (k & Hk).
    rewrite Hk in Hcase. destruct Hcase as (-> & _). exact Hk.
  - destruct (Hlookup 150) as (_ & Hstale).
    exact (proj1 (Hstale ltac:(vm_compute; reflexivity)
                    ltac:(intros _ c Hc; split; apply Hhealthy, Hc))).
  - destruct (Hread 0%nat 150 true ltac:(vm_compute; reflexivity) Hhealthy)
      as (_ & _ & _ & _ & _ & _ & resp & Hrecv & Hcase).
    change (Some (NeonGetPageResponse sample_page) = Some resp) in Hrecv.
    injection Hrecv as <-. exact (proj1 Hcase).
Defined.

(** ** The operations of the ring, one by one *)

(** X7. For every positive setting of [readahead_buffer_size], the state
    that [neon_init] allocates is a pipeline in good order: its buffer has
    that many slots, all of them unused, the ring is empty, nothing is in
    flight or unflushed, and the tag index holds no tag. *)
Theorem neon_init_in_good_order (size : Z) :
  0 < size ->
  pipeline_ok (neon_init size) /\ drained (neon_init size) /\
  readahead_buffer_size (neon_init size) = size /\
  ring_unused (neon_init size) = 0 /\ ring_last (neon_init size) = 0 /\
  forall t, prf_hash (neon_init size) !! t = None.
Proof.
  intros Hsize.
  assert (Hcap : readahead_buffer_size (neon_init size) = size).
  { unfold readahead_buffer_size, neon_init. simpl.
    rewrite length_replicate. lia. }
  split; [| split; [repeat split | split; [exact Hcap |
    split; [reflexivity | split; [reflexivity | intros t; apply lookup_empty]]]]].
  split; [| split].
  - constructor.
    + rewrite Hcap. exact Hsize.
    + simpl. lia.
    + rewrite Hcap. simpl. lia.
    + simpl. intros k Hk. lia.
    + simpl. intros k Hk. lia.
    + intros k _. rewrite neon_init_slot by exact Hsize. reflexivity.
    + intros t i H. simpl in H. rewrite lookup_empty in H. discriminate H.
    + simpl. intros k Hk. lia.
    + reflexivity.
  - constructor; simpl; intros; lia.
  - intros H. simpl in H. lia.
Qed.

Lemma neon_init_in_good_order_witness :
  0 < 16 /\ pipeline_ok (neon_init 16) /\ drained (neon_init 16).
Proof.
  split; [lia |].
  destruct (neon_init_in_good_order 16 ltac:(lia)) as (Hok & Hdrained & _).
  exact (conj Hok Hdrained).
Defined.

(** X8. On a well-formed pipeline, [prefetch_cleanup_trailing_unused] moves
    [ring_last] over the retired slots at the tail of the ring and over
    nothing else: it stops at the first slot in use, or at [ring_receive].
    It writes no slot and no entry of the tag index, moves no other
    counter, and leaves the pipeline in good order. *)
Theorem cleanup_stops_at_first_slot_in_use (p : PrefetchState) :
  pipeline_wf p -> pipeline_ext p ->
  let p' := prefetch_cleanup_trailing_unused p in
  pipeline_ok p' /\
  prf_buffer p' = prf_buffer p /\ prf_hash p' = prf_hash p /\
  ring_unused p' = ring_unused p /\ ring_flush p' = ring_flush p /\
  ring_receive p' = ring_receive p /\
  n_requests_inflight p' = n_requests_inflight p /\
  ring_last p <= ring_last p' <= ring_receive p /\
  (forall k, ring_last p <= k < ring_last p' ->
     status (GetPrfSlot p k) = PRFS_UNUSED) /\
  (ring_last p' < ring_unused p ->
   status (GetPrfSlot p (ring_last p')) <> PRFS_UNUSED).
Proof.
  intros Hwf Hext. cbv zeta.
  destruct (cleanup_ok p Hwf Hext)
    as (Hok & Hret & Hbuf & Hhash & HR & HF & HI & Hskipped).
  pose proof (wf_order _ (proj1 Hok)) as Hord.
  split; [exact Hok |]. split; [exact Hbuf |]. split; [exact Hhash |].
  split; [exact (rt_unused _ _ Hret) |]. split; [exact HF |].
  split; [exact HR |]. split; [exact HI |].
  split; [pose proof (rt_last _ _ Hret); lia |].
  split; [exact Hskipped |].
  intros Hlt. destruct Hok as (_ & _ & Htrim).
  unfold trimmed in Htrim. rewrite (rt_unused _ _ Hret) in Htrim.
  unfold GetPrfSlot in *. rewrite Hbuf in Htrim. exact (Htrim Hlt).
Qed.

Lemma cleanup_stops_at_first_slot_in_use_witness :
  ring_last oldest_retired = 0 /\
  ring_last (prefetch_cleanup_trailing_unused oldest_retired) = 1.
Proof.
  assert (Hwf : pipeline_wf oldest_retired).
  { apply pipeline_wf_checked. apply (bool_decide_unpack _). vm_compute.
    exact I. }
  assert (Hext : pipeline_ext oldest_retired).
  { apply pipeline_ext_checked. apply (bool_decide_unpack _). vm_compute.
    exact I. }
  split; [reflexivity |].
  destruct (cleanup_stops_at_first_slot_in_use oldest_retired Hwf Hext)
    as (_ & _ & _ & _ & _ & _ & _ & Hrange & Hskipped & Hstop).
  assert (Hu : ring_unused oldest_retired = 3) by reflexivity.
  assert (H0 : status (GetPrfSlot oldest_retired 0) = PRFS_UNUSED)
    by (vm_compute; reflexivity).
  assert (H1 : status (GetPrfSlot oldest_retired 1) = PRFS_RECEIVED)
    by (vm_compute; reflexivity).
  assert (HL : ring_last oldest_retired = 0) by reflexivity.
  rewrite HL in Hrange, Hskipped. rewrite Hu in Hstop.
  destruct (Z.eq_dec
              (ring_last (prefetch_cleanup_trailing_unused oldest_retired)) 0)
    as [E | NE0].
  - exfalso. rewrite E in Hstop. apply Hstop; [lia | exact H0].
  - destruct (Z.le_gt_cases
                (ring_last (prefetch_cleanup_trailing_unused oldest_retired)) 1)
      as [Hle | Hgt]; [lia |].
    specialize (Hskipped 1 ltac:(lia)). rewrite H1 in Hskipped.
    discriminate Hskipped.
Defined.

(** X9. On a pipeline in good order, [compact_prefetch_buffers] reports a
    move exactly when a retired slot lies among the responses received.
    After a move no such slot is left, and [ring_last] has advanced.
    Moved or not, every tag of the index finds the same request LSN,
    response and status as before, the requests in flight are not touched,
    and the pipeline is in good order; when nothing is moved, nothing at
    all has changed. *)
Theorem compaction_closes_gaps_and_keeps_contents (p : PrefetchState) :
  pipeline_ok p ->
  let '(moved, p') := compact_prefetch_buffers p in
  pipeline_ok p' /\
  (moved = true <->
   exists k, ring_last p <= k < ring_receive p /\
             status (GetPrfSlot p k) = PRFS_UNUSED) /\
  (moved = true ->
   ring_last p < ring_last p' /\
   forall k, ring_last p' <= k < ring_receive p ->
     status (GetPrfSlot p' k) <> PRFS_UNUSED) /\
  (moved = false -> p' = p) /\
  (forall t, slot_content <$> buffered p' t = slot_content <$> buffered p t) /\
  ring_unused p' = ring_unused p /\ ring_receive p' = ring_receive p /\
  ring_flush p' = ring_flush p /\
  n_requests_inflight p' = n_requests_inflight p /\
  readahead_buffer_size p' = readahead_buffer_size p.
Proof.
  intros Hok. pose proof (compact_ok p Hok) as H.
  destruct (compact_prefetch_buffers p) as [moved p'].
  destruct H as (Hok' & Hret & Hcont & HR & HF & HI & Hsame & Hmoved & Hiff).
  split; [exact Hok' |]. split; [exact Hiff |]. split; [exact Hmoved |].
  split; [exact Hsame |]. split; [exact Hcont |].
  split; [exact (rt_unused _ _ Hret) |]. split; [exact HR |].
  split; [exact HF |]. split; [exact HI | exact (rt_size _ _ Hret)].
Qed.

Lemma compaction_closes_gaps_and_keeps_contents_witness :
  fst (compact_prefetch_buffers middle_retired) = true /\
  pipeline_ok (snd (compact_prefetch_buffers middle_retired)).
Proof.
  pose proof (compaction_closes_gaps_and_keeps_contents middle_retired
                middle_retired_ok) as H.
  destruct (compact_prefetch_buffers middle_retired) as [moved p'].
  destruct H as (Hok & Hiff & _).
  split; [| exact Hok].
  apply Hiff. exists 1. split; [vm_compute; split; [discriminate | reflexivity] |].
  vm_compute. reflexivity.
Defined.

(** X10. [prefetch_set_unused] on a slot that is not waiting for a
    response, in a pipeline in good order: the tag of the slot leaves the
    tag index, every other tag finds the same request LSN, response and
    status as before, the requests in flight and the counters of the ring
    other than [ring_last] are as they were, [ring_last] does not go back
    and advances when the slot was the oldest, and the pipeline is in good
    order. *)
Theorem set_unused_retires_one_slot (k : Z) (p : PrefetchState) :
  pipeline_ok p -> k < ring_receive p ->
  let p' := prefetch_set_unused k p in
  pipeline_ok p' /\
  (ring_last p <= k -> status (GetPrfSlot p k) <> PRFS_UNUSED ->
   prf_hash p' !! buftag (GetPrfSlot p k) = None) /\
  (forall t, t <> buftag (GetPrfSlot p k) ->
     slot_content <$> buffered p' t = slot_content <$> buffered p t) /\
  (forall t, prf_hash p !! t = None -> prf_hash p' !! t = None) /\
  ring_unused p' = ring_unused p /\ ring_receive p' = ring_receive p /\
  ring_flush p' = ring_flush p /\
  n_requests_inflight p' = n_requests_inflight p /\
  readahead_buffer_size p' = readahead_buffer_size p /\
  ring_last p <= ring_last p' /\
  (k = ring_last p -> status (GetPrfSlot p k) <> PRFS_UNUSED ->
   ring_last p < ring_last p').
Proof.
  intros Hok Hk. cbv zeta.
  destruct (set_unused_ok k p Hok Hk)
    as (Hok' & Hret & HR & HF & HI & Hgone & Hothers & Hadv).
  split; [exact Hok' |]. split; [exact Hgone |]. split; [exact Hothers |].
  split; [exact (rt_absent _ _ Hret) |].
  split; [exact (rt_unused _ _ Hret) |]. split; [exact HR |].
  split; [exact HF |]. split; [exact HI |].
  split; [exact (rt_size _ _ Hret) |].
  split; [exact (rt_last _ _ Hret) | exact Hadv].
Qed.

Lemma set_unused_retires_one_slot_witness :
  prf_hash (prefetch_set_unused 1 three_received) !! sample_tag 2 = None /\
  slot_content <$> buffered (prefetch_set_unused 1 three_received)
                     (sample_tag 3)
  = slot_content <$> buffered three_received (sample_tag 3).
Proof.
  destruct (set_unused_retires_one_slot 1 three_received three_received_ok
              ltac:(vm_compute; reflexivity))
    as (_ & Hgone & Hothers & _).
  split.
  - apply Hgone; vm_compute; discriminate.
  - apply Hothers. vm_compute. discriminate.
Defined.

(** X11. [prefetch_on_ps_disconnect] on a pipeline in good order drops
    the requests in flight and nothing else: their tags leave the tag
    index, nothing is left in flight or unflushed, and every tag that
    belongs to none of them finds the same request LSN, response and
    status as before, so that the responses already received stay
    available. [ring_unused] and the size of the buffer are as they were,
    [ring_last] does not go back, and the pipeline is in good order. *)
Theorem disconnect_drops_only_requests_in_flight (p : PrefetchState) :
  pipeline_ok p ->
  let p' := prefetch_on_ps_disconnect p in
  pipeline_ok p' /\ drained p' /\
  (forall k, ring_receive p <= k < ring_unused p ->
     prf_hash p' !! buftag (GetPrfSlot p k) = None) /\
  (forall t,
     (forall k, ring_receive p <= k < ring_unused p ->
        buftag (GetPrfSlot p k) <> t) ->
     slot_content <$> buffered p' t = slot_content <$> buffered p t) /\
  ring_unused p' = ring_unused p /\
  readahead_buffer_size p' = readahead_buffer_size p /\
  ring_last p <= ring_last p'.
Proof.
  intros Hok. cbv zeta.
  destruct (disconnect_ok p Hok) as (Hok' & Hret & HF & HR & HI & Hgone & _).
  pose proof (rt_unused _ _ Hret) as HU.
  split; [exact Hok' |].
  split; [unfold drained; rewrite HF, HR, HI, HU; repeat split |].
  split; [exact Hgone |].
  split; [intros t Ht; exact (disconnect_content p t Hok Ht) |].
  split; [exact HU |].
  split; [exact (rt_size _ _ Hret) | exact (rt_last _ _ Hret)].
Qed.

Lemma disconnect_drops_only_requests_in_flight_witness :
  drained (prefetch_on_ps_disconnect (MyPState three_in_flight)) /\
  prf_hash (prefetch_on_ps_disconnect (MyPState three_in_flight))
    !! sample_tag 2 = None.
Proof.
  destruct (disconnect_drops_only_requests_in_flight
              (MyPState three_in_flight) three_in_flight_ok)
    as (_ & Hdrained & Hgone & _).
  split; [exact Hdrained |].
  apply (Hgone 1). vm_compute. split; [discriminate | reflexivity].
Defined.

(** X12. [prefetch_wait_for] of a ring index below [ring_unused], on a
    pipeline in good order. It calls no service but the transport and
    changes nothing of the backend outside the pipeline. When it returns
    true, the output has been flushed beyond the index, the slots from
    [ring_receive] up to the index hold the last responses that the
    transport delivered, in the order of the requests, the slot of the
    index holding the very last one, and nothing else of the ring has
    changed but [ring_receive]. When it returns false, the
    connection was lost: nothing is left in flight, and the request of the
    index has been dropped with those after it. Either way the pipeline is
    in good order; and on a transport that delivers it returns true. *)
Theorem wait_for_receives_or_drops (env : Env) (k : Z) (w : World) :
  pipeline_ok (MyPState w) ->
  k < ring_unused (MyPState w) ->
  let r := prefetch_wait_for env k w in
  pipeline_ok (MyPState (snd r)) /\
  pipeline_only w (snd r) /\
  ring_unused (MyPState (snd r)) = ring_unused (MyPState w) /\
  readahead_buffer_size (MyPState (snd r))
  = readahead_buffer_size (MyPState w) /\
  (fst r = true ->
   k < ring_flush (MyPState (snd r)) /\
   waited_for env (ps_clock w) (ps_clock (snd r)) k (MyPState w)
     (MyPState (snd r))) /\
  (fst r = false -> dropped_from k (MyPState w) (MyPState (snd r))) /\
  ((forall c, (ps_clock w <= c)%nat ->
      ps_flush env c = true /\ ps_receive env c <> None) ->
   fst r = true).
Proof.
  intros Hok Hk. cbv zeta.
  destruct (prefetch_wait_for_ok env k w Hok Hk)
    as (Hok' & Hret & Honly & Hfalse & Htrue).
  split; [exact Hok' |]. split; [exact Honly |].
  split; [exact (rt_unused _ _ Hret) |]. split; [exact (rt_size _ _ Hret) |].
  split; [exact Htrue |]. split; [exact Hfalse |].
  exact (prefetch_wait_for_healthy env k w).
Qed.

Lemma wait_for_receives_or_drops_witness :
  fst (prefetch_wait_for sample_env 1 three_in_flight) = true /\
  ring_receive (MyPState (snd (prefetch_wait_for sample_env 1 three_in_flight)))
  = 2.
Proof.
  destruct (wait_for_receives_or_drops sample_env 1 three_in_flight
              three_in_flight_ok ltac:(vm_compute; reflexivity))
    as (_ & _ & _ & _ & Htrue & _ & Hdelivers).
  assert (Hr : fst (prefetch_wait_for sample_env 1 three_in_flight) = true)
    by (apply Hdelivers; intros c _; split; [reflexivity | discriminate]).
  split; [exact Hr |].
  destruct (Htrue Hr) as (_ & _ & _ & _ & Hrcv & _).
  rewrite Hrcv. vm_compute. reflexivity.
Defined.

(** ** Registering and reading *)

(** The request that the tag index has under a tag is waiting for its
    response or holds it. *)
Lemma registered_status tag k p :
  pipeline_ok p -> registered_at tag k p ->
  status (GetPrfSlot p k) = PRFS_REQUESTED \/
  status (GetPrfSlot p k) = PRFS_RECEIVED.
Proof.
  intros (Hwf & _) (Hk & Hh & _).
  destruct (wf_hash_sound _ Hwf tag _ Hh) as (k' & Hk' & Hpos & _ & Hst).
  pose proof (wf_bound _ Hwf) as Hbnd.
  assert (Hkk : k = k').
  { apply (ring_slot_inj (prf_buffer p) (ring_last p));
      [unfold readahead_buffer_size in Hbnd; lia
      | unfold readahead_buffer_size in Hbnd; lia | exact Hpos]. }
  subst k'.
  destruct (slot_status_in_window p k Hwf Hk Hst) as [[_ H] | [_ H]]; auto.
Qed.

(** The LSN that [prefetch_do_request] records will do for the request it
    was chosen for. *)
Lemma chosen_lsn_acceptable env tag force_latest force_lsn w slot :
  effective_request_lsn slot
  = snd (fst (choose_request_lsn env tag force_latest force_lsn w)) ->
  request_lsn_acceptable force_latest force_lsn slot = true.
Proof.
  unfold choose_request_lsn, request_lsn_acceptable.
  destruct force_lsn as [l |], force_latest as [[|] |]; try reflexivity;
    cbn [fst snd]; intros ->.
  - apply negb_true_iff, Z.ltb_irrefl.
  - apply Z.eqb_refl.
Qed.

(** X13. [prefetch_register_buffer] on a pipeline in good order with at
    least two slots, one of them free. It raises no error and leaves the
    pipeline in good order, with a slot free again. Unless the flush at
    its end failed, which drops everything in flight, the slot of the
    ring index it returns is in the ring, holds a request for the tag that
    is waiting for its response or has it, and has an LSN that will do.
    That index is the one of a request already buffered, and then the call
    has counted a duplicate and changed nothing else; or it is the old
    [ring_unused], and then nothing suitable was buffered and exactly one
    request for the page has been sent, with the LSN chosen as in
    [prefetch_do_request], which is the LSN recorded in the slot. No other
    tag enters the tag index. *)
Theorem register_buffer_reuses_or_sends_once (env : Env) (fuel : nat)
  (tag : BufferTag) (force_latest : option bool) (force_lsn : option Z)
  (w : World) :
  pipeline_ok (MyPState w) ->
  2 <= readahead_buffer_size (MyPState w) ->
  ring_unused (MyPState w) - ring_last (MyPState w)
  < readahead_buffer_size (MyPState w) ->
  ring_unused (MyPState w) + readahead_buffer_size (MyPState w) < 2 ^ 64 ->
  let '(latest, lsn, eff, w0) :=
    choose_request_lsn env tag force_latest force_lsn w in
  let req :=
    NeonGetPageRequest latest lsn (rnode tag) (forkNum tag) (blockNum tag) in
  let r := prefetch_register_buffer env fuel tag force_latest force_lsn w in
  let p' := MyPState (snd r) in
  pipeline_ok p' /\
  readahead_buffer_size p' = readahead_buffer_size (MyPState w) /\
  ring_last (MyPState w) <= ring_last p' /\
  (forall t, prf_hash (MyPState w) !! t = None -> t <> tag ->
     prf_hash p' !! t = None) /\
  match fst r with
  | Return k =>
      ring_unused p' - ring_last p' < readahead_buffer_size p' /\
      ((ring_last p' <= k < ring_unused p' /\
        buffered p' tag = Some (GetPrfSlot p' k) /\
        buftag (GetPrfSlot p' k) = tag /\
        (status (GetPrfSlot p' k) = PRFS_REQUESTED \/
         status (GetPrfSlot p' k) = PRFS_RECEIVED) /\
        request_lsn_acceptable force_latest force_lsn (GetPrfSlot p' k)
        = true) \/
       (0 < flush_every_n_requests env /\
        (exists c, (ps_clock w <= c)%nat /\ ps_flush env c = false) /\
        drained p' /\ prf_hash p' !! tag = None)) /\
      ((snd r = set_prefetch_duplicates (prefetch_duplicates w + 1) w /\
        registered_at tag k (MyPState w)) \/
       ((prf_hash (MyPState w) !! tag = None \/
         exists slot, buffered (MyPState w) tag = Some slot /\
           request_lsn_acceptable force_latest force_lsn slot = false) /\
        k = ring_unused (MyPState w) /\
        ring_unused p' = ring_unused (MyPState w) + 1 /\
        quiet w0 (snd r) /\
        trace (snd r) = trace w0 ++ [EvPageServerSend req] /\
        (registered_at tag k p' ->
         effective_request_lsn (GetPrfSlot p' k) = eff)))
  | OutOfFuel =>
      trace (snd r) = trace w0 /\ ring_unused p' = ring_unused (MyPState w)
  | Raise _ _ => False
  end.
Proof.
  intros Hok Hcap Hroom Hmax.
  pose proof (prefetch_register_buffer_ok env fuel tag force_latest force_lsn w
                Hok Hcap Hroom Hmax) as H.
  pose proof (chosen_lsn_acceptable env tag force_latest force_lsn w) as Hacc.
  destruct (choose_request_lsn env tag force_latest force_lsn w)
    as [[[latest lsn] eff] w0].
  cbv zeta in H |- *. cbn [fst snd] in Hacc.
  destruct H as (Hok' & Hsize & Hlast & Habsent & Hcase).
  split; [exact Hok' |]. split; [exact Hsize |]. split; [exact Hlast |].
  split; [exact Habsent |].
  destruct (fst (prefetch_register_buffer env fuel tag force_latest force_lsn
                   w)) as [k | lvl site |]; [| exact Hcase | exact Hcase].
  destruct Hcase as (Hroom' & Hcase). split; [exact Hroom' |].
  assert (Hslot : forall p, registered_at tag k p ->
            ring_last p <= k < ring_unused p /\
            buffered p tag = Some (GetPrfSlot p k) /\
            buftag (GetPrfSlot p k) = tag).
  { intros p (Hk & Hh & Htag & _). split; [exact Hk |].
    split; [unfold buffered; rewrite Hh; reflexivity | exact Htag]. }
  destruct Hcase as [(Hw & Hreg & Hok_lsn) | (Hwhy & Hk & HU & Hq & Htr & Hreg & Heff)].
  - split; [| left; split; [exact Hw | exact Hreg]].
    left. rewrite Hw. cbn [MyPState set_prefetch_duplicates].
    destruct (Hslot _ Hreg) as (H1 & H2 & H3).
    split; [exact H1 |]. split; [exact H2 |]. split; [exact H3 |].
    split; [exact (registered_status tag k _ Hok Hreg) | exact Hok_lsn].
  - split.
    + destruct Hreg as [(Hreg & Hst) | Hdropped]; [left | right; exact Hdropped].
      destruct (Hslot _ Hreg) as (H1 & H2 & H3).
      split; [exact H1 |]. split; [exact H2 |]. split; [exact H3 |].
      split; [left; exact Hst |]. apply Hacc, Heff, Hreg.
    + right. split; [exact Hwhy |]. split; [exact Hk |]. split; [exact HU |].
      split; [exact Hq |]. split; [exact Htr | exact Heff].
Qed.

Lemma register_buffer_reuses_or_sends_once_witness :
  pipeline_ok
    (MyPState (snd (prefetch_register_buffer sample_env 1 (sample_tag 9)
                      None None three_in_flight))).
Proof.
  pose proof (register_buffer_reuses_or_sends_once sample_env 1 (sample_tag 9)
                None None three_in_flight three_in_flight_ok
                ltac:(vm_compute; discriminate)
                ltac:(vm_compute; reflexivity)
                ltac:(vm_compute; reflexivity)) as H.
  exact (proj1 H).
Defined.

(** X14. [neon_prefetch] of a block of a permanent relation, on a pipeline
    in good order with at least two slots, one of them free. A block that
    the local file cache holds costs nothing. A block whose request is in
    the ring is counted as a duplicate and nothing else happens. For any
    other block one request for the page is sent, with the LSN that
    [neon_get_request_lsn] gives, after the WAL flush that LSN may need;
    [prefetch_lsn] is raised to that LSN, and the request is in the ring
    with the new [prefetch_lsn] recorded, unless the flush that follows it
    failed. The call raises no error, returns false, and leaves the
    pipeline in good order with a slot free. *)
Theorem neon_prefetch_sends_at_most_one_request (env : Env) (fuel : nat)
  (reln : SMgrRelation) (forknum blocknum : Z) (w : World) :
  smgr_relpersistence reln = 0 \/
  smgr_relpersistence reln = RELPERSISTENCE_PERMANENT ->
  pipeline_ok (MyPState w) ->
  2 <= readahead_buffer_size (MyPState w) ->
  ring_unused (MyPState w) - ring_last (MyPState w)
  < readahead_buffer_size (MyPState w) ->
  ring_unused (MyPState w) + readahead_buffer_size (MyPState w) < 2 ^ 64 ->
  let rn := smgr_rnode reln in
  let tag := mkBufferTag rn forknum blocknum in
  let r := neon_prefetch env fuel reln forknum blocknum w in
  let p' := MyPState (snd r) in
  (lfc_cache_contains env rn forknum blocknum = true ->
   r = (Return false, w)) /\
  (lfc_cache_contains env rn forknum blocknum = false ->
   prf_hash (MyPState w) !! tag <> None ->
   r = (Return false,
        set_prefetch_duplicates (prefetch_duplicates w + 1) w)) /\
  (lfc_cache_contains env rn forknum blocknum = false ->
   prf_hash (MyPState w) !! tag = None ->
   let '(latest, lsn, w0) :=
     neon_get_request_lsn env rn forknum blocknum w in
   pipeline_ok p' /\
   match fst r with
   | Return b =>
       b = false /\
       trace (snd r)
       = trace w0
         ++ [EvPageServerSend
               (NeonGetPageRequest latest lsn rn forknum blocknum)] /\
       prefetch_lsn (snd r) = Z.max (prefetch_lsn w) lsn /\
       prefetch_duplicates (snd r) = prefetch_duplicates w /\
       ring_unused p' = ring_unused (MyPState w) + 1 /\
       ring_unused p' - ring_last p' < readahead_buffer_size p' /\
       registered_or_dropped env (ps_clock w) tag (ring_unused (MyPState w))
         p' /\
       (registered_at tag (ring_unused (MyPState w)) p' ->
        effective_request_lsn (GetPrfSlot p' (ring_unused (MyPState w)))
        = Z.max (prefetch_lsn w) lsn)
   | OutOfFuel => trace (snd r) = trace w0
   | Raise _ _ => False
   end).
Proof.
  intros Hpers Hok Hcap Hroom Hmax. cbv zeta.
  assert (Hremote : (smgr_relpersistence reln =? 0)
                    || (smgr_relpersistence reln =? RELPERSISTENCE_PERMANENT)
                    = true)
    by (destruct Hpers as [-> | ->]; reflexivity).
  unfold neon_prefetch. rewrite Hremote. cbv zeta.
  split; [intros ->; reflexivity |].
  split.
  - intros -> Hsome.
    pose proof (register_lookup_ok env
                  (mkBufferTag (smgr_rnode reln) forknum blocknum) None None w
                  Hok) as Hlk.
    unfold prefetch_register_buffer.
    destruct (register_lookup env _ None None w) as [[k |] w1].
    + destruct Hlk as (-> & _). reflexivity.
    + destruct Hlk as (_ & _ & _ & _ & [Hnone | (slot & _ & Hacc)]);
        [contradiction | discriminate Hacc].
  - intros -> Hnone.
    pose proof (prefetch_register_buffer_ok env fuel
                  (mkBufferTag (smgr_rnode reln) forknum blocknum) None None w
                  Hok Hcap Hroom Hmax) as Hreg.
    pose proof (choose_request_lsn_free env
                  (mkBufferTag (smgr_rnode reln) forknum blocknum) None None w
                  (or_introl eq_refl)) as Hfree.
    pose proof (choose_request_lsn_frame env
                  (mkBufferTag (smgr_rnode reln) forknum blocknum) None None w)
      as Hframe.
    unfold choose_request_lsn in Hreg, Hfree, Hframe.
    cbn [rnode forkNum blockNum] in Hreg, Hfree, Hframe.
    destruct (neon_get_request_lsn env (smgr_rnode reln) forknum blocknum w)
      as [[latest lsn] w0].
    cbv zeta in Hreg. cbn [fst] in Hfree.
    destruct Hfree as (_ & Hlsn & _).
    cbn [prefetch_lsn set_prefetch_lsn] in Hlsn.
    destruct Hframe as (_ & _ & _ & _ & _ & Hdup & _).
    cbn [prefetch_duplicates set_prefetch_lsn] in Hdup.
    destruct Hreg as (Hok' & _ & _ & _ & Hcase).
    destruct (prefetch_register_buffer env fuel _ None None w)
      as [[k | lvl site |] w'];
      cbn [fst snd bindS] in *; (split; [exact Hok' |]).
    + destruct Hcase as (Hroom' & [(_ & (_ & Hh & _) & _) | Hnew]);
        [rewrite Hnone in Hh; discriminate Hh |].
      destruct Hnew as (_ & -> & HU & Hq & Htr & Hreg & Heff).
      destruct Hq as (Hq1 & _ & _ & _ & Hq5 & _).
      cbn [prefetch_lsn prefetch_duplicates set_prefetch_lsn] in Hq1, Hq5.
      cbn [trace set_prefetch_lsn] in Htr.
      split; [reflexivity |]. split; [exact Htr |].
      split; [rewrite Hq1; exact Hlsn |].
      split; [rewrite Hq5; exact Hdup |].
      split; [exact HU |]. split; [exact Hroom' |].
      split; [exact Hreg |].
      intros H. rewrite (Heff H). exact Hlsn.
    + exact Hcase.
    + exact (proj1 Hcase).
Qed.

Lemma neon_prefetch_sends_at_most_one_request_witness :
  neon_prefetch sample_env 1 sample_reln 0 2 three_in_flight
  = (Return false,
     set_prefetch_duplicates (prefetch_duplicates three_in_flight + 1)
       three_in_flight).
Proof.
  destruct (neon_prefetch_sends_at_most_one_request sample_env 1 sample_reln
              0 2 three_in_flight (or_intror eq_refl) three_in_flight_ok
              ltac:(vm_compute; discriminate)
              ltac:(vm_compute; reflexivity)
              ltac:(vm_compute; reflexivity)) as (_ & Hdup & _).
  apply Hdup; [reflexivity |]. vm_compute. discriminate.
Defined.

(** X15. A page whose response has been received into the ring, for a
    request whose LSN is at least the one now asked for, is served by
    [neon_read_at_lsn] from the ring: the call returns that page without a
    call to the transport, counts a prefetch hit, hands the page to the
    local file cache and, in recovery outside the startup process, first
    waits for replay of the LSN. It retires the slot: the tag leaves the
    tag index, every other tag finds the same request LSN, response and
    status as before, and the pipeline is in good order. *)
Theorem read_serves_received_prefetch (env : Env) (fuel : nat)
  (rn : RelFileNode) (forkNum_ blkno request_lsn : Z) (request_latest : bool)
  (w : World) (slot : PrefetchRequest) (page : list Z) :
  pipeline_ok (MyPState w) ->
  buffered (MyPState w) (mkBufferTag rn forkNum_ blkno) = Some slot ->
  status slot = PRFS_RECEIVED ->
  response slot = Some (NeonGetPageResponse page) ->
  request_lsn <= effective_request_lsn slot ->
  let r := neon_read_at_lsn env (S fuel) rn forkNum_ blkno request_lsn
             request_latest w in
  fst r = Return page /\
  trace (snd r)
  = trace w
    ++ (if RecoveryInProgress env && negb (am_startup_process env)
        then [EvXLogWaitForReplayOf request_lsn] else [])
    ++ [EvLfcWrite rn forkNum_ blkno page] /\
  prefetch_hits (snd r) = prefetch_hits w + 1 /\
  ps_clock (snd r) = ps_clock w /\
  pipeline_ok (MyPState (snd r)) /\
  ring_unused (MyPState (snd r)) = ring_unused (MyPState w) /\
  ring_receive (MyPState (snd r)) = ring_receive (MyPState w) /\
  forall t,
    slot_content <$> buffered (MyPState (snd r)) t
    = if decide (t = mkBufferTag rn forkNum_ blkno) then None
      else slot_content <$> buffered (MyPState w) t.
Proof.
  exact (read_of_received env fuel rn forkNum_ blkno request_lsn
           request_latest w slot page).
Qed.

Lemma read_serves_received_prefetch_witness :
  fst (neon_read_at_lsn sample_env 1 sample_rnode 0 2 100 true
         three_received_world)
  = Return sample_page.
Proof.
  destruct (read_serves_received_prefetch sample_env 0 sample_rnode 0 2 100
              true three_received_world (GetPrfSlot three_received 1)
              sample_page three_received_ok
              ltac:(vm_compute; reflexivity) ltac:(vm_compute; reflexivity)
              ltac:(vm_compute; reflexivity) ltac:(vm_compute; discriminate))
    as (Hpage & _).
  exact Hpage.
Defined.

(** X16. A page whose request is in flight, with an LSN at least the one
    now asked for, is read by [neon_read_at_lsn] from the response to that
    request: on a transport that delivers, the call sends nothing, counts
    a hit and no miss, receives the responses of the requests up to that
    one, and decides on the last response received. A page response is
    returned, handed to the local file cache, and its slot retired; an
    error response or a response of another kind is raised as an error.
    The pipeline is in good order afterwards, with [ring_receive] just
    behind the slot. *)
Theorem read_waits_for_request_in_flight (env : Env) (fuel : nat)
  (rn : RelFileNode) (forkNum_ blkno request_lsn : Z) (request_latest : bool)
  (w : World) (slot : PrefetchRequest) :
  pipeline_ok (MyPState w) ->
  buffered (MyPState w) (mkBufferTag rn forkNum_ blkno) = Some slot ->
  status slot = PRFS_REQUESTED ->
  request_lsn <= effective_request_lsn slot ->
  (forall c, (ps_clock w <= c)%nat ->
     ps_flush env c = true /\ ps_receive env c <> None) ->
  let w1 :=
    set_prefetch_hits (prefetch_hits w + 1)
      (if RecoveryInProgress env && negb (am_startup_process env)
       then emit (EvXLogWaitForReplayOf request_lsn) w else w) in
  read_outcome env rn forkNum_ blkno (my_ring_index slot) w1
    (neon_read_at_lsn env (S fuel) rn forkNum_ blkno request_lsn
       request_latest w).
Proof.
  exact (read_of_requested env fuel rn forkNum_ blkno request_lsn
           request_latest w slot).
Qed.

Lemma read_waits_for_request_in_flight_witness :
  fst (neon_read_at_lsn sample_env 1 sample_rnode 0 2 100 true three_in_flight)
  = Return sample_page.
Proof.
  destruct (read_waits_for_request_in_flight sample_env 0 sample_rnode 0 2 100
              true three_in_flight (GetPrfSlot (MyPState three_in_flight) 1)
              three_in_flight_ok
              ltac:(vm_compute; reflexivity) ltac:(vm_compute; reflexivity)
              ltac:(vm_compute; discriminate)
              ltac:(intros c _; split; [reflexivity | discriminate]))
    as (_ & _ & _ & _ & _ & _ & resp & Hrecv & Hcase).
  change (Some (NeonGetPageResponse sample_page) = Some resp) in Hrecv.
  injection Hrecv as <-. exact (proj1 Hcase).
Defined.

(** X17. A page for which the ring holds no request is fetched by
    [neon_read_at_lsn] with one request of its own: on a pipeline in good
    order with at least two slots, one of them free, and a transport that
    delivers, the call counts a miss and no hit, sends exactly one request
    for the page with the LSN and the [latest] flag it was given, after
    waiting for replay where that applies, receives the responses of all
    the requests in flight, and decides on the last response received. A
    page response is returned, handed to the local file cache, and its slot
    retired; an error response or a response of another kind is raised as
    an error. The pipeline is in good order afterwards, with nothing in
    flight. *)
Theorem read_fetches_page_not_in_ring (env : Env) (fuel : nat)
  (rn : RelFileNode) (forkNum_ blkno request_lsn : Z) (request_latest : bool)
  (w : World) :
  pipeline_ok (MyPState w) ->
  2 <= readahead_buffer_size (MyPState w) ->
  ring_unused (MyPState w) - ring_last (MyPState w)
  < readahead_buffer_size (MyPState w) ->
  ring_unused (MyPState w) + readahead_buffer_size (MyPState w) < 2 ^ 64 ->
  prf_hash (MyPState w) !! mkBufferTag rn forkNum_ blkno = None ->
  (forall c, (ps_clock w <= c)%nat ->
     ps_send env c = true /\ ps_flush env c = true /\
     ps_receive env c <> None) ->
  let r := neon_read_at_lsn env (S fuel) rn forkNum_ blkno request_lsn
             request_latest w in
  let p' := MyPState (snd r) in
  let sent :=
    (if RecoveryInProgress env && negb (am_startup_process env)
     then [EvXLogWaitForReplayOf request_lsn] else [])
    ++ [EvPageServerSend
          (NeonGetPageRequest request_latest request_lsn rn forkNum_ blkno)] in
  pipeline_ok p' /\
  prefetch_hits (snd r) = prefetch_hits w /\
  prefetch_misses (snd r) = prefetch_misses w + 1 /\
  ring_unused p' = ring_unused (MyPState w) + 1 /\
  ring_receive p' = ring_unused p' /\
  exists resp,
    ps_receive env (Nat.pred (ps_clock (snd r))) = Some resp /\
    match resp with
    | NeonGetPageResponse page =>
        fst r = Return page /\
        trace (snd r)
        = trace w ++ sent ++ [EvLfcWrite rn forkNum_ blkno page] /\
        prf_hash p' !! mkBufferTag rn forkNum_ blkno = None
    | NeonErrorResponse _ =>
        fst r = Raise ERROR could_not_read_block /\
        trace (snd r) = trace w ++ sent
    | _ =>
        fst r = Raise ERROR unexpected_response /\
        trace (snd r) = trace w ++ sent
    end.
Proof.
  intros Hok Hcap Hroom Hmax Hnone Hhealthy. cbv zeta.
  rewrite neon_read_at_lsn_unfold. cbv zeta.
  set (w0 := if RecoveryInProgress env && negb (am_startup_process env)
             then emit (EvXLogWaitForReplayOf request_lsn) w else w).
  assert (HP0 : MyPState w0 = MyPState w)
    by (unfold w0; destruct (_ && _); reflexivity).
  assert (Htr0 : trace w0
                 = trace w
                   ++ (if RecoveryInProgress env
                          && negb (am_startup_process env)
                       then [EvXLogWaitForReplayOf request_lsn] else []))
    by (unfold w0; destruct (_ && _); simpl;
        [reflexivity | rewrite app_nil_r; reflexivity]).
  assert (Hh0 : prefetch_hits w0 = prefetch_hits w)
    by (unfold w0; destruct (_ && _); reflexivity).
  assert (Hm0 : prefetch_misses w0 = prefetch_misses w)
    by (unfold w0; destruct (_ && _); reflexivity).
  assert (Hc0 : ps_clock w0 = ps_clock w)
    by (unfold w0; destruct (_ && _); reflexivity).
  unfold read_lookup, prfh_lookup. rewrite HP0, Hnone.
  set (tag := mkBufferTag rn forkNum_ blkno) in *.
  set (w1 := set_prefetch_misses (prefetch_misses w0 + 1) w0).
  assert (HP1 : MyPState w1 = MyPState w) by exact HP0.
  assert (Hc1 : ps_clock w1 = ps_clock w) by exact Hc0.
  assert (Hreg_eq :
    read_wait_loop env (S fuel) tag request_latest request_lsn None w0
    = let* (found, w2) :=
        (let* (ring_index, w2) :=
           prefetch_register_buffer env (S fuel) tag (Some request_latest)
             (Some request_lsn) w1 in
         (Return (slot_pos (MyPState w2) ring_index, ring_index), w2)) in
      match prefetch_wait_for env (snd found) w2 with
      | (true, w3) => (Return found, w3)
      | (false, w3) =>
          read_wait_loop env fuel tag request_latest request_lsn None w3
      end) by reflexivity.
  rewrite Hreg_eq. clear Hreg_eq.
  pose proof (prefetch_register_buffer_ok env (S fuel) tag
                (Some request_latest) (Some request_lsn) w1
                ltac:(rewrite HP1; exact Hok) ltac:(rewrite HP1; exact Hcap)
                ltac:(rewrite HP1; exact Hroom)
                ltac:(rewrite HP1; exact Hmax)) as Hreg.
  rewrite choose_request_lsn_forced in Hreg. cbv zeta in Hreg.
  destruct (prefetch_register_buffer_returns env fuel tag
              (Some request_latest) (Some request_lsn) w1
              ltac:(rewrite HP1; exact Hok) ltac:(rewrite HP1; exact Hcap)
              ltac:(rewrite HP1; exact Hroom) ltac:(rewrite HP1; exact Hmax)
              ltac:(intros c Hc; apply Hhealthy; lia)) as (k & Hret).
  destruct (prefetch_register_buffer env (S fuel) tag (Some request_latest)
              (Some request_lsn) w1) as [res w2].
  cbn [fst snd] in Hreg, Hret. subst res.
  destruct Hreg as (Hok2 & Hcap2 & _ & _ & _ & Hcase).
  rewrite HP1 in Hcase.
  destruct Hcase as [(_ & (_ & Hh & _) & _) | Hnew];
    [rewrite Hnone in Hh; discriminate Hh |].
  destruct Hnew as (_ & -> & HU2 & Hq2 & Htr2 & Hrd & _).
  destruct Hq2 as (_ & Hh2 & Hm2 & _ & _ & _ & _ & Hclk2).
  destruct Hrd as [(Hin & Hst) | (_ & (c & Hc & Hfail) & _)];
    [| rewrite (proj1 (proj2 (Hhealthy c ltac:(lia)))) in Hfail;
       discriminate Hfail].
  destruct Hin as (Hk & _ & Htag & _).
  assert (Hreq : ring_receive (MyPState w2) <= ring_unused (MyPState w)).
  { destruct (Z.le_gt_cases (ring_receive (MyPState w2))
                (ring_unused (MyPState w))) as [H | H]; [exact H |].
    destruct (wf_received _ (proj1 Hok2) (ring_unused (MyPState w))
                ltac:(lia)) as [E | E]; rewrite Hst in E; discriminate E. }
  destruct (read_tail env rn forkNum_ blkno (ring_unused (MyPState w)) w2
              Hok2 ltac:(lia) Htag
              ltac:(intros c Hc; split; apply Hhealthy; lia))
    as (Htrue & Hout).
  cbn [bindS fst snd].
  destruct (prefetch_wait_for env (ring_unused (MyPState w)) w2) as [b w3].
  cbn [fst snd] in *. subst b. cbn [bindS].
  destruct Hout as (A1 & A2 & A3 & A4 & A5 & _ & resp & Hrecv & Hresp).
  split; [exact A1 |]. split; [simpl in Hh2; lia |].
  split; [simpl in Hm2; lia |]. split; [lia |]. split; [lia |].
  exists resp. split; [exact Hrecv |].
  assert (Htr : trace w2
                = trace w
                  ++ (if RecoveryInProgress env
                         && negb (am_startup_process env)
                      then [EvXLogWaitForReplayOf request_lsn] else [])
                  ++ [EvPageServerSend
                        (NeonGetPageRequest request_latest request_lsn rn
                           forkNum_ blkno)]).
  { rewrite Htr2. change (trace w1) with (trace w0).
    rewrite Htr0, <- app_assoc. reflexivity. }
  destruct resp; destruct Hresp as (R1 & R2);
    try (split; [exact R1 | rewrite R2; exact Htr]).
  destruct R2 as (R2 & R3). split; [exact R1 |].
  split; [rewrite R2, Htr, <- !app_assoc; reflexivity | exact R3].
Qed.

Lemma read_fetches_page_not_in_ring_witness :
  fst (neon_read_at_lsn sample_env 1 sample_rnode 0 9 100 true three_in_flight)
  = Return sample_page.
Proof.
  destruct (read_fetches_page_not_in_ring sample_env 0 sample_rnode 0 9 100
              true three_in_flight three_in_flight_ok
              ltac:(vm_compute; discriminate)
              ltac:(vm_compute; reflexivity) ltac:(vm_compute; reflexivity)
              ltac:(vm_compute; reflexivity)
              ltac:(intros c _; split; [reflexivity |];
                    split; [reflexivity | discriminate]))
    as (_ & _ & _ & _ & _ & resp & Hrecv & Hcase).
  change (Some (NeonGetPageResponse sample_page) = Some resp) in Hrecv.
  injection Hrecv as <-. exact (proj1 Hcase).
Defined.

(** ** Resizing *)

(** X18. [readahead_buffer_resize] to a positive size, on a pipeline in
    good order. After the wait at its head, which calls no service but the
    transport, no more requests are in flight than the new buffer has
    slots. The new pipeline is in good order, has the new size, and counts
    all of its requests as flushed. Every request that was in flight after
    the wait is in flight in the new ring, at the same distance from
    [ring_unused], so that responses still arrive in the order of the
    requests. Every tag of the new tag index was in the old one, with the
    same request LSN, response and status; and when the slots of the old
    ring fit into the new buffer, no tag is lost. *)
Theorem resize_keeps_good_order_and_requests (env : Env) (newsize : Z)
  (w : World) :
  pipeline_ok (MyPState w) -> 0 < newsize < 2 ^ 64 ->
  let w1 := resize_wait env newsize w in
  let p1 := MyPState w1 in
  let w' := readahead_buffer_resize env newsize w in
  let p' := MyPState w' in
  pipeline_ok p1 /\ pipeline_only w w1 /\
  n_requests_inflight p1 <= newsize /\
  pipeline_ok p' /\ pipeline_only w w' /\
  readahead_buffer_size p' = newsize /\
  ring_unused p' = newsize /\ ring_flush p' = newsize /\
  n_requests_inflight p' = n_requests_inflight p1 /\
  (forall i, ring_receive p1 <= i < ring_unused p1 ->
     ring_receive p' <= newsize - (ring_unused p1 - i) < ring_unused p' /\
     slot_content (GetPrfSlot p' (newsize - (ring_unused p1 - i)))
     = slot_content (GetPrfSlot p1 i)) /\
  (forall t slot', buffered p' t = Some slot' ->
     exists slot, buffered p1 t = Some slot /\
       slot_content slot' = slot_content slot) /\
  (ring_unused p1 - ring_last p1 <= newsize ->
   forall t, slot_content <$> buffered p' t = slot_content <$> buffered p1 t).
Proof.
  intros Hok HN. cbv zeta.
  destruct (resize_wait_ok env newsize w Hok ltac:(lia))
    as (Hok1 & _ & Honly1 & Hfits).
  rewrite readahead_buffer_resize_unfold. cbv zeta.
  set (w1 := resize_wait env newsize w) in *.
  set (old := MyPState w1) in *.
  pose proof Hok1 as (Hwf1 & Hext1 & _).
  pose proof (wf_order _ Hwf1) as Hord.
  pose proof (wf_inflight _ Hwf1) as Hinf.
  destruct (resize_copy_loop_inv
              (Z.to_nat (ring_unused old - ring_last old)) old newsize
              (ring_unused old) newsize _ Hok1 HN
              (resize_copied_start old newsize Hok1 ltac:(lia)) eq_refl)
    as (e & nfree & Hinv & Hstop).
  cbn [MyPState set_MyPState].
  set (newP := snd (resize_copy_loop _ _ _ _ _)) in *.
  pose proof (resize_copied_ok old newsize e nfree newP Hok1 HN Hinv) as Hok'.
  pose proof Hinv as [Hlen Hnf He Hlow Hdense HU HF HL HR HRge HI Hfree Hslot
                      Hfl Hall Hsound Hcomp].
  assert (Hbelow : e <= ring_receive old).
  { destruct Hstop as [-> | ->]; [lia |].
    destruct (Z.le_gt_cases e (ring_receive old)) as [H | H]; [exact H |].
    specialize (Hdense ltac:(lia)). lia. }
  assert (Hmax : Z.max e (ring_receive old) = ring_receive old) by lia.
  rewrite Hmax in HR, HI, Hfl.
  assert (Hin : forall j, nfree <= j < newsize ->
            GetPrfSlot newP j = prf_buffer newP !!! Z.to_nat j /\
            slot_pos newP j = Z.to_nat j)
    by (intros j Hj; apply (resized_slot newP newsize); [exact Hlen | lia]).
  assert (Hsub : forall t slot', buffered newP t = Some slot' ->
            exists slot, buffered old t = Some slot /\
              slot_content slot' = slot_content slot).
  { intros t slot' Hb. unfold buffered in Hb.
    destruct (prf_hash newP !! t) as [pos |] eqn:Hpos; [| discriminate Hb].
    cbn [fmap option_fmap option_map] in Hb. injection Hb as <-.
    destruct (Hsound t pos Hpos) as (j & Hj & -> & Htag).
    destruct (Hslot j Hj) as (i & Hi & Hsi & Hbuf & _).
    rewrite Hbuf in Htag |- *. cbn [buftag set_my_ring_index] in Htag.
    exists (GetPrfSlot old i). split; [| reflexivity].
    unfold buffered.
    rewrite <- Htag, (wf_hash_complete _ Hwf1 i ltac:(lia) Hsi).
    reflexivity. }
  split; [exact Hok1 |]. split; [exact Honly1 |]. split; [exact Hfits |].
  split; [exact Hok' |].
  split; [exact (pipeline_only_trans _ _ _ Honly1
                   (pipeline_only_on_MyPState (fun _ => newP) w1)) |].
  split; [exact Hlen |]. split; [exact HU |]. split; [exact HF |].
  split; [lia |].
  split.
  { intros i Hi. split; [lia |].
    destruct (Hin (newsize - (ring_unused old - i)) ltac:(lia)) as (-> & _).
    rewrite Hfl by lia. reflexivity. }
  split; [exact Hsub |].
  intros Hroom t.
  assert (Hall_copied : e = ring_last old)
    by (destruct Hstop as [-> | ->]; lia).
  destruct (buffered old t) as [slot |] eqn:Hb.
  - destruct (buffered_slot _ _ _ Hok1 Hb)
      as (i & Hi & Hpos & -> & Htag & _ & Hsi).
    destruct (Hall i ltac:(lia) Hsi) as (j & Hj & Hbuf).
    pose proof (Hcomp j Hj) as Hc. rewrite Hbuf in Hc.
    cbn [buftag set_my_ring_index] in Hc. rewrite Htag in Hc.
    unfold buffered. rewrite Hc. cbn [fmap option_fmap option_map].
    rewrite Hbuf. reflexivity.
  - destruct (buffered newP t) as [slot' |] eqn:Hb'; [| reflexivity].
    destruct (Hsub t slot' Hb') as (slot & Hs & _).
    rewrite Hb in Hs. discriminate Hs.
Qed.

Lemma resize_keeps_good_order_and_requests_witness :
  pipeline_ok (MyPState (readahead_buffer_resize sample_env 16 three_in_flight))
  /\ n_requests_inflight
       (MyPState (readahead_buffer_resize sample_env 16 three_in_flight))
     = 3.
Proof.
  destruct (resize_keeps_good_order_and_requests sample_env 16 three_in_flight
              three_in_flight_ok ltac:(lia))
    as (_ & _ & _ & Hok & _ & _ & _ & _ & Hinflight & _).
  split; [exact Hok |]. rewrite Hinflight. vm_compute. reflexivity.
Defined.

(** ** Requests that wait for their answer *)

(** X19. [page_server_request] on a pipeline in good order never returns
    while a prefetch request is in flight: when it returns, nothing is in
    flight or unflushed, and what it returns is the last response the
    transport delivered. Each attempt sends the request once, a return
    takes at least one attempt, no error is raised, nothing of the backend
    outside the pipeline is changed, and the pipeline is in good order. *)
Theorem page_server_request_drains_prefetches (env : Env) (fuel : nat)
  (req : NeonRequest) (w : World) :
  pipeline_ok (MyPState w) ->
  let r := page_server_request env fuel req w in
  pipeline_ok (MyPState (snd r)) /\
  quiet w (snd r) /\
  ring_unused (MyPState (snd r)) = ring_unused (MyPState w) /\
  (forall t, prf_hash (MyPState w) !! t = None ->
     prf_hash (MyPState (snd r)) !! t = None) /\
  (exists n, (n <= fuel)%nat /\
     trace (snd r) = trace w ++ replicate n (EvPageServerSend req) /\
     forall resp, fst r = Return resp -> (1 <= n)%nat) /\
  match fst r with
  | Return resp =>
      drained (MyPState (snd r)) /\
      (ps_clock w < ps_clock (snd r))%nat /\
      ps_receive env (Nat.pred (ps_clock (snd r))) = Some resp
  | OutOfFuel => True
  | Raise _ _ => False
  end.
Proof.
  intros Hok. cbv zeta.
  destruct (page_server_request_ok env fuel req w Hok)
    as (Hok' & Hret & Hq & Htrace & Hcase).
  split; [exact Hok' |]. split; [exact Hq |].
  split; [exact (rt_unused _ _ Hret) |].
  split; [exact (rt_absent _ _ Hret) |].
  split; [exact Htrace | exact Hcase].
Qed.

Lemma page_server_request_drains_prefetches_witness :
  drained
    (MyPState
       (snd (page_server_request sample_env 1
               (NeonNblocksRequest true 100 sample_rnode 0)
               three_in_flight))).
Proof.
  pose proof (page_server_request_drains_prefetches sample_env 1
                (NeonNblocksRequest true 100 sample_rnode 0) three_in_flight
                three_in_flight_ok) as H.
  cbv zeta in H. destruct H as (_ & _ & _ & _ & _ & Hcase).
  assert (Hr : fst (page_server_request sample_env 1
                      (NeonNblocksRequest true 100 sample_rnode 0)
                      three_in_flight)
               = Return (NeonGetPageResponse sample_page))
    by (vm_compute; reflexivity).
  rewrite Hr in Hcase. exact (proj1 Hcase).
Defined.

(** X20. [neon_nblocks] on a permanent relation whose size is not cached,
    on a pipeline in good order. It asks the page server, with the LSN
    that [neon_get_request_lsn] gives for the metadata pseudo-block: every
    attempt sends that request once, an answer takes at least one attempt,
    and on a transport that never fails exactly one request is sent and
    the call does not wait without end. A size that is returned is the one
    in the last response the transport delivered, and it is cached: the
    next call returns the same size and changes nothing. An error response
    or a response of another kind raises an error and caches nothing. In
    either case nothing is left in flight, and the pipeline is in good
    order. *)
Theorem neon_nblocks_asks_once_and_caches (env : Env) (fuel : nat)
  (reln : SMgrRelation) (forknum : Z) (w : World) :
  smgr_relpersistence reln = RELPERSISTENCE_PERMANENT ->
  get_cached_relsize w (smgr_rnode reln) forknum = None ->
  pipeline_ok (MyPState w) ->
  let '(latest, lsn, w0) :=
    neon_get_request_lsn env (smgr_rnode reln) forknum
      (REL_METADATA_PSEUDO_BLOCKNO env) w in
  let req := NeonNblocksRequest latest lsn (smgr_rnode reln) forknum in
  let r := neon_nblocks env fuel reln forknum w in
  pipeline_ok (MyPState (snd r)) /\
  (exists n, (n <= fuel)%nat /\
     trace (snd r) = trace w0 ++ replicate n (EvPageServerSend req) /\
     (fst r <> OutOfFuel -> (1 <= n)%nat)) /\
  ((forall c, ps_send env c = true /\ ps_flush env c = true /\
              ps_receive env c <> None) ->
   fuel <> 0%nat ->
   fst r <> OutOfFuel /\
   trace (snd r) = trace w0 ++ [EvPageServerSend req]) /\
  match fst r with
  | Return n_blocks =>
      ps_receive env (Nat.pred (ps_clock (snd r)))
      = Some (NeonNblocksResponse n_blocks) /\
      drained (MyPState (snd r)) /\
      get_cached_relsize (snd r) (smgr_rnode reln) forknum = Some n_blocks /\
      forall fuel',
        neon_nblocks env fuel' reln forknum (snd r)
        = (Return n_blocks, snd r)
  | Raise lvl site =>
      lvl = ERROR /\
      drained (MyPState (snd r)) /\
      get_cached_relsize (snd r) (smgr_rnode reln) forknum = None /\
      exists resp,
        ps_receive env (Nat.pred (ps_clock (snd r))) = Some resp /\
        match resp with
        | NeonNblocksResponse _ => False
        | NeonErrorResponse _ => site = could_not_read_relation_size
        | _ => site = unexpected_response
        end
  | OutOfFuel => True
  end.
Proof.
  intros Hperm Hnone Hok.
  pose proof (neon_nblocks_remote env fuel reln forknum w Hperm Hnone Hok)
    as H.
  pose proof (neon_nblocks_asked env fuel reln forknum w Hperm Hnone Hok)
    as Hcost.
  destruct (neon_get_request_lsn env (smgr_rnode reln) forknum
              (REL_METADATA_PSEUDO_BLOCKNO env) w) as [[latest lsn] w0].
  cbv zeta in H, Hcost |- *.
  destruct H as (Hok' & _ & _ & Hcase).
  destruct Hcost as (Htrace & Hsound & Hraise).
  split; [exact Hok' |]. split; [exact Htrace |]. split; [exact Hsound |].
  destruct (fst (neon_nblocks env fuel reln forknum w))
    as [n_blocks | lvl site |]; [| | exact I].
  - destruct Hcase as (Hrcv & Hdrained & Hcached).
    split; [exact Hrcv |]. split; [exact Hdrained |].
    split; [exact Hcached |].
    intros fuel'. exact (neon_nblocks_cached env fuel' reln forknum n_blocks _
                           Hperm Hcached).
  - destruct Hcase as (Hlvl & Hcached & _).
    destruct Hraise as (Hdrained & Hresp).
    split; [exact Hlvl |]. split; [exact Hdrained |].
    split; [exact Hcached | exact Hresp].
Qed.

Lemma neon_nblocks_asks_once_and_caches_witness :
  fst (neon_nblocks nblocks_env 1 sample_reln 0
         (sample_world (neon_init 16)))
  = Return 42 /\
  get_cached_relsize
    (snd (neon_nblocks nblocks_env 1 sample_reln 0
            (sample_world (neon_init 16))))
    sample_rnode 0
  = Some 42 /\
  trace (snd (neon_nblocks nblocks_env 1 sample_reln 0
                (sample_world (neon_init 16))))
  = [EvPageServerSend (NeonNblocksRequest true 100 sample_rnode 0)].
Proof.
  pose proof (neon_nblocks_asks_once_and_caches nblocks_env 1 sample_reln 0
                (sample_world (neon_init 16)) eq_refl
                ltac:(vm_compute; reflexivity)
                ltac:(apply pipeline_ok_checked; apply (bool_decide_unpack _);
                      vm_compute; exact I)) as H.
  assert (E : neon_get_request_lsn nblocks_env (smgr_rnode sample_reln) 0
                (REL_METADATA_PSEUDO_BLOCKNO nblocks_env)
                (sample_world (neon_init 16))
              = (true, 100, sample_world (neon_init 16)))
    by (vm_compute; reflexivity).
  rewrite E in H. cbv zeta in H.
  destruct H as (_ & _ & Hsound & Hcase).
  destruct (Hsound ltac:(intros c; split; [reflexivity |];
                         split; [reflexivity | discriminate])
                   ltac:(discriminate)) as (Hreturns & Htrace).
  destruct (fst (neon_nblocks nblocks_env 1 sample_reln 0
                   (sample_world (neon_init 16))))
    as [n_blocks | lvl site |] eqn:Hfst.
  - destruct Hcase as (Hrcv & _ & Hcached & _).
    change (Some (NeonNblocksResponse 42)
            = Some (NeonNblocksResponse n_blocks)) in Hrcv.
    injection Hrcv as <-.
    split; [reflexivity |]. split; [exact Hcached | exact Htrace].
  - destruct Hcase as (_ & _ & _ & resp & Hrcv & Hkind).
    change (Some (NeonNblocksResponse 42) = Some resp) in Hrcv.
    injection Hrcv as <-. destruct Hkind.
  - destruct (Hreturns eq_refl).
Defined.

(** ** The rest of the adaptor surface, on the pipeline *)

(** A synchronous request made from one of the operations of the adaptor
    surface. *)
Lemma request_in_world env fuel req b :
  pipeline_ok (MyPState (world b)) ->
  let r := in_world (page_server_request env fuel req) b in
  pipeline_ok (MyPState (world (snd r))) /\
  md_calls (snd r) = md_calls b /\ build (snd r) = build b /\
  relsize_cache (world (snd r)) = relsize_cache (world b) /\
  (exists n, (n <= fuel)%nat /\
     trace (world (snd r))
     = trace (world b) ++ replicate n (EvPageServerSend req)) /\
  match fst r with
  | Ok resp =>
      drained (MyPState (world (snd r))) /\
      ps_receive env (Nat.pred (ps_clock (world (snd r)))) = Some resp
  | Starved => True
  | Fail _ | Inner _ _ => False
  end.
Proof.
  intros Hok. cbv zeta. unfold in_world.
  destruct (page_server_request_ok env fuel req (world b) Hok)
    as (Hok' & _ & Hq & (n & Hn & Htr & _) & Hcase).
  destruct (page_server_request env fuel req (world b)) as [r w1].
  cbn [fst snd world set_world md_calls build] in *.
  split; [exact Hok' |]. split; [reflexivity |]. split; [reflexivity |].
  split; [destruct Hq as (_ & _ & _ & _ & _ & H & _); exact H |].
  split; [exists n; auto |].
  destruct r as [resp | lvl site |]; cbn [of_exit];
    [exact (conj (proj1 Hcase) (proj2 (proj2 Hcase))) | exact Hcase | exact I].
Qed.

(** X21. [neon_read] by persistence and by where the page is. It refuses
    a relation of unknown persistence. A temporary or unlogged relation is
    read from local storage with one [mdread]. For a permanent relation, a
    page that the local file cache holds is returned from there and
    nothing else happens; failing that, a page whose response has been
    received into the ring, for a request LSN at least the one that
    [neon_get_request_lsn] now gives, is returned from the ring without a
    call to the transport or to [md.c], and its slot is retired. *)
Theorem neon_read_local_cached_or_prefetched (env : Env) (loc : LocalStore)
  (fuel : nat) (reln : SMgrRelation) (forkNum_ blkno : Z) (b : Backend) :
  let rn := smgr_rnode reln in
  (smgr_relpersistence reln = 0 ->
   neon_read env loc fuel reln forkNum_ blkno b
   = (Fail cannot_call_smgrread, b)) /\
  (smgr_relpersistence reln = RELPERSISTENCE_TEMP \/
   smgr_relpersistence reln = RELPERSISTENCE_UNLOGGED ->
   neon_read env loc fuel reln forkNum_ blkno b
   = (Ok (mdread loc rn forkNum_ blkno),
      md_call (MdRead rn forkNum_ blkno) b)) /\
  (smgr_relpersistence reln = RELPERSISTENCE_PERMANENT ->
   forall page, lfc_read loc rn forkNum_ blkno = Some page ->
     neon_read env loc fuel reln forkNum_ blkno b = (Ok page, b)) /\
  (smgr_relpersistence reln = RELPERSISTENCE_PERMANENT ->
   lfc_read loc rn forkNum_ blkno = None ->
   forall slot page,
     pipeline_ok (MyPState (world b)) ->
     buffered (MyPState (world b)) (mkBufferTag rn forkNum_ blkno)
     = Some slot ->
     status slot = PRFS_RECEIVED ->
     response slot = Some (NeonGetPageResponse page) ->
     snd (fst (neon_get_request_lsn env rn forkNum_ blkno (world b)))
     <= effective_request_lsn slot ->
     let r := neon_read env loc (S fuel) reln forkNum_ blkno b in
     fst r = Ok page /\
     md_calls (snd r) = md_calls b /\ build (snd r) = build b /\
     ps_clock (world (snd r)) = ps_clock (world b) /\
     prefetch_hits (world (snd r)) = prefetch_hits (world b) + 1 /\
     pipeline_ok (MyPState (world (snd r))) /\
     forall t,
       slot_content <$> buffered (MyPState (world (snd r))) t
       = if decide (t = mkBufferTag rn forkNum_ blkno) then None
         else slot_content <$> buffered (MyPState (world b)) t).
Proof.
  cbv zeta. unfold neon_read.
  split; [intros H; rewrite (classify_unknown reln H); reflexivity |].
  split; [intros H; rewrite (classify_local reln H); reflexivity |].
  split.
  - intros H page Hlfc. rewrite (classify_permanent reln H), Hlfc.
    reflexivity.
  - intros H Hlfc slot page Hok Hb Hst Hresp Hlsn.
    rewrite (classify_permanent reln H), Hlfc.
    pose proof (request_lsn_frame env (smgr_rnode reln) forkNum_ blkno
                  (world b)) as Hfr.
    pose proof (request_lsn_clock env (smgr_rnode reln) forkNum_ blkno
                  (world b)) as Hc.
    destruct (neon_get_request_lsn env (smgr_rnode reln) forkNum_ blkno
                (world b)) as [[latest lsn] w0].
    destruct Hfr as (HP0 & Hq0 & _). cbn [fst snd] in Hlsn, Hc.
    destruct (read_of_received env fuel (smgr_rnode reln) forkNum_ blkno lsn
                latest w0 slot page ltac:(rewrite HP0; exact Hok)
                ltac:(rewrite HP0; exact Hb) Hst Hresp Hlsn)
      as (Hpage & _ & Hhits & Hclock & Hok' & _ & _ & Hcont).
    unfold in_world. cbn [world set_world].
    destruct (neon_read_at_lsn env (S fuel) (smgr_rnode reln) forkNum_ blkno
                lsn latest w0) as [r w1].
    cbn [fst snd world set_world md_calls build] in *. subst r.
    destruct Hq0 as (_ & Hh0 & _ & _ & _ & _ & _ & Hc0).
    split; [reflexivity |]. split; [reflexivity |]. split; [reflexivity |].
    split; [congruence |]. split; [lia |]. split; [exact Hok' |].
    intros t. rewrite Hcont, HP0. reflexivity.
Qed.

Lemma neon_read_local_cached_or_prefetched_witness :
  fst (neon_read sample_env
         (mkLocalStore (fun _ _ => false) (fun _ _ _ => [])
            (fun _ _ _ => None))
         1 sample_reln 0 2
         (mkBackend three_received_world
            (mkUnloggedBuild None UNLOGGED_BUILD_NOT_IN_PROGRESS) []))
  = Ok sample_page.
Proof.
  destruct (neon_read_local_cached_or_prefetched sample_env
              (mkLocalStore (fun _ _ => false) (fun _ _ _ => [])
                 (fun _ _ _ => None))
              0 sample_reln 0 2
              (mkBackend three_received_world
                 (mkUnloggedBuild None UNLOGGED_BUILD_NOT_IN_PROGRESS) []))
    as (_ & _ & _ & Hring).
  destruct (Hring eq_refl eq_refl (GetPrfSlot three_received 1) sample_page
              three_received_ok
              ltac:(vm_compute; reflexivity) ltac:(vm_compute; reflexivity)
              ltac:(vm_compute; reflexivity) ltac:(vm_compute; discriminate))
    as (Hpage & _).
  exact Hpage.
Defined.

(** X22. [neon_exists] by persistence. A temporary or unlogged relation
    exists if [md.c] says so, and so does one of unknown persistence that
    [md.c] finds. Otherwise a fork whose size is cached exists, and the
    0/0/0 relfilenode does not, both without a request; for any other
    relation the page server is asked, with the LSN that
    [neon_get_request_lsn] gives for the metadata pseudo-block, and the
    answer is the one in the last response the transport delivered, an
    error response or a response of another kind being raised as an
    error. The size cache and local storage are not written, nothing is
    left in flight, and the pipeline is in good order. *)
Theorem neon_exists_local_cached_or_asked (env : Env) (loc : LocalStore)
  (fuel : nat) (reln : SMgrRelation) (forkNum_ : Z) (b : Backend) :
  let rn := smgr_rnode reln in
  let r := neon_exists env loc fuel reln forkNum_ b in
  (smgr_relpersistence reln = RELPERSISTENCE_TEMP \/
   smgr_relpersistence reln = RELPERSISTENCE_UNLOGGED ->
   r = (Ok (mdexists loc rn forkNum_), b)) /\
  (smgr_relpersistence reln = 0 -> mdexists loc rn forkNum_ = true ->
   r = (Ok true, b)) /\
  (smgr_relpersistence reln = RELPERSISTENCE_PERMANENT \/
   smgr_relpersistence reln = 0 /\ mdexists loc rn forkNum_ = false ->
   (get_cached_relsize (world b) rn forkNum_ <> None -> r = (Ok true, b)) /\
   (get_cached_relsize (world b) rn forkNum_ = None ->
    spcNode rn = 0 /\ dbNode rn = 0 /\ relNode rn = 0 ->
    r = (Ok false, b)) /\
   (get_cached_relsize (world b) rn forkNum_ = None ->
    ~ (spcNode rn = 0 /\ dbNode rn = 0 /\ relNode rn = 0) ->
    pipeline_ok (MyPState (world b)) ->
    let '(latest, lsn, w0) :=
      neon_get_request_lsn env rn forkNum_ (REL_METADATA_PSEUDO_BLOCKNO env)
        (world b) in
    pipeline_ok (MyPState (world (snd r))) /\
    md_calls (snd r) = md_calls b /\
    relsize_cache (world (snd r)) = relsize_cache (world b) /\
    (exists n, (n <= fuel)%nat /\
       trace (world (snd r))
       = trace w0
         ++ replicate n
              (EvPageServerSend (NeonExistsRequest latest lsn rn forkNum_))) /\
    match fst r with
    | Ok exists_ =>
        drained (MyPState (world (snd r))) /\
        ps_receive env (Nat.pred (ps_clock (world (snd r))))
        = Some (NeonExistsResponse exists_)
    | Fail site =>
        site = could_not_read_relation_existence /\
        exists msg, ps_receive env (Nat.pred (ps_clock (world (snd r))))
                    = Some (NeonErrorResponse msg)
    | Inner lvl site => lvl = ERROR /\ site = unexpected_response
    | Starved => True
    end)).
Proof.
  cbv zeta. unfold neon_exists.
  split; [intros H; rewrite (classify_local reln H); reflexivity |].
  split; [intros H Hmd; rewrite (classify_unknown reln H), Hmd; reflexivity |].
  intros Hremote.
  assert (Hgo : match classify_persistence reln with
                | PersistenceUnknown =>
                    if mdexists loc (smgr_rnode reln) forkNum_
                    then (Ok true, b)
                    else neon_exists_remote env fuel (smgr_rnode reln)
                           forkNum_ b
                | PersistencePermanent =>
                    neon_exists_remote env fuel (smgr_rnode reln) forkNum_ b
                | PersistenceLocal =>
                    (Ok (mdexists loc (smgr_rnode reln) forkNum_), b)
                | PersistenceOther => (Inner ERROR unknown_relpersistence, b)
                end
                = neon_exists_remote env fuel (smgr_rnode reln) forkNum_ b).
  { destruct Hremote as [H | [H Hmd]].
    - rewrite (classify_permanent reln H). reflexivity.
    - rewrite (classify_unknown reln H), Hmd. reflexivity. }
  rewrite Hgo. clear Hgo. unfold neon_exists_remote.
  split; [| split].
  - intros Hc.
    destruct (get_cached_relsize (world b) (smgr_rnode reln) forkNum_);
      [reflexivity | contradiction].
  - intros -> (-> & -> & ->). reflexivity.
  - intros -> Hnot Hok.
    assert (Hz : (spcNode (smgr_rnode reln) =? 0)
                 && (dbNode (smgr_rnode reln) =? 0)
                 && (relNode (smgr_rnode reln) =? 0) = false).
    { apply not_true_is_false. intros Hall. apply Hnot.
      apply andb_prop in Hall as [Hall H3].
      apply andb_prop in Hall as [H1 H2]. lia. }
    rewrite Hz.
    pose proof (request_lsn_frame env (smgr_rnode reln) forkNum_
                  (REL_METADATA_PSEUDO_BLOCKNO env) (world b)) as Hfr.
    destruct (neon_get_request_lsn env (smgr_rnode reln) forkNum_
                (REL_METADATA_PSEUDO_BLOCKNO env) (world b))
      as [[latest lsn] w0].
    destruct Hfr as (HP0 & Hq0 & _).
    pose proof (request_in_world env fuel
                  (NeonExistsRequest latest lsn (smgr_rnode reln) forkNum_)
                  (set_world w0 b) ltac:(simpl; rewrite HP0; exact Hok))
      as Hreq.
    cbv zeta in Hreq.
    destruct (in_world _ (set_world w0 b)) as [res b1].
    cbn [fst snd world set_world md_calls build] in Hreq.
    destruct Hreq as (Hok' & Hmd & _ & Hcache & Htrace & Hcase).
    assert (Hcache' : relsize_cache (world b1) = relsize_cache (world b))
      by (destruct Hq0 as (_ & _ & _ & _ & _ & H & _); congruence).
    destruct res as [resp | site | lvl site |]; cbn [bindR fst snd];
      [| destruct Hcase | destruct Hcase |];
      [| split; [exact Hok' |]; split; [exact Hmd |];
         split; [exact Hcache' |]; split; [exact Htrace | exact I]].
    destruct Hcase as (Hdr & Hrcv).
    destruct resp; cbn [fst snd];
      (split; [exact Hok' |]); (split; [exact Hmd |]);
      (split; [exact Hcache' |]); (split; [exact Htrace |]);
      try (split; reflexivity).
    + split; [exact Hdr | exact Hrcv].
    + split; [reflexivity | eexists; exact Hrcv].
Qed.

Lemma neon_exists_local_cached_or_asked_witness :
  neon_exists sample_env
    (mkLocalStore (fun _ _ => false) (fun _ _ _ => []) (fun _ _ _ => None))
    1 sample_reln 0
    (mkBackend sized_world
       (mkUnloggedBuild None UNLOGGED_BUILD_NOT_IN_PROGRESS) [])
  = (Ok true,
     mkBackend sized_world
       (mkUnloggedBuild None UNLOGGED_BUILD_NOT_IN_PROGRESS) []).
Proof.
  destruct (neon_exists_local_cached_or_asked sample_env
              (mkLocalStore (fun _ _ => false) (fun _ _ _ => [])
                 (fun _ _ _ => None))
              1 sample_reln 0
              (mkBackend sized_world
                 (mkUnloggedBuild None UNLOGGED_BUILD_NOT_IN_PROGRESS) []))
    as (_ & _ & Hremote).
  destruct (Hremote (or_introl eq_refl)) as (Hcached & _).
  apply Hcached. vm_compute. discriminate.
Defined.

(** X23. [neon_dbsize] asks the page server for the size of the database,
    with the LSN that [neon_get_request_lsn] gives for the metadata
    pseudo-block of the relfilenode 0/0/0: every attempt sends that request
    once, an answer takes at least one attempt, and on a transport that
    never fails exactly one request is sent and the call does not wait
    without end. It returns the size in the last response the transport
    delivered; an error response or a response of another kind is raised
    as an error. Whenever the call ends, nothing is left in flight; the
    size cache and local storage are not written, and the pipeline is in
    good order. *)
Theorem neon_dbsize_asks_the_page_server (env : Env) (fuel : nat)
  (dbNode_ : Z) (b : Backend) :
  pipeline_ok (MyPState (world b)) ->
  let '(latest, lsn, w0) :=
    neon_get_request_lsn env (mkRelFileNode InvalidOid InvalidOid InvalidOid)
      MAIN_FORKNUM (REL_METADATA_PSEUDO_BLOCKNO env) (world b) in
  let req := NeonDbSizeRequest latest lsn dbNode_ in
  let r := neon_dbsize env fuel dbNode_ b in
  pipeline_ok (MyPState (world (snd r))) /\
  md_calls (snd r) = md_calls b /\
  relsize_cache (world (snd r)) = relsize_cache (world b) /\
  (exists n, (n <= fuel)%nat /\
     trace (world (snd r))
     = trace w0 ++ replicate n (EvPageServerSend req) /\
     (fst r <> Starved -> (1 <= n)%nat)) /\
  ((forall c, ps_send env c = true /\ ps_flush env c = true /\
              ps_receive env c <> None) ->
   fuel <> 0%nat ->
   fst r <> Starved /\
   trace (world (snd r)) = trace w0 ++ [EvPageServerSend req]) /\
  (fst r <> Starved -> drained (MyPState (world (snd r)))) /\
  match fst r with
  | Ok db_size =>
      ps_receive env (Nat.pred (ps_clock (world (snd r))))
      = Some (NeonDbSizeResponse db_size)
  | Fail site =>
      site = could_not_read_db_size /\
      exists msg, ps_receive env (Nat.pred (ps_clock (world (snd r))))
                  = Some (NeonErrorResponse msg)
  | Inner lvl site =>
      lvl = ERROR /\ site = unexpected_response /\
      exists resp,
        ps_receive env (Nat.pred (ps_clock (world (snd r)))) = Some resp /\
        match resp with
        | NeonDbSizeResponse _ | NeonErrorResponse _ => False
        | _ => True
        end
  | Starved => True
  end.
Proof.
  intros Hok. unfold neon_dbsize. cbv zeta.
  pose proof (request_lsn_frame env
                (mkRelFileNode InvalidOid InvalidOid InvalidOid) MAIN_FORKNUM
                (REL_METADATA_PSEUDO_BLOCKNO env) (world b)) as Hfr.
  destruct (neon_get_request_lsn env
              (mkRelFileNode InvalidOid InvalidOid InvalidOid) MAIN_FORKNUM
              (REL_METADATA_PSEUDO_BLOCKNO env) (world b))
    as [[latest lsn] w0].
  destruct Hfr as (HP0 & Hq0 & _).
  set (req := NeonDbSizeRequest latest lsn dbNode_).
  unfold in_world. cbn [world set_world].
  destruct (page_server_request_ok env fuel req w0
              ltac:(rewrite HP0; exact Hok))
    as (Hok' & _ & Hq1 & (n & Hn & Htr & Hone) & Hcase).
  assert (Hanswer :
    (forall c, ps_send env c = true /\ ps_flush env c = true /\
               ps_receive env c <> None) ->
    fuel <> 0%nat ->
    exists resp,
      fst (page_server_request env fuel req w0) = Return resp /\
      trace (snd (page_server_request env fuel req w0))
      = trace w0 ++ [EvPageServerSend req]).
  { intros Hsound Hfuel. destruct fuel as [| fuel]; [congruence |].
    apply page_server_request_answered, Hsound. }
  assert (Hcache : relsize_cache (snd (page_server_request env fuel req w0))
                   = relsize_cache (world b)).
  { destruct Hq0 as (_ & _ & _ & _ & _ & H0 & _).
    destruct Hq1 as (_ & _ & _ & _ & _ & H1 & _). congruence. }
  destruct (page_server_request env fuel req w0) as [[resp | lvl site |] w1];
    cbn [fst snd of_exit bindR] in *; [| destruct Hcase |].
  - destruct Hcase as (Hdr & _ & Hrcv).
    assert (Hshared :
      pipeline_ok (MyPState w1) /\
      relsize_cache w1 = relsize_cache (world b) /\
      (exists n0, (n0 <= fuel)%nat /\
         trace w1 = trace w0 ++ replicate n0 (EvPageServerSend req) /\
         (1 <= n0)%nat) /\
      ((forall c, ps_send env c = true /\ ps_flush env c = true /\
                  ps_receive env c <> None) ->
       fuel <> 0%nat -> trace w1 = trace w0 ++ [EvPageServerSend req])).
    { split; [exact Hok' |]. split; [exact Hcache |]. split.
      - exists n. split; [exact Hn |]. split; [exact Htr |].
        exact (Hone resp eq_refl).
      - intros Hs Hf. destruct (Hanswer Hs Hf) as (_ & _ & H). exact H. }
    destruct Hshared as (S1 & S2 & (n0 & A & B & C) & D).
    destruct resp; cbn [fst snd world set_world md_calls build];
      (split; [exact S1 |]); (split; [reflexivity |]);
      (split; [exact S2 |]); (split; [exists n0; auto |]);
      (split; [intros Hs Hf; split; [discriminate | exact (D Hs Hf)] |]);
      (split; [intros _; exact Hdr |]).
    all: try (split; [reflexivity |]; split; [reflexivity |];
              eexists; split; [exact Hrcv | exact I]).
    + exact Hrcv.
    + split; [reflexivity | eexists; exact Hrcv].
  - cbn [fst snd world set_world md_calls build].
    split; [exact Hok' |]. split; [reflexivity |]. split; [exact Hcache |].
    split; [exists n; split; [exact Hn |]; split; [exact Htr |];
            intros H; destruct (H eq_refl) |].
    split; [intros Hs Hf; destruct (Hanswer Hs Hf) as (resp & H & _);
            discriminate H |].
    split; [intros H; destruct (H eq_refl) | exact I].
Qed.

Lemma neon_dbsize_asks_the_page_server_witness :
  fst (neon_dbsize dbsize_env 1 5
         (mkBackend three_in_flight
            (mkUnloggedBuild None UNLOGGED_BUILD_NOT_IN_PROGRESS) []))
  = Ok 4242 /\
  drained
    (MyPState (world (snd (neon_dbsize dbsize_env 1 5
         (mkBackend three_in_flight
            (mkUnloggedBuild None UNLOGGED_BUILD_NOT_IN_PROGRESS) []))))) /\
  trace (world (snd (neon_dbsize dbsize_env 1 5
         (mkBackend three_in_flight
            (mkUnloggedBuild None UNLOGGED_BUILD_NOT_IN_PROGRESS) []))))
  = trace three_in_flight
    ++ [EvPageServerSend (NeonDbSizeRequest true 100 5)].
Proof.
  pose proof (neon_dbsize_asks_the_page_server dbsize_env 1 5
                (mkBackend three_in_flight
                   (mkUnloggedBuild None UNLOGGED_BUILD_NOT_IN_PROGRESS) [])
                three_in_flight_ok) as H.
  assert (E : neon_get_request_lsn dbsize_env
                (mkRelFileNode InvalidOid InvalidOid InvalidOid) MAIN_FORKNUM
                (REL_METADATA_PSEUDO_BLOCKNO dbsize_env)
                (world (mkBackend three_in_flight
                          (mkUnloggedBuild None
                             UNLOGGED_BUILD_NOT_IN_PROGRESS) []))
              = (true, 100, three_in_flight))
    by (vm_compute; reflexivity).
  rewrite E in H. cbv zeta in H.
  destruct H as (_ & _ & _ & _ & Hsound & Hdrained & Hcase).
  destruct (Hsound ltac:(intros c; split; [reflexivity |];
                         split; [reflexivity | discriminate])
                   ltac:(discriminate)) as (Hreturns & Htrace).
  destruct (fst (neon_dbsize dbsize_env 1 5
                   (mkBackend three_in_flight
                      (mkUnloggedBuild None UNLOGGED_BUILD_NOT_IN_PROGRESS)
                      [])))
    as [db_size | site | lvl site |] eqn:Hfst.
  - change (Some (NeonDbSizeResponse 4242)
            = Some (NeonDbSizeResponse db_size)) in Hcase.
    injection Hcase as <-.
    split; [reflexivity |].
    split; [apply Hdrained; discriminate | exact Htrace].
  - destruct Hcase as (_ & msg & Hrcv).
    change (Some (NeonDbSizeResponse 4242) = Some (NeonErrorResponse msg))
      in Hrcv.
    discriminate Hrcv.
  - destruct Hcase as (_ & _ & resp & Hrcv & Hkind).
    change (Some (NeonDbSizeResponse 4242) = Some resp) in Hrcv.
    injection Hrcv as <-. destruct Hkind.
  - destruct (Hreturns eq_refl).
Defined.

(** ** The LSN of a request *)

(** X24. [neon_get_request_lsn] never asks for a page at an LSN beyond the
    last-written LSN of the block, and on a primary never at an LSN that
    has not been flushed: with the block and segment sizes of the WAL
    powers of two, the LSN it returns is at most the last-written LSN; in
    a backend that is neither in recovery nor a WAL sender it is at most
    the flush position, or the WAL is flushed up to it before the call
    returns. The [latest] flag is false exactly in recovery, a WAL sender
    asks at the invalid LSN, and the call changes nothing of the backend
    but the record of its outside calls. *)
Theorem request_lsn_is_written_and_flushed (env : Env) (a b : Z)
  (rn : RelFileNode) (forknum blkno : Z) (w : World) :
  0 <= a <= b ->
  XLOG_BLCKSZ env = 2 ^ a ->
  wal_segment_size env = 2 ^ b ->
  0 < SizeOfXLogShortPHD env < SizeOfXLogLongPHD env /\
  SizeOfXLogLongPHD env < XLOG_BLCKSZ env ->
  0 <= GetLastWrittenLSN env rn forknum blkno < 2 ^ 64 ->
  let '(latest, lsn, w') := neon_get_request_lsn env rn forknum blkno w in
  latest = negb (RecoveryInProgress env) /\
  0 <= lsn <= GetLastWrittenLSN env rn forknum blkno /\
  MyPState w' = MyPState w /\ quiet w w' /\ ps_clock w' = ps_clock w /\
  (if RecoveryInProgress env || am_walsender env
   then trace w' = trace w
   else (lsn <= GetFlushRecPtr env /\ trace w' = trace w) \/
        (GetFlushRecPtr env < lsn /\
         trace w' = trace w ++ [EvXLogFlush lsn])) /\
  (RecoveryInProgress env = false -> am_walsender env = true ->
   lsn = InvalidXLogRecPtr).
Proof.
  intros Ha Hblck Hseg Hhdr Hlw.
  pose proof (adjust_lsn_range env a b Ha Hblck Hseg Hhdr _ Hlw) as Hrange.
  unfold neon_get_request_lsn.
  destruct (RecoveryInProgress env); [| destruct (am_walsender env)];
    cbn [negb orb].
  - split; [reflexivity |]. split; [exact Hrange |].
    split; [reflexivity |]. split; [apply quiet_refl |].
    split; [reflexivity |]. split; [reflexivity |]. intros H. discriminate H.
  - split; [reflexivity |]. split; [unfold InvalidXLogRecPtr; lia |].
    split; [reflexivity |]. split; [apply quiet_refl |].
    split; [reflexivity |]. split; [reflexivity |]. reflexivity.
  - cbv zeta.
    destruct (Z.ltb_spec (GetFlushRecPtr env)
                (nm_adjust_lsn env (GetLastWrittenLSN env rn forknum blkno)))
      as [Hahead | Hflushed].
    + split; [reflexivity |]. split; [exact Hrange |].
      split; [reflexivity |].
      split; [unfold quiet; simpl; repeat split; lia |].
      split; [reflexivity |]. split; [| intros _ H; discriminate H].
      right. split; [exact Hahead | reflexivity].
    + split; [reflexivity |]. split; [exact Hrange |].
      split; [reflexivity |]. split; [apply quiet_refl |].
      split; [reflexivity |]. split; [| intros _ H; discriminate H].
      left. split; [exact Hflushed | reflexivity].
Qed.

Lemma request_lsn_is_written_and_flushed_witness :
  let '(latest, lsn, _) :=
    neon_get_request_lsn sample_env sample_rnode 0 7
      (sample_world (neon_init 16)) in
  latest = true /\ 0 <= lsn <= 100.
Proof.
  pose proof (request_lsn_is_written_and_flushed sample_env 13 24 sample_rnode
                0 7 (sample_world (neon_init 16)) ltac:(lia) eq_refl eq_refl
                ltac:(vm_compute; repeat split)
                ltac:(vm_compute; split; [discriminate | reflexivity])) as H.
  destruct (neon_get_request_lsn sample_env sample_rnode 0 7
              (sample_world (neon_init 16))) as [[latest lsn] w'].
  destruct H as (Hlatest & Hrange & _).
  split; [exact Hlatest | exact Hrange].
Defined.

(** ** A prefetch and the read that follows *)

(** X25. A block that [neon_prefetch] has asked for is not asked for again
    by the read of it. On a pipeline in good order with at least two slots,
    one of them free, which holds no request for the block, and a transport
    that delivers: [neon_prefetch] followed by [neon_read_at_lsn] of the
    same block, at an LSN that is at most the larger of [prefetch_lsn] and
    the LSN that [neon_get_request_lsn] gave the prefetch, sends one
    request to the page server in all, the one of the prefetch. The read
    counts a hit and no miss and decides on the last response received: a
    page response is returned and its slot retired, an error response or a
    response of another kind is raised as an error. The pipeline is in
    good order afterwards. *)
Theorem prefetched_page_is_read_without_second_request (env : Env)
  (fuel fuel' : nat) (reln : SMgrRelation) (forknum blocknum request_lsn : Z)
  (request_latest : bool) (w : World) :
  smgr_relpersistence reln = 0 \/
  smgr_relpersistence reln = RELPERSISTENCE_PERMANENT ->
  lfc_cache_contains env (smgr_rnode reln) forknum blocknum = false ->
  pipeline_ok (MyPState w) ->
  2 <= readahead_buffer_size (MyPState w) ->
  ring_unused (MyPState w) - ring_last (MyPState w)
  < readahead_buffer_size (MyPState w) ->
  ring_unused (MyPState w) + readahead_buffer_size (MyPState w) < 2 ^ 64 ->
  prf_hash (MyPState w)
  !! mkBufferTag (smgr_rnode reln) forknum blocknum = None ->
  (forall c, (ps_clock w <= c)%nat ->
     ps_send env c = true /\ ps_flush env c = true /\
     ps_receive env c <> None) ->
  let rn := smgr_rnode reln in
  let '(latest, lsn, _) := neon_get_request_lsn env rn forknum blocknum w in
  request_lsn <= Z.max (prefetch_lsn w) lsn ->
  let pre := neon_prefetch env (S fuel) reln forknum blocknum w in
  let r := neon_read_at_lsn env (S fuel') rn forknum blocknum request_lsn
             request_latest (snd pre) in
  let p' := MyPState (snd r) in
  fst pre = Return false /\
  requests_sent (trace (snd r))
  = requests_sent (trace w)
    ++ [NeonGetPageRequest latest lsn rn forknum blocknum] /\
  prefetch_hits (snd r) = prefetch_hits w + 1 /\
  prefetch_misses (snd r) = prefetch_misses w /\
  pipeline_ok p' /\
  ring_unused p' = ring_unused (MyPState w) + 1 /\
  ring_receive p' = ring_unused p' /\
  exists resp,
    ps_receive env (Nat.pred (ps_clock (snd r))) = Some resp /\
    match resp with
    | NeonGetPageResponse page =>
        fst r = Return page /\
        prf_hash p' !! mkBufferTag rn forknum blocknum = None
    | NeonErrorResponse _ => fst r = Raise ERROR could_not_read_block
    | _ => fst r = Raise ERROR unexpected_response
    end.
Proof.
  intros Hpers Hlfc Hok Hcap Hroom Hmax Hnone Hhealthy. cbv zeta.
  pose proof (neon_prefetch_registers env fuel reln forknum blocknum w Hpers
                Hlfc Hok Hcap Hroom Hmax Hnone
                ltac:(intros c Hc; split; apply Hhealthy; exact Hc)) as Hpre.
  pose proof (request_lsn_frame env (smgr_rnode reln) forknum blocknum w)
    as Hfr.
  destruct (neon_get_request_lsn env (smgr_rnode reln) forknum blocknum w)
    as [[latest lsn] w0].
  intros Hlsn. cbv zeta in Hpre.
  destruct Hfr as (_ & _ & Htr0).
  destruct Hpre as (Hret & Hok1 & Htr1 & Hh1 & Hm1 & Hc1 & HU1 & slot & Hb
                    & Hidx & Hst & Heff).
  set (w1 := snd (neon_prefetch env (S fuel) reln forknum blocknum w)) in *.
  pose proof (read_of_requested env fuel' (smgr_rnode reln) forknum blocknum
                request_lsn request_latest w1 slot Hok1 Hb Hst
                ltac:(rewrite Heff; exact Hlsn)
                ltac:(intros c Hc; split; apply Hhealthy; lia)) as Hout.
  cbv zeta in Hout.
  set (w2 := if RecoveryInProgress env && negb (am_startup_process env)
             then emit (EvXLogWaitForReplayOf request_lsn) w1 else w1) in *.
  assert (Hsent2 : requests_sent (trace w2) = requests_sent (trace w1))
    by (unfold w2; destruct (_ && _); [| reflexivity];
        change (requests_sent (trace w1 ++ [EvXLogWaitForReplayOf request_lsn])
                = requests_sent (trace w1));
        rewrite requests_sent_app, app_nil_r; reflexivity).
  assert (HU2 : ring_unused (MyPState w2) = ring_unused (MyPState w1))
    by (unfold w2; destruct (_ && _); reflexivity).
  assert (Hsent1 : requests_sent (trace w1)
                   = requests_sent (trace w)
                     ++ [NeonGetPageRequest latest lsn (smgr_rnode reln)
                           forknum blocknum]).
  { rewrite Htr1, requests_sent_app.
    destruct Htr0 as [-> | ->]; [reflexivity |].
    rewrite requests_sent_app, app_nil_r. reflexivity. }
  destruct Hout as (A1 & A2 & A3 & A4 & A5 & _ & resp & Hrecv & Hresp).
  cbn [prefetch_hits prefetch_misses set_prefetch_hits MyPState trace]
    in A2, A3, A4, Hresp.
  split; [exact Hret |].
  split.
  { rewrite <- Hsent1, <- Hsent2.
    destruct resp; destruct Hresp as (_ & R2); try (rewrite R2; reflexivity).
    destruct R2 as (-> & _).
    rewrite requests_sent_app, app_nil_r. reflexivity. }
  split; [rewrite A2; unfold w2; destruct (_ && _); cbn; lia |].
  split; [rewrite A3; unfold w2; destruct (_ && _); cbn; lia |].
  split; [exact A1 |].
  split; [rewrite A4, HU2; exact HU1 |].
  split; [rewrite A5, A4, HU2, HU1, Hidx; reflexivity |].
  exists resp. split; [exact Hrecv |].
  destruct resp; destruct Hresp as (R1 & R2); try exact R1.
  split; [exact R1 | exact (proj2 R2)].
Qed.

Lemma prefetched_page_is_read_without_second_request_witness :
  fst (neon_read_at_lsn sample_env 1 sample_rnode 0 9 100 true
         (snd (neon_prefetch sample_env 1 sample_reln 0 9 three_in_flight)))
  = Return sample_page.
Proof.
  pose proof (prefetched_page_is_read_without_second_request sample_env 0 0
                sample_reln 0 9 100 true three_in_flight
                (or_intror eq_refl) eq_refl three_in_flight_ok
                ltac:(vm_compute; discriminate)
                ltac:(vm_compute; reflexivity)
                ltac:(vm_compute; reflexivity)
                ltac:(vm_compute; reflexivity)
                ltac:(intros c _; split; [reflexivity |];
                      split; [reflexivity | discriminate])) as H.
  cbv zeta in H.
  assert (E : neon_get_request_lsn sample_env (smgr_rnode sample_reln) 0 9
                three_in_flight
              = (true, 100, three_in_flight))
    by (vm_compute; reflexivity).
  rewrite E in H.
  destruct (H ltac:(vm_compute; discriminate))
    as (_ & _ & _ & _ & _ & _ & _ & resp & Hrecv & Hcase).
  change (Some (NeonGetPageResponse sample_page) = Some resp) in Hrecv.
  injection Hrecv as <-. exact (proj1 Hcase).
Defined.

(** ** Dropping a fork *)

(** X26. [neon_unlink] of a fork of a relation that is not temporary makes
    one [mdunlink] and forgets the cached size of that fork and of no
    other, touching nothing else. Whatever size was cached, the next
    [neon_nblocks] of the fork, for a permanent relation, asks the page
    server: a size it returns is the one in the last response delivered,
    and it is cached again. For a temporary relation [neon_unlink] makes
    the [mdunlink] and nothing else. *)
Theorem neon_unlink_forgets_cached_size (env : Env) (fuel : nat)
  (reln : SMgrRelation) (forknum : Z) (isRedo : bool) (b : Backend) :
  smgr_relpersistence reln = RELPERSISTENCE_PERMANENT ->
  pipeline_ok (MyPState (world b)) ->
  let rn := smgr_rnode reln in
  let b1 := neon_unlink rn InvalidBackendId forknum isRedo b in
  let r := neon_nblocks env fuel reln forknum (world b1) in
  md_calls b1 = md_calls b ++ [MdUnlink rn InvalidBackendId forknum isRedo] /\
  build b1 = build b /\
  world b1 = forget_cached_relsize rn forknum (world b) /\
  get_cached_relsize (world b1) rn forknum = None /\
  (forall rn' forknum', (rn', forknum') <> (rn, forknum) ->
     get_cached_relsize (world b1) rn' forknum'
     = get_cached_relsize (world b) rn' forknum') /\
  (forall backend, backend <> InvalidBackendId ->
     neon_unlink rn backend forknum isRedo b
     = md_call (MdUnlink rn backend forknum isRedo) b) /\
  match fst r with
  | Return n_blocks =>
      ps_receive env (Nat.pred (ps_clock (snd r)))
      = Some (NeonNblocksResponse n_blocks) /\
      get_cached_relsize (snd r) rn forknum = Some n_blocks
  | Raise lvl _ =>
      lvl = ERROR /\ get_cached_relsize (snd r) rn forknum = None
  | OutOfFuel => True
  end.
Proof.
  intros Hperm Hok. cbv zeta.
  assert (Hb1 : neon_unlink (smgr_rnode reln) InvalidBackendId forknum isRedo b
                = on_world (forget_cached_relsize (smgr_rnode reln) forknum)
                    (md_call (MdUnlink (smgr_rnode reln) InvalidBackendId
                                forknum isRedo) b))
    by reflexivity.
  rewrite Hb1.
  set (b1 := on_world _ _).
  assert (Hw1 : world b1
                = forget_cached_relsize (smgr_rnode reln) forknum (world b))
    by reflexivity.
  assert (Hnone : get_cached_relsize (world b1) (smgr_rnode reln) forknum
                  = None).
  { rewrite Hw1. unfold get_cached_relsize, forget_cached_relsize.
    cbn [relsize_cache set_relsize_cache]. apply lookup_delete_eq. }
  split; [reflexivity |]. split; [reflexivity |]. split; [exact Hw1 |].
  split; [exact Hnone |].
  split.
  { intros rn' forknum' Hne. rewrite Hw1.
    unfold get_cached_relsize, forget_cached_relsize.
    cbn [relsize_cache set_relsize_cache].
    apply lookup_delete_ne. congruence. }
  split.
  { intros backend Hne. unfold neon_unlink.
    destruct (Z.eqb_spec backend InvalidBackendId) as [E | _];
      [contradiction | reflexivity]. }
  pose proof (neon_nblocks_remote env fuel reln forknum (world b1) Hperm
                Hnone ltac:(rewrite Hw1; exact Hok)) as H.
  destruct (neon_get_request_lsn env (smgr_rnode reln) forknum
              (REL_METADATA_PSEUDO_BLOCKNO env) (world b1))
    as [[latest lsn] w0].
  cbv zeta in H. destruct H as (_ & _ & _ & Hcase).
  destruct (fst (neon_nblocks env fuel reln forknum (world b1)))
    as [n_blocks | lvl site |]; [| | exact I].
  - destruct Hcase as (Hrcv & _ & Hcached). split; assumption.
  - destruct Hcase as (Hlvl & Hcached & _). split; assumption.
Qed.

Lemma neon_unlink_forgets_cached_size_witness :
  get_cached_relsize
    (world (neon_unlink sample_rnode InvalidBackendId 0 false
              (mkBackend sized_world
                 (mkUnloggedBuild None UNLOGGED_BUILD_NOT_IN_PROGRESS) [])))
    sample_rnode 0
  = None.
Proof.
  destruct (neon_unlink_forgets_cached_size sample_env 1 sample_reln 0 false
              (mkBackend sized_world
                 (mkUnloggedBuild None UNLOGGED_BUILD_NOT_IN_PROGRESS) [])
              eq_refl
              ltac:(apply pipeline_ok_checked; apply (bool_decide_unpack _);
                    vm_compute; exact I))
    as (_ & _ & _ & Hnone & _).
  exact Hnone.
Defined.
